(** * texc: the row store, syntax classifier, coordinate mapper and
      incremental search of the editor in [src/main.c].

    The development is a shallow embedding of the C functions.  C [int]
    values that locate something in the document (cursor, row count,
    indices, lengths) are integers in [Z]: they are bounded by the size of
    the buffers they index.  The dirty counter is an [int] that
    [ec.dirty++] increments without a range test; it is an integer in [Z]
    whose increment wraps around as the 32-bit two's-complement [int] of
    the compiled program does ([int_wrap]).  A [char *] buffer together
    with its length field is a list of bytes; the NUL terminator that the
    code keeps behind every buffer is implicit (a read just past the end of
    a list yields NUL).  Loop counters that index a buffer from 0 upwards
    are natural numbers. *)

From Stdlib Require Import Ascii.
From Stdlib Require String.
From stdpp Require Import list numbers strings.

Local Open Scope Z_scope.

(** ** Constants and enumerations *)

Definition TAB_STOP : Z := 8.
Definition HL_SYN_NUMBERS : Z := Z.shiftl 1 0.
Definition HL_SYN_STRINGS : Z := Z.shiftl 1 1.

(** The range of [int], and the value an [int] holds after an arithmetic
    result [z]: [z] itself when it is in range, and otherwise the value
    congruent to it modulo [2^32], so that [INT_MAX + 1] is [INT_MIN]. *)
Definition INT_MAX : Z := 2147483647.
Definition INT_MIN : Z := -2147483648.
Definition int_wrap (z : Z) : Z := (z + 2147483648) mod 4294967296 - 2147483648.
Arguments int_wrap : simpl never.

Definition NUL : ascii := "000"%char.
Definition TAB : ascii := "009"%char.
Definition SPACE : ascii := " "%char.

(** [enum editor_key] *)
Definition BACK_SPACE : Z := 127.
Definition ARROW_LEFT : Z := 1000.
Definition ARROW_RIGHT : Z := 1001.
Definition ARROW_UP : Z := 1002.
Definition ARROW_DOWN : Z := 1003.
Definition DEL_KEY : Z := 1004.
Definition HOME_KEY : Z := 1005.
Definition END_KEY : Z := 1006.
Definition PAGE_UP : Z := 1007.
Definition PAGE_DOWN : Z := 1008.
Definition KEY_ENTER : Z := 13.   (* '\r' *)
Definition KEY_ESC : Z := 27.     (* '\x1b' *)

(** [enum editor_highlight] *)
Inductive editor_highlight : Set :=
| HL_NORMAL | HL_STRING | HL_NUMBER | HL_COMMENT
| HL_MLCOMMENT | HL_KEYWORD1 | HL_KEYWORD2 | HL_MATCH.

Global Instance editor_highlight_eq_dec : EqDecision editor_highlight.
Proof. solve_decision. Defined.

(** ** Data model *)

(** [struct esyn].  A [char *] that may be NULL is an [option]. *)
Record esyn := {
  filetype : list ascii;
  filematch : list (list ascii);
  keywords : list (list ascii);
  singleline_comment_start : option (list ascii);
  multiline_comment_start : option (list ascii);
  multiline_comment_end : option (list ascii);
  flags : Z
}.

(** [struct erow].  [chars] is the buffer [row->c]; the fields [len] and
    [rlen] of the C struct are the lengths of [chars] and [render]. *)
Record erow := {
  idx : Z;
  chars : list ascii;
  render : list ascii;
  hl : list editor_highlight;
  hl_open_comment : bool
}.

Definition len (r : erow) : Z := Z.of_nat (length (chars r)).
Definition rlen (r : erow) : Z := Z.of_nat (length (render r)).

(** [struct editor_config], the global [ec].  The screen size, scroll
    offsets, status message and terminal attributes are not read or written
    by the functions below and are left out. *)
Record editor_config := {
  cursor_x : Z;
  cursor_y : Z;
  num_rows : Z;
  dirty : Z;
  row : list erow;
  filename : option (list ascii);
  syntax : option esyn
}.

(** ** Coordinate mapper *)

(** One iteration of the loop body shared by both mappers. *)
Definition rx_advance (rx : Z) (ch : ascii) : Z :=
  (if Ascii.eqb ch TAB then rx + ((TAB_STOP - 1) - (rx mod TAB_STOP)) else rx) + 1.

(** [editor_row_cx2rx]: the loop runs for [j = 0 .. cx - 1]. *)
Definition editor_row_cx2rx (r : erow) (cx : Z) : Z :=
  fold_left rx_advance (take (Z.to_nat cx) (chars r)) 0.

(** [editor_row_rx2cx]: [cs] is what remains of [row->c] from index [cx]. *)
Fixpoint rx2cx_loop (cs : list ascii) (cx cur_rx rx : Z) : Z :=
  match cs with
  | [] => cx
  | ch :: cs' =>
      let cur_rx' := rx_advance cur_rx ch in
      if rx <? cur_rx' then cx else rx2cx_loop cs' (cx + 1) cur_rx' rx
  end.

Definition editor_row_rx2cx (r : erow) (rx : Z) : Z :=
  rx2cx_loop (chars r) 0 0 rx.

(** ** C strings

    A C string is the list of its bytes; reading at an index just past the
    list yields the terminating NUL. *)

Definition str (s : String.string) : list ascii := String.list_ascii_of_string s.

Definition char_at (s : list ascii) (i : nat) : ascii := nth i s NUL.

Definition char_of_int (c : Z) : ascii := ascii_of_N (Z.to_N (c mod 256)).

Fixpoint strlen (s : list ascii) : nat :=
  match s with
  | [] => 0%nat
  | ch :: s' => if Ascii.eqb ch NUL then 0%nat else S (strlen s')
  end.

(** The text a [char *] denotes: the bytes before the first NUL. *)
Definition cstr (s : list ascii) : list ascii := take (strlen s) s.

(** [strncmp_eq s1 s2 n] is [strncmp(s1, s2, n) == 0]: bytes are compared
    pairwise until [n] are done, they differ, or both are NUL. *)
Fixpoint strncmp_eq (s1 s2 : list ascii) (n : nat) : bool :=
  match n with
  | O => true
  | S n' =>
      let a := hd NUL s1 in
      let b := hd NUL s2 in
      if Ascii.eqb a b
      then (if Ascii.eqb a NUL then true else strncmp_eq (tl s1) (tl s2) n')
      else false
  end.

(** [strchr_found s ch] is [strchr(s, ch) != NULL]; the terminator counts. *)
Definition strchr_found (s : list ascii) (ch : ascii) : bool :=
  existsb (Ascii.eqb ch) (cstr s) || Ascii.eqb ch NUL.

(** [isspace] and [isdigit] of the C locale. *)
Definition isspace (ch : ascii) : bool :=
  existsb (Ascii.eqb ch) [SPACE; "009"; "010"; "011"; "012"; "013"]%char.

Definition isdigit (ch : ascii) : bool :=
  (48 <=? nat_of_ascii ch)%nat && (nat_of_ascii ch <=? 57)%nat.

(** ** Syntax highlighter *)

Definition is_separator (ch : ascii) : bool :=
  isspace ch || Ascii.eqb ch NUL || strchr_found (str ",.()+-/*=~%<>[];") ch.

(** [memset(&a[i], v, n)].  A write past the end of the list makes the list
    longer, so that a length that is preserved shows the write was in
    bounds. *)
Definition memset {A} (a : list A) (i : nat) (v : A) (n : nat) : list A :=
  take i a ++ replicate n v ++ drop (i + n) a.

(** [memcpy(dst, src, n)]. *)
Definition memcpy {A} (dst src : list A) (n : nat) : list A :=
  take n src ++ drop n dst.

(** The transient scan state of [editor_update_syntax]: the loop index, the
    highlight array and the locals [prev_sep], [in_string], [in_comment].
    [in_string] is 0 (NUL) outside a string and the quote byte inside. *)
Record scan_state := {
  sc_i : nat;
  sc_hl : list editor_highlight;
  sc_prev_sep : bool;
  sc_in_string : ascii;
  sc_in_comment : bool
}.

Inductive scan_result :=
| ScanContinue (st : scan_state)
| ScanBreak (st : scan_state).

(** [klen] and [kw2] of one keyword entry.  An empty entry makes the code
    read [keywords[j][-1]]; the model takes that byte to differ from '|'. *)
Definition keyword_klen (kw : list ascii) : nat * bool :=
  let klen := strlen kw in
  let kw2 := match klen with
             | O => false
             | S k => Ascii.eqb (char_at kw k) "|"%char
             end in
  (if kw2 then (klen - 1)%nat else klen, kw2).

(** The test of the [if] inside the keyword loop. *)
Definition keyword_match (rend : list ascii) (i : nat) (kw : list ascii) : bool :=
  let klen := fst (keyword_klen kw) in
  strncmp_eq (drop i rend) kw klen && is_separator (char_at rend (i + klen)).

(** The [for (j = 0; keywords[j]; j++)] loop: the first entry that matches. *)
Fixpoint keyword_loop (kws : list (list ascii)) (rend : list ascii) (i : nat)
  : option (nat * bool) :=
  match kws with
  | [] => None
  | kw :: kws' =>
      if keyword_match rend i kw then Some (keyword_klen kw)
      else keyword_loop kws' rend i
  end.

Definition flag_set (fl mask : Z) : bool := negb (Z.land fl mask =? 0).

(** The body of the [while (i < row->rlen)] loop. *)
Definition syntax_step (syn : esyn) (rend : list ascii) (st : scan_state) : scan_result :=
  let scs := default [] (singleline_comment_start syn) in
  let mcs := default [] (multiline_comment_start syn) in
  let mce := default [] (multiline_comment_end syn) in
  let scs_len := strlen scs in
  let mcs_len := strlen mcs in
  let mce_len := strlen mce in
  let i := sc_i st in
  let hl := sc_hl st in
  let prev_sep := sc_prev_sep st in
  let in_string := sc_in_string st in
  let in_comment := sc_in_comment st in
  let in_str := negb (Ascii.eqb in_string NUL) in
  let ml := negb (mcs_len =? 0)%nat && negb (mce_len =? 0)%nat && negb in_str in
  let c := char_at rend i in
  let prev_hl := match i with O => HL_NORMAL | S i' => nth i' hl HL_NORMAL end in
  if negb (scs_len =? 0)%nat && negb in_str && negb in_comment
     && strncmp_eq (drop i rend) scs scs_len
  then ScanBreak {| sc_i := i; sc_hl := memset hl i HL_COMMENT (length rend - i);
                    sc_prev_sep := prev_sep; sc_in_string := in_string;
                    sc_in_comment := in_comment |}
  else if ml && in_comment then
    let hl1 := <[i := HL_MLCOMMENT]> hl in
    if strncmp_eq (drop i rend) mce mce_len
    then ScanContinue {| sc_i := i + mce_len; sc_hl := memset hl1 i HL_MLCOMMENT mce_len;
                         sc_prev_sep := true; sc_in_string := in_string;
                         sc_in_comment := false |}
    else ScanContinue {| sc_i := i + 1; sc_hl := hl1;
                         sc_prev_sep := prev_sep; sc_in_string := in_string;
                         sc_in_comment := in_comment |}
  else if ml && strncmp_eq (drop i rend) mcs mcs_len then
    ScanContinue {| sc_i := i + mcs_len; sc_hl := memset hl i HL_MLCOMMENT mcs_len;
                    sc_prev_sep := prev_sep; sc_in_string := in_string;
                    sc_in_comment := true |}
  else if flag_set (flags syn) HL_SYN_STRINGS && in_str then
    let hl1 := <[i := HL_STRING]> hl in
    if Ascii.eqb c "\"%char && (i + 1 <? length rend)%nat
    then ScanContinue {| sc_i := i + 2; sc_hl := <[(i + 1)%nat := HL_STRING]> hl1;
                         sc_prev_sep := prev_sep; sc_in_string := in_string;
                         sc_in_comment := in_comment |}
    else ScanContinue {| sc_i := i + 1; sc_hl := hl1;
                         sc_prev_sep := true;
                         sc_in_string := if Ascii.eqb c in_string then NUL else in_string;
                         sc_in_comment := in_comment |}
  else if flag_set (flags syn) HL_SYN_STRINGS
          && (Ascii.eqb c "034"%char || Ascii.eqb c "'"%char) then
    ScanContinue {| sc_i := i + 1; sc_hl := <[i := HL_STRING]> hl;
                    sc_prev_sep := prev_sep; sc_in_string := c;
                    sc_in_comment := in_comment |}
  else if flag_set (flags syn) HL_SYN_NUMBERS
          && ((isdigit c && (prev_sep || bool_decide (prev_hl = HL_NUMBER)))
              || (Ascii.eqb c "."%char && bool_decide (prev_hl = HL_NUMBER))) then
    ScanContinue {| sc_i := i + 1; sc_hl := <[i := HL_NUMBER]> hl;
                    sc_prev_sep := false; sc_in_string := in_string;
                    sc_in_comment := in_comment |}
  else
    match (if prev_sep then keyword_loop (keywords syn) rend i else None) with
    | Some (klen, kw2) =>
        ScanContinue {| sc_i := i + klen;
                        sc_hl := memset hl i (if kw2 then HL_KEYWORD2 else HL_KEYWORD1) klen;
                        sc_prev_sep := false; sc_in_string := in_string;
                        sc_in_comment := in_comment |}
    | None =>
        ScanContinue {| sc_i := i + 1; sc_hl := hl;
                        sc_prev_sep := is_separator c; sc_in_string := in_string;
                        sc_in_comment := in_comment |}
    end.

(** The [while] loop; [None] when the fuel runs out. *)
Fixpoint syntax_loop (fuel : nat) (syn : esyn) (rend : list ascii) (st : scan_state)
  : option scan_state :=
  match fuel with
  | O => None
  | S fuel' =>
      if (sc_i st <? length rend)%nat then
        match syntax_step syn rend st with
        | ScanBreak st' => Some st'
        | ScanContinue st' => syntax_loop fuel' syn rend st'
        end
      else Some st
  end.

(** Two iterations per byte always suffice (see [syntax_loop_total]). *)
Definition syntax_fuel (rend : list ascii) : nat := (2 * length rend + 2)%nat.

(** The classification of one row as a function of the syntax definition, the
    render text and the incoming comment state: the highlight array and the
    outgoing comment state. *)
Definition classify (syn : esyn) (rend : list ascii) (in_comment : bool)
  : option (list editor_highlight * bool) :=
  st ← syntax_loop (syntax_fuel rend) syn rend
         {| sc_i := 0; sc_hl := replicate (length rend) HL_NORMAL;
            sc_prev_sep := true; sc_in_string := NUL; sc_in_comment := in_comment |};
  Some (sc_hl st, sc_in_comment st).

(** The syntax database [HLDB] with its single entry for C. *)
Definition C_HL_EXT : list (list ascii) := [str ".c"; str ".h"; str ".cpp"].

Definition C_HL_KEY : list (list ascii) :=
  map str ["switch"; "if"; "while"; "for"; "break"; "continue"; "return"; "else";
           "struct"; "union"; "typedef"; "static"; "enum"; "class"; "case";
           "int|"; "long|"; "double|"; "float|"; "char|"; "unsigned|"; "signed|";
           "void|"].

Definition C_SYNTAX : esyn := {|
  filetype := str "c";
  filematch := C_HL_EXT;
  keywords := C_HL_KEY;
  singleline_comment_start := Some (str "//");
  multiline_comment_start := Some (str "/*");
  multiline_comment_end := Some (str "*/");
  flags := Z.lor HL_SYN_NUMBERS HL_SYN_STRINGS
|}.

Definition HLDB : list esyn := [C_SYNTAX].

(** ** Field updates *)

Definition set_hl (r : erow) (h : list editor_highlight) : erow :=
  {| idx := idx r; chars := chars r; render := render r; hl := h;
     hl_open_comment := hl_open_comment r |}.

Definition set_hl_open_comment (r : erow) (b : bool) : erow :=
  {| idx := idx r; chars := chars r; render := render r; hl := hl r;
     hl_open_comment := b |}.

Definition set_render (r : erow) (rend : list ascii) : erow :=
  {| idx := idx r; chars := chars r; render := rend; hl := hl r;
     hl_open_comment := hl_open_comment r |}.

Definition set_chars (r : erow) (cs : list ascii) : erow :=
  {| idx := idx r; chars := cs; render := render r; hl := hl r;
     hl_open_comment := hl_open_comment r |}.

Definition set_idx (r : erow) (i : Z) : erow :=
  {| idx := i; chars := chars r; render := render r; hl := hl r;
     hl_open_comment := hl_open_comment r |}.

Definition set_row (ec : editor_config) (rows : list erow) : editor_config :=
  {| cursor_x := cursor_x ec; cursor_y := cursor_y ec; num_rows := num_rows ec;
     dirty := dirty ec; row := rows; filename := filename ec; syntax := syntax ec |}.

Definition set_cursor (ec : editor_config) (x y : Z) : editor_config :=
  {| cursor_x := x; cursor_y := y; num_rows := num_rows ec;
     dirty := dirty ec; row := row ec; filename := filename ec; syntax := syntax ec |}.

Definition set_num_rows (ec : editor_config) (n : Z) : editor_config :=
  {| cursor_x := cursor_x ec; cursor_y := cursor_y ec; num_rows := n;
     dirty := dirty ec; row := row ec; filename := filename ec; syntax := syntax ec |}.

Definition set_dirty (ec : editor_config) (d : Z) : editor_config :=
  {| cursor_x := cursor_x ec; cursor_y := cursor_y ec; num_rows := num_rows ec;
     dirty := d; row := row ec; filename := filename ec; syntax := syntax ec |}.

Definition set_filename (ec : editor_config) (f : option (list ascii)) : editor_config :=
  {| cursor_x := cursor_x ec; cursor_y := cursor_y ec; num_rows := num_rows ec;
     dirty := dirty ec; row := row ec; filename := f; syntax := syntax ec |}.

Definition set_syntax (ec : editor_config) (s : option esyn) : editor_config :=
  {| cursor_x := cursor_x ec; cursor_y := cursor_y ec; num_rows := num_rows ec;
     dirty := dirty ec; row := row ec; filename := filename ec; syntax := s |}.

(** A row pointer [&ec.row[i]] is the position [i] in the array; it is only
    formed for a non-negative [i], and dereferencing it outside the array
    fails. *)
Definition row_ptr (i : Z) : option nat :=
  if 0 <=? i then Some (Z.to_nat i) else None.

(** ** [editor_update_syntax] *)

(** [ec.row[row->idx - 1].hl_open_comment], guarded by [row->idx > 0]. *)
Definition incoming_comment (ec : editor_config) (r : erow) : option bool :=
  if 0 <? idx r then
    prev ← row ec !! Z.to_nat (idx r - 1);
    Some (hl_open_comment prev)
  else Some false.

(** The function proper; [p] is the position the pointer [row] designates.
    The fuel bounds the depth of the recursion on the following row. *)
Fixpoint editor_update_syntax_rec (fuel : nat) (ec : editor_config) (p : nat)
  : option editor_config :=
  match fuel with
  | O => None
  | S fuel' =>
      r ← row ec !! p;
      let r0 := set_hl r (replicate (length (render r)) HL_NORMAL) in
      match syntax ec with
      | None => Some (set_row ec (<[p := r0]> (row ec)))
      | Some syn =>
          in_comment0 ← incoming_comment ec r;
          st ← syntax_loop (syntax_fuel (render r)) syn (render r)
                 {| sc_i := 0; sc_hl := hl r0; sc_prev_sep := true;
                    sc_in_string := NUL; sc_in_comment := in_comment0 |};
          let changed := xorb (hl_open_comment r) (sc_in_comment st) in
          let r' := set_hl_open_comment (set_hl r (sc_hl st)) (sc_in_comment st) in
          let ec' := set_row ec (<[p := r']> (row ec)) in
          if changed && (idx r + 1 <? num_rows ec)
          then p' ← row_ptr (idx r + 1); editor_update_syntax_rec fuel' ec' p'
          else Some ec'
      end
  end.

(** Each recursive call moves to a later row, so one unit of fuel per row
    of the array is enough (see [editor_update_syntax_total]). *)
Definition editor_update_syntax (ec : editor_config) (p : nat) : option editor_config :=
  editor_update_syntax_rec (S (length (row ec))) ec p.

(** ** Row operations *)

(** [while (idx % TAB_STOP != 0) row->render[idx++] = ' ';] *)
Fixpoint tab_pad (fuel : nat) (rend : list ascii) : list ascii :=
  match fuel with
  | O => rend
  | S fuel' =>
      if Z.of_nat (length rend) mod TAB_STOP =? 0 then rend
      else tab_pad fuel' (rend ++ [SPACE])
  end.

(** The second loop of [editor_update_row]; [rend] is [render[0 .. idx)]. *)
Fixpoint render_loop (cs : list ascii) (rend : list ascii) : list ascii :=
  match cs with
  | [] => rend
  | ch :: cs' =>
      if Ascii.eqb ch TAB
      then render_loop cs' (tab_pad (Z.to_nat TAB_STOP) (rend ++ [SPACE]))
      else render_loop cs' (rend ++ [ch])
  end.

Definition editor_update_row (ec : editor_config) (p : nat) : option editor_config :=
  r ← row ec !! p;
  let r' := set_render r (render_loop (chars r) []) in
  editor_update_syntax (set_row ec (<[p := r']> (row ec))) p.

Definition shift_idx (d : Z) (r : erow) : erow := set_idx r (idx r + d).

(** [editor_insert_row(at, s, len)]; [s] stands for the [len] bytes copied. *)
Definition editor_insert_row (ec : editor_config) (at_ : Z) (s : list ascii)
  : option editor_config :=
  if (at_ <? 0) || (num_rows ec <? at_) then Some ec
  else
    let a := Z.to_nat at_ in
    let moved := take (Z.to_nat (num_rows ec - at_)) (drop a (row ec)) in
    let new := {| idx := at_; chars := s; render := []; hl := [];
                  hl_open_comment := false |} in
    let rows := take a (row ec) ++ new :: (shift_idx 1 <$> moved) in
    ec1 ← editor_update_row (set_row ec rows) a;
    Some (set_dirty (set_num_rows ec1 (num_rows ec1 + 1))
                    (int_wrap (dirty ec1 + 1))).

Definition editor_del_row (ec : editor_config) (at_ : Z) : option editor_config :=
  if (at_ <? 0) || (num_rows ec <=? at_) then Some ec
  else
    let a := Z.to_nat at_ in
    let moved := take (Z.to_nat (num_rows ec - at_ - 1)) (drop (S a) (row ec)) in
    let rows := take a (row ec) ++ (shift_idx (-1) <$> moved) in
    Some (set_dirty (set_num_rows (set_row ec rows) (num_rows ec - 1))
                    (int_wrap (dirty ec + 1))).

Definition editor_row_insert_char (ec : editor_config) (p : nat) (at_ : Z) (c : Z)
  : option editor_config :=
  r ← row ec !! p;
  let at' := if (at_ <? 0) || (len r <? at_) then len r else at_ in
  let a := Z.to_nat at' in
  let r' := set_chars r (take a (chars r) ++ char_of_int c :: drop a (chars r)) in
  ec1 ← editor_update_row (set_row ec (<[p := r']> (row ec))) p;
  Some (set_dirty ec1 (int_wrap (dirty ec1 + 1))).

Definition editor_row_append_str (ec : editor_config) (p : nat) (s : list ascii)
  : option editor_config :=
  r ← row ec !! p;
  let r' := set_chars r (chars r ++ s) in
  ec1 ← editor_update_row (set_row ec (<[p := r']> (row ec))) p;
  Some (set_dirty ec1 (int_wrap (dirty ec1 + 1))).

Definition editor_row_del_char (ec : editor_config) (p : nat) (at_ : Z)
  : option editor_config :=
  r ← row ec !! p;
  if (at_ <? 0) || (len r <=? at_) then Some ec
  else
    let a := Z.to_nat at_ in
    let r' := set_chars r (take a (chars r) ++ drop (S a) (chars r)) in
    ec1 ← editor_update_row (set_row ec (<[p := r']> (row ec))) p;
    Some (set_dirty ec1 (int_wrap (dirty ec1 + 1))).

(** ** Editor operations *)

Definition editor_insert_char (ec : editor_config) (c : Z) : option editor_config :=
  ec1 ← (if cursor_y ec =? num_rows ec
         then editor_insert_row ec (num_rows ec) []
         else Some ec);
  p ← row_ptr (cursor_y ec1);
  ec2 ← editor_row_insert_char ec1 p (cursor_x ec1) c;
  Some (set_cursor ec2 (cursor_x ec2 + 1) (cursor_y ec2)).

Definition editor_insert_newline (ec : editor_config) : option editor_config :=
  ec2 ← (if cursor_x ec =? 0 then editor_insert_row ec (cursor_y ec) []
         else
           p ← row_ptr (cursor_y ec);
           r ← row ec !! p;
           ec1 ← editor_insert_row ec (cursor_y ec + 1)
                   (drop (Z.to_nat (cursor_x ec)) (chars r));
           r1 ← row ec1 !! p;
           let r1' := set_chars r1 (take (Z.to_nat (cursor_x ec1)) (chars r1)) in
           editor_update_row (set_row ec1 (<[p := r1']> (row ec1))) p);
  Some (set_cursor ec2 0 (cursor_y ec2 + 1)).

Definition editor_del_char (ec : editor_config) : option editor_config :=
  if cursor_y ec =? num_rows ec then Some ec
  else if (cursor_x ec =? 0) && (cursor_y ec =? 0) then Some ec
  else
    p ← row_ptr (cursor_y ec);
    r ← row ec !! p;
    if 0 <? cursor_x ec then
      ec1 ← editor_row_del_char ec p (cursor_x ec - 1);
      Some (set_cursor ec1 (cursor_x ec1 - 1) (cursor_y ec1))
    else
      q ← row_ptr (cursor_y ec - 1);
      prev ← row ec !! q;
      let ec0 := set_cursor ec (len prev) (cursor_y ec) in
      ec1 ← editor_row_append_str ec0 q (chars r);
      ec2 ← editor_del_row ec1 (cursor_y ec1);
      Some (set_cursor ec2 (cursor_x ec2) (cursor_y ec2 - 1)).

(** ** File I/O *)

(** [strstr(hay, needle)]: the offset of the first occurrence of the text of
    [needle] in the text of [hay]. *)
Fixpoint starts_with (s pre : list ascii) {struct pre} : bool :=
  match pre, s with
  | [], _ => true
  | _ :: _, [] => false
  | a :: pre', b :: s' => Ascii.eqb a b && starts_with s' pre'
  end.

Fixpoint find_sub (hay needle : list ascii) : option nat :=
  if starts_with hay needle then Some 0%nat
  else match hay with
       | [] => None
       | _ :: hay' => S <$> find_sub hay' needle
       end.

Definition strstr (hay needle : list ascii) : option nat :=
  find_sub (cstr hay) (cstr needle).

(** [strrchr(s, ch)]: the suffix of [s] that starts at the last [ch]. *)
Fixpoint strrchr_text (s : list ascii) (ch : ascii) : option (list ascii) :=
  match s with
  | [] => None
  | a :: s' =>
      match strrchr_text s' ch with
      | Some t => Some t
      | None => if Ascii.eqb a ch then Some s else None
      end
  end.

Definition strrchr (s : list ascii) (ch : ascii) : option (list ascii) :=
  strrchr_text (cstr s) ch.

(** [strcmp(a, b) == 0] *)
Definition strcmp_eq (a b : list ascii) : bool :=
  starts_with (cstr a) (cstr b) && (length (cstr a) =? length (cstr b))%nat.

(** [editor_rows2str]: the buffer; [*str_len] is its length. *)
Definition editor_rows2str (ec : editor_config) : list ascii :=
  concat ((fun r => chars r ++ ["010"%char])
            <$> take (Z.to_nat (num_rows ec)) (row ec)).

(** The [for (filerow = 0; filerow < ec.num_rows; filerow++)] loop of
    [editor_select_syntax_highlight]; [n] rows remain from [filerow]. *)
Fixpoint update_syntax_rows (n : nat) (filerow : nat) (ec : editor_config)
  : option editor_config :=
  match n with
  | O => Some ec
  | S n' =>
      ec' ← editor_update_syntax ec filerow;
      update_syntax_rows n' (S filerow) ec'
  end.

Definition filematch_hit (fname : list ascii) (ext : option (list ascii))
    (fm : list ascii) : bool :=
  let is_ext := Ascii.eqb (char_at fm 0) "."%char in
  (is_ext && match ext with Some e => strcmp_eq e fm | None => false end)
  || (negb is_ext && bool_decide (is_Some (strstr fname fm))).

(** The two nested loops over [HLDB] and the entry's [filematch]. *)
Fixpoint select_syntax (db : list esyn) (fname : list ascii)
    (ext : option (list ascii)) : option esyn :=
  match db with
  | [] => None
  | s :: db' =>
      if existsb (filematch_hit fname ext) (filematch s) then Some s
      else select_syntax db' fname ext
  end.

Definition editor_select_syntax_highlight (ec : editor_config) : option editor_config :=
  let ec0 := set_syntax ec None in
  match filename ec0 with
  | None => Some ec0
  | Some fname =>
      match select_syntax HLDB fname (strrchr fname "."%char) with
      | None => Some ec0
      | Some s =>
          let ec1 := set_syntax ec0 (Some s) in
          update_syntax_rows (Z.to_nat (num_rows ec1)) 0 ec1
      end
  end.

(** The inner loop of [editor_open] that drops trailing '\n' and '\r'. *)
Fixpoint strip_eol (line : list ascii) (line_len : nat) : nat :=
  match line_len with
  | O => 0%nat
  | S n =>
      if Ascii.eqb (char_at line n) "010"%char || Ascii.eqb (char_at line n) "013"%char
      then strip_eol line n
      else line_len
  end.

(** The [getline] loop of [editor_open]; [lines] is what [getline] returns,
    one element per call, until it reports the end of the file. *)
Fixpoint open_lines (lines : list (list ascii)) (ec : editor_config)
  : option editor_config :=
  match lines with
  | [] => Some ec
  | line :: lines' =>
      ec' ← editor_insert_row ec (num_rows ec)
              (take (strip_eol line (length line)) line);
      open_lines lines' ec'
  end.

(** [editor_open] on a file that [fopen] could open. *)
Definition editor_open (ec : editor_config) (fname : list ascii)
    (lines : list (list ascii)) : option editor_config :=
  ec1 ← editor_select_syntax_highlight (set_filename ec (Some (cstr fname)));
  ec2 ← open_lines lines ec1;
  Some (set_dirty ec2 0).

(** What the outside world answers during [editor_save]: the file name the
    prompt returns (or NULL), whether [open] and [ftruncate] succeed, and the
    return value of [write]. *)
Record save_io := {
  prompt_result : option (list ascii);
  open_ok : bool;
  ftruncate_ok : bool;
  write_result : Z
}.

(** The part of [editor_save] after the file name is known; the boolean
    tells whether the save was reported successful. *)
Definition save_write (io : save_io) (ec : editor_config) : editor_config * bool :=
  let buf := editor_rows2str ec in
  let len := Z.of_nat (length buf) in
  if open_ok io && ftruncate_ok io && (write_result io =? len)
  then (set_dirty ec 0, true)
  else (ec, false).

Definition editor_save (io : save_io) (ec : editor_config)
  : option (editor_config * bool) :=
  match filename ec with
  | Some _ => Some (save_write io ec)
  | None =>
      match prompt_result io with
      | None => Some (set_filename ec None, false)
      | Some f =>
          ec1 ← editor_select_syntax_highlight (set_filename ec (Some f));
          Some (save_write io ec1)
      end
  end.

(** ** Search *)

(** The [static] locals of [editor_find_callback]. *)
Record find_state := {
  last_match : Z;
  direction : Z;
  saved_hl_line : Z;
  saved_hl : option (list editor_highlight)
}.

Definition find_init : find_state :=
  {| last_match := -1; direction := 1; saved_hl_line := 0; saved_hl := None |}.

(** [if (saved_hl) { memcpy(...); free(saved_hl); saved_hl = NULL; }] *)
Definition find_restore (ec : editor_config) (fs : find_state)
  : option (editor_config * find_state) :=
  match saved_hl fs with
  | None => Some (ec, fs)
  | Some s =>
      p ← row_ptr (saved_hl_line fs);
      r ← row ec !! p;
      let r' := set_hl r (memcpy (hl r) s (Z.to_nat (rlen r))) in
      Some (set_row ec (<[p := r']> (row ec)),
            {| last_match := last_match fs; direction := direction fs;
               saved_hl_line := saved_hl_line fs; saved_hl := None |})
  end.

(** The key dispatch; the boolean is [false] on the early [return] that
    Enter and Escape take, and [true] when the scan follows. *)
Definition find_direction (key : Z) (fs : find_state) : find_state * bool :=
  if (key =? KEY_ENTER) || (key =? KEY_ESC) then
    ({| last_match := -1; direction := 1;
        saved_hl_line := saved_hl_line fs; saved_hl := saved_hl fs |}, false)
  else
    let fs1 :=
      if (key =? ARROW_RIGHT) || (key =? ARROW_DOWN) then
        {| last_match := last_match fs; direction := 1;
           saved_hl_line := saved_hl_line fs; saved_hl := saved_hl fs |}
      else if (key =? ARROW_LEFT) || (key =? ARROW_UP) then
        {| last_match := last_match fs; direction := -1;
           saved_hl_line := saved_hl_line fs; saved_hl := saved_hl fs |}
      else
        {| last_match := -1; direction := 1;
           saved_hl_line := saved_hl_line fs; saved_hl := saved_hl fs |} in
    (if last_match fs1 =? -1
     then {| last_match := last_match fs1; direction := 1;
             saved_hl_line := saved_hl_line fs1; saved_hl := saved_hl fs1 |}
     else fs1, true).

(** [current += direction] followed by the two wrap-around tests. *)
Definition find_next (ec : editor_config) (fs : find_state) (current : Z) : Z :=
  let current := current + direction fs in
  if current =? -1 then num_rows ec - 1
  else if current =? num_rows ec then 0
  else current.

(** The body of [if (match)]: move the cursor to the match, remember the
    row and its highlight array, and mark the matched span. *)
Definition find_hit (query : list ascii) (ec : editor_config) (fs : find_state)
    (current : Z) (p : nat) (r : erow) (off : nat) : editor_config * find_state :=
  let r' := set_hl r (memset (hl r) off HL_MATCH (strlen query)) in
  (set_row (set_cursor ec (editor_row_rx2cx r (Z.of_nat off)) current)
           (<[p := r']> (row ec)),
   {| last_match := current; direction := direction fs;
      saved_hl_line := current;
      saved_hl := Some (take (Z.to_nat (rlen r)) (hl r)) |}).

(** The [for (i = 0; i < ec.num_rows; i++)] loop; [n] iterations remain. *)
Fixpoint find_scan (n : nat) (query : list ascii) (current : Z)
    (ec : editor_config) (fs : find_state) : option (editor_config * find_state) :=
  match n with
  | O => Some (ec, fs)
  | S n' =>
      let current := find_next ec fs current in
      p ← row_ptr current;
      r ← row ec !! p;
      match strstr (render r) query with
      | Some off => Some (find_hit query ec fs current p r off)
      | None => find_scan n' query current ec fs
      end
  end.

Definition editor_find_callback (query : list ascii) (key : Z)
    (ec : editor_config) (fs : find_state) : option (editor_config * find_state) :=
  '(ec1, fs1) ← find_restore ec fs;
  let '(fs2, scan) := find_direction key fs1 in
  if scan
  then find_scan (Z.to_nat (num_rows ec1)) query (last_match fs2) ec1 fs2
  else Some (ec1, fs2).

(** ** Cursor movement *)

(** [(ec.cursor_y >= ec.num_rows) ? NULL : &ec.row[ec.cursor_y]], read
    through: the outer option is the validity of the access, the inner one
    is NULL or the row. *)
Definition cursor_row (ec : editor_config) : option (option erow) :=
  if num_rows ec <=? cursor_y ec then Some None
  else p ← row_ptr (cursor_y ec); r ← row ec !! p; Some (Some r).

(** The [switch (key)] of [editor_move_cursor]. *)
Definition move_cursor_switch (ec : editor_config) (key : Z) : option editor_config :=
  if key =? ARROW_LEFT then
    if negb (cursor_x ec =? 0)
    then Some (set_cursor ec (cursor_x ec - 1) (cursor_y ec))
    else if 0 <? cursor_y ec then
      p ← row_ptr (cursor_y ec - 1);
      r ← row ec !! p;
      Some (set_cursor ec (len r) (cursor_y ec - 1))
    else Some ec
  else if key =? ARROW_RIGHT then
    orow ← cursor_row ec;
    match orow with
    | Some r =>
        if cursor_x ec <? len r
        then Some (set_cursor ec (cursor_x ec + 1) (cursor_y ec))
        else if cursor_x ec =? len r
        then Some (set_cursor ec 0 (cursor_y ec + 1))
        else Some ec
    | None => Some ec
    end
  else if key =? ARROW_UP then
    if negb (cursor_y ec =? 0)
    then Some (set_cursor ec (cursor_x ec) (cursor_y ec - 1))
    else Some ec
  else if key =? ARROW_DOWN then
    if cursor_y ec <? num_rows ec
    then Some (set_cursor ec (cursor_x ec) (cursor_y ec + 1))
    else Some ec
  else Some ec.

(** The tail of [editor_move_cursor]: snap the cursor to the end of the
    line it landed on. *)
Definition move_cursor_snap (ec : editor_config) : option editor_config :=
  orow ← cursor_row ec;
  let row_len := match orow with Some r => len r | None => 0 end in
  Some (if row_len <? cursor_x ec
        then set_cursor ec row_len (cursor_y ec)
        else ec).

Definition editor_move_cursor (ec : editor_config) (key : Z) : option editor_config :=
  ec1 ← move_cursor_switch ec key;
  move_cursor_snap ec1.

(** The length of the line the cursor is on; 0 on the line after the last
    row. *)
Definition cursor_line_len (ec : editor_config) : Z :=
  match row ec !! Z.to_nat (cursor_y ec) with
  | Some r => len r
  | None => 0
  end.

(** ** Invariants of the document *)

(** The render form is at least as long as the raw text, and there is one
    highlight class per render element. *)
Definition row_ok (r : erow) : Prop :=
  (length (chars r) <= length (render r))%nat /\ length (hl r) = length (render r).

Definition doc_ok (ec : editor_config) : Prop := Forall row_ok (row ec).

(** Every row knows its own position. *)
Definition rows_indexed (rows : list erow) : Prop :=
  forall (i : nat) (r : erow), rows !! i = Some r -> idx r = Z.of_nat i.

(** [ec.num_rows] is the size of the array [ec.row]. *)
Definition wf_doc (ec : editor_config) : Prop :=
  rows_indexed (row ec) /\ num_rows ec = Z.of_nat (length (row ec)).

(** The termination measure of the scan loop. *)
Definition scan_measure (rend : list ascii) (st : scan_state) : nat :=
  (2 * (length rend - sc_i st) + (if sc_prev_sep st then 1 else 0))%nat.

(** What a run of the highlighter may change in a row: only the highlight
    array and the comment flag, and a highlight array that was rewritten has
    the length of the render text. *)
Definition hl_updated (r r' : erow) : Prop :=
  idx r' = idx r /\ chars r' = chars r /\ render r' = render r /\
  ((hl r' = hl r /\ hl_open_comment r' = hl_open_comment r)
   \/ length (hl r') = length (render r')).

(** ** Document mutations

    The operations of the row store and the editor operations built on
    them, as one type, so that properties of "every mutation" can be stated
    once. *)
Inductive mutation :=
| MInsertRow (at_ : Z) (s : list ascii)
| MDelRow (at_ : Z)
| MRowInsertChar (p : nat) (at_ : Z) (c : Z)
| MRowDelChar (p : nat) (at_ : Z)
| MRowAppendStr (p : nat) (s : list ascii)
| MInsertChar (c : Z)
| MInsertNewline
| MDelChar.

Definition apply_mutation (m : mutation) (ec : editor_config) : option editor_config :=
  match m with
  | MInsertRow at_ s => editor_insert_row ec at_ s
  | MDelRow at_ => editor_del_row ec at_
  | MRowInsertChar p at_ c => editor_row_insert_char ec p at_ c
  | MRowDelChar p at_ => editor_row_del_char ec p at_
  | MRowAppendStr p s => editor_row_append_str ec p s
  | MInsertChar c => editor_insert_char ec c
  | MInsertNewline => editor_insert_newline ec
  | MDelChar => editor_del_char ec
  end.

(** The cursor is on a row or on the line after the last one, and within
    the line it is on. *)
Definition cursor_ok (ec : editor_config) : Prop :=
  0 <= cursor_y ec <= num_rows ec /\ 0 <= cursor_x ec /\
  match row ec !! Z.to_nat (cursor_y ec) with
  | Some r => cursor_x ec <= len r
  | None => cursor_x ec = 0
  end.

(** What the callers guarantee: a row pointer designates a row of the
    array, and the editor operations run with the cursor in the document. *)
Definition mutation_valid (m : mutation) (ec : editor_config) : Prop :=
  match m with
  | MInsertRow _ _ | MDelRow _ => True
  | MRowInsertChar p _ _ | MRowDelChar p _ | MRowAppendStr p _ =>
      (p < length (row ec))%nat
  | MInsertChar _ | MInsertNewline | MDelChar => cursor_ok ec
  end.

(** The raw text of the document, row by row. *)
Definition raw_text (ec : editor_config) : list (list ascii) := chars <$> row ec.

(** Executable form of [wf_doc], used on concrete documents. *)
Fixpoint rows_indexed_from (k : Z) (rows : list erow) : bool :=
  match rows with
  | [] => true
  | r :: rows' => (idx r =? k) && rows_indexed_from (k + 1) rows'
  end.

Definition wf_doc_check (ec : editor_config) : bool :=
  rows_indexed_from 0 (row ec) && (num_rows ec =? Z.of_nat (length (row ec))).

(** The offset as the specification words it: [at] clamped to [[lo, hi]]. *)
Definition clamp (lo hi x : Z) : Z := Z.max lo (Z.min hi x).

(** A row whose derived fields agree with its text when no syntax is
    active, and a document made of such rows; used for concrete inputs. *)
Definition plain_row (i : Z) (s : String.string) : erow :=
  let rend := render_loop (str s) [] in
  {| idx := i; chars := str s; render := rend;
     hl := replicate (length rend) HL_NORMAL; hl_open_comment := false |}.

Definition plain_doc (rows : list erow) : editor_config :=
  {| cursor_x := 0; cursor_y := 0; num_rows := Z.of_nat (length rows); dirty := 0;
     row := rows; filename := None; syntax := None |}.

(** What every mutation guarantees on return: the document is well formed,
    the row invariant is kept, and either nothing at all changed or the
    dirty counter was incremented, once or twice. *)
Definition mutation_post (ec ec' : editor_config) : Prop :=
  wf_doc ec' /\ (doc_ok ec -> doc_ok ec')
  /\ (ec' = ec \/ dirty ec' = int_wrap (dirty ec + 1)
      \/ dirty ec' = int_wrap (dirty ec + 2)).

(** The text [editor_open] keeps of one line that [getline] returned. *)
Definition strip_line (line : list ascii) : list ascii :=
  take (strip_eol line (length line)) line.

(** ** Consistency of the derived highlight state

    A row is consistent when its highlight array and comment flag are what
    the classifier computes from its render text and the flag of the row
    before it.  Without a syntax definition the code leaves the flag alone,
    so only the highlight array is constrained. *)
Definition row_consistent (ec : editor_config) (r : erow) : Prop :=
  match syntax ec with
  | None => hl r = replicate (length (render r)) HL_NORMAL
  | Some syn =>
      exists b, incoming_comment ec r = Some b
                /\ classify syn (render r) b = Some (hl r, hl_open_comment r)
  end.

Definition doc_consistent (ec : editor_config) : Prop :=
  forall (p : nat) (r : erow), row ec !! p = Some r -> row_consistent ec r.

(** A C document of two rows with a block comment running from the first
    into the second, as [editor_open] builds it. *)
Definition c_doc : editor_config :=
  Eval vm_compute in
    default (plain_doc [])
      (editor_open (plain_doc []) (str "a.c") [str "int x; /* a"; str "b */ y = 1;"]).

(** ** Where keyword classes may appear *)

Definition is_keyword_class (h : editor_highlight) : bool :=
  match h with
  | HL_KEYWORD1 | HL_KEYWORD2 => true
  | _ => false
  end.

(** Position [p] lies in the span of a keyword entry that matches at some
    position [i] of the render text, and [h] is the class of that entry. *)
Definition keyword_span (syn : esyn) (rend : list ascii) (p : nat)
    (h : editor_highlight) : Prop :=
  exists (i : nat) (kw : list ascii),
    In kw (keywords syn) /\ keyword_match rend i kw = true
    /\ (i <= p < i + fst (keyword_klen kw))%nat
    /\ h = (if snd (keyword_klen kw) then HL_KEYWORD2 else HL_KEYWORD1).

(** The invariant of the scan loop: a keyword class sits only in a matched
    span, and only to the left of the loop index. *)
Definition scan_inv (syn : esyn) (rend : list ascii) (st : scan_state) : Prop :=
  forall (p : nat) (h : editor_highlight),
    sc_hl st !! p = Some h -> is_keyword_class h = true ->
    (p < sc_i st)%nat /\ keyword_span syn rend p h.

(** The separator bytes, listed: whitespace, NUL and the punctuation set. *)
Definition separators : list ascii :=
  [SPACE; "009"; "010"; "011"; "012"; "013"]%char ++ [NUL] ++ str ",.()+-/*=~%<>[];".

(** ** Search, as the specification words it *)

(** [q] occurs in [text] as a substring. *)
Definition contains (text q : list ascii) : Prop :=
  exists pre post, text = pre ++ q ++ post.

(** Modelled from the spec: the render text of a row, that is the [rlen]
    bytes of [row->render], contains the query as a substring. *)
Definition render_contains (query : list ascii) (r : erow) : Prop :=
  contains (render r) query.

(** What [strstr(row->render, query)] decides: the render text read as a C
    string, that is the bytes before its first NUL byte, contains the query
    read the same way.  On rows and queries without NUL bytes this is
    [render_contains]; a row that holds a NUL byte is searched up to that
    byte only. *)
Definition row_matches (query : list ascii) (r : erow) : Prop :=
  contains (cstr (render r)) (cstr query).

(** The [k]-th row a scan examines, counting from 1: [k] steps in the
    search direction from the last match, wrapping around the document. *)
Definition scan_index (ec : editor_config) (fs : find_state) (k : Z) : Z :=
  (last_match fs + direction fs * k) mod num_rows ec.

(** The search state at the start of a scan: a direction, the last match on
    a row or none (-1), and a forward direction when there is none. *)
Definition find_ready (ec : editor_config) (fs : find_state) : Prop :=
  (direction fs = 1 \/ direction fs = -1)
  /\ -1 <= last_match fs < num_rows ec
  /\ (last_match fs = -1 -> direction fs = 1).

(** Three rows of which only the first contains "foo", and the search state
    after a match on the last row while searching forward. *)
Definition foo_doc : editor_config :=
  plain_doc [plain_row 0 "a foo b"; plain_row 1 "bar"; plain_row 2 "baz"].

Definition foo_state : find_state :=
  {| last_match := 2; direction := 1; saved_hl_line := 0; saved_hl := None |}.

(** Three rows "foo", "bar" and "baz" with the cursor at the start of the
    first; typing the NUL byte there (Ctrl-@) puts it in front of "foo". *)
Definition foo_bar_baz : editor_config :=
  plain_doc [plain_row 0 "foo"; plain_row 1 "bar"; plain_row 2 "baz"].

(** The invariant of a search session between two keystrokes: the document
    is well formed, the search state is ready for a scan, and a saved
    snapshot belongs to a row of the document. *)
Definition find_session_ok (ec : editor_config) (fs : find_state) : Prop :=
  wf_doc ec /\ find_ready ec fs
  /\ (is_Some (saved_hl fs) -> 0 <= saved_hl_line fs < num_rows ec).

(** ** The editing session

    [editor_init] without the screen size, and the keys of
    [editor_proc_key] that act on the document and the cursor alone (saving,
    searching, quitting and the page keys, which read the screen state, are
    left out). *)
Definition editor_init : editor_config :=
  {| cursor_x := 0; cursor_y := 0; num_rows := 0; dirty := 0; row := [];
     filename := None; syntax := None |}.

Inductive editor_event :=
| EvChar (c : Z)          (* default: editor_insert_char(c) *)
| EvEnter                 (* '\r' *)
| EvBackspace             (* BACK_SPACE, CTRL_KEY('h') *)
| EvDelete                (* DEL_KEY *)
| EvArrow (key : Z)       (* ARROW_UP, ARROW_DOWN, ARROW_LEFT, ARROW_RIGHT *)
| EvHome                  (* HOME_KEY *)
| EvEnd.                  (* END_KEY *)

Definition editor_proc_key (ev : editor_event) (ec : editor_config)
  : option editor_config :=
  match ev with
  | EvChar c => editor_insert_char ec c
  | EvEnter => editor_insert_newline ec
  | EvBackspace => editor_del_char ec
  | EvDelete => ec1 ← editor_move_cursor ec ARROW_RIGHT; editor_del_char ec1
  | EvArrow key => editor_move_cursor ec key
  | EvHome => Some (set_cursor ec 0 (cursor_y ec))
  | EvEnd =>
      if cursor_y ec <? num_rows ec then
        p ← row_ptr (cursor_y ec);
        r ← row ec !! p;
        Some (set_cursor ec (len r) (cursor_y ec))
      else Some ec
  end.

Fixpoint run_events (evs : list editor_event) (ec : editor_config)
  : option editor_config :=
  match evs with
  | [] => Some ec
  | ev :: evs' => ec' ← editor_proc_key ev ec; run_events evs' ec'
  end.

(** The invariant of the session between two key events. *)
Definition editor_ok (ec : editor_config) : Prop :=
  wf_doc ec /\ doc_ok ec /\ cursor_ok ec.

(** A search in [foo_doc]: the state after typing a query that matches row
    0, and the state after the query has changed to one without a match. *)
Definition foo_hit : editor_config * find_state :=
  Eval vm_compute in
    default (foo_doc, find_init)
      (editor_find_callback (str "foo") 111 foo_doc find_init).

Definition foo_miss : editor_config * find_state :=
  Eval vm_compute in
    default foo_hit
      (editor_find_callback (str "fox") 120 (fst foo_hit) (snd foo_hit)).

(** ** Further properties: auxiliary definitions *)



(** Every row except the one at position [p] is consistent: the state of a
    consistent document after the render text of row [p] was rewritten. *)
Definition consistent_except (ec : editor_config) (p : nat) : Prop :=
  forall (q : nat) (r : erow), q <> p -> row ec !! q = Some r -> row_consistent ec r.


(** [c_doc] after the comment opener was deleted from the text of its first
    row and before that row is classified again: the first row still
    carries the highlight and the flag of the old text. *)
Definition stale_doc : editor_config :=
  set_row c_doc
    (alter (fun r => set_render (set_chars r (str "int x;")) (str "int x;")) 0%nat
           (row c_doc)).


(** ** Reading a file back

    [getline] called until it reports the end of the file: the contents of
    the file cut after each '\n'; the last piece has no '\n' when the file
    does not end with one.  [line] holds the bytes read since the last
    cut. *)
Fixpoint getlines (buf : list ascii) (line : list ascii) : list (list ascii) :=
  match buf with
  | [] => match line with [] => [] | _ :: _ => [line] end
  | c :: buf' =>
      if Ascii.eqb c "010"%char then (line ++ [c]) :: getlines buf' []
      else getlines buf' (line ++ [c])
  end.

(** A row that survives being written and read back: it holds no '\n' and
    does not end in '\r'. *)
Definition file_safe (cs : list ascii) : Prop :=
  ~ In "010"%char cs /\ last cs <> Some "013"%char.


(** ** Scrolling

    The screen fields of [struct editor_config]: the render column of the
    cursor, the first row and the first render column shown, and the size
    of the text area. *)
Record viewport := {
  render_x : Z;
  row_off : Z;
  clo_off : Z;
  screen_rows : Z;
  screen_cols : Z
}.

Definition editor_scroll (ec : editor_config) (vp : viewport) : option viewport :=
  rx ← (if cursor_y ec <? num_rows ec then
          p ← row_ptr (cursor_y ec);
          r ← row ec !! p;
          Some (editor_row_cx2rx r (cursor_x ec))
        else Some 0);
  let row_off1 := if cursor_y ec <? row_off vp then cursor_y ec else row_off vp in
  let row_off2 := if row_off1 + screen_rows vp <=? cursor_y ec
                  then cursor_y ec - screen_rows vp + 1 else row_off1 in
  let clo_off1 := if rx <? clo_off vp then rx else clo_off vp in
  let clo_off2 := if clo_off1 + screen_cols vp <=? rx
                  then rx - screen_cols vp + 1 else clo_off1 in
  Some {| render_x := rx; row_off := row_off2; clo_off := clo_off2;
          screen_rows := screen_rows vp; screen_cols := screen_cols vp |}.

(** The cursor lies in the window that [vp] shows. *)
Definition cursor_visible (ec : editor_config) (vp : viewport) : Prop :=
  row_off vp <= cursor_y ec < row_off vp + screen_rows vp
  /\ clo_off vp <= render_x vp < clo_off vp + screen_cols vp.

(** ** The state of the running editor

    The global [ec] split into the document with its cursor and the screen
    fields, together with the [static] variables of [editor_find_callback]
    and the [static quit_times] of [editor_proc_key]. *)
Record editor_state := {
  doc : editor_config;
  view : viewport;
  find : find_state;
  quit_times : Z
}.

Definition set_doc (s : editor_state) (ec : editor_config) : editor_state :=
  {| doc := ec; view := view s; find := find s; quit_times := quit_times s |}.

Definition set_view (s : editor_state) (vp : viewport) : editor_state :=
  {| doc := doc s; view := vp; find := find s; quit_times := quit_times s |}.

Definition set_find (s : editor_state) (fs : find_state) : editor_state :=
  {| doc := doc s; view := view s; find := fs; quit_times := quit_times s |}.

Definition set_quit_times (s : editor_state) (n : Z) : editor_state :=
  {| doc := doc s; view := view s; find := find s; quit_times := n |}.

(** [editor_refresh_screen]: the scroll is its only effect on the state;
    what it writes to the terminal is not modelled. *)
Definition editor_refresh_screen (s : editor_state) : option editor_state :=
  vp ← editor_scroll (doc s) (view s);
  Some (set_view s vp).

(** ** The prompt and the search command *)

(** [CTRL_KEY(k)]: [(k) & 0x1f]. *)
Definition CTRL_KEY (k : Z) : Z := Z.land k 31.

(** [iscntrl(c)] in the C locale. *)
Definition iscntrl (c : Z) : bool := ((0 <=? c) && (c <? 32)) || (c =? 127).

Section Prompt.

Context {S : Type}.

(** The screen refresh at the start of each round, as it acts on the state
    [S]. *)
Variable refresh : S -> option S.

(** The [callback] argument of [editor_prompt]: NULL, or a function, which
    acts on the state as well. *)
Variable callback : option (list ascii -> Z -> S -> option S).

(** [if (callback) callback(buf, c);] *)
Definition prompt_callback (buf : list ascii) (c : Z) (s : S) : option S :=
  match callback with
  | Some f => f buf c s
  | None => Some s
  end.

(** [editor_prompt]: [keys] holds the keys that the successive calls of
    [editor_read_key] return and [buf] the text typed so far.  The result
    is the returned pointer (NULL or the text), the state, and the keys
    that were not read; [None] when the keys run out before the prompt
    returns.  The status message is output only. *)
Fixpoint editor_prompt (keys : list Z) (buf : list ascii) (s : S)
  : option (option (list ascii) * S * list Z) :=
  match keys with
  | [] => None
  | c :: keys' =>
      s ← refresh s;
      if (c =? DEL_KEY) || (c =? CTRL_KEY 104) || (c =? BACK_SPACE) then
        let buf' := if (length buf =? 0)%nat then buf
                    else take (length buf - 1) buf in
        s' ← prompt_callback buf' c s;
        editor_prompt keys' buf' s'
      else if c =? KEY_ESC then
        s' ← prompt_callback buf c s;
        Some (None, s', keys')
      else if c =? KEY_ENTER then
        if negb (length buf =? 0)%nat then
          s' ← prompt_callback buf c s;
          Some (Some buf, s', keys')
        else
          s' ← prompt_callback buf c s;
          editor_prompt keys' buf s'
      else if negb (iscntrl c) && (c <? 128) then
        let buf' := buf ++ [char_of_int c] in
        s' ← prompt_callback buf' c s;
        editor_prompt keys' buf' s'
      else
        s' ← prompt_callback buf c s;
        editor_prompt keys' buf s'
  end.

End Prompt.

(** [editor_find_callback] as the callback of the prompt. *)
Definition find_callback (query : list ascii) (key : Z) (s : editor_state)
  : option editor_state :=
  res ← editor_find_callback query key (doc s) (find s);
  Some (set_find (set_doc s (fst res)) (snd res)).

Definition editor_find (keys : list Z) (s : editor_state)
  : option (editor_state * list Z) :=
  let saved_cx := cursor_x (doc s) in
  let saved_cy := cursor_y (doc s) in
  let saved_col_off := clo_off (view s) in
  let saved_row_off := row_off (view s) in
  res ← editor_prompt editor_refresh_screen (Some find_callback) keys [] s;
  let '(query, s1, keys') := res in
  match query with
  | Some _ => Some (s1, keys')
  | None =>
      Some (set_view (set_doc s1 (set_cursor (doc s1) saved_cx saved_cy))
                     {| render_x := render_x (view s1); row_off := saved_row_off;
                        clo_off := saved_col_off;
                        screen_rows := screen_rows (view s1);
                        screen_cols := screen_cols (view s1) |},
            keys')
  end.

(** The static variables of the search callback between two searches. *)
Definition find_idle (fs : find_state) : Prop :=
  last_match fs = -1 /\ direction fs = 1 /\ saved_hl fs = None.

(** What a search keeps between two keystrokes, [ec0] being the document
    when the search began: only the cursor and the row array may differ
    from [ec0], the cursor is in the document, and the row array differs at
    most by the mark on the row whose highlight array is saved. *)
Definition find_inv (ec0 : editor_config) (ec : editor_config) (fs : find_state)
  : Prop :=
  ec = set_cursor (set_row ec0 (row ec)) (cursor_x ec) (cursor_y ec)
  /\ cursor_ok (set_cursor ec0 (cursor_x ec) (cursor_y ec))
  /\ find_ready ec fs
  /\ match saved_hl fs with
     | None => row ec = row ec0
     | Some sv =>
         exists r off n,
           0 <= saved_hl_line fs
           /\ row ec0 !! Z.to_nat (saved_hl_line fs) = Some r /\ sv = hl r
           /\ (off + n <= length (hl r))%nat
           /\ row ec
              = <[Z.to_nat (saved_hl_line fs) :=
                    set_hl r (memset (hl r) off HL_MATCH n)]> (row ec0)
     end.

(** The key that [editor_read_key] returns for a byte below 128, and the
    bytes that the prompt takes into its buffer among them. *)
Definition key_of (ch : ascii) : Z := Z.of_N (N_of_ascii ch).

Definition printable (ch : ascii) : Prop := 32 <= key_of ch < 127.

(** ** The key dispatch and the main loop *)

Definition QUIT_TIMES : Z := 2.

(** [while (times--) editor_move_cursor(key);] *)
Fixpoint move_cursor_times (times : nat) (key : Z) (ec : editor_config)
  : option editor_config :=
  match times with
  | O => Some ec
  | S times' => ec' ← editor_move_cursor ec key; move_cursor_times times' key ec'
  end.

Module Session.

(** [editor_save] with the prompt that asks for the file name when there is
    none; [io] answers for the file system. *)
Definition editor_save (io : save_io) (keys : list Z) (s : editor_state)
  : option (editor_state * list Z) :=
  match filename (doc s) with
  | Some _ =>
      res ← editor_save io (doc s);
      Some (set_doc s (fst res), keys)
  | None =>
      p ← editor_prompt editor_refresh_screen None keys [] s;
      let '(name, s1, keys') := p in
      res ← editor_save {| prompt_result := name; open_ok := open_ok io;
                           ftruncate_ok := ftruncate_ok io;
                           write_result := write_result io |} (doc s1);
      Some (set_doc s1 (fst res), keys')
  end.

(** What a call of [editor_proc_key] ends in: [exit(0)], or a return with
    the keys that are still to be read. *)
Inductive proc_result :=
| Exit
| Next (s : editor_state) (keys : list Z).

(** [editor_proc_key]: [c] is the key that [editor_read_key] returned and
    [keys] are the keys after it, which the prompts of Ctrl-S and Ctrl-F
    read.  Every case but the early return of Ctrl-Q ends in
    [quit_times = QUIT_TIMES].  With a negative [screen_rows] the loop of
    the page keys would count [times] down through the negative numbers;
    the model gives no result then. *)
Definition editor_proc_key (io : save_io) (c : Z) (keys : list Z) (s : editor_state)
  : option proc_result :=
  let ec := doc s in
  let next (ec' : editor_config) :=
    Some (Next (set_quit_times (set_doc s ec') QUIT_TIMES) keys) in
  if c =? KEY_ENTER then
    ec' ← editor_insert_newline ec; next ec'
  else if c =? CTRL_KEY 113 then
    if negb (dirty ec =? 0) && (0 <? quit_times s)
    then Some (Next (set_quit_times s (quit_times s - 1)) keys)
    else Some Exit
  else if c =? CTRL_KEY 115 then
    res ← editor_save io keys s;
    Some (Next (set_quit_times (fst res) QUIT_TIMES) (snd res))
  else if c =? CTRL_KEY 102 then
    res ← editor_find keys s;
    Some (Next (set_quit_times (fst res) QUIT_TIMES) (snd res))
  else if (c =? CTRL_KEY 108) || (c =? KEY_ESC) then
    next ec
  else if (c =? BACK_SPACE) || (c =? CTRL_KEY 104) || (c =? DEL_KEY) then
    ec1 ← (if c =? DEL_KEY then editor_move_cursor ec ARROW_RIGHT else Some ec);
    ec2 ← editor_del_char ec1;
    next ec2
  else if (c =? ARROW_UP) || (c =? ARROW_DOWN) || (c =? ARROW_LEFT)
          || (c =? ARROW_RIGHT) then
    ec' ← editor_move_cursor ec c; next ec'
  else if c =? HOME_KEY then
    next (set_cursor ec 0 (cursor_y ec))
  else if c =? END_KEY then
    if cursor_y ec <? num_rows ec then
      p ← row_ptr (cursor_y ec);
      r ← row ec !! p;
      next (set_cursor ec (len r) (cursor_y ec))
    else next ec
  else if (c =? PAGE_UP) || (c =? PAGE_DOWN) then
    let ec1 :=
      if c =? PAGE_UP then set_cursor ec (cursor_x ec) (row_off (view s))
      else
        let y := row_off (view s) + screen_rows (view s) - 1 in
        set_cursor ec (cursor_x ec) (if num_rows ec <? y then num_rows ec else y) in
    if screen_rows (view s) <? 0 then None
    else
      ec2 ← move_cursor_times (Z.to_nat (screen_rows (view s)))
              (if c =? PAGE_UP then ARROW_UP else ARROW_DOWN) ec1;
      next ec2
  else
    ec' ← editor_insert_char ec c; next ec'.

(** One round of the [while (1)] loop of [main]. *)
Definition main_step (io : save_io) (c : Z) (keys : list Z) (s : editor_state)
  : option proc_result :=
  s1 ← editor_refresh_screen s;
  editor_proc_key io c keys s1.

End Session.

(** The state in which [main] enters its loop when no file is given:
    [editor_init] with the size of the text area. *)
Definition initial_state (rows cols : Z) : editor_state :=
  {| doc := editor_init;
     view := {| render_x := 0; row_off := 0; clo_off := 0;
                screen_rows := rows; screen_cols := cols |};
     find := find_init; quit_times := QUIT_TIMES |}.

(** The state in which [main] enters its loop: [editor_init], and then
    [editor_open(argv[1])] when a file is named on the command line.
    [file] is that name together with the lines [getline] returns from the
    file; a file that [fopen] cannot open ends the program in [fatal]
    before the loop is reached. *)
Definition main_start (rows cols : Z)
    (file : option (list ascii * list (list ascii))) : option editor_state :=
  match file with
  | None => Some (initial_state rows cols)
  | Some (fname, lines) =>
      ec ← editor_open (doc (initial_state rows cols)) fname lines;
      Some (set_doc (initial_state rows cols) ec)
  end.

(** What holds between two rounds of the main loop: the document and the
    cursor are in order, no search is under way, and the text area is not
    empty and its offsets are not negative. *)
Definition view_ok (vp : viewport) : Prop :=
  0 < screen_rows vp /\ 0 < screen_cols vp /\ 0 <= row_off vp /\ 0 <= clo_off vp.

Definition state_ok (s : editor_state) : Prop :=
  editor_ok (doc s) /\ find_idle (find s) /\ view_ok (view s).


(** ** Theorems *)

(** ** The wrap-around of the dirty counter *)

Section IntCounter.

Lemma int_wrap_range z : INT_MIN <= int_wrap z <= INT_MAX.
Proof. unfold int_wrap, INT_MIN, INT_MAX. Z.div_mod_to_equations. lia. Qed.

Lemma int_wrap_small z : INT_MIN <= z <= INT_MAX -> int_wrap z = z.
Proof. unfold int_wrap, INT_MIN, INT_MAX. Z.div_mod_to_equations. lia. Qed.

Lemma int_wrap_add a b : int_wrap (int_wrap a + b) = int_wrap (a + b).
Proof. unfold int_wrap. Z.div_mod_to_equations. lia. Qed.

Lemma int_wrap_succ_succ d : int_wrap (int_wrap (d + 1) + 1) = int_wrap (d + 2).
Proof. rewrite int_wrap_add. f_equal. lia. Qed.

(** An increment by less than [2^32] never gives the old value back. *)
Lemma int_wrap_neq d k : 0 < k < 4294967296 -> int_wrap (d + k) <> d.
Proof. unfold int_wrap. Z.div_mod_to_equations. lia. Qed.

(** Below the top of the range the increment is the mathematical one. *)
Lemma int_wrap_incr d k :
  0 <= k -> INT_MIN <= d -> d + k <= INT_MAX -> int_wrap (d + k) = d + k.
Proof. intros. apply int_wrap_small. lia. Qed.

Example int_wrap_INT_MAX : int_wrap (INT_MAX + 1) = INT_MIN.
Proof. reflexivity. Qed.

End IntCounter.

(** Closes an equation between two values of the counter, each the result
    of several increments. *)
Ltac dirty_eq := rewrite ?int_wrap_add; try reflexivity; f_equal; lia.

(** Checks of the model against what the editor shows. *)

Example tab_expansion :
  render_loop (str "a	b") [] = str "a       b".
Proof. reflexivity. Qed.

Example classify_c_line :
  classify C_SYNTAX (str "if (x1 == 12.5) s = 'a'; // c") false
  = Some ([HL_KEYWORD1; HL_KEYWORD1; HL_NORMAL; HL_NORMAL; HL_NORMAL; HL_NORMAL;
           HL_NORMAL; HL_NORMAL; HL_NORMAL; HL_NORMAL; HL_NUMBER; HL_NUMBER;
           HL_NUMBER; HL_NUMBER; HL_NORMAL; HL_NORMAL; HL_NORMAL; HL_NORMAL;
           HL_NORMAL; HL_NORMAL; HL_STRING; HL_STRING; HL_STRING; HL_NORMAL;
           HL_NORMAL; HL_COMMENT; HL_COMMENT; HL_COMMENT; HL_COMMENT],
          false).
Proof. vm_compute. reflexivity. Qed.

Example classify_block_comment :
  classify C_SYNTAX (str "a */ b /* c") true
  = Some ([HL_MLCOMMENT; HL_MLCOMMENT; HL_MLCOMMENT; HL_MLCOMMENT; HL_NORMAL;
           HL_NORMAL; HL_NORMAL; HL_MLCOMMENT; HL_MLCOMMENT; HL_MLCOMMENT;
           HL_MLCOMMENT],
          true).
Proof. vm_compute. reflexivity. Qed.

Example strip_line_crlf :
  strip_line (str "ab" ++ ["013"; "010"]%char) = str "ab"
  /\ strip_line (str "a" ++ ["010"; "098"]%char) = str "a" ++ ["010"; "098"]%char.
Proof. split; reflexivity. Qed.

Example open_c_file :
  (fun ec => (String.string_of_list_ascii <$> raw_text ec, num_rows ec, dirty ec,
              hl_open_comment <$> row ec))
    <$> editor_open (plain_doc []) (str "a.c") [str "x /* a"; str "b */ y"]
  = Some (["x /* a"; "b */ y"], 2, 0, [true; false]).
Proof. vm_compute. reflexivity. Qed.

Section CoordinateMapper.

Lemma rx_advance_gt rx ch : rx < rx_advance rx ch.
Proof.
  unfold rx_advance, TAB_STOP.
  destruct (Ascii.eqb ch TAB); [|lia].
  pose proof (Z.mod_pos_bound rx 8). lia.
Qed.

Lemma fold_rx_advance_ge cs rx : rx <= fold_left rx_advance cs rx.
Proof.
  revert rx. induction cs as [|ch cs IH]; intros rx; simpl; [lia|].
  pose proof (rx_advance_gt rx ch). specialize (IH (rx_advance rx ch)). lia.
Qed.

Lemma rx2cx_loop_prefix cs : forall (k : nat) cx cur,
  (k <= length cs)%nat ->
  rx2cx_loop cs cx cur (fold_left rx_advance (take k cs) cur) = cx + Z.of_nat k.
Proof.
  induction cs as [|ch cs IH]; intros k cx cur Hk.
  - simpl in Hk. assert (k = 0%nat) as -> by lia. simpl. lia.
  - destruct k as [|k].
    + simpl. pose proof (rx_advance_gt cur ch).
      destruct (Z.ltb_spec cur (rx_advance cur ch)); lia.
    + simpl in Hk. simpl.
      pose proof (fold_rx_advance_ge (take k cs) (rx_advance cur ch)).
      destruct (Z.ltb_spec (fold_left rx_advance (take k cs) (rx_advance cur ch))
                           (rx_advance cur ch)); [lia|].
      rewrite IH by lia. lia.
Qed.

End CoordinateMapper.

(** C1. For every row and every raw index [cx] with [0 <= cx <= len],
    mapping [cx] to a render index with [editor_row_cx2rx] and back with
    [editor_row_rx2cx] returns [cx]. *)
Theorem rx2cx_cx2rx_roundtrip (r : erow) (cx : Z) :
  0 <= cx <= len r ->
  editor_row_rx2cx r (editor_row_cx2rx r cx) = cx.
Proof.
  intros [H0 Hlen]. unfold editor_row_rx2cx, editor_row_cx2rx, len in *.
  rewrite rx2cx_loop_prefix by lia. lia.
Qed.

(** The row "a<TAB>b": the tab spans render columns 1 to 7. *)
Lemma rx2cx_cx2rx_roundtrip_witness :
  editor_row_rx2cx (plain_row 0 "a	b") (editor_row_cx2rx (plain_row 0 "a	b") 2) = 2.
Proof.
  apply (rx2cx_cx2rx_roundtrip (plain_row 0 "a	b") 2). vm_compute. split; discriminate.
Defined.

(** ** The highlighter terminates and writes in bounds *)

(** One goal per path through the body of the scan loop. *)
Ltac split_syntax_step st :=
  unfold syntax_step;
  repeat match goal with
  | |- context [if ?b then _ else _] =>
      lazymatch b with
      | sc_prev_sep _ => fail
      | _ => destruct b eqn:?
      end
  | |- context [match (if sc_prev_sep st then _ else None) with _ => _ end] =>
      destruct (sc_prev_sep st) eqn:?
  | |- context [match keyword_loop ?a ?b ?c with _ => _ end] =>
      destruct (keyword_loop a b c) as [[? ?]|] eqn:?
  end.


Section Highlighter.

Lemma strlen_le s : (strlen s <= length s)%nat.
Proof.
  induction s as [|ch s IH]; simpl; [lia|].
  destruct (Ascii.eqb ch NUL); simpl; lia.
Qed.

Lemma strncmp_eq_length s2 : forall n s1,
  strncmp_eq s1 s2 n = true -> (n <= strlen s2)%nat -> (n <= length s1)%nat.
Proof.
  induction s2 as [|b s2 IH]; intros n s1 Hcmp Hn; simpl in Hn.
  - lia.
  - destruct n as [|n]; [lia|]. cbn [strncmp_eq] in Hcmp.
    destruct (Ascii.eqb_spec b NUL) as [->|Hb]; [lia|].
    destruct s1 as [|a s1]; cbn [hd tl] in Hcmp.
    + destruct (Ascii.eqb_spec NUL b) as [<-|]; [done|discriminate].
    + destruct (Ascii.eqb_spec a b) as [->|]; [|discriminate].
      destruct (Ascii.eqb_spec b NUL); [done|].
      cbn [length]. apply IH in Hcmp; lia.
Qed.

Lemma strncmp_eq_drop_bound rend s i n :
  strncmp_eq (drop i rend) s n = true -> (n <= strlen s)%nat ->
  (i <= length rend)%nat -> (i + n <= length rend)%nat.
Proof.
  intros Hcmp Hn Hi. apply strncmp_eq_length in Hcmp; [|done].
  rewrite length_drop in Hcmp. lia.
Qed.

Lemma keyword_klen_le kw : (fst (keyword_klen kw) <= strlen kw)%nat.
Proof.
  unfold keyword_klen. destruct (strlen kw) as [|k]; simpl; [lia|].
  destruct (Ascii.eqb _ _); simpl; lia.
Qed.

Lemma keyword_loop_Some kws rend i klen kw2 :
  keyword_loop kws rend i = Some (klen, kw2) ->
  exists kw, In kw kws /\ keyword_match rend i kw = true /\ keyword_klen kw = (klen, kw2).
Proof.
  induction kws as [|kw kws IH]; cbn [keyword_loop]; [discriminate|].
  destruct (keyword_match rend i kw) eqn:Hm.
  - intros Hk. exists kw. split; [left; reflexivity|]. split; congruence.
  - intros H. destruct (IH H) as (kw' & ? & ? & ?). exists kw'.
    split; [right; assumption|]. split; assumption.
Qed.

Lemma keyword_loop_bound kws rend i klen kw2 :
  keyword_loop kws rend i = Some (klen, kw2) ->
  (i <= length rend)%nat -> (i + klen <= length rend)%nat.
Proof.
  intros H Hi. apply keyword_loop_Some in H as (kw & _ & Hm & Hk).
  unfold keyword_match in Hm. apply andb_prop in Hm as [Hm _].
  pose proof (keyword_klen_le kw) as Hle. rewrite Hk in Hm, Hle. simpl in *.
  eapply strncmp_eq_drop_bound; eauto.
Qed.

Lemma length_memset {A} (a : list A) i v n :
  (i + n <= length a)%nat -> length (memset a i v n) = length a.
Proof.
  intros H. unfold memset.
  rewrite !length_app, length_take, length_replicate, length_drop. lia.
Qed.

Lemma syntax_step_spec syn rend st :
  (sc_i st < length rend)%nat -> length (sc_hl st) = length rend ->
  match syntax_step syn rend st with
  | ScanBreak st' => length (sc_hl st') = length rend
  | ScanContinue st' =>
      length (sc_hl st') = length rend /\ (sc_i st' <= length rend)%nat
      /\ (scan_measure rend st' < scan_measure rend st)%nat
  end.
Proof.
  intros Hi Hl. unfold scan_measure. split_syntax_step st; simpl;
  repeat match goal with
  | H : _ && _ = true |- _ => apply andb_prop in H as [? ?]
  | H : negb _ = true |- _ => apply negb_true_iff in H
  | H : (_ =? _)%nat = false |- _ => apply Nat.eqb_neq in H
  | H : (_ <? _)%nat = true |- _ => apply Nat.ltb_lt in H
  | H : strncmp_eq (drop _ _) _ (strlen _) = true |- _ =>
      apply strncmp_eq_drop_bound in H; [|lia|lia]
  | H : keyword_loop _ _ _ = Some _ |- _ =>
      apply keyword_loop_bound in H; [|lia]
  end;
  rewrite ?length_memset, ?length_insert by (rewrite ?length_insert; lia);
  try (destruct (sc_prev_sep st)); try (destruct (is_separator _)); lia.
Qed.

End Highlighter.

Section HighlighterTotal.

Lemma syntax_loop_total syn rend : forall fuel st,
  length (sc_hl st) = length rend -> (sc_i st <= length rend)%nat ->
  (scan_measure rend st < fuel)%nat ->
  exists st', syntax_loop fuel syn rend st = Some st'
              /\ length (sc_hl st') = length rend.
Proof.
  induction fuel as [|fuel IH]; intros st Hl Hi Hm; [lia|].
  cbn [syntax_loop]. destruct (Nat.ltb_spec (sc_i st) (length rend)) as [Hlt|Hge].
  - pose proof (syntax_step_spec syn rend st Hlt Hl) as Hs.
    destruct (syntax_step syn rend st) as [st'|st'].
    + destruct Hs as (? & ? & ?). apply IH; lia.
    + eauto.
  - eauto.
Qed.

Lemma syntax_loop_init_total syn rend b :
  exists st', syntax_loop (syntax_fuel rend) syn rend
                {| sc_i := 0; sc_hl := replicate (length rend) HL_NORMAL;
                   sc_prev_sep := true; sc_in_string := NUL; sc_in_comment := b |}
              = Some st'
              /\ length (sc_hl st') = length rend.
Proof.
  apply syntax_loop_total; unfold scan_measure, syntax_fuel; simpl;
    rewrite ?length_replicate; lia.
Qed.

Lemma classify_total syn rend b :
  exists h b', classify syn rend b = Some (h, b') /\ length h = length rend.
Proof.
  unfold classify. destruct (syntax_loop_init_total syn rend b) as (st & -> & Hl).
  simpl. eauto.
Qed.

Global Instance hl_updated_refl : Reflexive hl_updated.
Proof. intros r. unfold hl_updated. intuition auto. Qed.

Global Instance hl_updated_trans : Transitive hl_updated.
Proof.
  intros r1 r2 r3 (Hi & Hc & Hr & H12) (Hi' & Hc' & Hr' & H23).
  unfold hl_updated. repeat split; try congruence.
  destruct H23 as [[Hh Ho]|Hlen]; [|right; done].
  destruct H12 as [[Hh' Ho']|Hlen']; [left; split; congruence|].
  right. congruence.
Qed.

Lemma rows_indexed_updated rows rows' :
  rows_indexed rows -> Forall2 hl_updated rows rows' -> rows_indexed rows'.
Proof.
  intros Hidx HF i r' Hr'.
  destruct (Forall2_lookup_r _ _ _ _ _ HF Hr') as (r & Hr & Hu).
  destruct Hu as (-> & _). eauto.
Qed.

Lemma Forall2_hl_updated_insert rows p r r' :
  rows !! p = Some r -> hl_updated r r' ->
  Forall2 hl_updated rows (<[p := r']> rows).
Proof.
  intros Hr Hu. rewrite <- (list_insert_id rows p r Hr) at 1.
  apply Forall2_insert; [reflexivity|done].
Qed.

Lemma rows_indexed_insert rows p r r' :
  rows_indexed rows -> rows !! p = Some r -> idx r' = idx r ->
  rows_indexed (<[p := r']> rows).
Proof.
  intros Hidx Hr Hi i x Hx.
  destruct (decide (i = p)) as [->|Hne].
  - rewrite list_lookup_insert_eq in Hx by (eapply lookup_lt_Some; eauto).
    injection Hx as <-. rewrite Hi. eauto.
  - rewrite list_lookup_insert_ne in Hx by done. eauto.
Qed.

Lemma editor_update_syntax_rec_spec : forall fuel ec p,
  rows_indexed (row ec) -> num_rows ec <= Z.of_nat (length (row ec)) ->
  (p < length (row ec))%nat -> (length (row ec) - p <= fuel)%nat ->
  exists rows',
    editor_update_syntax_rec fuel ec p = Some (set_row ec rows')
    /\ Forall2 hl_updated (row ec) rows'
    /\ (forall r', rows' !! p = Some r' -> length (hl r') = length (render r')).
Proof.
  induction fuel as [|fuel IH]; intros ec p Hidx Hn Hp Hf; [lia|].
  cbn [editor_update_syntax_rec].
  destruct (lookup_lt_is_Some_2 (row ec) p Hp) as [r Hr]. rewrite Hr. cbn [mbind option_bind].
  pose proof (Hidx p r Hr) as Hip.
  destruct (syntax ec) as [syn|].
  2:{ eexists. split; [reflexivity|]. split.
      - eapply Forall2_hl_updated_insert; [done|].
        unfold hl_updated; simpl. rewrite length_replicate. intuition auto.
      - intros r'. rewrite list_lookup_insert_eq by done. intros [= <-].
        simpl. apply length_replicate. }
  assert (exists b, incoming_comment ec r = Some b) as [b ->].
  { unfold incoming_comment. destruct (Z.ltb_spec 0 (idx r)); [|eauto].
    destruct (lookup_lt_is_Some_2 (row ec) (Z.to_nat (idx r - 1))) as [q ->]; [lia|].
    simpl. eauto. }
  cbn [mbind option_bind].
  destruct (syntax_loop_init_total syn (render r) b) as (st & Hst & Hlen).
  cbn [set_hl hl]. rewrite Hst. cbn [mbind option_bind].
  set (r' := set_hl_open_comment (set_hl r (sc_hl st)) (sc_in_comment st)).
  assert (hl_updated r r') as Hu by (unfold hl_updated; simpl; intuition auto).
  destruct (xorb (hl_open_comment r) (sc_in_comment st) && (idx r + 1 <? num_rows ec))
    eqn:Hc.
  - apply andb_prop in Hc as [_ Hlt]. apply Z.ltb_lt in Hlt.
    unfold row_ptr. destruct (Z.leb_spec 0 (idx r + 1)); [|lia].
    cbn [mbind option_bind].
    replace (Z.to_nat (idx r + 1)) with (S p) by lia.
    destruct (IH (set_row ec (<[p := r']> (row ec))) (S p)) as (rows'' & Hrec & HF & _).
    + simpl. eapply rows_indexed_insert; eauto.
    + simpl. rewrite length_insert. lia.
    + simpl. rewrite length_insert. lia.
    + simpl. rewrite length_insert. lia.
    + exists rows''. split; [exact Hrec|]. simpl in HF. split.
      * etrans; [|exact HF]. eapply Forall2_hl_updated_insert; eauto.
      * intros r'' Hr''.
        destruct (Forall2_lookup_r _ _ _ _ _ HF Hr'') as (x & Hx & Hux).
        rewrite list_lookup_insert_eq in Hx by done. injection Hx as <-.
        destruct Hux as (_ & _ & Hrr & [[Hh _]|Hl]); [|done].
        rewrite Hh, Hrr. simpl. done.
  - eexists. split; [reflexivity|]. split.
    + eapply Forall2_hl_updated_insert; eauto.
    + intros x. rewrite list_lookup_insert_eq by done. intros [= <-]. simpl. done.
Qed.

Lemma editor_update_syntax_spec ec p :
  rows_indexed (row ec) -> num_rows ec <= Z.of_nat (length (row ec)) ->
  (p < length (row ec))%nat ->
  exists rows',
    editor_update_syntax ec p = Some (set_row ec rows')
    /\ Forall2 hl_updated (row ec) rows'
    /\ (forall r', rows' !! p = Some r' -> length (hl r') = length (render r')).
Proof.
  intros. apply editor_update_syntax_rec_spec; try done. lia.
Qed.

End HighlighterTotal.

(** ** Row operations keep the document well formed *)

Section RowOperations.

Lemma tab_pad_length fuel : forall rend, (length rend <= length (tab_pad fuel rend))%nat.
Proof.
  induction fuel as [|fuel IH]; intros rend; cbn [tab_pad]; [lia|].
  destruct (_ =? 0); [lia|].
  specialize (IH (rend ++ [SPACE])). rewrite length_app in IH. simpl in IH. lia.
Qed.

Lemma render_loop_length cs : forall rend,
  (length rend + length cs <= length (render_loop cs rend))%nat.
Proof.
  induction cs as [|ch cs IH]; intros rend; cbn [render_loop length]; [lia|].
  destruct (Ascii.eqb ch TAB).
  - specialize (IH (tab_pad (Z.to_nat TAB_STOP) (rend ++ [SPACE]))).
    pose proof (tab_pad_length (Z.to_nat TAB_STOP) (rend ++ [SPACE])) as Hp.
    rewrite length_app in Hp. cbn [length] in Hp. lia.
  - specialize (IH (rend ++ [ch])). rewrite length_app in IH. cbn [length] in IH. lia.
Qed.

Lemma hl_updated_chars rows rows' :
  Forall2 hl_updated rows rows' -> chars <$> rows' = chars <$> rows.
Proof.
  induction 1 as [|r r' rows rows' (_ & Hc & _) _ IH]; [done|].
  rewrite !fmap_cons. congruence.
Qed.

Lemma hl_updated_row_ok r r' : hl_updated r r' -> row_ok r -> row_ok r'.
Proof.
  intros (_ & Hc & Hr & Hh) [Hle Hl]. unfold row_ok. rewrite Hc, Hr. split; [done|].
  destruct Hh as [[-> _]|Hh]; [done|]. rewrite Hh, Hr. done.
Qed.

Lemma editor_update_row_spec ec p r :
  rows_indexed (row ec) -> num_rows ec <= Z.of_nat (length (row ec)) ->
  row ec !! p = Some r ->
  exists rows',
    editor_update_row ec p = Some (set_row ec rows')
    /\ rows_indexed rows' /\ length rows' = length (row ec)
    /\ chars <$> rows' = chars <$> row ec
    /\ ((forall q x, q <> p -> row ec !! q = Some x -> row_ok x) -> Forall row_ok rows').
Proof.
  intros Hidx Hn Hr. unfold editor_update_row. rewrite Hr. cbn [mbind option_bind].
  pose proof (lookup_lt_Some _ _ _ Hr) as Hp.
  set (r1 := set_render r (render_loop (chars r) [])).
  destruct (editor_update_syntax_spec (set_row ec (<[p := r1]> (row ec))) p)
    as (rows' & Hu & HF & Hlen).
  { simpl. eapply rows_indexed_insert; eauto. }
  { simpl. rewrite length_insert. done. }
  { simpl. rewrite length_insert. done. }
  simpl in HF. exists rows'. split; [exact Hu|].
  split; [|split; [|split]].
  - eapply rows_indexed_updated; [|exact HF]. eapply rows_indexed_insert; eauto.
  - apply Forall2_length in HF. rewrite length_insert in HF. done.
  - rewrite (hl_updated_chars _ _ HF), list_fmap_insert. simpl.
    apply list_insert_id. rewrite list_lookup_fmap, Hr. done.
  - intros Hok. apply Forall_lookup_2. intros i x' Hx'.
    destruct (Forall2_lookup_r _ _ _ _ _ HF Hx') as (x & Hx & Hux).
    destruct (decide (i = p)) as [->|Hne].
    + rewrite list_lookup_insert_eq in Hx by done. injection Hx as <-.
      specialize (Hlen _ Hx'). destruct Hux as (_ & Hc & Hrr & _).
      split; [|done]. rewrite Hc, Hrr. simpl.
      pose proof (render_loop_length (chars r) []). simpl in *. lia.
    + rewrite list_lookup_insert_ne in Hx by done.
      eapply hl_updated_row_ok; eauto.
Qed.

End RowOperations.

Section RowStore.

Lemma rows_indexed_app l1 l2 :
  rows_indexed (l1 ++ l2) <->
  rows_indexed l1 /\
  (forall (i : nat) r, l2 !! i = Some r -> idx r = Z.of_nat (length l1 + i)).
Proof.
  unfold rows_indexed. split.
  - intros H. split.
    + intros i r Hr. apply H. apply lookup_app_l_Some. done.
    + intros i r Hr. apply H. rewrite lookup_app_r by lia.
      replace (length l1 + i - length l1)%nat with i by lia. done.
  - intros [H1 H2] i r Hr. apply lookup_app_Some in Hr as [Hr|[Hle Hr]]; [eauto|].
    apply H2 in Hr. rewrite Hr. f_equal. lia.
Qed.

Lemma rows_indexed_take rows n : rows_indexed rows -> rows_indexed (take n rows).
Proof.
  intros H i r Hr. apply lookup_take_Some in Hr as [Hr _]. eauto.
Qed.

Lemma shift_idx_row_ok d r : row_ok r -> row_ok (shift_idx d r).
Proof. done. Qed.

Lemma fmap_chars_shift_idx d (rows : list erow) :
  chars <$> (shift_idx d <$> rows) = chars <$> rows.
Proof. rewrite <- list_fmap_compose. done. Qed.

(** Rewriting the raw text of one row and re-deriving it. *)
Lemma update_chars_spec ec p r cs :
  rows_indexed (row ec) -> num_rows ec <= Z.of_nat (length (row ec)) ->
  row ec !! p = Some r ->
  exists rows',
    editor_update_row (set_row ec (<[p := set_chars r cs]> (row ec))) p
      = Some (set_row ec rows')
    /\ rows_indexed rows' /\ length rows' = length (row ec)
    /\ chars <$> rows' = <[p := cs]> (chars <$> row ec)
    /\ (Forall row_ok (row ec) -> Forall row_ok rows').
Proof.
  intros Hidx Hn Hr. pose proof (lookup_lt_Some _ _ _ Hr) as Hp.
  destruct (editor_update_row_spec (set_row ec (<[p := set_chars r cs]> (row ec))) p
              (set_chars r cs)) as (rows' & He & Hi' & Hl' & Hc' & Hok').
  { simpl. eapply rows_indexed_insert; eauto. }
  { simpl. rewrite length_insert. done. }
  { simpl. rewrite list_lookup_insert_eq; done. }
  simpl in *. exists rows'. split; [exact He|].
  rewrite length_insert in Hl'. rewrite list_fmap_insert in Hc'. simpl in Hc'.
  repeat split; try done.
  intros Hok. apply Hok'. intros q x Hq Hx.
  rewrite list_lookup_insert_ne in Hx by done.
  eapply Forall_lookup_1; eauto.
Qed.

Lemma editor_insert_row_spec ec at_ s :
  wf_doc ec -> 0 <= at_ <= num_rows ec ->
  exists rows',
    editor_insert_row ec at_ s
      = Some (set_dirty (set_num_rows (set_row ec rows') (num_rows ec + 1))
                        (int_wrap (dirty ec + 1)))
    /\ rows_indexed rows' /\ length rows' = S (length (row ec))
    /\ chars <$> rows'
       = take (Z.to_nat at_) (raw_text ec) ++ s :: drop (Z.to_nat at_) (raw_text ec)
    /\ (Forall row_ok (row ec) -> Forall row_ok rows').
Proof.
  intros [Hidx Hn] Hat. unfold editor_insert_row.
  destruct (Z.ltb_spec at_ 0); [lia|]. destruct (Z.ltb_spec (num_rows ec) at_); [lia|].
  cbn [orb].
  set (a := Z.to_nat at_).
  rewrite (take_ge (drop a (row ec))) by (rewrite length_drop; lia).
  set (new := {| idx := at_; chars := s; render := []; hl := []; hl_open_comment := false |}).
  set (rows0 := take a (row ec) ++ new :: (shift_idx 1 <$> drop a (row ec))).
  assert (length (take a (row ec)) = a) as Hla by (rewrite length_take; lia).
  assert (rows0 !! a = Some new) as Hnew.
  { unfold rows0. rewrite lookup_app_r by lia. rewrite Hla, Nat.sub_diag. done. }
  assert (rows_indexed rows0) as Hidx0.
  { apply rows_indexed_app. split; [by apply rows_indexed_take|].
    intros [|i] r; simpl.
    - intros [= <-]. simpl. lia.
    - rewrite list_lookup_fmap. intros Hr.
      apply fmap_Some in Hr as (y & Hy & ->).
      rewrite lookup_drop in Hy. apply Hidx in Hy. simpl. lia. }
  assert (length rows0 = S (length (row ec))) as Hl0.
  { unfold rows0. rewrite length_app, Hla. cbn [length].
    rewrite length_fmap, length_drop. lia. }
  destruct (editor_update_row_spec (set_row ec rows0) a new)
    as (rows' & He & Hi' & Hl' & Hc' & Hok'); [done|simpl; lia|done|].
  simpl in *. rewrite He. cbn [mbind option_bind]. exists rows'.
  split; [reflexivity|]. repeat split; try done; try lia.
  - rewrite Hc'. unfold rows0, raw_text.
    rewrite fmap_app, fmap_cons, fmap_chars_shift_idx, fmap_take, fmap_drop. done.
  - intros Hok. apply Hok'. intros q x Hq Hx. unfold rows0 in Hx.
    apply lookup_app_Some in Hx as [Hx|[Hle Hx]].
    + apply lookup_take_Some in Hx as [Hx _]. eapply Forall_lookup_1; eauto.
    + rewrite Hla in Hle, Hx. destruct (q - a)%nat as [|k] eqn:Hk; [lia|].
      simpl in Hx. rewrite list_lookup_fmap in Hx.
      apply fmap_Some in Hx as (y & Hy & ->). rewrite lookup_drop in Hy.
      apply shift_idx_row_ok. eapply Forall_lookup_1; eauto.
Qed.

Lemma editor_del_row_spec ec at_ :
  wf_doc ec -> 0 <= at_ < num_rows ec ->
  exists rows',
    editor_del_row ec at_
      = Some (set_dirty (set_num_rows (set_row ec rows') (num_rows ec - 1))
                        (int_wrap (dirty ec + 1)))
    /\ rows_indexed rows' /\ S (length rows') = length (row ec)
    /\ chars <$> rows'
       = take (Z.to_nat at_) (raw_text ec) ++ drop (S (Z.to_nat at_)) (raw_text ec)
    /\ (Forall row_ok (row ec) -> Forall row_ok rows').
Proof.
  intros [Hidx Hn] Hat. unfold editor_del_row.
  destruct (Z.ltb_spec at_ 0); [lia|]. destruct (Z.leb_spec (num_rows ec) at_); [lia|].
  cbn [orb].
  set (a := Z.to_nat at_).
  rewrite (take_ge (drop (S a) (row ec))) by (rewrite length_drop; lia).
  assert (length (take a (row ec)) = a) as Hla by (rewrite length_take; lia).
  eexists. split; [reflexivity|]. repeat split.
  - apply rows_indexed_app. split; [by apply rows_indexed_take|].
    intros i r. rewrite list_lookup_fmap. intros Hr.
    apply fmap_Some in Hr as (y & Hy & ->).
    rewrite lookup_drop in Hy. apply Hidx in Hy. simpl. lia.
  - rewrite length_app, Hla, length_fmap, length_drop. lia.
  - unfold raw_text.
    rewrite fmap_app, fmap_chars_shift_idx, fmap_take, fmap_drop. done.
  - intros Hok. apply Forall_app. split.
    + by apply Forall_take.
    + apply Forall_fmap. eapply Forall_impl; [apply Forall_drop, Hok|].
      intros x Hx. by apply shift_idx_row_ok.
Qed.

End RowStore.

Section RowCharacters.

Lemma rows_indexed_from_spec rows : forall k,
  rows_indexed_from k rows = true ->
  forall (i : nat) r, rows !! i = Some r -> idx r = k + Z.of_nat i.
Proof.
  induction rows as [|x rows IH]; intros k H i r Hr; [done|].
  cbn [rows_indexed_from] in H. apply andb_prop in H as [Hx Hrest].
  apply Z.eqb_eq in Hx. destruct i as [|i]; simpl in Hr.
  - injection Hr as <-. lia.
  - rewrite (IH _ Hrest _ _ Hr). lia.
Qed.

Lemma wf_doc_check_sound ec : wf_doc_check ec = true -> wf_doc ec.
Proof.
  unfold wf_doc_check. intros H. apply andb_prop in H as [Hi Hn].
  split; [|by apply Z.eqb_eq].
  intros i r Hr. by rewrite (rows_indexed_from_spec _ _ Hi _ _ Hr).
Qed.

Lemma editor_row_insert_char_spec ec p r at_ c :
  wf_doc ec -> row ec !! p = Some r ->
  let k := Z.to_nat (if (at_ <? 0) || (len r <? at_) then len r else at_) in
  exists rows',
    editor_row_insert_char ec p at_ c
    = Some (set_dirty (set_row ec rows') (int_wrap (dirty ec + 1)))
    /\ rows_indexed rows' /\ length rows' = length (row ec)
    /\ chars <$> rows'
       = <[p := take k (chars r) ++ char_of_int c :: drop k (chars r)]> (raw_text ec)
    /\ (Forall row_ok (row ec) -> Forall row_ok rows').
Proof.
  intros [Hidx Hn] Hr k. unfold editor_row_insert_char. rewrite Hr.
  cbn [mbind option_bind]. fold k.
  destruct (update_chars_spec ec p r
              (take k (chars r) ++ char_of_int c :: drop k (chars r)))
    as (rows' & He & H); [done|lia|done|].
  rewrite He. cbn [mbind option_bind]. exists rows'. split; [reflexivity|exact H].
Qed.

Lemma editor_row_append_str_spec ec p r s :
  wf_doc ec -> row ec !! p = Some r ->
  exists rows',
    editor_row_append_str ec p s = Some (set_dirty (set_row ec rows') (int_wrap (dirty ec + 1)))
    /\ rows_indexed rows' /\ length rows' = length (row ec)
    /\ chars <$> rows' = <[p := chars r ++ s]> (raw_text ec)
    /\ (Forall row_ok (row ec) -> Forall row_ok rows').
Proof.
  intros [Hidx Hn] Hr. unfold editor_row_append_str. rewrite Hr.
  cbn [mbind option_bind].
  destruct (update_chars_spec ec p r (chars r ++ s))
    as (rows' & He & H); [done|lia|done|].
  rewrite He. cbn [mbind option_bind]. exists rows'. split; [reflexivity|exact H].
Qed.

Lemma editor_row_del_char_spec ec p r at_ :
  wf_doc ec -> row ec !! p = Some r -> 0 <= at_ < len r ->
  exists rows',
    editor_row_del_char ec p at_ = Some (set_dirty (set_row ec rows') (int_wrap (dirty ec + 1)))
    /\ rows_indexed rows' /\ length rows' = length (row ec)
    /\ chars <$> rows'
       = <[p := take (Z.to_nat at_) (chars r) ++ drop (S (Z.to_nat at_)) (chars r)]>
           (raw_text ec)
    /\ (Forall row_ok (row ec) -> Forall row_ok rows').
Proof.
  intros [Hidx Hn] Hr Hat. unfold editor_row_del_char. rewrite Hr.
  cbn [mbind option_bind].
  destruct (Z.ltb_spec at_ 0); [lia|]. destruct (Z.leb_spec (len r) at_); [lia|].
  cbn [orb].
  destruct (update_chars_spec ec p r
              (take (Z.to_nat at_) (chars r) ++ drop (S (Z.to_nat at_)) (chars r)))
    as (rows' & He & H'); [done|lia|done|].
  rewrite He. cbn [mbind option_bind]. exists rows'. split; [reflexivity|exact H'].
Qed.

Lemma editor_row_del_char_noop ec p r at_ :
  row ec !! p = Some r -> ~ (0 <= at_ < len r) -> editor_row_del_char ec p at_ = Some ec.
Proof.
  intros Hr Hat. unfold editor_row_del_char. rewrite Hr. cbn [mbind option_bind].
  destruct (Z.ltb_spec at_ 0); [done|]. destruct (Z.leb_spec (len r) at_); [done|lia].
Qed.

End RowCharacters.

(** ** Character insertion (C7) *)

Lemma insert_offset_cases (at_ n : Z) :
  (if (at_ <? 0) || (n <? at_) then n else at_)
  = (if decide (0 <= at_ <= n) then at_ else n).
Proof.
  destruct (decide (0 <= at_ <= n));
    destruct (Z.ltb_spec at_ 0); destruct (Z.ltb_spec n at_); cbn [orb]; lia.
Qed.

(** C7, in the form the code satisfies.  [editor_row_insert_char] inserts the byte at offset
    [at] when [0 <= at <= len], and at the end of the row (offset [len])
    for every other [at], negative ones included; the raw text becomes one
    longer, the other bytes keep their order, and no other row's text
    changes. *)
Theorem editor_row_insert_char_offset ec p r at_ c :
  wf_doc ec -> row ec !! p = Some r ->
  exists ec' r',
    editor_row_insert_char ec p at_ c = Some ec'
    /\ row ec' !! p = Some r'
    /\ (let k := Z.to_nat (if decide (0 <= at_ <= len r) then at_ else len r) in
        chars r' = take k (chars r) ++ char_of_int c :: drop k (chars r))
    /\ len r' = len r + 1
    /\ raw_text ec' = <[p := chars r']> (raw_text ec).
Proof.
  intros Hwf Hr.
  destruct (editor_row_insert_char_spec ec p r at_ c Hwf Hr)
    as (rows' & He & _ & Hl & Hc & _).
  rewrite insert_offset_cases in Hc.
  set (k := Z.to_nat (if decide (0 <= at_ <= len r) then at_ else len r)) in *.
  pose proof (lookup_lt_Some _ _ _ Hr) as Hp.
  destruct (lookup_lt_is_Some_2 rows' p) as [r' Hr']; [lia|].
  exists (set_dirty (set_row ec rows') (int_wrap (dirty ec + 1))), r'.
  split; [exact He|]. split; [exact Hr'|].
  assert (chars r' = take k (chars r) ++ char_of_int c :: drop k (chars r)) as Hcr.
  { assert ((chars <$> rows') !! p = Some (chars r')) as Hl1
      by (rewrite list_lookup_fmap, Hr'; done).
    rewrite Hc in Hl1. unfold raw_text in Hl1.
    rewrite list_lookup_insert_eq in Hl1 by (rewrite length_fmap; lia).
    injection Hl1 as <-. done. }
  split; [exact Hcr|]. split.
  - unfold len. rewrite Hcr, length_app. cbn [length].
    rewrite length_take, length_drop. subst k. unfold len in *.
    destruct (decide _); lia.
  - unfold raw_text at 1. simpl. rewrite Hc, Hcr. done.
Qed.

Lemma editor_row_insert_char_offset_witness :
  exists ec' r',
    editor_row_insert_char (plain_doc [plain_row 0 "ab"]) 0 (-1) 120 = Some ec'
    /\ row ec' !! 0%nat = Some r'
    /\ chars r' = str "abx".
Proof.
  destruct (editor_row_insert_char_offset (plain_doc [plain_row 0 "ab"]) 0
              (plain_row 0 "ab") (-1) 120) as (ec' & r' & He & Hr' & Hc & _).
  - apply wf_doc_check_sound. vm_compute. reflexivity.
  - reflexivity.
  - exists ec', r'. split; [exact He|]. split; [exact Hr'|]. exact Hc.
Defined.

(** C7 as stated fails for a negative offset: with the row "ab" and
    [at = -1] the code appends 'x' and yields "abx", whereas the offset
    clamped to [[0, len]] is 0 and would yield "xab". *)
Lemma editor_row_insert_char_clamp_counterexample :
  (chars <$> (editor_row_insert_char (plain_doc [plain_row 0 "ab"]) 0 (-1) 120
                ≫= fun ec' => row ec' !! 0%nat))
    = Some (str "abx")
  /\ take (Z.to_nat (clamp 0 (len (plain_row 0 "ab")) (-1))) (str "ab")
       ++ char_of_int 120
          :: drop (Z.to_nat (clamp 0 (len (plain_row 0 "ab")) (-1))) (str "ab")
     = str "xab"
  /\ str "abx" <> str "xab".
Proof.
  split; [vm_compute; reflexivity|]. split; [vm_compute; reflexivity|].
  vm_compute. discriminate.
Qed.

(** ** Editor operations *)

Section EditorOperations.

Lemma row_ptr_nonneg i : 0 <= i -> row_ptr i = Some (Z.to_nat i).
Proof. intros H. unfold row_ptr. destruct (Z.leb_spec 0 i); [done|lia]. Qed.

Lemma wf_doc_intro ec rows n d x y :
  rows_indexed rows -> n = Z.of_nat (length rows) ->
  wf_doc (set_cursor (set_dirty (set_num_rows (set_row ec rows) n) d) x y).
Proof. intros Hi Hn. split; simpl; done. Qed.

(** Typing on the line after the last row: a row is appended first. *)
Lemma editor_insert_char_at_end ec c :
  wf_doc ec -> cursor_y ec = num_rows ec ->
  exists rows',
    editor_insert_char ec c
      = Some (set_cursor (set_dirty (set_num_rows (set_row ec rows') (num_rows ec + 1))
                                    (int_wrap (dirty ec + 2)))
                         (cursor_x ec + 1) (cursor_y ec))
    /\ rows_indexed rows' /\ length rows' = S (length (row ec))
    /\ chars <$> rows' = raw_text ec ++ [[char_of_int c]]
    /\ (Forall row_ok (row ec) -> Forall row_ok rows').
Proof.
  intros Hwf Hy. pose proof Hwf as [Hidx Hn]. unfold editor_insert_char.
  rewrite Hy, Z.eqb_refl.
  destruct (editor_insert_row_spec ec (num_rows ec) [] Hwf)
    as (rows1 & He1 & Hi1 & Hl1 & Hc1 & Hok1); [lia|].
  rewrite He1. cbn [mbind option_bind]. cbn [cursor_y set_dirty set_num_rows set_row].
  rewrite Hy, row_ptr_nonneg by lia. cbn [mbind option_bind].
  set (ec1 := set_dirty (set_num_rows (set_row ec rows1) (num_rows ec + 1))
                        (int_wrap (dirty ec + 1))).
  set (p := Z.to_nat (num_rows ec)).
  assert (p = length (row ec)) as Hp by lia.
  unfold raw_text in *.
  rewrite take_ge, drop_ge in Hc1 by (rewrite length_fmap; lia).
  destruct (lookup_lt_is_Some_2 rows1 p) as [r1 Hr1]; [lia|].
  assert (chars r1 = []) as Hcr1.
  { assert ((chars <$> rows1) !! p = Some (chars r1)) as Hl
      by (rewrite list_lookup_fmap, Hr1; done).
    rewrite Hc1, lookup_app_r in Hl by (rewrite length_fmap; lia).
    rewrite length_fmap, Hp, Nat.sub_diag in Hl. by injection Hl as <-. }
  destruct (editor_row_insert_char_spec ec1 p r1 (cursor_x ec) c)
    as (rows2 & He2 & Hi2 & Hl2 & Hc2 & Hok2).
  { split; simpl; [done|lia]. }
  { done. }
  change (cursor_x ec1) with (cursor_x ec). rewrite He2. cbn [mbind option_bind].
  exists rows2. split.
  { simpl. rewrite Hy, int_wrap_succ_succ. reflexivity. }
  simpl in *. repeat split; try done; try lia.
  - rewrite Hc2. unfold raw_text. simpl. rewrite Hc1, Hcr1.
    rewrite take_nil, drop_nil. simpl.
    rewrite insert_app_r_alt by (rewrite length_fmap; lia).
    rewrite length_fmap, Hp, Nat.sub_diag. done.
  - auto.
Qed.

(** Typing on an existing row. *)
Lemma editor_insert_char_in_row ec c r :
  wf_doc ec -> 0 <= cursor_y ec -> row ec !! Z.to_nat (cursor_y ec) = Some r ->
  let k := Z.to_nat (if (cursor_x ec <? 0) || (len r <? cursor_x ec)
                     then len r else cursor_x ec) in
  exists rows',
    editor_insert_char ec c
      = Some (set_cursor (set_dirty (set_row ec rows') (int_wrap (dirty ec + 1)))
                         (cursor_x ec + 1) (cursor_y ec))
    /\ rows_indexed rows' /\ length rows' = length (row ec)
    /\ chars <$> rows'
       = <[Z.to_nat (cursor_y ec) :=
             take k (chars r) ++ char_of_int c :: drop k (chars r)]> (raw_text ec)
    /\ (Forall row_ok (row ec) -> Forall row_ok rows').
Proof.
  intros Hwf Hy Hr k. pose proof Hwf as [Hidx Hn]. unfold editor_insert_char.
  pose proof (lookup_lt_Some _ _ _ Hr) as Hp.
  destruct (Z.eqb_spec (cursor_y ec) (num_rows ec)); [lia|].
  cbn [mbind option_bind]. rewrite row_ptr_nonneg by done. cbn [mbind option_bind].
  destruct (editor_row_insert_char_spec ec _ r (cursor_x ec) c Hwf Hr)
    as (rows' & He & Hi & Hl & Hc & Hok).
  rewrite He. cbn [mbind option_bind]. exists rows'. split; [reflexivity|done].
Qed.

End EditorOperations.

(** C10. With the cursor on the line one past the last row,
    [editor_insert_char] appends one row and puts the byte in it: the row
    count grows by exactly 1, the rows before keep their text, the new last
    row's raw content is the single inserted byte, and [cursor_x] advances
    by 1. *)
Theorem editor_insert_char_appends_row ec c :
  wf_doc ec -> cursor_y ec = num_rows ec ->
  exists ec' r',
    editor_insert_char ec c = Some ec'
    /\ num_rows ec' = num_rows ec + 1
    /\ length (row ec') = S (length (row ec))
    /\ raw_text ec' = raw_text ec ++ [[char_of_int c]]
    /\ last (row ec') = Some r' /\ chars r' = [char_of_int c]
    /\ cursor_x ec' = cursor_x ec + 1.
Proof.
  intros Hwf Hy.
  destruct (editor_insert_char_at_end ec c Hwf Hy) as (rows' & He & _ & Hl & Hc & _).
  assert (exists r', last rows' = Some r' /\ chars r' = [char_of_int c]) as (r' & Hr' & Hcr').
  { assert (last (chars <$> rows') = Some [char_of_int c]) as Hlast
      by (rewrite Hc, last_snoc; done).
    rewrite fmap_last in Hlast. apply fmap_Some in Hlast as (r' & ? & ?). eauto. }
  eexists _, r'. split; [exact He|]. simpl. unfold raw_text at 1. simpl.
  repeat split; done.
Qed.

Lemma editor_insert_char_appends_row_witness :
  exists ec' r',
    editor_insert_char (plain_doc []) 97 = Some ec'
    /\ num_rows ec' = 1 /\ last (row ec') = Some r' /\ chars r' = str "a"
    /\ cursor_x ec' = 1.
Proof.
  destruct (editor_insert_char_appends_row (plain_doc []) 97)
    as (ec' & r' & He & Hn & _ & _ & Hr' & Hc & Hx).
  - apply wf_doc_check_sound. vm_compute. reflexivity.
  - reflexivity.
  - exists ec', r'. repeat split; assumption.
Defined.

(** ** Every mutation keeps the invariants and bumps the dirty counter *)

Section Mutations.

(** Closes the goal that the counter was incremented once or twice. *)
Ltac dirty_step := rewrite ?int_wrap_succ_succ; first [by left | by right].

Lemma mutation_post_intro ec ec' :
  rows_indexed (row ec') -> num_rows ec' = Z.of_nat (length (row ec')) ->
  (Forall row_ok (row ec) -> Forall row_ok (row ec')) ->
  dirty ec' = int_wrap (dirty ec + 1) \/ dirty ec' = int_wrap (dirty ec + 2) ->
  mutation_post ec ec'.
Proof.
  intros Hi Hn Hok Hd. split; [by split|]. split; [exact Hok|]. by right.
Qed.

Lemma mutation_post_refl ec : wf_doc ec -> mutation_post ec ec.
Proof. intros Hwf. split; [done|]. split; [done|]. by left. Qed.

Lemma editor_insert_row_post ec at_ s :
  wf_doc ec ->
  exists ec', editor_insert_row ec at_ s = Some ec' /\ mutation_post ec ec'.
Proof.
  intros Hwf.
  destruct (decide (0 <= at_ <= num_rows ec)) as [Hat|Hat].
  - destruct (editor_insert_row_spec ec at_ s Hwf Hat) as (rows' & He & Hi & Hl & _ & Hok).
    eexists. split; [exact He|].
    destruct Hwf as [_ Hn].
    apply mutation_post_intro; simpl; [done|lia|done|dirty_step].
  - exists ec. split; [|by apply mutation_post_refl].
    unfold editor_insert_row.
    destruct (Z.ltb_spec at_ 0); [done|].
    destruct (Z.ltb_spec (num_rows ec) at_); [done|lia].
Qed.

Lemma editor_del_row_post ec at_ :
  wf_doc ec ->
  exists ec', editor_del_row ec at_ = Some ec' /\ mutation_post ec ec'.
Proof.
  intros Hwf.
  destruct (decide (0 <= at_ < num_rows ec)) as [Hat|Hat].
  - destruct (editor_del_row_spec ec at_ Hwf Hat) as (rows' & He & Hi & Hl & _ & Hok).
    eexists. split; [exact He|].
    destruct Hwf as [_ Hn].
    apply mutation_post_intro; simpl; [done|lia|done|dirty_step].
  - exists ec. split; [|by apply mutation_post_refl].
    unfold editor_del_row.
    destruct (Z.ltb_spec at_ 0); [done|].
    destruct (Z.leb_spec (num_rows ec) at_); [done|lia].
Qed.

Lemma cursor_ok_at_column_0 ec :
  cursor_x ec = 0 -> 0 <= cursor_y ec <= num_rows ec -> cursor_ok ec.
Proof.
  intros Hx Hy. unfold cursor_ok. split; [done|]. split; [lia|].
  destruct (row ec !! _); unfold len; lia.
Qed.

Lemma cursor_ok_in_text ec cs :
  0 <= cursor_y ec <= num_rows ec ->
  raw_text ec !! Z.to_nat (cursor_y ec) = Some cs ->
  0 <= cursor_x ec <= Z.of_nat (length cs) -> cursor_ok ec.
Proof.
  intros Hy Hcs Hx. unfold cursor_ok. split; [done|]. split; [lia|].
  unfold raw_text in Hcs. rewrite list_lookup_fmap in Hcs.
  destruct (row ec !! _) as [r|]; [|discriminate].
  injection Hcs as <-. unfold len. lia.
Qed.

Lemma editor_insert_newline_post ec :
  wf_doc ec -> cursor_ok ec ->
  exists ec',
    editor_insert_newline ec = Some ec' /\ mutation_post ec ec' /\ cursor_ok ec'.
Proof.
  intros Hwf (Hy & Hx & Hrow). pose proof Hwf as [Hidx Hn].
  unfold editor_insert_newline.
  destruct (Z.eqb_spec (cursor_x ec) 0) as [Hx0|Hx0].
  - destruct (editor_insert_row_spec ec (cursor_y ec) [] Hwf Hy)
      as (rows' & He & Hi & Hl & _ & Hok).
    rewrite He. cbn [mbind option_bind]. eexists. split; [reflexivity|]. split.
    + apply mutation_post_intro; simpl; [done|lia|done|dirty_step].
    + apply cursor_ok_at_column_0; simpl; lia.
  - destruct (row ec !! Z.to_nat (cursor_y ec)) as [r|] eqn:Hr; [|lia].
    pose proof (lookup_lt_Some _ _ _ Hr) as Hp.
    rewrite row_ptr_nonneg by lia. cbn [mbind option_bind]. rewrite Hr.
    cbn [mbind option_bind].
    destruct (editor_insert_row_spec ec (cursor_y ec + 1)
                (drop (Z.to_nat (cursor_x ec)) (chars r)) Hwf)
      as (rows1 & He1 & Hi1 & Hl1 & _ & Hok1); [lia|].
    rewrite He1. cbn [mbind option_bind].
    set (ec1 := set_dirty (set_num_rows (set_row ec rows1) (num_rows ec + 1))
                          (int_wrap (dirty ec + 1))).
    change (row ec1) with rows1.
    destruct (lookup_lt_is_Some_2 rows1 (Z.to_nat (cursor_y ec))) as [r1 Hr1]; [lia|].
    rewrite Hr1. cbn [mbind option_bind].
    destruct (update_chars_spec ec1 (Z.to_nat (cursor_y ec)) r1
                (take (Z.to_nat (cursor_x ec1)) (chars r1)))
      as (rows2 & He2 & Hi2 & Hl2 & _ & Hok2); [done|simpl; lia|done|].
    change (row ec1) with rows1 in He2. rewrite He2. cbn [mbind option_bind].
    eexists. split; [reflexivity|]. simpl in *. split.
    + apply mutation_post_intro; simpl; [done|lia|auto|dirty_step].
    + apply cursor_ok_at_column_0; simpl; lia.
Qed.

Lemma editor_del_char_post ec :
  wf_doc ec -> cursor_ok ec ->
  exists ec',
    editor_del_char ec = Some ec' /\ mutation_post ec ec' /\ cursor_ok ec'.
Proof.
  intros Hwf Hcur. pose proof Hcur as (Hy & Hx & Hrow). pose proof Hwf as [Hidx Hn].
  unfold editor_del_char.
  destruct (Z.eqb_spec (cursor_y ec) (num_rows ec)) as [Hend|Hend].
  { exists ec. split; [done|]. split; [by apply mutation_post_refl|done]. }
  destruct ((cursor_x ec =? 0) && (cursor_y ec =? 0)) eqn:Horigin.
  { exists ec. split; [done|]. split; [by apply mutation_post_refl|done]. }
  destruct (lookup_lt_is_Some_2 (row ec) (Z.to_nat (cursor_y ec))) as [r Hr]; [lia|].
  rewrite Hr in Hrow.
  rewrite (row_ptr_nonneg (cursor_y ec)) by lia. cbn [mbind option_bind]. rewrite Hr.
  cbn [mbind option_bind].
  destruct (Z.ltb_spec 0 (cursor_x ec)) as [Hpos|Hzero].
  - destruct (editor_row_del_char_spec ec _ r (cursor_x ec - 1) Hwf Hr)
      as (rows' & He & Hi & Hl & Hc & Hok); [lia|].
    rewrite He. cbn [mbind option_bind]. eexists. split; [reflexivity|]. split.
    + apply mutation_post_intro; simpl; [done|lia|done|dirty_step].
    + eapply cursor_ok_in_text; simpl; [lia| |].
      * unfold raw_text. simpl. rewrite Hc.
        apply list_lookup_insert_eq. unfold raw_text. rewrite length_fmap. lia.
      * rewrite length_app, length_take, length_drop. unfold len in *. lia.
  - assert (cursor_x ec = 0) as Hx0 by lia.
    assert (cursor_y ec <> 0) as Hy0.
    { intros Hy0. rewrite Hx0, Hy0 in Horigin. discriminate. }
    rewrite row_ptr_nonneg by lia. cbn [mbind option_bind].
    destruct (lookup_lt_is_Some_2 (row ec) (Z.to_nat (cursor_y ec - 1)))
      as [prev Hprev]; [lia|].
    rewrite Hprev. cbn [mbind option_bind].
    set (ec0 := set_cursor ec (len prev) (cursor_y ec)).
    destruct (editor_row_append_str_spec ec0 (Z.to_nat (cursor_y ec - 1)) prev (chars r))
      as (rows1 & He1 & Hi1 & Hl1 & Hc1 & Hok1); [done|done|].
    rewrite He1. cbn [mbind option_bind].
    set (ec1 := set_dirty (set_row ec0 rows1) (int_wrap (dirty ec0 + 1))).
    destruct (editor_del_row_spec ec1 (cursor_y ec1))
      as (rows2 & He2 & Hi2 & Hl2 & Hc2 & Hok2).
    { split; simpl in *; [done|lia]. }
    { simpl. lia. }
    rewrite He2. cbn [mbind option_bind]. eexists. split; [reflexivity|].
    simpl in *. split.
    + apply mutation_post_intro; simpl; [done|lia|auto|dirty_step].
    + eapply (cursor_ok_in_text _ (chars prev ++ chars r)); simpl; [lia| |].
      * unfold raw_text in *. simpl in *. rewrite Hc2, Hc1.
        rewrite lookup_app_l by (rewrite length_take, length_insert, length_fmap; lia).
        rewrite lookup_take_lt by lia.
        apply list_lookup_insert_eq. rewrite length_fmap. lia.
      * rewrite length_app. unfold len. lia.
Qed.

Lemma editor_insert_char_post ec c :
  wf_doc ec -> cursor_ok ec ->
  exists ec',
    editor_insert_char ec c = Some ec' /\ mutation_post ec ec' /\ cursor_ok ec'.
Proof.
  intros Hwf (Hy & Hx & Hrow). pose proof Hwf as [Hidx Hn].
  destruct (decide (cursor_y ec = num_rows ec)) as [Hend|Hend].
  - destruct (editor_insert_char_at_end ec c Hwf Hend)
      as (rows' & He & Hi & Hl & Hc & Hok).
    rewrite lookup_ge_None_2 in Hrow by lia.
    eexists. split; [exact He|]. split.
    + apply mutation_post_intro; simpl; [done|lia|done|dirty_step].
    + eapply (cursor_ok_in_text _ [char_of_int c]); simpl; [lia| |lia].
      unfold raw_text in *. simpl. rewrite Hc.
      rewrite lookup_app_r by (rewrite length_fmap; lia).
      rewrite length_fmap.
      replace (Z.to_nat (cursor_y ec) - length (row ec))%nat with 0%nat by lia.
      done.
  - destruct (lookup_lt_is_Some_2 (row ec) (Z.to_nat (cursor_y ec))) as [r Hr]; [lia|].
    rewrite Hr in Hrow.
    destruct (editor_insert_char_in_row ec c r Hwf) as (rows' & He & Hi & Hl & Hc & Hok);
      [lia|done|].
    eexists. split; [exact He|]. split.
    + apply mutation_post_intro; simpl; [done|lia|done|dirty_step].
    + eapply cursor_ok_in_text; simpl; [lia| |].
      * unfold raw_text in *. simpl. rewrite Hc.
        apply list_lookup_insert_eq. rewrite length_fmap. lia.
      * rewrite length_app. cbn [length]. rewrite length_take, length_drop.
        unfold len in *. lia.
Qed.

Lemma apply_mutation_post m ec :
  wf_doc ec -> mutation_valid m ec ->
  exists ec', apply_mutation m ec = Some ec' /\ mutation_post ec ec'.
Proof.
  intros Hwf Hv. destruct m as [at_ s|at_|p at_ c|p at_|p s|c| |]; simpl in *.
  - by apply editor_insert_row_post.
  - by apply editor_del_row_post.
  - destruct (lookup_lt_is_Some_2 _ _ Hv) as [r Hr].
    destruct (editor_row_insert_char_spec ec p r at_ c Hwf Hr)
      as (rows' & He & Hi & Hl & _ & Hok).
    eexists. split; [exact He|].
    destruct Hwf as [_ Hn].
    apply mutation_post_intro; simpl; [done|lia|done|dirty_step].
  - destruct (lookup_lt_is_Some_2 _ _ Hv) as [r Hr].
    destruct (decide (0 <= at_ < len r)) as [Hat|Hat].
    + destruct (editor_row_del_char_spec ec p r at_ Hwf Hr Hat)
        as (rows' & He & Hi & Hl & _ & Hok).
      eexists. split; [exact He|].
      destruct Hwf as [_ Hn].
    apply mutation_post_intro; simpl; [done|lia|done|dirty_step].
    + exists ec. split; [by eapply editor_row_del_char_noop|by apply mutation_post_refl].
  - destruct (lookup_lt_is_Some_2 _ _ Hv) as [r Hr].
    destruct (editor_row_append_str_spec ec p r s Hwf Hr)
      as (rows' & He & Hi & Hl & _ & Hok).
    eexists. split; [exact He|].
    destruct Hwf as [_ Hn].
    apply mutation_post_intro; simpl; [done|lia|done|dirty_step].
  - destruct (editor_insert_char_post ec c Hwf Hv) as (ec' & ? & ? & _). eauto.
  - destruct (editor_insert_newline_post ec Hwf Hv) as (ec' & ? & ? & _). eauto.
  - destruct (editor_del_char_post ec Hwf Hv) as (ec' & ? & ? & _). eauto.
Qed.

End Mutations.

(** C3. Every document mutation (row insertion and deletion, character
    insertion and deletion, appending text, splitting a row with a newline,
    and the editor operations built on them) returns, and afterwards every
    row has [rlen >= len] and a highlight array of exactly [rlen] elements.
    The hypotheses hold throughout a session (see [editor_proc_key_ok]). *)
Theorem mutation_keeps_row_lengths m ec :
  wf_doc ec -> doc_ok ec -> mutation_valid m ec ->
  exists ec',
    apply_mutation m ec = Some ec'
    /\ wf_doc ec'
    /\ forall r, r ∈ row ec' -> len r <= rlen r /\ Z.of_nat (length (hl r)) = rlen r.
Proof.
  intros Hwf Hok Hv.
  destruct (apply_mutation_post m ec Hwf Hv) as (ec' & He & Hwf' & Hok' & _).
  exists ec'. split; [exact He|]. split; [exact Hwf'|].
  intros r Hr. specialize (Hok' Hok). unfold doc_ok in Hok'.
  rewrite Forall_forall in Hok'. destruct (Hok' r Hr) as [Hle Hl].
  unfold len, rlen. lia.
Qed.

Lemma mutation_keeps_row_lengths_witness :
  let ec := set_cursor (plain_doc [plain_row 0 "a	b"; plain_row 1 "cd"]) 2 0 in
  exists ec',
    apply_mutation MInsertNewline ec = Some ec'
    /\ wf_doc ec'
    /\ forall r, r ∈ row ec' -> len r <= rlen r /\ Z.of_nat (length (hl r)) = rlen r.
Proof.
  apply (mutation_keeps_row_lengths MInsertNewline
           (set_cursor (plain_doc [plain_row 0 "a	b"; plain_row 1 "cd"]) 2 0)).
  - apply wf_doc_check_sound. vm_compute. reflexivity.
  - repeat constructor; vm_compute; lia.
  - unfold mutation_valid, cursor_ok. simpl. unfold len. simpl. lia.
Defined.

(** ** Loading and saving *)

Section FileIO.

Lemma update_syntax_rows_spec : forall n k ec,
  rows_indexed (row ec) -> num_rows ec <= Z.of_nat (length (row ec)) ->
  (k + n <= length (row ec))%nat ->
  exists rows',
    update_syntax_rows n k ec = Some (set_row ec rows')
    /\ Forall2 hl_updated (row ec) rows'.
Proof.
  induction n as [|n IH]; intros k ec Hidx Hn Hk; cbn [update_syntax_rows].
  - exists (row ec). split; [by destruct ec|reflexivity].
  - destruct (editor_update_syntax_spec ec k Hidx Hn) as (rows1 & He1 & HF1 & _); [lia|].
    rewrite He1. cbn [mbind option_bind].
    pose proof (Forall2_length _ _ _ HF1) as Hl1.
    destruct (IH (S k) (set_row ec rows1)) as (rows2 & He2 & HF2).
    + simpl. eapply rows_indexed_updated; eauto.
    + simpl. lia.
    + simpl. lia.
    + exists rows2. split; [exact He2|]. simpl in HF2. by etrans.
Qed.

Lemma editor_select_syntax_highlight_spec ec :
  wf_doc ec ->
  exists rows' syn,
    editor_select_syntax_highlight ec = Some (set_syntax (set_row ec rows') syn)
    /\ Forall2 hl_updated (row ec) rows'.
Proof.
  intros [Hidx Hn]. unfold editor_select_syntax_highlight.
  cbn [filename set_syntax].
  destruct (filename ec) as [fname|].
  2:{ exists (row ec), None. split; [by destruct ec|reflexivity]. }
  destruct (select_syntax HLDB fname (strrchr fname "."%char)) as [s|].
  2:{ exists (row ec), None. split; [by destruct ec|reflexivity]. }
  set (ec1 := set_syntax (set_syntax ec None) (Some s)).
  destruct (update_syntax_rows_spec (Z.to_nat (num_rows ec1)) 0 ec1) as (rows' & He & HF).
  - done.
  - simpl. lia.
  - simpl. lia.
  - exists rows', (Some s). split; [exact He|exact HF].
Qed.

Lemma hl_updated_rows_ok rows rows' :
  Forall2 hl_updated rows rows' -> Forall row_ok rows -> Forall row_ok rows'.
Proof.
  induction 1 as [|r r' rows rows' Hu _ IH]; [done|].
  intros Hok. apply Forall_cons in Hok as [Hr Hrows].
  constructor; [by eapply hl_updated_row_ok|by apply IH].
Qed.

Lemma editor_select_syntax_highlight_wf ec :
  wf_doc ec ->
  exists ec',
    editor_select_syntax_highlight ec = Some ec'
    /\ wf_doc ec' /\ raw_text ec' = raw_text ec /\ dirty ec' = dirty ec
    /\ filename ec' = filename ec
    /\ (doc_ok ec -> doc_ok ec')
    /\ cursor_x ec' = cursor_x ec /\ cursor_y ec' = cursor_y ec
    /\ num_rows ec' = num_rows ec.
Proof.
  intros Hwf. destruct (editor_select_syntax_highlight_spec ec Hwf) as (rows' & syn & He & HF).
  destruct Hwf as [Hidx Hn].
  eexists. split; [exact He|]. unfold raw_text, doc_ok. simpl.
  split; [|split; [by apply hl_updated_chars|]].
  - split; simpl; [by eapply rows_indexed_updated|].
    apply Forall2_length in HF. lia.
  - repeat split; try done. by apply hl_updated_rows_ok.
Qed.

Lemma open_lines_spec lines : forall ec,
  wf_doc ec ->
  exists ec',
    open_lines lines ec = Some ec'
    /\ wf_doc ec' /\ raw_text ec' = raw_text ec ++ (strip_line <$> lines)
    /\ (doc_ok ec -> doc_ok ec')
    /\ cursor_x ec' = cursor_x ec /\ cursor_y ec' = cursor_y ec
    /\ num_rows ec <= num_rows ec'.
Proof.
  induction lines as [|line lines IH]; intros ec Hwf; cbn [open_lines].
  - exists ec. rewrite app_nil_r.
    split; [done|]. split; [done|]. split; [done|]. split; [done|].
    split; [done|]. split; [done|]. lia.
  - pose proof Hwf as [Hidx Hn].
    destruct (editor_insert_row_spec ec (num_rows ec) (strip_line line) Hwf)
      as (rows1 & He1 & Hi1 & Hl1 & Hc1 & Hok1); [lia|].
    unfold strip_line in He1. rewrite He1. cbn [mbind option_bind].
    destruct (IH (set_dirty (set_num_rows (set_row ec rows1) (num_rows ec + 1))
                            (int_wrap (dirty ec + 1))))
      as (ec' & He' & Hwf' & Hc' & Hok' & Hx' & Hy' & Hn').
    { split; simpl; [done|lia]. }
    simpl in *. exists ec'. split; [exact He'|]. split; [exact Hwf'|].
    split; [|split; [|split; [done|split; [done|lia]]]].
    + rewrite Hc'. unfold raw_text at 1. simpl. rewrite Hc1.
      unfold raw_text. rewrite take_ge, drop_ge by (rewrite length_fmap; lia).
      rewrite <- app_assoc. done.
    + intros Hok. apply Hok', Hok1, Hok.
Qed.

Lemma editor_open_spec ec fname lines :
  wf_doc ec ->
  exists ec',
    editor_open ec fname lines = Some ec'
    /\ wf_doc ec' /\ dirty ec' = 0
    /\ raw_text ec' = raw_text ec ++ (strip_line <$> lines)
    /\ (doc_ok ec -> doc_ok ec')
    /\ cursor_x ec' = cursor_x ec /\ cursor_y ec' = cursor_y ec
    /\ num_rows ec <= num_rows ec'.
Proof.
  intros Hwf. unfold editor_open.
  destruct (editor_select_syntax_highlight_wf (set_filename ec (Some (cstr fname))))
    as (ec1 & He1 & Hwf1 & Hc1 & _ & _ & Hok1 & Hx1 & Hy1 & Hn1); [done|].
  rewrite He1. cbn [mbind option_bind].
  destruct (open_lines_spec lines ec1 Hwf1)
    as (ec2 & He2 & Hwf2 & Hc2 & Hok2 & Hx2 & Hy2 & Hn2).
  rewrite He2. cbn [mbind option_bind].
  eexists. split; [reflexivity|]. split; [|split; [done|]].
  - destruct Hwf2. split; done.
  - unfold raw_text, doc_ok in *. simpl in *.
    split; [congruence|]. split; [auto|]. split; [congruence|].
    split; [congruence|lia].
Qed.

Lemma save_write_spec io ec :
  let '(ec', ok) := save_write io ec in
  (ok = true <->
     open_ok io = true /\ ftruncate_ok io = true
     /\ write_result io = Z.of_nat (length (editor_rows2str ec)))
  /\ dirty ec' = (if ok then 0 else dirty ec)
  /\ row ec' = row ec /\ num_rows ec' = num_rows ec.
Proof.
  unfold save_write.
  destruct (open_ok io); destruct (ftruncate_ok io); cbn [andb];
    try (split; [split; [discriminate|intros (? & ? & ?); discriminate]|done]).
  destruct (Z.eqb_spec (write_result io) (Z.of_nat (length (editor_rows2str ec)))).
  - split; [split; done|done].
  - split; [split; [discriminate|intros (? & ? & ?); done]|done].
Qed.

Lemma editor_rows2str_ext ec ec' :
  row ec' = row ec -> num_rows ec' = num_rows ec ->
  editor_rows2str ec' = editor_rows2str ec.
Proof. intros Hr Hn. unfold editor_rows2str. by rewrite Hr, Hn. Qed.

Lemma editor_save_spec io ec :
  wf_doc ec ->
  exists ec' ok,
    editor_save io ec = Some (ec', ok)
    /\ (ok = true <->
          filename ec' <> None /\ open_ok io = true /\ ftruncate_ok io = true
          /\ write_result io = Z.of_nat (length (editor_rows2str ec')))
    /\ dirty ec' = (if ok then 0 else dirty ec)
    /\ raw_text ec' = raw_text ec.
Proof.
  intros Hwf. unfold editor_save.
  destruct (filename ec) as [f|] eqn:Hf.
  - pose proof (save_write_spec io ec) as Hs.
    destruct (save_write io ec) as [ec' ok] eqn:Hsw.
    destruct Hs as (Hok & Hd & Hr & Hn).
    exists ec', ok. split; [done|]. split; [|split; [done|]].
    + rewrite (editor_rows2str_ext ec ec') by done. rewrite Hok.
      assert (filename ec' = Some f) as ->;
        [|split; [intros H'; split; [done|exact H']|intros [_ H']; exact H']].
      unfold save_write in Hsw. destruct (_ && _); injection Hsw as <- <-; done.
    + unfold raw_text. by rewrite Hr.
  - destruct (prompt_result io) as [f|].
    + destruct (editor_select_syntax_highlight_wf (set_filename ec (Some f)))
        as (ec1 & He1 & Hwf1 & Hc1 & Hd1 & Hf1 & _); [done|].
      rewrite He1. cbn [mbind option_bind].
      pose proof (save_write_spec io ec1) as Hs.
      destruct (save_write io ec1) as [ec' ok] eqn:Hsw.
      destruct Hs as (Hok & Hd & Hr & Hn).
      exists ec', ok. split; [done|]. split; [|split].
      * rewrite (editor_rows2str_ext ec1 ec') by done. rewrite Hok.
        assert (filename ec' = Some f) as ->;
        [|split; [intros H'; split; [done|exact H']|intros [_ H']; exact H']].
        unfold save_write in Hsw. simpl in Hf1.
        destruct (_ && _); injection Hsw as <- <-; done.
      * rewrite Hd. simpl in Hd1. by rewrite Hd1.
      * unfold raw_text in *. rewrite Hr. done.
    + exists (set_filename ec None), false. split; [done|]. split; [|done].
      simpl. split; [discriminate|]. intros [? _]. done.
Qed.

End FileIO.

(** C8, in the form the code satisfies.  The dirty counter is 0 right
    after a file is loaded.  Every mutation either returns the state as it
    was or increments the counter [k] times, once or twice, each time with
    the wrap-around of [int]; the counter never keeps its value when the
    raw text changed; and when the [k] increments do not overflow
    ([dirty + k <= INT_MAX]) the counter is no smaller afterwards, and
    strictly greater whenever the raw text of the document changed.  A save
    resets the counter to 0 exactly when it is reported successful, that is
    when the file could be opened and truncated and [write] returned the
    full length of the serialized buffer, and leaves the counter unchanged
    otherwise. *)
Theorem dirty_counter_discipline :
  (forall ec fname lines,
      wf_doc ec ->
      exists ec', editor_open ec fname lines = Some ec' /\ dirty ec' = 0)
  /\ (forall m ec,
         wf_doc ec -> mutation_valid m ec ->
         exists ec' k,
           apply_mutation m ec = Some ec'
           /\ 0 <= k <= 2
           /\ (k = 0 -> ec' = ec)
           /\ (0 < k -> dirty ec' = int_wrap (dirty ec + k))
           /\ (raw_text ec' <> raw_text ec -> dirty ec' <> dirty ec)
           /\ (INT_MIN <= dirty ec -> dirty ec + k <= INT_MAX ->
               dirty ec <= dirty ec'
               /\ (raw_text ec' <> raw_text ec -> dirty ec < dirty ec')))
  /\ (forall io ec,
         wf_doc ec ->
         exists ec' ok,
           editor_save io ec = Some (ec', ok)
           /\ (ok = true <->
                 filename ec' <> None /\ open_ok io = true /\ ftruncate_ok io = true
                 /\ write_result io = Z.of_nat (length (editor_rows2str ec')))
           /\ dirty ec' = (if ok then 0 else dirty ec)).
Proof.
  split; [|split].
  - intros ec fname lines Hwf.
    destruct (editor_open_spec ec fname lines Hwf) as (ec' & He & _ & Hd & _).
    eauto.
  - intros m ec Hwf Hv.
    destruct (apply_mutation_post m ec Hwf Hv) as (ec' & He & _ & _ & Hd).
    assert (forall k, 0 < k <= 2 -> dirty ec' = int_wrap (dirty ec + k) ->
              (raw_text ec' <> raw_text ec -> dirty ec' <> dirty ec)
              /\ (INT_MIN <= dirty ec -> dirty ec + k <= INT_MAX ->
                  dirty ec <= dirty ec'
                  /\ (raw_text ec' <> raw_text ec -> dirty ec < dirty ec'))) as Hk.
    { intros k Hk Hd'. split.
      - intros _. rewrite Hd'. apply int_wrap_neq. lia.
      - intros Hlo Hhi. rewrite Hd', int_wrap_incr by lia. lia. }
    exists ec'. destruct Hd as [->|[Hd|Hd]].
    + exists 0. split; [exact He|]. split; [lia|]. split; [done|].
      split; [lia|]. split; [done|]. intros _ _. split; [lia|done].
    + exists 1. split; [exact He|]. split; [lia|]. split; [lia|].
      split; [done|]. apply Hk; [lia|done].
    + exists 2. split; [exact He|]. split; [lia|]. split; [lia|].
      split; [done|]. apply Hk; [lia|done].
  - intros io ec Hwf.
    destruct (editor_save_spec io ec Hwf) as (ec' & ok & He & Hok & Hd & _).
    exists ec', ok. done.
Qed.

Lemma dirty_counter_discipline_witness :
  exists ec',
    apply_mutation (MInsertChar 97) (plain_doc []) = Some ec' /\ 0 < dirty ec'.
Proof.
  destruct (proj1 (proj2 dirty_counter_discipline) (MInsertChar 97) (plain_doc []))
    as (ec' & k & He & Hk & _ & _ & _ & Hlt).
  - apply wf_doc_check_sound. vm_compute. reflexivity.
  - unfold mutation_valid, cursor_ok. simpl. lia.
  - exists ec'. split; [exact He|].
    change (dirty (plain_doc [])) with 0 in Hlt.
    apply Hlt; [unfold INT_MIN; lia|unfold INT_MAX; lia|].
    vm_compute in He. injection He as <-. vm_compute. discriminate.
Defined.

(** C8 as stated fails when the counter is at the top of its range: the
    document of three rows with the counter at [INT_MAX] loses its second
    row, the raw text changes, and [ec.dirty++] wraps the counter to
    [INT_MIN], so that it went down instead of up. *)
Lemma dirty_counter_overflow_counterexample :
  wf_doc (set_dirty foo_doc INT_MAX)
  /\ mutation_valid (MDelRow 1) (set_dirty foo_doc INT_MAX)
  /\ exists ec',
       apply_mutation (MDelRow 1) (set_dirty foo_doc INT_MAX) = Some ec'
       /\ raw_text ec' <> raw_text (set_dirty foo_doc INT_MAX)
       /\ dirty ec' = INT_MIN
       /\ ~ dirty (set_dirty foo_doc INT_MAX) < dirty ec'.
Proof.
  split; [apply wf_doc_check_sound; vm_compute; reflexivity|].
  split; [exact I|].
  eexists. split; [vm_compute; reflexivity|].
  split; [vm_compute; discriminate|].
  split; [vm_compute; reflexivity|].
  vm_compute. discriminate.
Qed.

(** ** Cursor movement *)

Section Cursor.

Lemma cursor_row_spec ec :
  num_rows ec = Z.of_nat (length (row ec)) -> 0 <= cursor_y ec <= num_rows ec ->
  cursor_row ec = Some (row ec !! Z.to_nat (cursor_y ec)).
Proof.
  intros Hn Hy. unfold cursor_row.
  destruct (Z.leb_spec (num_rows ec) (cursor_y ec)).
  - rewrite lookup_ge_None_2 by lia. done.
  - rewrite row_ptr_nonneg by lia. cbn [mbind option_bind].
    destruct (lookup_lt_is_Some_2 (row ec) (Z.to_nat (cursor_y ec))) as [r ->]; [lia|].
    done.
Qed.

Lemma move_cursor_switch_spec ec key :
  num_rows ec = Z.of_nat (length (row ec)) -> 0 <= cursor_y ec <= num_rows ec ->
  0 <= cursor_x ec ->
  exists x y,
    move_cursor_switch ec key = Some (set_cursor ec x y)
    /\ 0 <= y <= num_rows ec /\ 0 <= x.
Proof.
  intros Hn Hy Hx. unfold move_cursor_switch.
  assert (Some ec = Some (set_cursor ec (cursor_x ec) (cursor_y ec))) as Hid
    by (by destruct ec).
  destruct (key =? ARROW_LEFT).
  { destruct (Z.eqb_spec (cursor_x ec) 0); cbn [negb];
      [|eexists _, _; split; [reflexivity|lia]].
    destruct (Z.ltb_spec 0 (cursor_y ec)).
    - rewrite row_ptr_nonneg by lia. cbn [mbind option_bind].
      destruct (lookup_lt_is_Some_2 (row ec) (Z.to_nat (cursor_y ec - 1))) as [r ->]; [lia|].
      cbn [mbind option_bind]. eexists _, _; split; [reflexivity|unfold len; lia].
    - eexists _, _; split; [exact Hid|done]. }
  destruct (key =? ARROW_RIGHT).
  { rewrite cursor_row_spec by done. cbn [mbind option_bind].
    destruct (row ec !! Z.to_nat (cursor_y ec)) as [r|] eqn:Hr.
    - pose proof (lookup_lt_Some _ _ _ Hr).
      destruct (cursor_x ec <? len r); [eexists _, _; split; [reflexivity|lia]|].
      destruct (cursor_x ec =? len r); [eexists _, _; split; [reflexivity|lia]|].
      eexists _, _; split; [exact Hid|done].
    - eexists _, _; split; [exact Hid|done]. }
  destruct (key =? ARROW_UP).
  { destruct (Z.eqb_spec (cursor_y ec) 0); cbn [negb].
    - eexists _, _; split; [exact Hid|done].
    - eexists _, _; split; [reflexivity|lia]. }
  destruct (key =? ARROW_DOWN).
  { destruct (Z.ltb_spec (cursor_y ec) (num_rows ec)).
    - eexists _, _; split; [reflexivity|lia].
    - eexists _, _; split; [exact Hid|done]. }
  eexists _, _; split; [exact Hid|done].
Qed.

Lemma cursor_line_len_nonneg ec : 0 <= cursor_line_len ec.
Proof. unfold cursor_line_len, len. destruct (row ec !! _); lia. Qed.

Lemma move_cursor_snap_spec ec :
  num_rows ec = Z.of_nat (length (row ec)) -> 0 <= cursor_y ec <= num_rows ec ->
  exists x,
    move_cursor_snap ec = Some (set_cursor ec x (cursor_y ec))
    /\ x = Z.min (cursor_x ec) (cursor_line_len ec).
Proof.
  intros Hn Hy. unfold move_cursor_snap, cursor_line_len.
  rewrite cursor_row_spec by done. cbn [mbind option_bind].
  set (row_len := match row ec !! Z.to_nat (cursor_y ec) with
                  | Some r => len r | None => 0 end).
  destruct (Z.ltb_spec row_len (cursor_x ec)).
  - exists row_len. split; [reflexivity|lia].
  - exists (cursor_x ec). split; [by destruct ec|lia].
Qed.

Lemma editor_move_cursor_spec ec key :
  wf_doc ec -> 0 <= cursor_y ec <= num_rows ec -> 0 <= cursor_x ec ->
  exists x y,
    editor_move_cursor ec key = Some (set_cursor ec x y)
    /\ 0 <= y <= num_rows ec
    /\ 0 <= x <= cursor_line_len (set_cursor ec x y).
Proof.
  intros [_ Hn] Hy Hx. unfold editor_move_cursor.
  destruct (move_cursor_switch_spec ec key Hn Hy Hx) as (x & y & He & Hy' & Hx0).
  rewrite He. cbn [mbind option_bind].
  destruct (move_cursor_snap_spec (set_cursor ec x y)) as (x' & Hs & Hx');
    [done|done|].
  rewrite Hs. exists x', y. split; [reflexivity|]. split; [done|].
  pose proof (cursor_line_len_nonneg (set_cursor ec x y)) as Hnn.
  unfold cursor_line_len in *. simpl in *. lia.
Qed.

Lemma editor_move_cursor_ok ec key :
  wf_doc ec -> doc_ok ec -> cursor_ok ec ->
  exists ec',
    editor_move_cursor ec key = Some ec'
    /\ wf_doc ec' /\ doc_ok ec' /\ cursor_ok ec'.
Proof.
  intros Hwf Hok (Hy & Hx & _).
  destruct (editor_move_cursor_spec ec key Hwf Hy Hx) as (x & y & He & Hy' & Hx').
  eexists. split; [exact He|]. split; [done|]. split; [done|].
  unfold cursor_ok, cursor_line_len in *. simpl in *.
  split; [done|]. split; [lia|]. destruct (row ec !! Z.to_nat y); lia.
Qed.

End Cursor.

(** C9. From any state with [0 <= cursor_y <= num_rows] and
    [cursor_x >= 0], one call of [editor_move_cursor] (for any key, the four
    arrows in particular) returns with [0 <= cursor_y <= num_rows] and
    [cursor_x] at most the length of the row the cursor is on, or 0 on the
    line after the last row; [cursor_x] stays non-negative and the document
    itself is unchanged. *)
Theorem editor_move_cursor_in_bounds ec key :
  wf_doc ec -> 0 <= cursor_y ec <= num_rows ec -> 0 <= cursor_x ec ->
  exists ec',
    editor_move_cursor ec key = Some ec'
    /\ row ec' = row ec /\ num_rows ec' = num_rows ec
    /\ 0 <= cursor_y ec' <= num_rows ec'
    /\ cursor_x ec'
       <= (if cursor_y ec' <? num_rows ec'
           then default 0 (len <$> row ec' !! Z.to_nat (cursor_y ec'))
           else 0)
    /\ cursor_ok ec'.
Proof.
  intros Hwf Hy Hx. pose proof Hwf as [_ Hn].
  destruct (editor_move_cursor_spec ec key Hwf Hy Hx) as (x & y & He & Hy' & Hx').
  eexists. split; [exact He|].
  unfold cursor_ok, cursor_line_len in *. simpl in *.
  repeat split; try done; try lia.
  - destruct (Z.ltb_spec y (num_rows ec)).
    + destruct (row ec !! Z.to_nat y); simpl; lia.
    + rewrite lookup_ge_None_2 in Hx' by lia. lia.
  - destruct (row ec !! Z.to_nat y); lia.
Qed.

Lemma editor_move_cursor_in_bounds_witness :
  exists ec',
    editor_move_cursor (set_cursor (plain_doc [plain_row 0 "abc"; plain_row 1 "d"]) 3 0)
                       ARROW_DOWN = Some ec'
    /\ 0 <= cursor_y ec' <= num_rows ec'
    /\ cursor_ok ec'.
Proof.
  destruct (editor_move_cursor_in_bounds
              (set_cursor (plain_doc [plain_row 0 "abc"; plain_row 1 "d"]) 3 0)
              ARROW_DOWN) as (ec' & He & _ & _ & Hy & _ & Hx).
  - apply wf_doc_check_sound. vm_compute. reflexivity.
  - simpl. lia.
  - simpl. lia.
  - exists ec'. split; [exact He|]. split; [exact Hy|exact Hx].
Defined.

(** ** Re-classification of a stable document (C2) *)

Section Stability.

Lemma set_hl_same r : set_hl r (hl r) = r.
Proof. by destruct r. Qed.

Lemma set_row_same ec : set_row ec (row ec) = ec.
Proof. by destruct ec. Qed.

Lemma editor_update_syntax_rec_stable fuel ec p r :
  row ec !! p = Some r -> row_consistent ec r ->
  editor_update_syntax_rec (S fuel) ec p = Some ec.
Proof.
  intros Hr Hc. cbn [editor_update_syntax_rec]. rewrite Hr. cbn [mbind option_bind].
  unfold row_consistent in Hc. destruct (syntax ec) as [syn|].
  - destruct Hc as (b & -> & Hcl). cbn [mbind option_bind].
    unfold classify in Hcl. cbn [set_hl hl].
    destruct (syntax_loop _ _ _ _) as [st|]; [|discriminate].
    cbn [mbind option_bind] in *. injection Hcl as Hh Ho.
    rewrite Hh, Ho, xorb_nilpotent. cbn [andb].
    replace (set_hl_open_comment (set_hl r (hl r)) (hl_open_comment r)) with r
      by (by destruct r).
    by rewrite list_insert_id, set_row_same.
  - rewrite <- Hc, set_hl_same, list_insert_id, set_row_same; done.
Qed.

End Stability.

(** C2. On a document whose rows are all consistent with their content and
    their predecessor's comment flag, running [editor_update_syntax] on any
    row returns the document unchanged: every highlight array and every
    [hl_open_comment] flag is as before.  The run needs one unit of
    recursion fuel only, so the recursive call on the following row is not
    made; running it on every row in turn changes nothing either. *)
Theorem editor_update_syntax_idempotent ec p :
  doc_consistent ec -> (p < length (row ec))%nat ->
  editor_update_syntax ec p = Some ec
  /\ editor_update_syntax_rec 1 ec p = Some ec
  /\ update_syntax_rows (length (row ec)) 0 ec = Some ec.
Proof.
  intros Hc Hp. destruct (lookup_lt_is_Some_2 _ _ Hp) as [r Hr].
  split; [|split].
  - eapply editor_update_syntax_rec_stable; eauto.
  - eapply editor_update_syntax_rec_stable; eauto.
  - assert (forall n k, (k + n <= length (row ec))%nat ->
                        update_syntax_rows n k ec = Some ec) as Hall.
    { induction n as [|n IH]; intros k Hk; cbn [update_syntax_rows]; [done|].
      destruct (lookup_lt_is_Some_2 (row ec) k) as [x Hx]; [lia|].
      unfold editor_update_syntax.
      rewrite (editor_update_syntax_rec_stable _ ec k x Hx (Hc _ _ Hx)).
      cbn [mbind option_bind]. apply IH. lia. }
    apply Hall. lia.
Qed.

Lemma c_doc_consistent : doc_consistent c_doc.
Proof.
  intros [|[|p]] r Hr; simpl in Hr; try discriminate; injection Hr as <-.
  - exists false. split; vm_compute; reflexivity.
  - exists true. split; vm_compute; reflexivity.
Qed.

Lemma editor_update_syntax_idempotent_witness :
  editor_update_syntax c_doc 0 = Some c_doc
  /\ editor_update_syntax_rec 1 c_doc 0 = Some c_doc
  /\ update_syntax_rows (length (row c_doc)) 0 c_doc = Some c_doc.
Proof.
  apply (editor_update_syntax_idempotent c_doc 0).
  - exact c_doc_consistent.
  - vm_compute. lia.
Defined.

(** ** Keyword matching (C4) *)

Section Keywords.

Lemma strncmp_eq_prefix : forall n s1 s2,
  (n <= strlen s2)%nat ->
  strncmp_eq s1 s2 n = true <-> exists rest, s1 = take n s2 ++ rest.
Proof.
  induction n as [|n IH]; intros s1 s2 Hn.
  - simpl. split; [intros _; by exists s1|done].
  - destruct s2 as [|b s2]; [simpl in Hn; lia|].
    cbn [strlen] in Hn. destruct (Ascii.eqb_spec b NUL) as [->|Hb]; [lia|].
    cbn [strncmp_eq hd tl take]. destruct s1 as [|a s1]; cbn [hd tl].
    + destruct (Ascii.eqb_spec NUL b) as [<-|_]; [done|].
      split; [discriminate|]. intros [rest Hrest]. discriminate.
    + destruct (Ascii.eqb_spec a b) as [->|Hab].
      * destruct (Ascii.eqb_spec b NUL); [done|].
        rewrite IH by lia. split.
        -- intros [rest ->]. by exists rest.
        -- intros [rest Hrest]. injection Hrest as ->. by exists rest.
      * split; [discriminate|]. intros [rest Hrest]. injection Hrest as ->. done.
Qed.

Lemma is_separator_NUL : is_separator NUL = true.
Proof. reflexivity. Qed.

Lemma char_at_app_drop rend i pre rest :
  drop i rend = pre ++ rest -> char_at rend (i + length pre) = hd NUL rest.
Proof.
  intros Hd. unfold char_at.
  rewrite <- (take_drop i rend) at 1. rewrite Hd.
  destruct (decide (i <= length rend)%nat) as [Hle|Hgt].
  - rewrite app_nth2 by (rewrite length_take; lia).
    rewrite length_take, Nat.min_l by lia.
    replace (i + length pre - i)%nat with (length pre) by lia.
    rewrite app_nth2 by lia. rewrite Nat.sub_diag. by destruct rest.
  - rewrite drop_ge in Hd by lia. symmetry in Hd. apply app_eq_nil in Hd as [-> ->].
    simpl. rewrite app_nil_r, take_ge by lia. rewrite nth_overflow by lia. done.
Qed.

(** The test of the keyword loop, in words: the text at [i] starts with the
    keyword (without its '|' marker), and what follows is the end of the row
    or a separator byte. *)
Lemma keyword_match_iff rend i kw :
  keyword_match rend i kw = true <->
  exists rest,
    drop i rend = take (fst (keyword_klen kw)) kw ++ rest
    /\ (rest = [] \/ exists ch rest', rest = ch :: rest' /\ is_separator ch = true).
Proof.
  unfold keyword_match. pose proof (keyword_klen_le kw) as Hle.
  set (klen := fst (keyword_klen kw)) in *.
  assert (length (take klen kw) = klen) as Hlen.
  { rewrite length_take. pose proof (strlen_le kw). lia. }
  rewrite andb_true_iff, strncmp_eq_prefix by done. split.
  - intros [[rest Hrest] Hsep]. exists rest. split; [done|].
    rewrite <- Hlen, (char_at_app_drop _ _ _ _ Hrest) in Hsep.
    destruct rest as [|ch rest']; [by left|right; eauto].
  - intros (rest & Hrest & Hsep). split; [by exists rest|].
    rewrite <- Hlen, (char_at_app_drop _ _ _ _ Hrest).
    destruct Hsep as [->|(ch & rest' & -> & Hch)]; [apply is_separator_NUL|done].
Qed.

End Keywords.

Section KeywordSpans.

Lemma lookup_memset {A} (a : list A) i v n p h :
  (i <= length a)%nat -> memset a i v n !! p = Some h ->
  ((i <= p < i + n)%nat /\ h = v) \/ ((p < i \/ i + n <= p)%nat /\ a !! p = Some h).
Proof.
  intros Hi. unfold memset. intros H.
  apply lookup_app_Some in H as [H|[Hge H]].
  - apply lookup_take_Some in H as [H Hp]. right. split; [lia|done].
  - rewrite length_take, Nat.min_l in Hge, H by lia.
    apply lookup_app_Some in H as [H|[Hge' H]].
    + apply lookup_replicate in H as [-> Hp]. left. split; [lia|done].
    + rewrite length_replicate in Hge', H. rewrite lookup_drop in H.
      right. split; [lia|]. rewrite <- H. f_equal. lia.
Qed.

Lemma scan_inv_update syn rend st st' :
  scan_inv syn rend st -> (sc_i st <= sc_i st')%nat ->
  (forall p h, sc_hl st' !! p = Some h -> is_keyword_class h = true ->
               sc_hl st !! p = Some h
               \/ ((p < sc_i st')%nat /\ keyword_span syn rend p h)) ->
  scan_inv syn rend st'.
Proof.
  intros Hinv Hi Hnew p h Hp Hk.
  destruct (Hnew p h Hp Hk) as [Hold|Hspan]; [|done].
  destruct (Hinv p h Hold Hk). split; [lia|done].
Qed.

Lemma lookup_insert_plain (hl0 : list editor_highlight) i v p h :
  is_keyword_class v = false ->
  <[i := v]> hl0 !! p = Some h -> is_keyword_class h = true -> hl0 !! p = Some h.
Proof.
  intros Hv H Hk. apply list_lookup_insert_Some in H as [(_ & <- & _)|(_ & H)]; [|done].
  congruence.
Qed.

Lemma lookup_memset_plain (hl0 : list editor_highlight) i v n p h :
  is_keyword_class v = false -> (i <= length hl0)%nat ->
  memset hl0 i v n !! p = Some h -> is_keyword_class h = true -> hl0 !! p = Some h.
Proof.
  intros Hv Hi H Hk. apply lookup_memset in H as [[_ ->]|[_ H]]; [congruence|done|done].
Qed.

Lemma syntax_step_inv syn rend st :
  (sc_i st < length rend)%nat -> length (sc_hl st) = length rend ->
  scan_inv syn rend st ->
  match syntax_step syn rend st with
  | ScanBreak st' | ScanContinue st' => scan_inv syn rend st'
  end.
Proof.
  intros Hi Hl Hinv. split_syntax_step st;
  (eapply scan_inv_update; [exact Hinv|simpl; lia|]); simpl; intros p h Hp Hk;
  try (left;
       repeat match goal with
       | H : <[_ := _]> _ !! _ = Some _ |- _ =>
           apply lookup_insert_plain in H; [|reflexivity|exact Hk]
       | H : memset _ _ _ _ !! _ = Some _ |- _ =>
           apply lookup_memset_plain in H;
             [|reflexivity|rewrite ?length_insert; lia|exact Hk]
       end; assumption).
  (* what remains is the keyword branch, once per keyword class *)
  all: match goal with
       | H : keyword_loop _ _ _ = Some _ |- _ =>
           apply keyword_loop_Some in H as (kw & Hin & Hm & Hkl)
       end.
  all: apply lookup_memset in Hp as [[Hrange ->]|[_ Hp]]; [|by left|lia].
  all: right; split; [lia|]; exists (sc_i st), kw; rewrite Hkl; simpl; done.
Qed.

Lemma syntax_loop_inv syn rend : forall fuel st st',
  length (sc_hl st) = length rend -> (sc_i st <= length rend)%nat ->
  scan_inv syn rend st ->
  syntax_loop fuel syn rend st = Some st' -> scan_inv syn rend st'.
Proof.
  induction fuel as [|fuel IH]; intros st st' Hl Hi Hinv; cbn [syntax_loop];
    [discriminate|].
  destruct (Nat.ltb_spec (sc_i st) (length rend)) as [Hlt|Hge].
  - pose proof (syntax_step_spec syn rend st Hlt Hl) as Hs.
    pose proof (syntax_step_inv syn rend st Hlt Hl Hinv) as Hs'.
    destruct (syntax_step syn rend st) as [st1|st1].
    + destruct Hs as (? & ? & _). by apply IH.
    + by intros [= <-].
  - by intros [= <-].
Qed.

Lemma classify_keyword_span syn rend b hl' b' :
  classify syn rend b = Some (hl', b') ->
  forall p h, hl' !! p = Some h -> is_keyword_class h = true ->
              keyword_span syn rend p h.
Proof.
  unfold classify. intros Hc p h Hp Hk.
  destruct (syntax_loop _ _ _ _) as [st|] eqn:Hloop; [|discriminate].
  cbn [mbind option_bind] in Hc. injection Hc as <- <-.
  eapply syntax_loop_inv in Hloop.
  - by apply (Hloop p h).
  - simpl. apply length_replicate.
  - simpl. lia.
  - intros q x Hq Hx. simpl in Hq. apply lookup_replicate in Hq as [-> _]. discriminate.
Qed.

End KeywordSpans.

Lemma existsb_eqb_In (ch : ascii) (l : list ascii) :
  existsb (Ascii.eqb ch) l = true <-> In ch l.
Proof.
  rewrite existsb_exists. split.
  - intros (x & Hin & Heq). apply Ascii.eqb_eq in Heq. by subst.
  - intros Hin. exists ch. split; [done|apply Ascii.eqb_refl].
Qed.

Lemma is_separator_iff ch : is_separator ch = true <-> In ch separators.
Proof.
  unfold is_separator, isspace, strchr_found, separators.
  replace (cstr (str ",.()+-/*=~%<>[];")) with (str ",.()+-/*=~%<>[];")
    by (vm_compute; reflexivity).
  rewrite !orb_true_iff, !existsb_eqb_In, !in_app_iff, Ascii.eqb_eq.
  cbn [In]. intuition congruence.
Qed.

(** C4. A keyword entry matches at a position exactly when the text there
    starts with the keyword (its '|' marker stripped) and what follows is
    the end of the row or a separator byte (whitespace, NUL or the fixed
    punctuation set); every element that the classifier marks KEYWORD1 or
    KEYWORD2 lies in the span of an entry of the keyword list that matches
    in this sense; and the row "integer" under the C definition is all
    NORMAL, so its prefix "int" is not KEYWORD2, whereas "int" followed by a
    space is. *)
Theorem keyword_needs_separator :
  (forall rend i kw,
      keyword_match rend i kw = true <->
      exists rest,
        drop i rend = take (fst (keyword_klen kw)) kw ++ rest
        /\ (rest = [] \/ exists ch rest', rest = ch :: rest' /\ In ch separators))
  /\ (forall syn rend b hl' b',
         classify syn rend b = Some (hl', b') ->
         forall p h, hl' !! p = Some h -> is_keyword_class h = true ->
         exists (i : nat) kw rest,
           In kw (keywords syn)
           /\ (i <= p < i + fst (keyword_klen kw))%nat
           /\ drop i rend = take (fst (keyword_klen kw)) kw ++ rest
           /\ (rest = [] \/ exists ch rest', rest = ch :: rest' /\ In ch separators))
  /\ classify C_SYNTAX (str "integer") false = Some (replicate 7 HL_NORMAL, false)
  /\ classify C_SYNTAX (str "int eger") false
     = Some (replicate 3 HL_KEYWORD2 ++ replicate 5 HL_NORMAL, false).
Proof.
  assert (forall rend i kw,
      keyword_match rend i kw = true <->
      exists rest,
        drop i rend = take (fst (keyword_klen kw)) kw ++ rest
        /\ (rest = [] \/ exists ch rest', rest = ch :: rest' /\ In ch separators))
    as Hmatch.
  { intros rend i kw. rewrite keyword_match_iff. split.
    - intros (rest & Hd & [->|(ch & rest' & -> & Hs)]); [exists []; eauto|].
      exists (ch :: rest'). split; [done|]. right. exists ch, rest'.
      by rewrite <- is_separator_iff.
    - intros (rest & Hd & [->|(ch & rest' & -> & Hs)]); [exists []; eauto|].
      exists (ch :: rest'). split; [done|]. right. exists ch, rest'.
      by rewrite is_separator_iff. }
  split; [exact Hmatch|]. split; [|split; vm_compute; reflexivity].
  intros syn rend b hl' b' Hc p h Hp Hk.
  destruct (classify_keyword_span syn rend b hl' b' Hc p h Hp Hk)
    as (i & kw & Hin & Hm & Hrange & _).
  apply Hmatch in Hm as (rest & Hd & Hrest).
  exists i, kw, rest. done.
Qed.

Lemma keyword_needs_separator_witness :
  exists (i : nat) kw rest,
    In kw (keywords C_SYNTAX)
    /\ (i <= 0 < i + fst (keyword_klen kw))%nat
    /\ drop i (str "int x") = take (fst (keyword_klen kw)) kw ++ rest
    /\ (rest = [] \/ exists ch rest', rest = ch :: rest' /\ In ch separators).
Proof.
  apply (proj1 (proj2 keyword_needs_separator) C_SYNTAX (str "int x") false
           [HL_KEYWORD2; HL_KEYWORD2; HL_KEYWORD2; HL_NORMAL; HL_NORMAL] false
           ltac:(vm_compute; reflexivity) 0%nat HL_KEYWORD2);
    reflexivity.
Defined.

(** ** Incremental search (C5, C6) *)

Section Search.

Lemma starts_with_iff s pre : starts_with s pre = true <-> exists post, s = pre ++ post.
Proof.
  revert s. induction pre as [|a pre IH]; intros s; cbn [starts_with].
  - split; [intros _; by exists s|done].
  - destruct s as [|b s].
    + split; [discriminate|]. intros [post Hp]. discriminate.
    + rewrite andb_true_iff, IH, Ascii.eqb_eq. split.
      * intros [-> [post ->]]. by exists post.
      * intros [post Hp]. injection Hp as -> ->. split; [done|by exists post].
Qed.

Lemma find_sub_Some hay needle off :
  find_sub hay needle = Some off ->
  (exists post, drop off hay = needle ++ post) /\ (off + length needle <= length hay)%nat.
Proof.
  revert off. induction hay as [|a hay IH]; intros off; cbn [find_sub].
  - destruct (starts_with [] needle) eqn:Hs; [|discriminate].
    intros [= <-]. apply starts_with_iff in Hs as [post Hp].
    split; [exists post; exact Hp|]. rewrite Hp, length_app. lia.
  - destruct (starts_with (a :: hay) needle) eqn:Hs.
    + intros [= <-]. apply starts_with_iff in Hs as [post Hp].
      split; [exists post; exact Hp|]. rewrite Hp, length_app. lia.
    + intros H. apply fmap_Some in H as (off' & Hoff' & ->).
      destruct (IH _ Hoff') as [Hpost Hlen]. split; [done|]. simpl. lia.
Qed.

Lemma find_sub_None hay needle :
  find_sub hay needle = None <-> ~ contains hay needle.
Proof.
  induction hay as [|a hay IH]; cbn [find_sub].
  - destruct (starts_with [] needle) eqn:Hs.
    + split; [discriminate|]. intros Hn. exfalso. apply Hn.
      apply starts_with_iff in Hs as [post Hp]. by exists [], post.
    + split; [|done]. intros _ (pre & post & Hp).
      symmetry in Hp. apply app_eq_nil in Hp as [-> Hp].
      assert (starts_with [] needle = true); [|congruence].
      apply starts_with_iff. exists post. done.
  - destruct (starts_with (a :: hay) needle) eqn:Hs.
    + split; [discriminate|]. intros Hn. exfalso. apply Hn.
      apply starts_with_iff in Hs as [post Hp]. by exists [], post.
    + rewrite fmap_None, IH. split.
      * intros Hn (pre & post & Hp). destruct pre as [|b pre].
        -- assert (starts_with (a :: hay) needle = true); [|congruence].
           apply starts_with_iff. exists post. done.
        -- injection Hp as -> Hp. apply Hn. by exists pre, post.
      * intros Hn (pre & post & Hp). apply Hn. exists (a :: pre), post.
        rewrite Hp. done.
Qed.

Lemma strstr_None_iff r query :
  strstr (render r) query = None <-> ~ row_matches query r.
Proof. apply find_sub_None. Qed.

Lemma strstr_is_Some_iff r query :
  is_Some (strstr (render r) query) <-> row_matches query r.
Proof.
  split.
  - intros [off Hs]. unfold strstr in Hs.
    apply find_sub_Some in Hs as [[post Hp] _].
    exists (take off (cstr (render r))), post.
    rewrite <- Hp. by rewrite take_drop.
  - intros Hm. destruct (strstr (render r) query) eqn:Hs; [by eexists|].
    apply strstr_None_iff in Hs. done.
Qed.

Lemma strlen_cstr s : length (cstr s) = strlen s.
Proof.
  unfold cstr. rewrite length_take. pose proof (strlen_le s). lia.
Qed.

Lemma strstr_bound hay needle off :
  strstr hay needle = Some off -> (off + strlen needle <= length hay)%nat.
Proof.
  unfold strstr. intros H. apply find_sub_Some in H as [_ H].
  rewrite !strlen_cstr in H. pose proof (strlen_le hay). lia.
Qed.

Lemma find_next_mod ec fs c :
  0 < num_rows ec -> -1 <= c + direction fs <= num_rows ec ->
  find_next ec fs c = (c + direction fs) mod num_rows ec.
Proof.
  intros Hn Hc. unfold find_next.
  destruct (Z.eqb_spec (c + direction fs) (-1)) as [->|].
  - replace (-1) with (-1 * 1) by lia.
    rewrite <- (Z.mod_add _ 1) by lia.
    rewrite Z.mod_small by lia. lia.
  - destruct (Z.eqb_spec (c + direction fs) (num_rows ec)) as [->|].
    + by rewrite Z.mod_same by lia.
    + rewrite Z.mod_small by lia. done.
Qed.

End Search.

Section Scan.

Variables (query : list ascii) (ec : editor_config) (fs : find_state).
Hypothesis Hn : num_rows ec = Z.of_nat (length (row ec)).
Hypothesis Hpos : 0 < num_rows ec.
Hypothesis Hdir : direction fs = 1 \/ direction fs = -1.

Lemma scan_step_shift c j :
  ((c + direction fs) mod num_rows ec + direction fs * j) mod num_rows ec
  = (c + direction fs * (j + 1)) mod num_rows ec.
Proof. rewrite Z.add_mod_idemp_l by lia. f_equal. lia. Qed.

(** The loop started at [c] with [m] iterations to go examines the rows
    [(c + direction * j) mod num_rows] for [j = 1 .. m] in turn. *)
Lemma find_scan_from : forall (m : nat) c,
  -1 <= c + direction fs <= num_rows ec ->
  ((forall j, 1 <= j <= Z.of_nat m ->
      forall r, row ec !! Z.to_nat ((c + direction fs * j) mod num_rows ec) = Some r ->
                strstr (render r) query = None) ->
   find_scan m query c ec fs = Some (ec, fs))
  /\ (forall k r off,
        1 <= k <= Z.of_nat m ->
        (forall j, 1 <= j < k ->
           forall r', row ec !! Z.to_nat ((c + direction fs * j) mod num_rows ec) = Some r' ->
                      strstr (render r') query = None) ->
        row ec !! Z.to_nat ((c + direction fs * k) mod num_rows ec) = Some r ->
        strstr (render r) query = Some off ->
        find_scan m query c ec fs
        = Some (find_hit query ec fs ((c + direction fs * k) mod num_rows ec)
                         (Z.to_nat ((c + direction fs * k) mod num_rows ec)) r off)).
Proof.
  induction m as [|m IH]; intros c Hc.
  { split; [done|]. intros k r off Hk. lia. }
  cbn [find_scan]. rewrite find_next_mod by done.
  set (c' := (c + direction fs) mod num_rows ec).
  assert (0 <= c' < num_rows ec) as Hc' by (apply Z.mod_pos_bound; lia).
  assert (c' = (c + direction fs * 1) mod num_rows ec) as Hc1
    by (unfold c'; f_equal; lia).
  rewrite row_ptr_nonneg by lia. cbn [mbind option_bind].
  destruct (lookup_lt_is_Some_2 (row ec) (Z.to_nat c')) as [r1 Hr1]; [lia|].
  rewrite Hr1. cbn [mbind option_bind].
  destruct (IH c') as [IHA IHB]; [lia|].
  split.
  - intros Hnone.
    rewrite (Hnone 1 ltac:(lia) r1) by (by rewrite <- Hc1).
    apply IHA. intros j Hj r Hr. unfold c' in Hr. rewrite scan_step_shift in Hr.
    apply (Hnone (j + 1)); [lia|done].
  - intros k r off Hk Hpre Hr Hs.
    destruct (decide (k = 1)) as [->|Hk1].
    + rewrite <- Hc1 in *. rewrite Hr1 in Hr. injection Hr as ->.
      rewrite Hs. done.
    + rewrite (Hpre 1 ltac:(lia) r1) by (by rewrite <- Hc1).
      replace k with ((k - 1) + 1) in * by lia.
      rewrite <- !scan_step_shift in *. fold c' in Hr |- *.
      apply IHB; [lia| |done|done].
      intros j Hj r' Hr'. unfold c' in Hr'. rewrite scan_step_shift in Hr'.
      apply (Hpre (j + 1)); [lia|done].
Qed.

End Scan.

Lemma find_scan_cases query : forall m c ec fs ec' fs',
  find_scan m query c ec fs = Some (ec', fs') ->
  (ec', fs') = (ec, fs)
  \/ exists current r off,
       0 <= current /\ row ec !! Z.to_nat current = Some r
       /\ strstr (render r) query = Some off
       /\ (ec', fs') = find_hit query ec fs current (Z.to_nat current) r off.
Proof.
  induction m as [|m IH]; intros c ec fs ec' fs'; cbn [find_scan].
  - intros [= <- <-]. by left.
  - unfold row_ptr. destruct (Z.leb_spec 0 (find_next ec fs c)) as [Hc|]; [|discriminate].
    cbn [mbind option_bind].
    destruct (row ec !! Z.to_nat (find_next ec fs c)) as [r|] eqn:Hr; [|discriminate].
    cbn [mbind option_bind].
    destruct (strstr (render r) query) as [off|] eqn:Hs.
    + intros [= <- <-]. right. exists (find_next ec fs c), r, off. done.
    + apply IH.
Qed.

(** C5, in the form the code satisfies.  One scan examines the rows
    [(last_match + direction * k) mod num_rows] for [k = 1, 2, ...,
    num_rows] in this order, which is the circular order that starts at
    [last_match + direction]; it stops at the first of them whose render
    text, read as the C string in [row->render] (the bytes before the first
    NUL byte, [row_matches]; the whole render text when it holds no NUL
    byte, [row_matches_plain]), contains the query, puts the cursor on that
    row at the character column of the match and records the row as
    [last_match]; when no row contains the query the scan returns the editor
    and the search state unchanged.  With three rows, a forward scan from
    [last_match = 2] examines row 0 first and finds "foo" there. *)
Theorem find_scan_wraps query ec fs :
  wf_doc ec -> find_ready ec fs ->
  (forall k r,
      1 <= k <= num_rows ec ->
      (forall j r', 1 <= j < k ->
                    row ec !! Z.to_nat (scan_index ec fs j) = Some r' ->
                    ~ row_matches query r') ->
      row ec !! Z.to_nat (scan_index ec fs k) = Some r ->
      row_matches query r ->
      exists ec' fs' off,
        find_scan (Z.to_nat (num_rows ec)) query (last_match fs) ec fs = Some (ec', fs')
        /\ strstr (render r) query = Some off
        /\ last_match fs' = scan_index ec fs k
        /\ cursor_y ec' = scan_index ec fs k
        /\ cursor_x ec' = editor_row_rx2cx r (Z.of_nat off)
        /\ direction fs' = direction fs)
  /\ ((forall r, r ∈ row ec -> ~ row_matches query r) ->
      find_scan (Z.to_nat (num_rows ec)) query (last_match fs) ec fs = Some (ec, fs))
  /\ (num_rows ec = 3 -> last_match fs = 2 -> direction fs = 1 ->
      forall r0, row ec !! 0%nat = Some r0 -> row_matches query r0 ->
      exists ec' fs',
        find_scan (Z.to_nat (num_rows ec)) query (last_match fs) ec fs = Some (ec', fs')
        /\ last_match fs' = 0 /\ cursor_y ec' = 0).
Proof.
  intros [_ Hn] (Hdir & Hlast & Hfwd).
  assert (-1 <= last_match fs + direction fs <= num_rows ec) as Hstart by lia.
  assert (forall k r,
      1 <= k <= num_rows ec ->
      (forall j r', 1 <= j < k ->
                    row ec !! Z.to_nat (scan_index ec fs j) = Some r' ->
                    ~ row_matches query r') ->
      row ec !! Z.to_nat (scan_index ec fs k) = Some r ->
      row_matches query r ->
      exists ec' fs' off,
        find_scan (Z.to_nat (num_rows ec)) query (last_match fs) ec fs = Some (ec', fs')
        /\ strstr (render r) query = Some off
        /\ last_match fs' = scan_index ec fs k
        /\ cursor_y ec' = scan_index ec fs k
        /\ cursor_x ec' = editor_row_rx2cx r (Z.of_nat off)
        /\ direction fs' = direction fs) as Hhit.
  { intros k r Hk Hpre Hr Hm.
    apply strstr_is_Some_iff in Hm as [off Hoff].
    destruct (find_scan_from query ec fs Hn ltac:(lia) Hdir
                (Z.to_nat (num_rows ec)) (last_match fs) Hstart) as [_ HB].
    specialize (HB k r off ltac:(lia)).
    eexists _, _, off. split; [apply HB; try done|done].
    intros j Hj r' Hr'. apply strstr_None_iff. by eapply (Hpre j). }
  split; [exact Hhit|]. split.
  - intros Hnone. destruct (decide (num_rows ec = 0)) as [->|Hne]; [done|].
    destruct (find_scan_from query ec fs Hn ltac:(lia) Hdir
                (Z.to_nat (num_rows ec)) (last_match fs) Hstart) as [HA _].
    apply HA. intros j Hj r Hr. apply strstr_None_iff, Hnone.
    by eapply list_elem_of_lookup_2.
  - intros H3 H2 H1 r0 Hr0 Hm.
    destruct (Hhit 1 r0) as (ec' & fs' & off & He & _ & Hl & Hy & _); try done.
    + lia.
    + intros j r' Hj. lia.
    + unfold scan_index. rewrite H3, H2, H1. done.
    + exists ec', fs'. split; [done|].
      unfold scan_index in *. rewrite H3, H2, H1 in *. done.
Qed.

Lemma find_scan_wraps_witness :
  exists ec' fs',
    find_scan (Z.to_nat (num_rows foo_doc)) (str "foo") (last_match foo_state)
              foo_doc foo_state = Some (ec', fs')
    /\ last_match fs' = 0 /\ cursor_y ec' = 0.
Proof.
  apply (proj2 (proj2 (find_scan_wraps (str "foo") foo_doc foo_state
                         ltac:(apply wf_doc_check_sound; vm_compute; reflexivity)
                         ltac:(unfold find_ready; simpl; lia)))
           eq_refl eq_refl eq_refl (plain_row 0 "a foo b") eq_refl).
  exists (str "a "), (str " b"). vm_compute. reflexivity.
Defined.

(** C5 as stated fails on a row that holds a NUL byte.  After the NUL byte
    is typed at the start of the row "foo", the document has three rows of
    which only row 0 has a render text that contains "foo", namely NUL
    followed by "foo"; yet the forward scan from [last_match = 2], which
    examines row 0 first, returns the editor and the search state as they
    were: [strstr] reads the render text of row 0 as the empty string. *)
Lemma find_scan_behind_NUL_counterexample :
  exists ec r0,
    editor_insert_char foo_bar_baz 0 = Some ec
    /\ wf_doc ec /\ find_ready ec foo_state /\ num_rows ec = 3
    /\ row ec !! 0%nat = Some r0
    /\ render r0 = NUL :: str "foo"
    /\ render_contains (str "foo") r0
    /\ (forall r, r ∈ row ec -> render_contains (str "foo") r -> r = r0)
    /\ find_scan (Z.to_nat (num_rows ec)) (str "foo") (last_match foo_state)
                 ec foo_state
       = Some (ec, foo_state).
Proof.
  eexists _, _. split; [vm_compute; reflexivity|].
  split; [apply wf_doc_check_sound; vm_compute; reflexivity|].
  split; [unfold find_ready; simpl; lia|].
  split; [reflexivity|]. split; [reflexivity|]. split; [reflexivity|].
  split; [by exists [NUL], []|].
  split; [|vm_compute; reflexivity].
  intros r Hr Hc. cbn [row] in Hr.
  apply elem_of_cons in Hr as [->|Hr]; [reflexivity|]. exfalso.
  apply elem_of_cons in Hr as [->|Hr];
    [|apply elem_of_cons in Hr as [->|Hr]; [|by apply elem_of_nil in Hr]].
  - revert Hc. apply find_sub_None. vm_compute. reflexivity.
  - revert Hc. apply find_sub_None. vm_compute. reflexivity.
Qed.

(** The same scan reached through the callback with the "next" key; the
    cursor lands on row 0 at the column of the match, and with a query that
    occurs nowhere the cursor and the search state stay as they were. *)
Example find_callback_wraps_to_first_row :
  (fun '(ec', fs') => (cursor_x ec', cursor_y ec', last_match fs', direction fs'))
    <$> editor_find_callback (str "foo") ARROW_DOWN foo_doc foo_state
  = Some (2, 0, 0, 1)
  /\ editor_find_callback (str "quux") ARROW_DOWN foo_doc foo_state
     = Some (foo_doc, foo_state).
Proof. split; vm_compute; reflexivity. Qed.

Section Restore.

Lemma find_restore_saved ec fs ec' fs' :
  find_restore ec fs = Some (ec', fs') -> saved_hl fs' = None.
Proof.
  unfold find_restore. destruct (saved_hl fs) eqn:Hs.
  - destruct (row_ptr _); [|discriminate]. cbn [mbind option_bind].
    destruct (row ec !! _); [|discriminate]. cbn [mbind option_bind].
    by intros [= <- <-].
  - by intros [= <- <-].
Qed.

Lemma find_direction_saved key fs :
  saved_hl (fst (find_direction key fs)) = saved_hl fs.
Proof.
  unfold find_direction.
  repeat match goal with |- context [if ?b then _ else _] => destruct b end; done.
Qed.

(** A keystroke that leaves no snapshot behind found no match, and then the
    rows are those the restore step produced. *)
Lemma find_callback_no_snapshot query key ec fs ecR fsR ec' fs' :
  find_restore ec fs = Some (ecR, fsR) ->
  editor_find_callback query key ec fs = Some (ec', fs') ->
  saved_hl fs' = None -> ec' = ecR.
Proof.
  intros Hr Hc Hs. unfold editor_find_callback in Hc. rewrite Hr in Hc.
  cbn [mbind option_bind] in Hc.
  destruct (find_direction key fsR) as [fs2 scan].
  destruct scan; [|by injection Hc as <- <-].
  apply find_scan_cases in Hc as [[= <- <-]|(c & r & off & _ & _ & _ & Hh)]; [done|].
  unfold find_hit in Hh. injection Hh as -> ->. discriminate.
Qed.

(** A keystroke that leaves a snapshot behind marked one row of what the
    restore step produced, and the snapshot is that row's highlight array. *)
Lemma find_callback_snapshot query key ec fs ecR fsR ec' fs' s :
  find_restore ec fs = Some (ecR, fsR) -> doc_ok ecR ->
  editor_find_callback query key ec fs = Some (ec', fs') ->
  saved_hl fs' = Some s ->
  exists (p : nat) r off,
    0 <= saved_hl_line fs' /\ p = Z.to_nat (saved_hl_line fs')
    /\ row ecR !! p = Some r /\ s = hl r
    /\ strstr (render r) query = Some off
    /\ row ec' = <[p := set_hl r (memset (hl r) off HL_MATCH (strlen query))]> (row ecR).
Proof.
  intros Hr Hok Hc Hs. unfold editor_find_callback in Hc. rewrite Hr in Hc.
  cbn [mbind option_bind] in Hc.
  pose proof (find_restore_saved _ _ _ _ Hr) as HsR.
  pose proof (find_direction_saved key fsR) as Hd.
  destruct (find_direction key fsR) as [fs2 scan]. simpl in Hd.
  destruct scan; [|injection Hc as <- <-; congruence].
  apply find_scan_cases in Hc as [[= <- <-]|(c & r & off & Hc0 & Hrow & Hstr & Hh)];
    [congruence|].
  unfold find_hit in Hh. injection Hh as -> ->. simpl in *.
  exists (Z.to_nat c), r, off. repeat split; try done.
  injection Hs as <-.
  unfold doc_ok in Hok. rewrite Forall_forall in Hok.
  destruct (Hok r) as [_ Hl]; [by eapply list_elem_of_lookup_2|].
  unfold rlen. rewrite Nat2Z.id, take_ge by lia. done.
Qed.

End Restore.

(** C6. Take a keystroke of a search that finds a match: after its restore
    step the rows are [row ecR], and it leaves a snapshot [s].  The snapshot
    is the highlight array the matched row had in [ecR], and the keystroke
    overwrote the matched span of that row with MATCH.  If the next
    keystroke finds no match (it leaves no snapshot), then afterwards the
    rows are again exactly [row ecR]: the matched row's highlight array is
    back to its contents before the match, element for element, and no
    other row changed. *)
Theorem find_restores_highlight q1 k1 q2 k2 ec0 fs0 ecR fsR ec1 fs1 ec2 fs2 s :
  find_restore ec0 fs0 = Some (ecR, fsR) -> doc_ok ecR ->
  editor_find_callback q1 k1 ec0 fs0 = Some (ec1, fs1) -> saved_hl fs1 = Some s ->
  editor_find_callback q2 k2 ec1 fs1 = Some (ec2, fs2) -> saved_hl fs2 = None ->
  exists (p : nat) r off,
    row ecR !! p = Some r /\ s = hl r
    /\ row ec1 = <[p := set_hl r (memset (hl r) off HL_MATCH (strlen q1))]> (row ecR)
    /\ row ec2 = row ecR
    /\ hl <$> row ec2 = hl <$> row ecR.
Proof.
  intros Hr0 Hok H1 Hs1 H2 Hs2.
  destruct (find_callback_snapshot q1 k1 ec0 fs0 ecR fsR ec1 fs1 s Hr0 Hok H1 Hs1)
    as (p & r & off & Hline & Hp & Hrow & Hs & Hstr & Hrows1).
  assert (row ec2 = row ecR) as Hrows2.
  { pose proof (lookup_lt_Some _ _ _ Hrow) as Hlt.
    unfold doc_ok in Hok. rewrite Forall_forall in Hok.
    destruct (Hok r) as [_ Hl]; [by eapply list_elem_of_lookup_2|].
    pose proof (strstr_bound _ _ _ Hstr) as Hb.
    assert (exists ec1R fs1R, find_restore ec1 fs1 = Some (ec1R, fs1R)
                              /\ row ec1R = row ecR) as (ec1R & fs1R & Hr1 & Hrows).
    { unfold find_restore. rewrite Hs1, row_ptr_nonneg by done.
      cbn [mbind option_bind]. rewrite <- Hp, Hrows1.
      rewrite list_lookup_insert_eq by done. cbn [mbind option_bind].
      eexists _, _. split; [reflexivity|]. simpl.
      rewrite list_insert_insert_eq. unfold rlen, memcpy. simpl.
      rewrite Nat2Z.id, Hs, take_ge, drop_ge by (rewrite ?length_memset; lia).
      rewrite app_nil_r. apply list_insert_id. rewrite Hrow. f_equal. by destruct r. }
    rewrite (find_callback_no_snapshot q2 k2 ec1 fs1 ec1R fs1R ec2 fs2 Hr1 H2 Hs2).
    exact Hrows. }
  exists p, r, off. repeat split; try done. by rewrite Hrows2.
Qed.

Lemma find_restores_highlight_witness :
  row (fst foo_hit) <> row foo_doc
  /\ hl <$> row (fst foo_miss) = hl <$> row foo_doc.
Proof.
  split; [vm_compute; discriminate|].
  destruct (find_restores_highlight (str "foo") 111 (str "fox") 120
              foo_doc find_init foo_doc find_init
              (fst foo_hit) (snd foo_hit) (fst foo_miss) (snd foo_miss)
              (hl (plain_row 0 "a foo b")))
    as (p & r & off & _ & _ & _ & _ & Hhl).
  - reflexivity.
  - repeat constructor; vm_compute; lia.
  - vm_compute. reflexivity.
  - vm_compute. reflexivity.
  - vm_compute. reflexivity.
  - reflexivity.
  - exact Hhl.
Defined.

(** ** The search callback always returns *)

Section SearchTotal.

Lemma find_direction_ready key ec fs :
  find_ready ec fs -> find_ready ec (fst (find_direction key fs)).
Proof.
  intros (Hdir & Hlast & Hfwd). unfold find_direction, find_ready.
  repeat match goal with |- context [if ?b then _ else _] => destruct b eqn:? end;
    simpl in *;
    repeat match goal with H : (_ =? _) = _ |- _ => apply Z.eqb_neq in H end; lia.
Qed.

Lemma find_scan_total query ec fs :
  num_rows ec = Z.of_nat (length (row ec)) ->
  direction fs = 1 \/ direction fs = -1 ->
  forall (m : nat) c,
    (m = 0%nat \/ (0 < num_rows ec /\ -1 <= c + direction fs <= num_rows ec)) ->
    exists ec' fs',
      find_scan m query c ec fs = Some (ec', fs')
      /\ ((ec', fs') = (ec, fs)
          \/ exists current r off,
               0 <= current < num_rows ec /\ row ec !! Z.to_nat current = Some r
               /\ (ec', fs') = find_hit query ec fs current (Z.to_nat current) r off).
Proof.
  intros Hn Hdir. induction m as [|m IH]; intros c Hc; cbn [find_scan].
  { exists ec, fs. split; [done|by left]. }
  destruct Hc as [|[Hpos Hc]]; [done|].
  rewrite find_next_mod by done.
  set (c' := (c + direction fs) mod num_rows ec).
  assert (0 <= c' < num_rows ec) as Hc' by (apply Z.mod_pos_bound; lia).
  rewrite row_ptr_nonneg by lia. cbn [mbind option_bind].
  destruct (lookup_lt_is_Some_2 (row ec) (Z.to_nat c')) as [r Hr]; [lia|].
  rewrite Hr. cbn [mbind option_bind].
  destruct (strstr (render r) query) as [off|].
  - eexists _, _. split; [reflexivity|]. right. exists c', r, off. done.
  - apply IH. right. split; [done|lia].
Qed.

Lemma editor_find_callback_total query key ec fs :
  find_session_ok ec fs ->
  exists ec' fs',
    editor_find_callback query key ec fs = Some (ec', fs')
    /\ find_session_ok ec' fs'.
Proof.
  intros ([Hidx Hn] & Hready & Hsaved). unfold editor_find_callback.
  assert (exists ecR fsR,
             find_restore ec fs = Some (ecR, fsR)
             /\ rows_indexed (row ecR) /\ num_rows ecR = num_rows ec
             /\ length (row ecR) = length (row ec)
             /\ saved_hl fsR = None /\ last_match fsR = last_match fs
             /\ direction fsR = direction fs)
    as (ecR & fsR & -> & HidxR & HnR & HlR & HsR & HlastR & HdirR).
  { unfold find_restore. destruct (saved_hl fs) as [s|] eqn:Hs.
    - destruct Hsaved as [H0 Hlt]; [done|]. rewrite row_ptr_nonneg by done.
      cbn [mbind option_bind].
      destruct (lookup_lt_is_Some_2 (row ec) (Z.to_nat (saved_hl_line fs)))
        as [r Hr]; [lia|].
      rewrite Hr. cbn [mbind option_bind]. eexists _, _. split; [reflexivity|].
      simpl. rewrite length_insert. repeat split; try done.
      eapply rows_indexed_insert; eauto.
    - exists ec, fs. done. }
  cbn [mbind option_bind].
  assert (find_ready ecR fsR) as HreadyR.
  { unfold find_ready in *. rewrite HnR, HlastR, HdirR. done. }
  pose proof (find_direction_ready key ecR fsR HreadyR) as Hready2.
  pose proof (find_direction_saved key fsR) as Hsaved2.
  destruct (find_direction key fsR) as [fs2 scan]. simpl in Hready2, Hsaved2.
  destruct scan.
  - destruct Hready2 as (Hdir2 & Hlast2 & Hfwd2).
    destruct (find_scan_total query ecR fs2 ltac:(lia) Hdir2
                (Z.to_nat (num_rows ecR)) (last_match fs2))
      as (ec' & fs' & He & Hres).
    { destruct (decide (num_rows ecR = 0)) as [->|]; [by left|right; lia]. }
    exists ec', fs'. split; [exact He|].
    destruct Hres as [[= -> ->]|(c & r & off & Hc & Hr & Hh)].
    + split; [split; [done|lia]|]. split; [done|].
      rewrite Hsaved2, HsR. by intros [? ?].
    + unfold find_hit in Hh. injection Hh as -> ->.
      split; [split; simpl; [|rewrite length_insert; lia]|].
      * eapply rows_indexed_insert; eauto.
      * unfold find_ready. simpl. repeat split; try done; lia.
  - exists ecR, fs2. split; [done|].
    split; [split; [done|lia]|]. split; [done|].
    rewrite Hsaved2, HsR. by intros [? ?].
Qed.

End SearchTotal.

(** On a row and a query without NUL bytes, the text of the C string is the
    whole buffer, and [row_matches] is plain substring containment,
    [render_contains]. *)
Lemma cstr_no_NUL s : ~ In NUL s -> cstr s = s.
Proof.
  intros Hn. unfold cstr. rewrite take_ge; [done|].
  induction s as [|ch s IH]; cbn [strlen length]; [lia|].
  destruct (Ascii.eqb_spec ch NUL) as [->|_].
  - exfalso. apply Hn. by left.
  - assert (~ In NUL s) as Hs by (intros Hin; apply Hn; by right).
    specialize (IH Hs). lia.
Qed.

Lemma row_matches_plain query r :
  ~ In NUL (render r) -> ~ In NUL query ->
  row_matches query r <-> render_contains query r.
Proof.
  intros Hr Hq. unfold row_matches, render_contains. by rewrite !cstr_no_NUL.
Qed.

(** ** The session invariant

    The hypotheses of the theorems above (a well-formed document, rows with
    consistent lengths, the cursor inside the document) hold in the initial
    state and after a file is loaded, and every key event re-establishes
    them; so they hold throughout an editing session. *)

Section Session.

Lemma editor_init_ok : editor_ok editor_init.
Proof.
  split; [|split].
  - split; [intros i r Hr; discriminate|done].
  - constructor.
  - unfold cursor_ok. simpl. lia.
Qed.

Lemma editor_proc_key_ok ev ec :
  editor_ok ec ->
  exists ec', editor_proc_key ev ec = Some ec' /\ editor_ok ec'.
Proof.
  intros (Hwf & Hok & Hcur). destruct ev as [c| | | |key| |]; cbn [editor_proc_key].
  - destruct (editor_insert_char_post ec c Hwf Hcur) as (ec' & He & (? & Hok' & _) & ?).
    exists ec'. split; [done|]. split; [done|]. split; [by apply Hok'|done].
  - destruct (editor_insert_newline_post ec Hwf Hcur) as (ec' & He & (? & Hok' & _) & ?).
    exists ec'. split; [done|]. split; [done|]. split; [by apply Hok'|done].
  - destruct (editor_del_char_post ec Hwf Hcur) as (ec' & He & (? & Hok' & _) & ?).
    exists ec'. split; [done|]. split; [done|]. split; [by apply Hok'|done].
  - destruct (editor_move_cursor_ok ec ARROW_RIGHT Hwf Hok Hcur)
      as (ec1 & He1 & Hwf1 & Hok1 & Hcur1).
    rewrite He1. cbn [mbind option_bind].
    destruct (editor_del_char_post ec1 Hwf1 Hcur1) as (ec' & He & (? & Hok' & _) & ?).
    exists ec'. split; [done|]. split; [done|]. split; [by apply Hok'|done].
  - destruct (editor_move_cursor_ok ec key Hwf Hok Hcur) as (ec' & He & ? & ? & ?).
    exists ec'. done.
  - eexists. split; [reflexivity|]. split; [done|]. split; [done|].
    apply cursor_ok_at_column_0; [done|]. by destruct Hcur.
  - destruct Hcur as (Hy & Hx & Hrow). destruct Hwf as [Hidx Hn].
    destruct (Z.ltb_spec (cursor_y ec) (num_rows ec)).
    + rewrite row_ptr_nonneg by lia. cbn [mbind option_bind].
      destruct (lookup_lt_is_Some_2 (row ec) (Z.to_nat (cursor_y ec))) as [r Hr]; [lia|].
      rewrite Hr. cbn [mbind option_bind].
      eexists. split; [reflexivity|]. split; [done|]. split; [done|].
      unfold cursor_ok. simpl. rewrite Hr. unfold len. lia.
    + exists ec. done.
Qed.

Lemma editor_open_ok ec fname lines :
  editor_ok ec -> cursor_x ec = 0 ->
  exists ec', editor_open ec fname lines = Some ec' /\ editor_ok ec'.
Proof.
  intros (Hwf & Hok & Hy & _) Hx0.
  destruct (editor_open_spec ec fname lines Hwf)
    as (ec' & He & Hwf' & _ & _ & Hok' & Hx' & Hy' & Hn').
  exists ec'. split; [done|]. split; [done|]. split; [by apply Hok'|].
  apply cursor_ok_at_column_0; lia.
Qed.

Lemma run_events_ok evs : forall ec,
  editor_ok ec ->
  exists ec', run_events evs ec = Some ec' /\ editor_ok ec'.
Proof.
  induction evs as [|ev evs IH]; intros ec Hok; cbn [run_events]; [eauto|].
  destruct (editor_proc_key_ok ev ec Hok) as (ec1 & -> & Hok1).
  cbn [mbind option_bind]. by apply IH.
Qed.

End Session.

(** * Further properties of the code *)

(** ** Rendering and the coordinate mapper agree *)

Section Rendering.

Lemma tab_pad_spec : forall fuel rend,
  ((8 - Z.of_nat (length rend) mod 8) mod 8 <= Z.of_nat fuel) ->
  tab_pad fuel rend
  = rend ++ replicate (Z.to_nat ((8 - Z.of_nat (length rend) mod 8) mod 8)) SPACE.
Proof.
  induction fuel as [|fuel IH]; intros rend Hf; cbn [tab_pad].
  - replace ((8 - Z.of_nat (length rend) mod 8) mod 8) with 0
      by (revert Hf; Z.to_euclidean_division_equations; lia).
    simpl. by rewrite app_nil_r.
  - unfold TAB_STOP.
    destruct (Z.eqb_spec (Z.of_nat (length rend) mod 8) 0) as [H0|H0].
    + rewrite H0. simpl. by rewrite app_nil_r.
    + assert ((8 - Z.of_nat (length (rend ++ [SPACE])) mod 8) mod 8
              = (8 - Z.of_nat (length rend) mod 8) mod 8 - 1) as Hnext.
      { rewrite length_app. cbn [length]. rewrite Nat2Z.inj_add.
        change (Z.of_nat 1) with 1. revert H0.
        Z.to_euclidean_division_equations. lia. }
      assert (1 <= (8 - Z.of_nat (length rend) mod 8) mod 8) as Hpos
        by (revert H0; Z.to_euclidean_division_equations; lia).
      rewrite IH by lia. rewrite Hnext, <- app_assoc. f_equal.
      replace (Z.to_nat ((8 - Z.of_nat (length rend) mod 8) mod 8))
        with (S (Z.to_nat ((8 - Z.of_nat (length rend) mod 8) mod 8 - 1))) by lia.
      done.
Qed.

(** What one raw byte adds to the render text built so far. *)
Lemma render_loop_one ch rend :
  render_loop [ch] rend
  = rend ++ (if Ascii.eqb ch TAB
             then replicate (Z.to_nat (rx_advance (Z.of_nat (length rend)) ch
                                       - Z.of_nat (length rend))) SPACE
             else [ch]).
Proof.
  cbn [render_loop]. destruct (Ascii.eqb ch TAB) eqn:Ht; [|done].
  unfold rx_advance. rewrite Ht. unfold TAB_STOP.
  change (Z.to_nat 8) with 8%nat.
  rewrite tab_pad_spec.
  - rewrite <- app_assoc. f_equal.
    rewrite length_app. cbn [length]. rewrite Nat2Z.inj_add.
    change (Z.of_nat 1) with 1.
    assert (Z.of_nat (length rend) + (8 - 1 - Z.of_nat (length rend) mod 8) + 1
            - Z.of_nat (length rend)
            = 1 + (8 - (Z.of_nat (length rend) + 1) mod 8) mod 8) as ->
      by (Z.to_euclidean_division_equations; lia).
    rewrite Z2Nat.inj_add; [|lia|apply Z.mod_pos_bound; lia].
    done.
  - change (Z.of_nat 8) with 8.
    pose proof (Z.mod_pos_bound (8 - Z.of_nat (length (rend ++ [SPACE])) mod 8) 8).
    lia.
Qed.

Lemma render_loop_app cs1 : forall cs2 rend,
  render_loop (cs1 ++ cs2) rend = render_loop cs2 (render_loop cs1 rend).
Proof.
  induction cs1 as [|ch cs1 IH]; intros cs2 rend; [done|].
  cbn [app render_loop]. destruct (Ascii.eqb ch TAB); apply IH.
Qed.

Lemma render_loop_cons ch cs rend :
  render_loop (ch :: cs) rend = render_loop cs (render_loop [ch] rend).
Proof. apply (render_loop_app [ch]). Qed.

Lemma render_loop_prefix cs : forall rend,
  exists tail_, render_loop cs rend = rend ++ tail_.
Proof.
  induction cs as [|ch cs IH]; intros rend.
  - exists []. by rewrite app_nil_r.
  - rewrite render_loop_cons, render_loop_one.
    destruct (IH (rend ++ (if Ascii.eqb ch TAB
             then replicate (Z.to_nat (rx_advance (Z.of_nat (length rend)) ch
                                       - Z.of_nat (length rend))) SPACE
             else [ch]))) as [t ->].
    eexists. by rewrite <- app_assoc.
Qed.

Lemma render_loop_one_length ch rend :
  Z.of_nat (length (render_loop [ch] rend)) = rx_advance (Z.of_nat (length rend)) ch.
Proof.
  rewrite render_loop_one, length_app.
  pose proof (rx_advance_gt (Z.of_nat (length rend)) ch).
  unfold rx_advance in *.
  destruct (Ascii.eqb ch TAB); [rewrite length_replicate|cbn [length]]; lia.
Qed.

Lemma render_loop_length_fold cs : forall rend,
  Z.of_nat (length (render_loop cs rend))
  = fold_left rx_advance cs (Z.of_nat (length rend)).
Proof.
  induction cs as [|ch cs IH]; intros rend; [done|].
  rewrite render_loop_cons, IH, render_loop_one_length. done.
Qed.

End Rendering.

Section RenderedRow.

Lemma cx2rx_succ r (cx : nat) ch :
  chars r !! cx = Some ch ->
  editor_row_cx2rx r (Z.of_nat cx + 1)
  = rx_advance (editor_row_cx2rx r (Z.of_nat cx)) ch.
Proof.
  intros Hch. unfold editor_row_cx2rx.
  replace (Z.to_nat (Z.of_nat cx + 1)) with (S cx) by lia. rewrite Nat2Z.id.
  rewrite (take_S_r _ _ _ Hch), fold_left_app. done.
Qed.

Lemma render_loop_span cs (cx : nat) ch :
  cs !! cx = Some ch ->
  exists tail_,
    render_loop cs []
    = render_loop (take cx cs) []
      ++ (if Ascii.eqb ch TAB
          then replicate
                 (Z.to_nat (rx_advance (Z.of_nat (length (render_loop (take cx cs) []))) ch
                            - Z.of_nat (length (render_loop (take cx cs) [])))) SPACE
          else [ch])
      ++ tail_.
Proof.
  intros Hch.
  assert (render_loop cs []
          = render_loop (take cx cs ++ ch :: drop (S cx) cs) []) as ->
    by (by rewrite take_drop_middle).
  rewrite render_loop_app, render_loop_cons, render_loop_one.
  destruct (render_loop_prefix (drop (S cx) cs)
              (render_loop (take cx cs) []
               ++ (if Ascii.eqb ch TAB
                   then replicate
                          (Z.to_nat (rx_advance (Z.of_nat (length (render_loop (take cx cs) []))) ch
                                     - Z.of_nat (length (render_loop (take cx cs) [])))) SPACE
                   else [ch]))) as [t ->].
  exists t. by rewrite <- app_assoc.
Qed.

Lemma render_loop_cx2rx r (cx : nat) :
  Z.of_nat (length (render_loop (take cx (chars r)) [])) = editor_row_cx2rx r (Z.of_nat cx).
Proof.
  rewrite render_loop_length_fold. unfold editor_row_cx2rx. by rewrite Nat2Z.id.
Qed.


(** What [editor_update_row] leaves in the row it is called on. *)
Lemma editor_update_row_render_eq ec p r :
  wf_doc ec -> row ec !! p = Some r ->
  exists ec' r',
    editor_update_row ec p = Some ec' /\ row ec' !! p = Some r'
    /\ chars r' = chars r /\ render r' = render_loop (chars r) []
    /\ length (hl r') = length (render r').
Proof.
  intros [Hidx Hn] Hr. pose proof (lookup_lt_Some _ _ _ Hr) as Hp.
  unfold editor_update_row. rewrite Hr. cbn [mbind option_bind].
  set (r1 := set_render r (render_loop (chars r) [])).
  destruct (editor_update_syntax_spec (set_row ec (<[p := r1]> (row ec))) p)
    as (rows' & Hu & HF & Hlen).
  { simpl. eapply rows_indexed_insert; eauto. }
  { simpl. rewrite length_insert. lia. }
  { simpl. rewrite length_insert. done. }
  simpl in HF.
  destruct (Forall2_lookup_l _ _ _ p r1 HF) as (r' & Hr' & (_ & Hc & Hrr & _)).
  { by rewrite list_lookup_insert_eq. }
  eexists _, r'. split; [exact Hu|]. simpl. repeat split; try done. by apply Hlen.
Qed.

End RenderedRow.

(** X1. After [editor_update_row], the render text of the row is laid out as
    [editor_row_cx2rx] says: its length is the render index of the end of
    the raw text, and the render positions from the render index of a raw
    byte up to that of the next one hold that byte, or spaces when the byte
    is a tab. *)
Theorem editor_update_row_layout ec p r :
  wf_doc ec -> row ec !! p = Some r ->
  exists ec' r',
    editor_update_row ec p = Some ec' /\ row ec' !! p = Some r'
    /\ chars r' = chars r
    /\ rlen r' = editor_row_cx2rx r' (len r')
    /\ forall (cx : nat) ch rx,
         chars r' !! cx = Some ch ->
         editor_row_cx2rx r' (Z.of_nat cx) <= rx < editor_row_cx2rx r' (Z.of_nat cx + 1) ->
         render r' !! Z.to_nat rx = Some (if Ascii.eqb ch TAB then SPACE else ch).
Proof.
  intros Hwf Hr.
  destruct (editor_update_row_render_eq ec p r Hwf Hr)
    as (ec' & r' & He & Hr' & Hc & Hrend & _).
  exists ec', r'. split; [exact He|]. split; [exact Hr'|]. split; [exact Hc|].
  rewrite <- Hc in Hrend. split.
  - unfold rlen, len. rewrite Hrend, <- render_loop_cx2rx, take_ge by lia. done.
  - intros cx ch rx Hch Hrx.
    rewrite (cx2rx_succ _ _ _ Hch) in Hrx.
    destruct (render_loop_span _ _ _ Hch) as [t Ht].
    rewrite Hrend, Ht. rewrite <- render_loop_cx2rx in Hrx.
    set (P := render_loop (take cx (chars r')) []) in *.
    rewrite lookup_app_r by lia. rewrite lookup_app_l.
    + destruct (Ascii.eqb ch TAB) eqn:Ht'.
      * apply lookup_replicate. split; [done|lia].
      * unfold rx_advance in Hrx. rewrite Ht' in Hrx.
        replace (Z.to_nat rx - length P)%nat with 0%nat by lia. done.
    + destruct (Ascii.eqb ch TAB) eqn:Ht'.
      * rewrite length_replicate. lia.
      * cbn [length]. unfold rx_advance in Hrx. rewrite Ht' in Hrx. lia.
Qed.

Lemma editor_update_row_layout_witness :
  exists ec' r',
    editor_update_row (plain_doc [plain_row 0 "a	b"]) 0 = Some ec'
    /\ row ec' !! 0%nat = Some r'
    /\ rlen r' = editor_row_cx2rx r' (len r').
Proof.
  destruct (editor_update_row_layout (plain_doc [plain_row 0 "a	b"]) 0
              (plain_row 0 "a	b")) as (ec' & r' & He & Hr' & _ & Hl & _).
  - apply wf_doc_check_sound. vm_compute. reflexivity.
  - reflexivity.
  - exists ec', r'. split; [exact He|]. split; [exact Hr'|exact Hl].
Defined.



(** ** More on the coordinate mapper *)

Section MapperOrder.

Lemma rx2cx_loop_range cs : forall cx cur rx,
  cx <= rx2cx_loop cs cx cur rx <= cx + Z.of_nat (length cs).
Proof.
  induction cs as [|ch cs IH]; intros cx cur rx; cbn [rx2cx_loop length]; [lia|].
  destruct (rx <? rx_advance cur ch); [lia|].
  specialize (IH (cx + 1) (rx_advance cur ch) rx). lia.
Qed.

Lemma rx2cx_loop_locates cs : forall cx cur rx,
  cur <= rx ->
  exists k : nat,
    (k <= length cs)%nat
    /\ rx2cx_loop cs cx cur rx = cx + Z.of_nat k
    /\ fold_left rx_advance (take k cs) cur <= rx
    /\ ((k < length cs)%nat -> rx < fold_left rx_advance (take (S k) cs) cur).
Proof.
  induction cs as [|ch cs IH]; intros cx cur rx Hcur.
  - exists 0%nat. simpl. repeat split; lia.
  - cbn [rx2cx_loop]. destruct (Z.ltb_spec rx (rx_advance cur ch)) as [Hlt|Hge].
    + exists 0%nat. simpl. repeat split; lia.
    + destruct (IH (cx + 1) (rx_advance cur ch) rx Hge) as (k & Hk & He & Hle & Hlt).
      exists (S k). cbn [length take fold_left].
      split; [lia|]. split; [lia|]. split; [done|].
      intros Hk'. apply Hlt. lia.
Qed.

Lemma fold_rx_advance_le cs : forall rx,
  fold_left rx_advance cs rx <= rx + 8 * Z.of_nat (length cs).
Proof.
  induction cs as [|ch cs IH]; intros rx; cbn [fold_left length]; [lia|].
  specialize (IH (rx_advance rx ch)).
  assert (rx_advance rx ch <= rx + 8); [|lia].
  unfold rx_advance, TAB_STOP. pose proof (Z.mod_pos_bound rx 8 ltac:(lia)).
  destruct (Ascii.eqb ch TAB); lia.
Qed.

Lemma fold_rx_advance_ge_length cs : forall rx,
  rx + Z.of_nat (length cs) <= fold_left rx_advance cs rx.
Proof.
  induction cs as [|ch cs IH]; intros rx; cbn [fold_left length]; [lia|].
  specialize (IH (rx_advance rx ch)). pose proof (rx_advance_gt rx ch). lia.
Qed.

Lemma cx2rx_mono r (a b : nat) :
  (a <= b <= length (chars r))%nat ->
  editor_row_cx2rx r (Z.of_nat a) + Z.of_nat (b - a) <= editor_row_cx2rx r (Z.of_nat b).
Proof.
  intros Hab. unfold editor_row_cx2rx. rewrite !Nat2Z.id.
  replace b with (a + (b - a))%nat at 2 by lia.
  rewrite <- take_take_drop, fold_left_app.
  pose proof (fold_rx_advance_ge_length (take (b - a) (drop a (chars r)))
                (fold_left rx_advance (take a (chars r)) 0)) as H.
  rewrite length_take, length_drop in H. lia.
Qed.

End MapperOrder.

(** X3. [editor_row_rx2cx] always returns a raw index between 0 and [len];
    for a render index [rx >= 0] it is the raw byte whose render span holds
    [rx] (the span starts at or before [rx] and the next byte starts after
    it), and once [rx] is at or past the render width of the row it is
    [len]. *)
Theorem rx2cx_locates r rx :
  0 <= editor_row_rx2cx r rx <= len r
  /\ (0 <= rx ->
      editor_row_cx2rx r (editor_row_rx2cx r rx) <= rx
      /\ (editor_row_rx2cx r rx < len r ->
          rx < editor_row_cx2rx r (editor_row_rx2cx r rx + 1))
      /\ (editor_row_cx2rx r (len r) <= rx -> editor_row_rx2cx r rx = len r)).
Proof.
  unfold editor_row_rx2cx, len. split.
  - pose proof (rx2cx_loop_range (chars r) 0 0 rx). lia.
  - intros Hrx.
    destruct (rx2cx_loop_locates (chars r) 0 0 rx Hrx) as (k & Hk & -> & Hle & Hlt).
    unfold editor_row_cx2rx.
    replace (Z.to_nat (0 + Z.of_nat k)) with k by lia.
    replace (Z.to_nat (0 + Z.of_nat k + 1)) with (S k) by lia.
    split; [done|]. split; [intros; apply Hlt; lia|].
    rewrite Nat2Z.id, firstn_all. intros Hall.
    destruct (decide (k = length (chars r))) as [->|Hne]; [lia|].
    specialize (Hlt ltac:(lia)).
    pose proof (cx2rx_mono r (S k) (length (chars r)) ltac:(lia)) as Hm.
    unfold editor_row_cx2rx in Hm. rewrite !Nat2Z.id, firstn_all in Hm. lia.
Qed.

Lemma rx2cx_locates_witness :
  editor_row_cx2rx (plain_row 0 "a	b") (editor_row_rx2cx (plain_row 0 "a	b") 5) <= 5
  /\ editor_row_rx2cx (plain_row 0 "a	b") 5 = 1.
Proof.
  split; [|reflexivity].
  apply (proj2 (rx2cx_locates (plain_row 0 "a	b") 5)). lia.
Defined.

(** X4. [editor_row_cx2rx] is strictly increasing on the raw indices of a
    row, moves by at least one and at most [TAB_STOP] render columns per
    byte, and maps 0 to 0. *)
Theorem cx2rx_increasing r (a b : Z) :
  0 <= a <= b -> b <= len r ->
  editor_row_cx2rx r 0 = 0
  /\ editor_row_cx2rx r a + (b - a) <= editor_row_cx2rx r b
  /\ editor_row_cx2rx r b <= editor_row_cx2rx r a + TAB_STOP * (b - a).
Proof.
  intros Hab Hb. unfold len in Hb. split; [done|]. split.
  - pose proof (cx2rx_mono r (Z.to_nat a) (Z.to_nat b) ltac:(lia)) as H.
    rewrite !Z2Nat.id in H by lia. lia.
  - unfold editor_row_cx2rx, TAB_STOP.
    replace (Z.to_nat b) with (Z.to_nat a + (Z.to_nat b - Z.to_nat a))%nat by lia.
    rewrite <- take_take_drop, fold_left_app.
    pose proof (fold_rx_advance_le
                  (take (Z.to_nat b - Z.to_nat a) (drop (Z.to_nat a) (chars r)))
                  (fold_left rx_advance (take (Z.to_nat a) (chars r)) 0)) as H.
    rewrite length_take, length_drop in H. lia.
Qed.

Lemma cx2rx_increasing_witness :
  editor_row_cx2rx (plain_row 0 "a	b") 1 + (3 - 1) <= editor_row_cx2rx (plain_row 0 "a	b") 3.
Proof.
  apply (proj1 (proj2 (cx2rx_increasing (plain_row 0 "a	b") 1 3
                         ltac:(lia) ltac:(vm_compute; discriminate)))).
Defined.

(** ** Round trips of the editing operations *)

Section RoundTrips.

Lemma take_S_insert {A} (l : list A) q x :
  (q < length l)%nat -> take (S q) (<[q := x]> l) = take q l ++ [x].
Proof.
  intros Hq. rewrite insert_take_drop by done.
  replace (S q) with (q + 1)%nat by lia.
  rewrite (take_app_add' _ _ q 1) by (rewrite length_take; lia). done.
Qed.

Lemma drop_S_insert {A} (l : list A) q x n :
  (q < n)%nat -> drop n (<[q := x]> l) = drop n l.
Proof. intros. by apply drop_insert_lt. Qed.

Lemma lookup_raw_text ec p r :
  row ec !! p = Some r -> raw_text ec !! p = Some (chars r).
Proof. intros Hr. unfold raw_text. by rewrite list_lookup_fmap, Hr. Qed.

Lemma raw_text_middle ec p r :
  row ec !! p = Some r ->
  raw_text ec = take p (raw_text ec) ++ chars r :: drop (S p) (raw_text ec).
Proof.
  intros Hr. symmetry. apply take_drop_middle. by apply lookup_raw_text.
Qed.

(** Newline on a row: the row is split at the cursor. *)
Lemma editor_insert_newline_text ec r :
  wf_doc ec -> cursor_ok ec -> row ec !! Z.to_nat (cursor_y ec) = Some r ->
  exists rows',
    editor_insert_newline ec
      = Some (set_cursor (set_dirty (set_num_rows (set_row ec rows') (num_rows ec + 1))
                                    (int_wrap (dirty ec + 1)))
                         0 (cursor_y ec + 1))
    /\ rows_indexed rows' /\ length rows' = S (length (row ec))
    /\ chars <$> rows'
       = take (Z.to_nat (cursor_y ec)) (raw_text ec)
         ++ take (Z.to_nat (cursor_x ec)) (chars r)
         :: drop (Z.to_nat (cursor_x ec)) (chars r)
         :: drop (S (Z.to_nat (cursor_y ec))) (raw_text ec).
Proof.
  intros Hwf (Hy & Hx & Hrow) Hr. pose proof Hwf as [Hidx Hn].
  pose proof (lookup_lt_Some _ _ _ Hr) as Hp. rewrite Hr in Hrow.
  pose proof (lookup_raw_text _ _ _ Hr) as Hraw.
  unfold editor_insert_newline.
  destruct (Z.eqb_spec (cursor_x ec) 0) as [Hx0|Hx0].
  - destruct (editor_insert_row_spec ec (cursor_y ec) [] Hwf ltac:(lia))
      as (rows' & He & Hi & Hl & Hc & _).
    rewrite He. cbn [mbind option_bind]. exists rows'.
    split; [reflexivity|]. split; [done|]. split; [done|].
    rewrite Hc, Hx0. simpl. rewrite drop_0. f_equal. f_equal.
    by apply drop_S.
  - rewrite row_ptr_nonneg by lia. cbn [mbind option_bind]. rewrite Hr.
    cbn [mbind option_bind].
    destruct (editor_insert_row_spec ec (cursor_y ec + 1)
                (drop (Z.to_nat (cursor_x ec)) (chars r)) Hwf)
      as (rows1 & He1 & Hi1 & Hl1 & Hc1 & _); [lia|].
    rewrite He1. cbn [mbind option_bind].
    set (ec1 := set_dirty (set_num_rows (set_row ec rows1) (num_rows ec + 1))
                          (int_wrap (dirty ec + 1))).
    change (row ec1) with rows1.
    destruct (lookup_lt_is_Some_2 rows1 (Z.to_nat (cursor_y ec))) as [r1 Hr1]; [lia|].
    rewrite Hr1. cbn [mbind option_bind].
    replace (Z.to_nat (cursor_y ec + 1)) with (S (Z.to_nat (cursor_y ec))) in Hc1 by lia.
    assert (chars r1 = chars r) as Hcr1.
    { assert ((chars <$> rows1) !! Z.to_nat (cursor_y ec) = Some (chars r1)) as H1
        by (by rewrite list_lookup_fmap, Hr1).
      rewrite Hc1, lookup_app_l in H1
        by (rewrite length_take; unfold raw_text; rewrite length_fmap; lia).
      rewrite lookup_take_lt in H1 by lia. rewrite Hraw in H1. by injection H1. }
    destruct (update_chars_spec ec1 (Z.to_nat (cursor_y ec)) r1
                (take (Z.to_nat (cursor_x ec1)) (chars r1)))
      as (rows2 & He2 & Hi2 & Hl2 & Hc2 & _); [done|simpl; lia|done|].
    change (row ec1) with rows1 in He2, Hl2, Hc2. rewrite He2. cbn [mbind option_bind].
    exists rows2. split; [reflexivity|]. split; [done|]. split; [lia|].
    rewrite Hc2, Hc1, Hcr1. change (cursor_x ec1) with (cursor_x ec).
    rewrite insert_app_l
      by (rewrite length_take; unfold raw_text; rewrite length_fmap; lia).
    rewrite <- take_insert_lt by lia.
    rewrite take_S_insert by (unfold raw_text; rewrite length_fmap; lia).
    rewrite <- app_assoc. done.
Qed.

(** Backspace inside a row: the byte before the cursor goes. *)
Lemma editor_del_char_in_row ec r :
  wf_doc ec -> 0 <= cursor_y ec -> row ec !! Z.to_nat (cursor_y ec) = Some r ->
  0 < cursor_x ec <= len r ->
  exists rows',
    editor_del_char ec
      = Some (set_cursor (set_dirty (set_row ec rows') (int_wrap (dirty ec + 1)))
                         (cursor_x ec - 1) (cursor_y ec))
    /\ rows_indexed rows' /\ length rows' = length (row ec)
    /\ chars <$> rows'
       = <[Z.to_nat (cursor_y ec) :=
             take (Z.to_nat (cursor_x ec - 1)) (chars r)
             ++ drop (S (Z.to_nat (cursor_x ec - 1))) (chars r)]> (raw_text ec).
Proof.
  intros Hwf Hy Hr Hx. pose proof Hwf as [Hidx Hn].
  pose proof (lookup_lt_Some _ _ _ Hr) as Hp. unfold editor_del_char.
  destruct (Z.eqb_spec (cursor_y ec) (num_rows ec)); [lia|].
  destruct (Z.eqb_spec (cursor_x ec) 0); [lia|]. cbn [andb].
  rewrite (row_ptr_nonneg (cursor_y ec)) by lia. cbn [mbind option_bind].
  rewrite Hr. cbn [mbind option_bind].
  destruct (Z.ltb_spec 0 (cursor_x ec)); [|lia].
  destruct (editor_row_del_char_spec ec _ r (cursor_x ec - 1) Hwf Hr)
    as (rows' & He & Hi & Hl & Hc & _); [lia|].
  rewrite He. cbn [mbind option_bind]. exists rows'. done.
Qed.

(** Backspace at the start of a row that has a row above it: the two rows
    are merged and the cursor goes to the seam. *)
Lemma editor_del_char_merge ec prev r :
  wf_doc ec -> cursor_x ec = 0 -> 0 < cursor_y ec ->
  row ec !! Z.to_nat (cursor_y ec - 1) = Some prev ->
  row ec !! Z.to_nat (cursor_y ec) = Some r ->
  exists rows',
    editor_del_char ec
      = Some (set_cursor (set_dirty (set_num_rows (set_row ec rows') (num_rows ec - 1))
                                    (int_wrap (dirty ec + 2)))
                         (len prev) (cursor_y ec - 1))
    /\ rows_indexed rows' /\ S (length rows') = length (row ec)
    /\ chars <$> rows'
       = take (Z.to_nat (cursor_y ec - 1)) (raw_text ec)
         ++ (chars prev ++ chars r)
         :: drop (S (Z.to_nat (cursor_y ec))) (raw_text ec).
Proof.
  intros Hwf Hx0 Hy Hprev Hr. pose proof Hwf as [Hidx Hn].
  pose proof (lookup_lt_Some _ _ _ Hr) as Hp. unfold editor_del_char.
  destruct (Z.eqb_spec (cursor_y ec) (num_rows ec)); [lia|].
  destruct (Z.eqb_spec (cursor_y ec) 0); [lia|]. rewrite andb_false_r.
  rewrite (row_ptr_nonneg (cursor_y ec)) by lia. cbn [mbind option_bind].
  rewrite Hr. cbn [mbind option_bind].
  destruct (Z.ltb_spec 0 (cursor_x ec)); [lia|].
  rewrite row_ptr_nonneg by lia. cbn [mbind option_bind].
  rewrite Hprev. cbn [mbind option_bind].
  set (ec0 := set_cursor ec (len prev) (cursor_y ec)).
  destruct (editor_row_append_str_spec ec0 (Z.to_nat (cursor_y ec - 1)) prev (chars r))
    as (rows1 & He1 & Hi1 & Hl1 & Hc1 & _); [done|done|].
  rewrite He1. cbn [mbind option_bind].
  set (ec1 := set_dirty (set_row ec0 rows1) (int_wrap (dirty ec0 + 1))).
  destruct (editor_del_row_spec ec1 (cursor_y ec1))
    as (rows2 & He2 & Hi2 & Hl2 & Hc2 & _).
  { split; simpl in *; [done|lia]. }
  { simpl. lia. }
  rewrite He2. cbn [mbind option_bind]. exists rows2. simpl in *.
  split; [simpl; rewrite ?int_wrap_succ_succ; reflexivity|].
  split; [done|]. split; [lia|].
  rewrite Hc2. unfold raw_text in *. simpl in *. rewrite Hc1.
  replace (Z.to_nat (cursor_y ec)) with (S (Z.to_nat (cursor_y ec - 1))) by lia.
  rewrite take_S_insert by (rewrite length_fmap; lia).
  rewrite drop_S_insert by lia. rewrite <- app_assoc. done.
Qed.

End RoundTrips.

Section RoundTripProofs.

Lemma lookup_chars_fmap (rows : list erow) (raw : list (list ascii)) p cs :
  chars <$> rows = raw -> raw !! p = Some cs ->
  exists r, rows !! p = Some r /\ chars r = cs.
Proof.
  intros <- H. rewrite list_lookup_fmap in H.
  destruct (rows !! p) as [r|]; [|discriminate]. injection H as <-. eauto.
Qed.

Lemma newline_then_backspace_in_row ec r :
  wf_doc ec -> cursor_ok ec -> row ec !! Z.to_nat (cursor_y ec) = Some r ->
  exists ec1 ec2,
    editor_insert_newline ec = Some ec1 /\ editor_del_char ec1 = Some ec2
    /\ raw_text ec2 = raw_text ec
    /\ cursor_x ec2 = cursor_x ec /\ cursor_y ec2 = cursor_y ec
    /\ num_rows ec2 = num_rows ec /\ dirty ec2 = int_wrap (dirty ec + 3).
Proof.
  intros Hwf Hcur Hr. pose proof Hwf as [Hidx Hn]. pose proof Hcur as (Hy & Hx & Hrow).
  rewrite Hr in Hrow. pose proof (lookup_lt_Some _ _ _ Hr) as Hp.
  destruct (editor_insert_newline_text ec r Hwf Hcur Hr)
    as (rows1 & He1 & Hi1 & Hl1 & Hc1).
  set (p := Z.to_nat (cursor_y ec)) in *.
  set (a := take (Z.to_nat (cursor_x ec)) (chars r)) in *.
  set (b := drop (Z.to_nat (cursor_x ec)) (chars r)) in *.
  assert (length (take p (raw_text ec)) = p) as Hlp
    by (rewrite length_take; unfold raw_text; rewrite length_fmap; lia).
  destruct (lookup_chars_fmap rows1 _ p a Hc1) as (r1a & Hr1a & Hca).
  { rewrite lookup_app_r by lia. rewrite Hlp, Nat.sub_diag. done. }
  destruct (lookup_chars_fmap rows1 _ (S p) b Hc1) as (r1b & Hr1b & Hcb).
  { rewrite lookup_app_r by lia. rewrite Hlp. replace (S p - p)%nat with 1%nat by lia. done. }
  destruct (editor_del_char_merge
              (set_cursor (set_dirty (set_num_rows (set_row ec rows1) (num_rows ec + 1))
                                     (int_wrap (dirty ec + 1))) 0 (cursor_y ec + 1)) r1a r1b)
    as (rows2 & He2 & Hi2 & Hl2 & Hc2).
  { split; simpl; [done|lia]. }
  { done. }
  { simpl. lia. }
  { simpl. replace (Z.to_nat (cursor_y ec + 1 - 1)) with p by lia. done. }
  { simpl. replace (Z.to_nat (cursor_y ec + 1)) with (S p) by lia. done. }
  eexists _, _. split; [exact He1|]. split; [exact He2|]. simpl in *. unfold raw_text at 1. simpl.
  replace (Z.to_nat (cursor_y ec + 1 - 1)) with p in Hc2 by lia.
  replace (Z.to_nat (cursor_y ec + 1)) with (S p) in Hc2 by lia.
  split; [|split; [|split; [lia|split; [lia|dirty_eq]]]].
  - rewrite Hc2. unfold raw_text at 1 2. simpl. rewrite Hc1, Hca, Hcb.
    rewrite take_app_length' by done.
    replace (S (S p)) with (length (take p (raw_text ec)) + 2)%nat by lia.
    rewrite drop_app_add. simpl. unfold a, b. rewrite take_drop.
    symmetry. by apply raw_text_middle.
  - unfold len. rewrite Hca. unfold a. rewrite length_take. unfold len in Hrow. lia.
Qed.

Lemma newline_then_backspace_at_end ec :
  wf_doc ec -> cursor_ok ec -> cursor_y ec = num_rows ec ->
  exists ec1,
    editor_insert_newline ec = Some ec1 /\ editor_del_char ec1 = Some ec1
    /\ raw_text ec1 = raw_text ec ++ [[]]
    /\ cursor_x ec1 = 0 /\ cursor_y ec1 = cursor_y ec + 1
    /\ num_rows ec1 = num_rows ec + 1.
Proof.
  intros Hwf (Hy & Hx & Hrow) Hend. pose proof Hwf as [Hidx Hn].
  rewrite lookup_ge_None_2 in Hrow by lia.
  unfold editor_insert_newline. rewrite Hrow, Z.eqb_refl.
  destruct (editor_insert_row_spec ec (cursor_y ec) [] Hwf ltac:(lia))
    as (rows' & He & Hi & Hl & Hc & _).
  rewrite He. cbn [mbind option_bind]. eexists. split; [reflexivity|].
  unfold editor_del_char. simpl. rewrite Hend, Z.eqb_refl.
  split; [done|]. unfold raw_text at 1. simpl. rewrite Hc.
  rewrite take_ge, drop_ge by (unfold raw_text; rewrite length_fmap; lia).
  repeat split; done.
Qed.

Lemma insert_char_then_backspace_in_row ec c r :
  wf_doc ec -> cursor_ok ec -> row ec !! Z.to_nat (cursor_y ec) = Some r ->
  exists ec1 ec2,
    editor_insert_char ec c = Some ec1 /\ editor_del_char ec1 = Some ec2
    /\ raw_text ec2 = raw_text ec
    /\ cursor_x ec2 = cursor_x ec /\ cursor_y ec2 = cursor_y ec
    /\ num_rows ec2 = num_rows ec /\ dirty ec2 = int_wrap (dirty ec + 2).
Proof.
  intros Hwf (Hy & Hx & Hrow) Hr. pose proof Hwf as [Hidx Hn].
  rewrite Hr in Hrow. pose proof (lookup_lt_Some _ _ _ Hr) as Hp.
  destruct (editor_insert_char_in_row ec c r Hwf ltac:(lia) Hr)
    as (rows1 & He1 & Hi1 & Hl1 & Hc1 & _).
  rewrite insert_offset_cases in Hc1.
  destruct (decide (0 <= cursor_x ec <= len r)) as [_|]; [|lia].
  set (p := Z.to_nat (cursor_y ec)) in *. set (k := Z.to_nat (cursor_x ec)) in *.
  destruct (lookup_chars_fmap rows1 _ p
              (take k (chars r) ++ char_of_int c :: drop k (chars r)) Hc1)
    as (r1 & Hr1 & Hcr1).
  { apply list_lookup_insert_eq. unfold raw_text. rewrite length_fmap. lia. }
  assert (length (take k (chars r)) = k) as Hlk
    by (rewrite length_take; unfold len in Hrow; lia).
  destruct (editor_del_char_in_row
              (set_cursor (set_dirty (set_row ec rows1) (int_wrap (dirty ec + 1)))
                          (cursor_x ec + 1) (cursor_y ec)) r1)
    as (rows2 & He2 & Hi2 & Hl2 & Hc2).
  { split; simpl; [done|lia]. }
  { simpl. lia. }
  { done. }
  { simpl. unfold len. rewrite Hcr1, length_app. cbn [length].
    rewrite length_take, length_drop. unfold len in Hrow. lia. }
  eexists _, _. split; [exact He1|]. split; [exact He2|]. simpl in *. unfold raw_text at 1. simpl.
  split; [|repeat split; first [lia|dirty_eq]].
  rewrite Hc2. unfold raw_text at 1. simpl. rewrite Hc1, Hcr1.
  replace (Z.to_nat (cursor_x ec + 1 - 1)) with k by lia.
  rewrite list_insert_insert_eq.
  rewrite take_app_length' by done.
  replace (S k) with (length (take k (chars r)) + 1)%nat by lia.
  rewrite drop_app_add. simpl. rewrite drop_0, take_drop.
  apply list_insert_id. by apply lookup_raw_text.
Qed.

Lemma insert_char_then_backspace_at_end ec c :
  wf_doc ec -> cursor_ok ec -> cursor_y ec = num_rows ec ->
  exists ec1 ec2,
    editor_insert_char ec c = Some ec1 /\ editor_del_char ec1 = Some ec2
    /\ raw_text ec2 = raw_text ec ++ [[]]
    /\ cursor_x ec2 = cursor_x ec /\ cursor_y ec2 = cursor_y ec
    /\ num_rows ec2 = num_rows ec + 1 /\ dirty ec2 = int_wrap (dirty ec + 3).
Proof.
  intros Hwf (Hy & Hx & Hrow) Hend. pose proof Hwf as [Hidx Hn].
  rewrite lookup_ge_None_2 in Hrow by lia.
  destruct (editor_insert_char_at_end ec c Hwf Hend)
    as (rows1 & He1 & Hi1 & Hl1 & Hc1 & _).
  set (p := Z.to_nat (cursor_y ec)) in *.
  assert (length (raw_text ec) = p) as Hlr by (unfold raw_text; rewrite length_fmap; lia).
  destruct (lookup_chars_fmap rows1 _ p [char_of_int c] Hc1) as (r1 & Hr1 & Hcr1).
  { rewrite lookup_app_r by lia. rewrite Hlr, Nat.sub_diag. done. }
  destruct (editor_del_char_in_row
              (set_cursor (set_dirty (set_num_rows (set_row ec rows1) (num_rows ec + 1))
                                     (int_wrap (dirty ec + 2)))
                          (cursor_x ec + 1) (cursor_y ec)) r1)
    as (rows2 & He2 & Hi2 & Hl2 & Hc2).
  { split; simpl; [done|lia]. }
  { simpl. lia. }
  { done. }
  { simpl. unfold len. rewrite Hcr1. simpl. lia. }
  eexists _, _. split; [exact He1|]. split; [exact He2|]. simpl in *. unfold raw_text at 1. simpl.
  split; [|repeat split; first [lia|dirty_eq]].
  rewrite Hc2. unfold raw_text at 1. simpl. rewrite Hc1, Hcr1, Hrow. simpl.
  fold p. rewrite insert_app_r_alt by lia. rewrite Hlr, Nat.sub_diag. done.
Qed.

End RoundTripProofs.

(** X5. Splitting a row with a newline and then pressing backspace gives the
    document back: on a row, whatever the cursor column, the raw text, the
    row count and the cursor are as before, and the dirty counter has been
    incremented three times, each time with the wrap-around of [int].  On
    the line after the last row the newline appends an empty row and the
    backspace that follows does nothing, so the empty row stays. *)
Theorem newline_then_backspace ec :
  wf_doc ec -> cursor_ok ec ->
  exists ec1 ec2,
    editor_insert_newline ec = Some ec1 /\ editor_del_char ec1 = Some ec2
    /\ (cursor_y ec < num_rows ec ->
        raw_text ec2 = raw_text ec
        /\ cursor_x ec2 = cursor_x ec /\ cursor_y ec2 = cursor_y ec
        /\ num_rows ec2 = num_rows ec /\ dirty ec2 = int_wrap (dirty ec + 3))
    /\ (cursor_y ec = num_rows ec ->
        ec2 = ec1 /\ raw_text ec2 = raw_text ec ++ [[]]
        /\ cursor_x ec2 = 0 /\ cursor_y ec2 = cursor_y ec + 1).
Proof.
  intros Hwf Hcur. pose proof Hwf as [_ Hn]. pose proof Hcur as (Hy & _).
  destruct (decide (cursor_y ec = num_rows ec)) as [Hend|Hin].
  - destruct (newline_then_backspace_at_end ec Hwf Hcur Hend)
      as (ec1 & He1 & He2 & Hraw & Hx & Hy' & _).
    exists ec1, ec1. split; [done|]. split; [done|]. split; [lia|done].
  - destruct (lookup_lt_is_Some_2 (row ec) (Z.to_nat (cursor_y ec))) as [r Hr]; [lia|].
    destruct (newline_then_backspace_in_row ec r Hwf Hcur Hr)
      as (ec1 & ec2 & He1 & He2 & H).
    exists ec1, ec2. split; [done|]. split; [done|]. split; [done|lia].
Qed.

Lemma newline_then_backspace_witness :
  exists ec1 ec2,
    editor_insert_newline (set_cursor (plain_doc [plain_row 0 "abc"]) 1 0) = Some ec1
    /\ editor_del_char ec1 = Some ec2
    /\ raw_text ec2 = [str "abc"] /\ cursor_x ec2 = 1 /\ cursor_y ec2 = 0.
Proof.
  destruct (newline_then_backspace (set_cursor (plain_doc [plain_row 0 "abc"]) 1 0))
    as (ec1 & ec2 & He1 & He2 & Hin & _).
  - apply wf_doc_check_sound. vm_compute. reflexivity.
  - unfold cursor_ok. simpl. unfold len. simpl. lia.
  - destruct Hin as (Hraw & Hx & Hy & _); [simpl; lia|].
    exists ec1, ec2. repeat split; assumption.
Defined.

(** X6. Typing a byte and then pressing backspace restores the cursor, and
    on a row it restores the raw text and the row count as well, the dirty
    counter having been incremented twice.  On the line after the last row
    the typing appends a row, which the backspace empties but does not
    remove: the document ends up one empty row longer, after three
    increments of the dirty counter.  The increments are those of
    [ec.dirty++], with the wrap-around of [int]. *)
Theorem insert_char_then_backspace ec c :
  wf_doc ec -> cursor_ok ec ->
  exists ec1 ec2,
    editor_insert_char ec c = Some ec1 /\ editor_del_char ec1 = Some ec2
    /\ cursor_x ec2 = cursor_x ec /\ cursor_y ec2 = cursor_y ec
    /\ (cursor_y ec < num_rows ec ->
        raw_text ec2 = raw_text ec /\ num_rows ec2 = num_rows ec
        /\ dirty ec2 = int_wrap (dirty ec + 2))
    /\ (cursor_y ec = num_rows ec ->
        raw_text ec2 = raw_text ec ++ [[]] /\ num_rows ec2 = num_rows ec + 1
        /\ dirty ec2 = int_wrap (dirty ec + 3)).
Proof.
  intros Hwf Hcur. pose proof Hwf as [_ Hn]. pose proof Hcur as (Hy & _).
  destruct (decide (cursor_y ec = num_rows ec)) as [Hend|Hin].
  - destruct (insert_char_then_backspace_at_end ec c Hwf Hcur Hend)
      as (ec1 & ec2 & He1 & He2 & Hraw & Hx & Hy' & Hn' & Hd).
    exists ec1, ec2. repeat split; try done; lia.
  - destruct (lookup_lt_is_Some_2 (row ec) (Z.to_nat (cursor_y ec))) as [r Hr]; [lia|].
    destruct (insert_char_then_backspace_in_row ec c r Hwf Hcur Hr)
      as (ec1 & ec2 & He1 & He2 & Hraw & Hx & Hy' & Hn' & Hd).
    exists ec1, ec2. repeat split; try done; lia.
Qed.

Lemma insert_char_then_backspace_witness :
  (exists ec1 ec2,
      editor_insert_char (set_cursor foo_doc 2 0) 120 = Some ec1
      /\ editor_del_char ec1 = Some ec2
      /\ cursor_x ec2 = 2 /\ cursor_y ec2 = 0
      /\ raw_text ec2 = [str "a foo b"; str "bar"; str "baz"]
      /\ num_rows ec2 = 3 /\ dirty ec2 = 2)
  /\ (exists ec1 ec2,
        editor_insert_char (plain_doc []) 97 = Some ec1
        /\ editor_del_char ec1 = Some ec2
        /\ raw_text ec2 = [[]] /\ num_rows ec2 = 1 /\ dirty ec2 = 3).
Proof.
  split.
  - destruct (insert_char_then_backspace (set_cursor foo_doc 2 0) 120)
      as (ec1 & ec2 & He1 & He2 & Hx & Hy & Hin & _).
    + apply wf_doc_check_sound. vm_compute. reflexivity.
    + unfold cursor_ok. simpl. unfold len. simpl. lia.
    + destruct Hin as (Hraw & Hn & Hd); [simpl; lia|].
      exists ec1, ec2. repeat split; assumption.
  - destruct (insert_char_then_backspace (plain_doc []) 97)
      as (ec1 & ec2 & He1 & He2 & _ & _ & _ & Hend).
    + apply wf_doc_check_sound. vm_compute. reflexivity.
    + unfold cursor_ok. simpl. lia.
    + destruct Hend as (Hraw & Hn & Hd); [reflexivity|].
      exists ec1, ec2. repeat split; assumption.
Defined.

(** X7. Inserting a row at a valid position and deleting the row at that
    position again restores the raw text and the row count, and leaves the
    rows numbered consecutively; the dirty counter has been incremented
    twice, each time with the wrap-around of [int]. *)
Theorem insert_row_then_del_row ec at_ s :
  wf_doc ec -> 0 <= at_ <= num_rows ec ->
  exists ec1 ec2,
    editor_insert_row ec at_ s = Some ec1 /\ editor_del_row ec1 at_ = Some ec2
    /\ raw_text ec1 !! Z.to_nat at_ = Some s
    /\ raw_text ec2 = raw_text ec /\ num_rows ec2 = num_rows ec
    /\ wf_doc ec2 /\ dirty ec2 = int_wrap (dirty ec + 2).
Proof.
  intros Hwf Hat. pose proof Hwf as [Hidx Hn].
  destruct (editor_insert_row_spec ec at_ s Hwf Hat) as (rows1 & He1 & Hi1 & Hl1 & Hc1 & _).
  set (ec1 := set_dirty (set_num_rows (set_row ec rows1) (num_rows ec + 1))
                        (int_wrap (dirty ec + 1))).
  destruct (editor_del_row_spec ec1 at_) as (rows2 & He2 & Hi2 & Hl2 & Hc2 & _).
  { split; simpl; [done|lia]. }
  { simpl. lia. }
  assert (length (take (Z.to_nat at_) (raw_text ec)) = Z.to_nat at_) as Hla
    by (rewrite length_take; unfold raw_text; rewrite length_fmap; lia).
  assert (raw_text ec1
          = take (Z.to_nat at_) (raw_text ec) ++ s :: drop (Z.to_nat at_) (raw_text ec))
    as Hraw1 by exact Hc1.
  eexists ec1, _. split; [exact He1|]. split; [exact He2|].
  rewrite Hraw1 in *. clear Hraw1. subst ec1. simpl in *.
  split; [|split; [|split; [lia|split; [split; simpl; [done|lia]|dirty_eq]]]].
  - rewrite lookup_app_r by lia. by rewrite Hla, Nat.sub_diag.
  - unfold raw_text at 1. simpl. rewrite Hc2. rewrite take_app_length' by done.
    replace (S (Z.to_nat at_))
      with (length (take (Z.to_nat at_) (raw_text ec)) + 1)%nat by lia.
    rewrite drop_app_add. simpl. rewrite drop_0. apply take_drop.
Qed.

Lemma insert_row_then_del_row_witness :
  exists ec1 ec2,
    editor_insert_row (plain_doc [plain_row 0 "ab"]) 0 (str "x") = Some ec1
    /\ editor_del_row ec1 0 = Some ec2 /\ raw_text ec2 = [str "ab"].
Proof.
  destruct (insert_row_then_del_row (plain_doc [plain_row 0 "ab"]) 0 (str "x"))
    as (ec1 & ec2 & He1 & He2 & _ & Hraw & _).
  - apply wf_doc_check_sound. vm_compute. reflexivity.
  - simpl. lia.
  - exists ec1, ec2. repeat split; assumption.
Defined.

(** ** The cascade of the highlighter *)

Section Cascade.

Lemma incoming_comment_insert ec p r r' rq :
  row ec !! p = Some r ->
  (Z.to_nat (idx rq - 1) <> p \/ idx rq <= 0 \/ hl_open_comment r' = hl_open_comment r) ->
  incoming_comment (set_row ec (<[p := r']> (row ec))) rq = incoming_comment ec rq.
Proof.
  intros Hr Hq. unfold incoming_comment. cbn [row set_row].
  destruct (Z.ltb_spec 0 (idx rq)); [|done].
  destruct (decide (Z.to_nat (idx rq - 1) = p)) as [He|Hne].
  - rewrite He, list_lookup_insert_eq by (eapply lookup_lt_Some; eauto). rewrite Hr.
    cbn. destruct Hq as [?|[?| ->]]; [done|lia|done].
  - by rewrite list_lookup_insert_ne.
Qed.

Lemma row_consistent_insert ec p r r' rq :
  row ec !! p = Some r ->
  (Z.to_nat (idx rq - 1) <> p \/ idx rq <= 0 \/ hl_open_comment r' = hl_open_comment r) ->
  row_consistent ec rq -> row_consistent (set_row ec (<[p := r']> (row ec))) rq.
Proof.
  intros Hr Hq. unfold row_consistent. cbn [syntax set_row].
  destruct (syntax ec); [|done].
  intros (b & Hb & Hcl). exists b. split; [|done].
  by rewrite (incoming_comment_insert ec p r r' rq).
Qed.

Lemma editor_update_syntax_rec_cascade : forall fuel ec p r,
  rows_indexed (row ec) -> num_rows ec <= Z.of_nat (length (row ec)) ->
  row ec !! p = Some r -> (length (row ec) - p <= fuel)%nat ->
  exists rows' r',
    editor_update_syntax_rec fuel ec p = Some (set_row ec rows')
    /\ length rows' = length (row ec)
    /\ rows' !! p = Some r'
    /\ hl_updated r r'
    /\ row_consistent (set_row ec rows') r'
    /\ (forall q, (q < p)%nat -> rows' !! q = row ec !! q)
    /\ (forall q, (p < q)%nat -> num_rows ec <= Z.of_nat q -> rows' !! q = row ec !! q)
    /\ (hl_open_comment r' = hl_open_comment r -> rows' = <[p := r']> (row ec))
    /\ (consistent_except ec p -> num_rows ec = Z.of_nat (length (row ec)) ->
        doc_consistent (set_row ec rows')).
Proof.
  induction fuel as [|fuel IH]; intros ec p r Hidx Hn Hr Hf.
  { apply lookup_lt_Some in Hr. lia. }
  pose proof (lookup_lt_Some _ _ _ Hr) as Hp.
  pose proof (Hidx p r Hr) as Hip.
  cbn [editor_update_syntax_rec]. rewrite Hr. cbn [mbind option_bind].
  destruct (syntax ec) as [syn|] eqn:Hsyn.
  2:{ set (r0 := set_hl r (replicate (length (render r)) HL_NORMAL)).
      exists (<[p := r0]> (row ec)), r0.
      split; [done|]. split; [by rewrite length_insert|].
      split; [by rewrite list_lookup_insert_eq|].
      split; [unfold hl_updated; simpl; rewrite length_replicate; intuition auto|].
      split; [unfold row_consistent; cbn [syntax set_row]; by rewrite Hsyn|].
      split; [intros q Hq; rewrite list_lookup_insert_ne by lia; done|].
      split; [intros q Hq _; rewrite list_lookup_insert_ne by lia; done|].
      split; [done|].
      intros Hexc _ q x Hx. unfold row_consistent. cbn [syntax set_row]. rewrite Hsyn.
      cbn [row set_row] in Hx.
      destruct (decide (q = p)) as [->|Hne].
      - rewrite list_lookup_insert_eq in Hx by done. by injection Hx as <-.
      - rewrite list_lookup_insert_ne in Hx by done.
        specialize (Hexc q x Hne Hx). unfold row_consistent in Hexc.
        by rewrite Hsyn in Hexc. }
  assert (exists b, incoming_comment ec r = Some b) as [b Hb].
  { unfold incoming_comment. destruct (Z.ltb_spec 0 (idx r)); [|eauto].
    destruct (lookup_lt_is_Some_2 (row ec) (Z.to_nat (idx r - 1))) as [q ->]; [lia|].
    simpl. eauto. }
  rewrite Hb. cbn [mbind option_bind].
  destruct (syntax_loop_init_total syn (render r) b) as (st & Hst & Hlen).
  cbn [set_hl hl]. rewrite Hst. cbn [mbind option_bind].
  set (r1 := set_hl_open_comment (set_hl r (sc_hl st)) (sc_in_comment st)).
  assert (hl_updated r r1) as Hu by (unfold hl_updated; simpl; intuition auto).
  assert (classify syn (render r) b = Some (hl r1, hl_open_comment r1)) as Hcl
    by (unfold classify; rewrite Hst; done).
  assert (forall rows'', (forall q, (q < p)%nat -> rows'' !! q = row ec !! q) ->
                         row_consistent (set_row ec rows'') r1) as Hcons1.
  { intros rows'' Hfr. unfold row_consistent. cbn [syntax set_row]. rewrite Hsyn.
    exists b. split; [|exact Hcl].
    rewrite <- Hb. unfold incoming_comment. cbn [row set_row].
    change (idx r1) with (idx r).
    destruct (Z.ltb_spec 0 (idx r)); [|done]. rewrite Hfr by lia. done. }
  assert (forall q y, q <> p -> row ec !! q = Some y ->
            (q <> S p \/ hl_open_comment r1 = hl_open_comment r) ->
            row_consistent ec y ->
            row_consistent (set_row ec (<[p := r1]> (row ec))) y) as Hother.
  { intros q y Hq Hy Hc Hcy. pose proof (Hidx q y Hy) as Hiy.
    apply (row_consistent_insert ec p r r1 y Hr); [|done].
    destruct Hc as [Hc|Hc]; [|auto].
    destruct (decide (q = 0%nat)); [right; left; lia|left; lia]. }
  destruct (xorb (hl_open_comment r) (sc_in_comment st) && (idx r + 1 <? num_rows ec))
    eqn:Hc.
  - apply andb_prop in Hc as [Hx Hlt]. apply Z.ltb_lt in Hlt.
    unfold row_ptr. destruct (Z.leb_spec 0 (idx r + 1)); [|lia].
    cbn [mbind option_bind].
    replace (Z.to_nat (idx r + 1)) with (S p) by lia.
    set (ec1 := set_row ec (<[p := r1]> (row ec))).
    destruct (lookup_lt_is_Some_2 (row ec1) (S p)) as [x Hx1].
    { simpl. rewrite length_insert. lia. }
    destruct (IH ec1 (S p) x)
      as (rows'' & x' & Hrec & Hl & Hx' & Hux & Hcx & Hbefore & Hafter & Honly & Hrep).
    + simpl. eapply rows_indexed_insert; eauto.
    + simpl. rewrite length_insert. lia.
    + done.
    + simpl. rewrite length_insert. lia.
    + simpl in Hl, Hbefore, Hafter. rewrite length_insert in Hl.
      assert (forall q, (q < p)%nat -> rows'' !! q = row ec !! q) as Hfr.
      { intros q Hq. rewrite Hbefore by lia. by rewrite list_lookup_insert_ne by lia. }
      exists rows'', r1. split; [exact Hrec|]. split; [done|].
      split; [rewrite Hbefore by lia; by rewrite list_lookup_insert_eq|].
      split; [done|]. split; [by apply Hcons1|]. split; [done|].
      split; [|split].
      * intros q Hq Hq'. rewrite Hafter by lia. by rewrite list_lookup_insert_ne by lia.
      * intros Hsame. simpl in Hsame. rewrite Hsame in Hx.
        by destruct (hl_open_comment r).
      * intros Hexc Hnum. apply Hrep; [|simpl; rewrite length_insert; done].
        intros q y Hq Hy. simpl in Hy.
        destruct (decide (q = p)) as [->|Hne].
        -- rewrite list_lookup_insert_eq in Hy by done. injection Hy as <-.
           apply Hcons1. intros q Hq'. by rewrite list_lookup_insert_ne by lia.
        -- rewrite list_lookup_insert_ne in Hy by done.
           apply (Hother q y); [done|done|by left|by apply (Hexc q)].
  - exists (<[p := r1]> (row ec)), r1.
    split; [done|]. split; [by rewrite length_insert|].
    split; [by rewrite list_lookup_insert_eq|]. split; [done|].
    split; [apply Hcons1; intros q Hq; by rewrite list_lookup_insert_ne by lia|].
    split; [intros q Hq; by rewrite list_lookup_insert_ne by lia|].
    split; [intros q Hq _; by rewrite list_lookup_insert_ne by lia|].
    split; [done|].
    intros Hexc Hnum q y Hy. simpl in Hy.
    destruct (decide (q = p)) as [->|Hne].
    + rewrite list_lookup_insert_eq in Hy by done. injection Hy as <-.
      apply Hcons1. intros q Hq'. by rewrite list_lookup_insert_ne by lia.
    + rewrite list_lookup_insert_ne in Hy by done.
      apply (Hother q y); [done|done| |by apply (Hexc q)].
      apply andb_false_iff in Hc as [Hc|Hc].
      * right. simpl. by destruct (hl_open_comment r), (sc_in_comment st).
      * left. apply Z.ltb_ge in Hc. apply lookup_lt_Some in Hy. lia.
Qed.

End Cascade.

Section Consistency.

Lemma hl_updated_render rows rows' :
  Forall2 hl_updated rows rows' -> render <$> rows' = render <$> rows.
Proof.
  induction 1 as [|r r' rows rows' (_ & _ & Hr & _) _ IH]; [done|].
  cbn [fmap list_fmap]. by rewrite Hr, IH.
Qed.

Lemma take_eq_lookup {A} (l1 l2 : list A) (p : nat) :
  length l1 = length l2 -> (forall q, (q < p)%nat -> l1 !! q = l2 !! q) ->
  take p l1 = take p l2.
Proof.
  intros Hl H. apply list_eq. intros q.
  destruct (decide (q < p)%nat).
  - rewrite !lookup_take_lt by done. auto.
  - rewrite !lookup_take_ge by lia. done.
Qed.

Lemma row_consistent_ext ec ec' r :
  syntax ec' = syntax ec ->
  (0 < idx r -> row ec' !! Z.to_nat (idx r - 1) = row ec !! Z.to_nat (idx r - 1)) ->
  row_consistent ec r -> row_consistent ec' r.
Proof.
  intros Hs Hr. unfold row_consistent, incoming_comment. rewrite Hs.
  destruct (Z.ltb_spec 0 (idx r)); [rewrite Hr by done|]; done.
Qed.

Lemma doc_consistent_ext ec ec' :
  row ec' = row ec -> syntax ec' = syntax ec -> doc_consistent ec -> doc_consistent ec'.
Proof.
  intros Hr Hs H p r Hp. rewrite Hr in Hp.
  apply (row_consistent_ext ec ec' r Hs); [by rewrite Hr|by apply (H p)].
Qed.

Lemma editor_update_row_cascade ec p r :
  rows_indexed (row ec) -> num_rows ec <= Z.of_nat (length (row ec)) ->
  row ec !! p = Some r ->
  exists rows' r',
    editor_update_row ec p = Some (set_row ec rows')
    /\ length rows' = length (row ec)
    /\ rows' !! p = Some r'
    /\ idx r' = idx r /\ chars r' = chars r /\ render r' = render_loop (chars r) []
    /\ row_consistent (set_row ec rows') r'
    /\ (forall q, (q < p)%nat -> rows' !! q = row ec !! q)
    /\ (forall q, (p < q)%nat -> num_rows ec <= Z.of_nat q -> rows' !! q = row ec !! q)
    /\ (hl_open_comment r' = hl_open_comment r -> rows' = <[p := r']> (row ec))
    /\ (consistent_except ec p -> num_rows ec = Z.of_nat (length (row ec)) ->
        doc_consistent (set_row ec rows')).
Proof.
  intros Hidx Hn Hr. unfold editor_update_row, editor_update_syntax.
  rewrite Hr. cbn [mbind option_bind].
  pose proof (lookup_lt_Some _ _ _ Hr) as Hp.
  set (r1 := set_render r (render_loop (chars r) [])).
  set (ec1 := set_row ec (<[p := r1]> (row ec))).
  destruct (editor_update_syntax_rec_cascade (S (length (row ec1))) ec1 p r1)
    as (rows' & r' & He & Hl & Hr' & Hu & Hcr & Hbefore & Hafter & Honly & Hrep).
  { simpl. eapply rows_indexed_insert; eauto. }
  { simpl. rewrite length_insert. done. }
  { simpl. by rewrite list_lookup_insert_eq. }
  { lia. }
  simpl in Hl, Hbefore, Hafter, Honly, Hrep. rewrite length_insert in Hl, Hrep.
  exists rows', r'. split; [exact He|]. split; [done|]. split; [done|].
  destruct Hu as (Hi & Hc & Hrr & _).
  split; [done|]. split; [done|]. split; [done|]. split; [exact Hcr|].
  split; [intros q Hq; rewrite Hbefore by done; by rewrite list_lookup_insert_ne by lia|].
  split; [intros q Hq Hq'; rewrite Hafter by done; by rewrite list_lookup_insert_ne by lia|].
  split; [intros Hsame; rewrite Honly by done; by rewrite list_insert_insert_eq|].
  intros Hexc Hnum. apply Hrep; [|done].
  intros q y Hq Hy. simpl in Hy. rewrite list_lookup_insert_ne in Hy by done.
  apply (row_consistent_insert ec p r r1 y Hr); [by right; right|by apply (Hexc q)].
Qed.

(** Rewriting the raw text of one row of a consistent document and
    re-deriving the row gives a consistent document. *)
Lemma update_chars_consistent ec p r cs :
  wf_doc ec -> doc_consistent ec -> row ec !! p = Some r ->
  exists rows',
    editor_update_row (set_row ec (<[p := set_chars r cs]> (row ec))) p
      = Some (set_row ec rows')
    /\ doc_consistent (set_row ec rows').
Proof.
  intros [Hidx Hn] Hcons Hr. pose proof (lookup_lt_Some _ _ _ Hr) as Hp.
  destruct (editor_update_row_cascade (set_row ec (<[p := set_chars r cs]> (row ec))) p
              (set_chars r cs))
    as (rows' & r' & He & _ & _ & _ & _ & _ & _ & _ & _ & _ & Hrep).
  { simpl. eapply rows_indexed_insert; eauto. }
  { simpl. rewrite length_insert. lia. }
  { simpl. by rewrite list_lookup_insert_eq. }
  exists rows'. split; [exact He|]. apply Hrep.
  - intros q y Hq Hy. simpl in Hy. rewrite list_lookup_insert_ne in Hy by done.
    apply (row_consistent_insert ec p r (set_chars r cs) y Hr); [by right; right|].
    by apply (Hcons q).
  - simpl. rewrite length_insert. done.
Qed.

Lemma editor_row_insert_char_consistent ec p r at_ c :
  wf_doc ec -> doc_consistent ec -> row ec !! p = Some r ->
  exists ec', editor_row_insert_char ec p at_ c = Some ec' /\ doc_consistent ec'.
Proof.
  intros Hwf Hcons Hr. unfold editor_row_insert_char. rewrite Hr.
  cbn [mbind option_bind].
  destruct (update_chars_consistent ec p r
    (take (Z.to_nat (if (at_ <? 0) || (len r <? at_) then len r else at_)) (chars r)
     ++ char_of_int c
     :: drop (Z.to_nat (if (at_ <? 0) || (len r <? at_) then len r else at_)) (chars r))
    Hwf Hcons Hr) as (rows' & -> & Hc').
  cbn [mbind option_bind]. eexists. split; [reflexivity|].
  by apply (doc_consistent_ext (set_row ec rows')).
Qed.

Lemma editor_row_append_str_consistent ec p r s :
  wf_doc ec -> doc_consistent ec -> row ec !! p = Some r ->
  exists ec', editor_row_append_str ec p s = Some ec' /\ doc_consistent ec'.
Proof.
  intros Hwf Hcons Hr. unfold editor_row_append_str. rewrite Hr.
  cbn [mbind option_bind].
  destruct (update_chars_consistent ec p r (chars r ++ s) Hwf Hcons Hr)
    as (rows' & -> & Hc').
  cbn [mbind option_bind]. eexists. split; [reflexivity|].
  by apply (doc_consistent_ext (set_row ec rows')).
Qed.

Lemma editor_row_del_char_consistent ec p r at_ :
  wf_doc ec -> doc_consistent ec -> row ec !! p = Some r ->
  exists ec', editor_row_del_char ec p at_ = Some ec' /\ doc_consistent ec'.
Proof.
  intros Hwf Hcons Hr. unfold editor_row_del_char. rewrite Hr.
  cbn [mbind option_bind].
  destruct ((at_ <? 0) || (len r <=? at_)); [by exists ec|].
  destruct (update_chars_consistent ec p r
    (take (Z.to_nat at_) (chars r) ++ drop (S (Z.to_nat at_)) (chars r))
    Hwf Hcons Hr) as (rows' & -> & Hc').
  cbn [mbind option_bind]. eexists. split; [reflexivity|].
  by apply (doc_consistent_ext (set_row ec rows')).
Qed.

End Consistency.

(** X8. [editor_update_syntax] repairs the highlighting: when every row
    other than the one it is called on is consistent with its text and its
    predecessor's comment flag, the whole document is consistent when it
    returns, and it changed nothing but highlight arrays and comment
    flags. *)
Theorem editor_update_syntax_repairs ec p :
  wf_doc ec -> (p < length (row ec))%nat -> consistent_except ec p ->
  exists ec',
    editor_update_syntax ec p = Some ec' /\ doc_consistent ec'
    /\ Forall2 hl_updated (row ec) (row ec').
Proof.
  intros [Hidx Hn] Hp Hexc.
  destruct (lookup_lt_is_Some_2 _ _ Hp) as [r Hr].
  destruct (editor_update_syntax_rec_cascade (S (length (row ec))) ec p r)
    as (rows' & r' & He & _ & _ & _ & _ & _ & _ & _ & Hrep); [done|lia|done|lia|].
  destruct (editor_update_syntax_spec ec p) as (rows2 & He2 & HF & _); [done|lia|done|].
  unfold editor_update_syntax in *. rewrite He in He2.
  assert (rows' = rows2) as <- by (injection He2; done).
  eexists. split; [exact He|]. split; [by apply Hrep|exact HF].
Qed.

Lemma editor_update_syntax_repairs_witness :
  exists ec', editor_update_syntax stale_doc 0 = Some ec' /\ doc_consistent ec'.
Proof.
  destruct (editor_update_syntax_repairs stale_doc 0) as (ec' & He & Hc & _).
  - apply wf_doc_check_sound. vm_compute. reflexivity.
  - vm_compute. lia.
  - intros [|[|q]] r Hq Hr; [done| |vm_compute in Hr; discriminate].
    vm_compute in Hr. injection Hr as <-.
    exists true. split; vm_compute; reflexivity.
  - exists ec'. split; assumption.
Defined.

(** X9. [editor_update_syntax] called on row [p] changes no field of the
    editor but the row array, no row before [p], and no raw or render text
    of any row; when the comment flag of row [p] comes out as it went in,
    row [p] is the only row that changes. *)
Theorem editor_update_syntax_frame ec p r :
  wf_doc ec -> row ec !! p = Some r ->
  exists rows' r',
    editor_update_syntax ec p = Some (set_row ec rows')
    /\ rows' !! p = Some r'
    /\ take p rows' = take p (row ec)
    /\ chars <$> rows' = chars <$> row ec /\ render <$> rows' = render <$> row ec
    /\ (hl_open_comment r' = hl_open_comment r -> rows' = <[p := r']> (row ec)).
Proof.
  intros [Hidx Hn] Hr. pose proof (lookup_lt_Some _ _ _ Hr) as Hp.
  destruct (editor_update_syntax_rec_cascade (S (length (row ec))) ec p r)
    as (rows' & r' & He & Hl & Hr' & _ & _ & Hbefore & _ & Honly & _);
    [done|lia|done|lia|].
  destruct (editor_update_syntax_spec ec p) as (rows2 & He2 & HF & _); [done|lia|done|].
  unfold editor_update_syntax in *. rewrite He in He2.
  assert (rows' = rows2) as <- by (injection He2; done).
  exists rows', r'. split; [exact He|]. split; [done|].
  split; [by apply take_eq_lookup|].
  split; [by apply hl_updated_chars|]. split; [by apply hl_updated_render|done].
Qed.

Lemma editor_update_syntax_frame_witness :
  exists rows' r',
    editor_update_syntax stale_doc 1 = Some (set_row stale_doc rows')
    /\ rows' !! 1%nat = Some r'
    /\ take 1 rows' = take 1 (row stale_doc).
Proof.
  destruct (editor_update_syntax_frame stale_doc 1
              (default (plain_row 0 "") (row stale_doc !! 1%nat)))
    as (rows' & r' & He & Hr' & Ht & _).
  - apply wf_doc_check_sound. vm_compute. reflexivity.
  - vm_compute. reflexivity.
  - exists rows', r'. split; [exact He|]. split; [exact Hr'|exact Ht].
Defined.

(** X10. The three row operations that rewrite the text of a row,
    [editor_row_insert_char], [editor_row_del_char] and
    [editor_row_append_str], keep the document consistent: after each of
    them every row's highlight array and comment flag are what the
    classifier computes from the new text, also on the rows that a comment
    opened or closed by the edit runs into. *)
Theorem row_edits_keep_consistency ec p r :
  wf_doc ec -> doc_consistent ec -> row ec !! p = Some r ->
  (forall at_ c,
     exists ec', editor_row_insert_char ec p at_ c = Some ec' /\ doc_consistent ec')
  /\ (forall at_,
        exists ec', editor_row_del_char ec p at_ = Some ec' /\ doc_consistent ec')
  /\ (forall s,
        exists ec', editor_row_append_str ec p s = Some ec' /\ doc_consistent ec').
Proof.
  intros Hwf Hc Hr. split; [|split].
  - intros at_ c. by apply (editor_row_insert_char_consistent ec p r).
  - intros at_. by apply (editor_row_del_char_consistent ec p r).
  - intros s. by apply (editor_row_append_str_consistent ec p r).
Qed.

Lemma row_edits_keep_consistency_witness :
  exists ec', editor_row_del_char c_doc 0 7 = Some ec' /\ doc_consistent ec'.
Proof.
  destruct (row_edits_keep_consistency c_doc 0
              (default (plain_row 0 "") (row c_doc !! 0%nat))) as (_ & Hd & _).
  - apply wf_doc_check_sound. vm_compute. reflexivity.
  - exact c_doc_consistent.
  - vm_compute. reflexivity.
  - exact (Hd 7).
Defined.

Section Loading.

Lemma editor_update_syntax_cascade ec p r :
  rows_indexed (row ec) -> num_rows ec <= Z.of_nat (length (row ec)) ->
  row ec !! p = Some r ->
  exists rows' r',
    editor_update_syntax ec p = Some (set_row ec rows')
    /\ Forall2 hl_updated (row ec) rows'
    /\ rows' !! p = Some r'
    /\ row_consistent (set_row ec rows') r'
    /\ (forall q, (q < p)%nat -> rows' !! q = row ec !! q).
Proof.
  intros Hidx Hn Hr. pose proof (lookup_lt_Some _ _ _ Hr) as Hp.
  destruct (editor_update_syntax_rec_cascade (S (length (row ec))) ec p r)
    as (rows' & r' & He & _ & Hr' & _ & Hcr & Hbefore & _); [done|lia|done|lia|].
  destruct (editor_update_syntax_spec ec p) as (rows2 & He2 & HF & _); [done|lia|done|].
  unfold editor_update_syntax in *. rewrite He in He2.
  assert (rows' = rows2) as <- by (injection He2; done).
  exists rows', r'. done.
Qed.

Lemma update_syntax_rows_consistent : forall n k ec,
  rows_indexed (row ec) -> num_rows ec = Z.of_nat (length (row ec)) ->
  (k + n = length (row ec))%nat ->
  (forall q y, (q < k)%nat -> row ec !! q = Some y -> row_consistent ec y) ->
  exists rows',
    update_syntax_rows n k ec = Some (set_row ec rows')
    /\ doc_consistent (set_row ec rows').
Proof.
  induction n as [|n IH]; intros k ec Hidx Hn Hk Hbelow; cbn [update_syntax_rows].
  - exists (row ec). rewrite set_row_same. split; [done|].
    intros q y Hy. apply (Hbelow q); [|done]. apply lookup_lt_Some in Hy. lia.
  - destruct (lookup_lt_is_Some_2 (row ec) k) as [x Hx]; [lia|].
    destruct (editor_update_syntax_cascade ec k x)
      as (rows1 & r1 & He & HF & Hr1 & Hcr & Hbefore); [done|lia|done|].
    rewrite He. cbn [mbind option_bind].
    pose proof (Forall2_length _ _ _ HF) as Hl.
    destruct (IH (S k) (set_row ec rows1)) as (rows' & He' & Hc').
    + simpl. eapply rows_indexed_updated; eauto.
    + simpl. lia.
    + simpl. lia.
    + intros q y Hq Hy. simpl in Hy.
      destruct (decide (q = k)) as [->|Hne]; [congruence|].
      rewrite Hbefore in Hy by lia.
      apply (row_consistent_ext ec); [done| |apply (Hbelow q); [lia|done]].
      intros Hpos. simpl. apply Hbefore. rewrite (Hidx q y Hy). lia.
    + exists rows'. split; [exact He'|exact Hc'].
Qed.

Lemma editor_select_syntax_highlight_consistent ec :
  wf_doc ec -> doc_consistent (set_syntax ec None) ->
  exists ec', editor_select_syntax_highlight ec = Some ec' /\ doc_consistent ec'.
Proof.
  intros [Hidx Hn] Hplain. unfold editor_select_syntax_highlight.
  cbn [filename set_syntax].
  destruct (filename ec) as [fname|]; [|by eexists].
  destruct (select_syntax HLDB fname (strrchr fname "."%char)) as [s|]; [|by eexists].
  set (ec1 := set_syntax (set_syntax ec None) (Some s)).
  destruct (update_syntax_rows_consistent (Z.to_nat (num_rows ec1)) 0 ec1)
    as (rows' & He & Hc); [done|done|simpl; lia|intros q y Hq; lia|].
  eexists. split; [exact He|exact Hc].
Qed.

Lemma editor_insert_row_end_consistent ec s :
  wf_doc ec -> doc_consistent ec ->
  exists ec',
    editor_insert_row ec (num_rows ec) s = Some ec'
    /\ wf_doc ec' /\ doc_consistent ec'
    /\ num_rows ec' = num_rows ec + 1 /\ syntax ec' = syntax ec
    /\ cursor_x ec' = cursor_x ec /\ cursor_y ec' = cursor_y ec.
Proof.
  intros Hwf Hcons. pose proof Hwf as [Hidx Hn].
  destruct (editor_insert_row_spec ec (num_rows ec) s Hwf) as (rows2 & He2 & Hi2 & Hl2 & _);
    [lia|].
  eexists. split; [exact He2|]. split; [split; simpl; [done|lia]|].
  split; [|done].
  revert He2. unfold editor_insert_row.
  destruct (Z.ltb_spec (num_rows ec) 0); [lia|].
  destruct (Z.ltb_spec (num_rows ec) (num_rows ec)); [lia|]. cbn [orb].
  set (a := Z.to_nat (num_rows ec)).
  rewrite (drop_ge (row ec) a), (take_ge (row ec) a) by lia.
  rewrite take_nil. cbn [fmap list_fmap].
  set (new := {| idx := num_rows ec; chars := s; render := []; hl := [];
                 hl_open_comment := false |}).
  assert (length (row ec) = a) as Hla by lia.
  destruct (editor_update_row_cascade (set_row ec (row ec ++ [new])) a new)
    as (rows' & r' & He & Hl & Hr' & Hi' & _ & _ & Hcr & Hbefore & _).
  { simpl. apply rows_indexed_app. split; [done|].
    intros [|i] r; simpl; [|done]. intros [= <-]. simpl. lia. }
  { simpl. rewrite length_app. simpl. lia. }
  { simpl. rewrite lookup_app_r by lia. by rewrite Hla, Nat.sub_diag. }
  rewrite He. cbn [mbind option_bind]. intros [= <-].
  simpl in Hl, Hbefore. rewrite length_app in Hl. simpl in Hl.
  intros q y Hy. simpl in Hy.
  destruct (decide (q = a)) as [->|Hne].
  - assert (y = r') as -> by congruence.
    apply (row_consistent_ext (set_row (set_row ec (row ec ++ [new])) rows')); done.
  - assert (q < a)%nat as Hq by (apply lookup_lt_Some in Hy; lia).
    rewrite Hbefore, lookup_app_l in Hy by lia.
    apply (row_consistent_ext ec); [done| |by apply (Hcons q)].
    intros Hpos. simpl. pose proof (Hidx q y Hy).
    rewrite Hbefore, lookup_app_l by lia. done.
Qed.

Lemma open_lines_consistent lines : forall ec,
  wf_doc ec -> doc_consistent ec ->
  exists ec', open_lines lines ec = Some ec' /\ doc_consistent ec'.
Proof.
  induction lines as [|line lines IH]; intros ec Hwf Hcons; cbn [open_lines].
  - by exists ec.
  - destruct (editor_insert_row_end_consistent ec
                (take (strip_eol line (length line)) line) Hwf Hcons)
      as (ec1 & -> & Hwf1 & Hc1 & _).
    cbn [mbind option_bind]. by apply IH.
Qed.

Lemma set_syntax_same ec : syntax ec = None -> set_syntax ec None = ec.
Proof. destruct ec. simpl. by intros ->. Qed.

Lemma editor_open_consistent ec fname lines :
  wf_doc ec -> syntax ec = None -> doc_consistent ec ->
  exists ec', editor_open ec fname lines = Some ec' /\ doc_consistent ec'.
Proof.
  intros Hwf Hs Hcons. unfold editor_open.
  destruct (editor_select_syntax_highlight_wf (set_filename ec (Some (cstr fname))))
    as (ec1 & He1 & Hwf1 & _); [done|].
  destruct (editor_select_syntax_highlight_consistent
              (set_filename ec (Some (cstr fname)))) as (ec1' & He1' & Hc1); [done| |].
  { apply (doc_consistent_ext ec); [done|done|done]. }
  rewrite He1 in He1'. injection He1' as <-.
  rewrite He1. cbn [mbind option_bind].
  destruct (open_lines_consistent lines ec1 Hwf1 Hc1) as (ec2 & -> & Hc2).
  cbn [mbind option_bind]. eexists. split; [reflexivity|].
  by apply (doc_consistent_ext ec2).
Qed.

Lemma editor_save_consistent io ec :
  wf_doc ec -> doc_consistent ec -> (filename ec = None -> syntax ec = None) ->
  exists ec' ok, editor_save io ec = Some (ec', ok) /\ doc_consistent ec'.
Proof.
  intros Hwf Hcons Hs. unfold editor_save, save_write.
  destruct (filename ec) as [f|] eqn:Hf.
  - destruct (_ && _); eexists _, _; (split; [reflexivity|]); [|done].
    by apply (doc_consistent_ext ec).
  - destruct (prompt_result io) as [f|].
    + destruct (editor_select_syntax_highlight_consistent (set_filename ec (Some f)))
        as (ec1 & -> & Hc1); [done| |].
      { apply (doc_consistent_ext ec); [done|simpl; by rewrite Hs|done]. }
      cbn [mbind option_bind].
      destruct (_ && _); eexists _, _; (split; [reflexivity|]); [|done].
      by apply (doc_consistent_ext ec1).
    + eexists _, _. split; [reflexivity|]. by apply (doc_consistent_ext ec).
Qed.

Lemma editor_insert_char_consistent ec c :
  wf_doc ec -> cursor_ok ec -> doc_consistent ec ->
  exists ec', editor_insert_char ec c = Some ec' /\ doc_consistent ec'.
Proof.
  intros Hwf Hcur Hcons. pose proof Hwf as [Hidx Hn]. pose proof Hcur as (Hy & _).
  unfold editor_insert_char.
  assert (exists ec1,
            (if cursor_y ec =? num_rows ec
             then editor_insert_row ec (num_rows ec) [] else Some ec) = Some ec1
            /\ wf_doc ec1 /\ doc_consistent ec1 /\ cursor_y ec1 = cursor_y ec
            /\ cursor_y ec < num_rows ec1) as (ec1 & -> & Hwf1 & Hc1 & Hy1 & Hlt).
  { destruct (Z.eqb_spec (cursor_y ec) (num_rows ec)).
    - destruct (editor_insert_row_end_consistent ec [] Hwf Hcons)
        as (ec1 & He1 & Hwf1 & Hc1 & Hn1 & _ & _ & Hy1).
      exists ec1. split; [done|]. split; [done|]. split; [done|]. split; [done|lia].
    - exists ec. split; [done|]. split; [done|]. split; [done|]. split; [done|lia]. }
  cbn [mbind option_bind]. rewrite Hy1. unfold row_ptr.
  destruct (Z.leb_spec 0 (cursor_y ec)); [|lia]. cbn [mbind option_bind].
  destruct Hwf1 as [Hidx1 Hn1].
  destruct (lookup_lt_is_Some_2 (row ec1) (Z.to_nat (cursor_y ec))) as [r Hr]; [lia|].
  destruct (editor_row_insert_char_consistent ec1 (Z.to_nat (cursor_y ec)) r
              (cursor_x ec1) c) as (ec2 & -> & Hc2); [done|done|done|].
  cbn [mbind option_bind]. eexists. split; [reflexivity|].
  by apply (doc_consistent_ext ec2).
Qed.

Lemma editor_del_char_consistent ec :
  wf_doc ec -> cursor_ok ec -> doc_consistent ec -> 0 < cursor_x ec ->
  exists ec', editor_del_char ec = Some ec' /\ doc_consistent ec'.
Proof.
  intros Hwf Hcur Hcons Hx. pose proof Hwf as [Hidx Hn]. pose proof Hcur as (Hy & _).
  unfold editor_del_char.
  destruct (Z.eqb_spec (cursor_y ec) (num_rows ec)); [by exists ec|].
  destruct (Z.eqb_spec (cursor_x ec) 0); [lia|]. cbn [andb].
  unfold row_ptr. destruct (Z.leb_spec 0 (cursor_y ec)); [|lia].
  cbn [mbind option_bind].
  destruct (lookup_lt_is_Some_2 (row ec) (Z.to_nat (cursor_y ec))) as [r Hr]; [lia|].
  rewrite Hr. cbn [mbind option_bind].
  destruct (Z.ltb_spec 0 (cursor_x ec)); [|lia].
  destruct (editor_row_del_char_consistent ec (Z.to_nat (cursor_y ec)) r
              (cursor_x ec - 1)) as (ec1 & -> & Hc1); [done|done|done|].
  cbn [mbind option_bind]. eexists. split; [reflexivity|].
  by apply (doc_consistent_ext ec1).
Qed.

End Loading.

(** X11. Typing keeps the highlighting up to date: on a consistent document
    [editor_insert_char] returns a consistent document, wherever the cursor
    is (also on the line after the last row, where it first appends a row),
    and so does [editor_del_char] when the cursor is not in column 0. *)
Theorem typing_keeps_consistency ec :
  wf_doc ec -> cursor_ok ec -> doc_consistent ec ->
  (forall c, exists ec', editor_insert_char ec c = Some ec' /\ doc_consistent ec')
  /\ (0 < cursor_x ec ->
      exists ec', editor_del_char ec = Some ec' /\ doc_consistent ec').
Proof.
  intros Hwf Hcur Hc. split.
  - intros c. by apply editor_insert_char_consistent.
  - intros Hx. by apply editor_del_char_consistent.
Qed.

Lemma typing_keeps_consistency_witness :
  exists ec', editor_insert_char c_doc 47 = Some ec' /\ doc_consistent ec'.
Proof.
  destruct (typing_keeps_consistency c_doc) as [Hi _].
  - apply wf_doc_check_sound. vm_compute. reflexivity.
  - unfold cursor_ok. simpl. unfold len. simpl. lia.
  - exact c_doc_consistent.
  - exact (Hi 47).
Defined.

(** X12. Loading and naming a file keep the highlighting up to date.  On a
    consistent document without a syntax definition, [editor_open] returns
    a consistent document: the rows already there are classified under the
    syntax selected for the file name, and each loaded row is classified as
    it is appended.  [editor_save] returns a consistent document as well,
    also when it first asks for a file name and selects a syntax for it. *)
Theorem loading_keeps_consistency ec :
  wf_doc ec -> doc_consistent ec ->
  (syntax ec = None ->
   forall fname lines,
     exists ec', editor_open ec fname lines = Some ec' /\ doc_consistent ec')
  /\ ((filename ec = None -> syntax ec = None) ->
      forall io,
        exists ec' ok, editor_save io ec = Some (ec', ok) /\ doc_consistent ec').
Proof.
  intros Hwf Hc. split.
  - intros Hs fname lines. by apply editor_open_consistent.
  - intros Hs io. by apply editor_save_consistent.
Qed.

Lemma loading_keeps_consistency_witness :
  exists ec',
    editor_open (plain_doc []) (str "a.c") [str "int x; /* a"; str "b */ y = 1;"]
      = Some ec'
    /\ doc_consistent ec'.
Proof.
  destruct (loading_keeps_consistency (plain_doc [])) as [Ho _].
  - apply wf_doc_check_sound. vm_compute. reflexivity.
  - intros q y Hy. simpl in Hy. discriminate.
  - exact (Ho eq_refl (str "a.c") [str "int x; /* a"; str "b */ y = 1;"]).
Defined.

(** X13. When [editor_insert_row] inserts a row anywhere before the end of
    the document, the row that was last comes out with its highlight array
    and its comment flag as they were: it is moved down by one position and
    its [idx] is incremented, but the classification that the insertion
    starts never reaches it. *)
Theorem editor_insert_row_skips_last_row ec at_ s last :
  wf_doc ec -> 0 <= at_ < num_rows ec ->
  row ec !! Z.to_nat (num_rows ec - 1) = Some last ->
  exists ec',
    editor_insert_row ec at_ s = Some ec'
    /\ row ec' !! Z.to_nat (num_rows ec) = Some (shift_idx 1 last).
Proof.
  intros [Hidx Hn] Hat Hlast. unfold editor_insert_row.
  destruct (Z.ltb_spec at_ 0); [lia|]. destruct (Z.ltb_spec (num_rows ec) at_); [lia|].
  cbn [orb].
  set (a := Z.to_nat at_).
  rewrite (take_ge (drop a (row ec))) by (rewrite length_drop; lia).
  set (new := {| idx := at_; chars := s; render := []; hl := []; hl_open_comment := false |}).
  set (rows0 := take a (row ec) ++ new :: (shift_idx 1 <$> drop a (row ec))).
  assert (length (take a (row ec)) = a) as Hla by (rewrite length_take; lia).
  assert (rows0 !! a = Some new) as Hnew.
  { unfold rows0. rewrite lookup_app_r by lia. rewrite Hla, Nat.sub_diag. done. }
  assert (rows_indexed rows0) as Hidx0.
  { apply rows_indexed_app. split; [by apply rows_indexed_take|].
    intros [|i] r; simpl.
    - intros [= <-]. simpl. lia.
    - rewrite list_lookup_fmap. intros Hr.
      apply fmap_Some in Hr as (y & Hy & ->).
      rewrite lookup_drop in Hy. apply Hidx in Hy. simpl. lia. }
  assert (length rows0 = S (length (row ec))) as Hl0.
  { unfold rows0. rewrite length_app, Hla. cbn [length].
    rewrite length_fmap, length_drop. lia. }
  assert (rows0 !! Z.to_nat (num_rows ec) = Some (shift_idx 1 last)) as Hlast0.
  { unfold rows0. rewrite lookup_app_r by lia. rewrite Hla.
    replace (Z.to_nat (num_rows ec) - a)%nat
      with (S (Z.to_nat (num_rows ec - 1) - a)) by lia.
    change ((shift_idx 1 <$> drop a (row ec)) !! (Z.to_nat (num_rows ec - 1) - a)%nat
            = Some (shift_idx 1 last)).
    rewrite list_lookup_fmap, lookup_drop.
    replace (a + (Z.to_nat (num_rows ec - 1) - a))%nat
      with (Z.to_nat (num_rows ec - 1)) by lia.
    by rewrite Hlast. }
  destruct (editor_update_row_cascade (set_row ec rows0) a new)
    as (rows' & r' & He & _ & _ & _ & _ & _ & _ & _ & Hafter & _);
    [done|simpl; lia|done|].
  rewrite He. cbn [mbind option_bind]. eexists. split; [reflexivity|].
  simpl in *. rewrite Hafter by lia. done.
Qed.

Lemma editor_insert_row_skips_last_row_witness :
  exists ec',
    editor_insert_row c_doc 1 (str "/* c") = Some ec'
    /\ (hl <$> row ec' !! 2%nat) = (hl <$> row c_doc !! 1%nat).
Proof.
  destruct (editor_insert_row_skips_last_row c_doc 1 (str "/* c")
              (default (plain_row 0 "") (row c_doc !! 1%nat)))
    as (ec' & He & Hl).
  - apply wf_doc_check_sound. vm_compute. reflexivity.
  - vm_compute. split; [discriminate|reflexivity].
  - vm_compute. reflexivity.
  - exists ec'. split; [exact He|].
    change (Z.to_nat (num_rows c_doc)) with 2%nat in Hl. rewrite Hl. reflexivity.
Defined.

(** ** Writing a file and reading it back *)

Section FileRoundTrip.

Lemma getlines_line cs : forall line rest,
  ~ In "010"%char cs ->
  getlines (cs ++ "010"%char :: rest) line = (line ++ cs ++ ["010"%char]) :: getlines rest [].
Proof.
  induction cs as [|c cs IH]; intros line rest Hnl.
  - done.
  - cbn [app getlines]. destruct (Ascii.eqb_spec c "010"%char) as [->|Hc].
    + exfalso. apply Hnl. by left.
    + rewrite IH by (intros H; apply Hnl; by right).
      by rewrite <- app_assoc.
Qed.

Lemma getlines_rows (ls : list (list ascii)) :
  Forall (fun cs => ~ In "010"%char cs) ls ->
  getlines (concat ((fun cs => cs ++ ["010"%char]) <$> ls)) []
  = (fun cs => cs ++ ["010"%char]) <$> ls.
Proof.
  induction 1 as [|cs ls Hcs _ IH]; [done|].
  cbn [fmap list_fmap concat]. rewrite <- app_assoc. cbn [app].
  rewrite getlines_line by done. by rewrite IH.
Qed.

Lemma char_at_last (cs : list ascii) c rest :
  char_at (cs ++ c :: rest) (length cs) = c.
Proof.
  unfold char_at. rewrite app_nth2 by lia. by rewrite Nat.sub_diag.
Qed.

Lemma strip_line_row cs : file_safe cs -> strip_line (cs ++ ["010"%char]) = cs.
Proof.
  intros [Hnl Hcr]. unfold strip_line.
  rewrite length_app. cbn [length].
  replace (length cs + 1)%nat with (S (length cs)) by lia.
  cbn [strip_eol]. rewrite char_at_last, Ascii.eqb_refl. cbn [orb].
  assert (strip_eol (cs ++ ["010"%char]) (length cs) = length cs) as ->;
    [|by rewrite take_app_length].
  destruct (last cs) as [x|] eqn:Hlast.
  - apply last_Some in Hlast as [pre ->].
    rewrite length_app. cbn [length].
    replace (length pre + 1)%nat with (S (length pre)) by lia.
    cbn [strip_eol]. rewrite <- app_assoc. cbn [app]. rewrite char_at_last.
    destruct (Ascii.eqb_spec x "010"%char) as [->|_].
    { exfalso. apply Hnl, in_app_iff. right. by left. }
    destruct (Ascii.eqb_spec x "013"%char) as [->|_]; [|done].
    exfalso. by apply Hcr.
  - apply last_None in Hlast as ->. done.
Qed.

Lemma editor_rows2str_raw_text ec :
  num_rows ec = Z.of_nat (length (row ec)) ->
  editor_rows2str ec = concat ((fun cs => cs ++ ["010"%char]) <$> raw_text ec).
Proof.
  intros Hn. unfold editor_rows2str, raw_text.
  rewrite take_ge by lia. by rewrite <- list_fmap_compose.
Qed.

Lemma strip_getlines_rows2str ec :
  num_rows ec = Z.of_nat (length (row ec)) -> Forall file_safe (raw_text ec) ->
  strip_line <$> getlines (editor_rows2str ec) [] = raw_text ec.
Proof.
  intros Hn Hsafe. rewrite editor_rows2str_raw_text by done.
  rewrite getlines_rows by (eapply Forall_impl; [exact Hsafe|by intros cs [? _]]).
  rewrite <- list_fmap_compose.
  induction Hsafe as [|cs ls Hcs _ IH]; [done|].
  cbn [fmap list_fmap compose]. rewrite strip_line_row by done. by rewrite IH.
Qed.

End FileRoundTrip.

(** X14. A document written out by [editor_rows2str] and read back by
    [editor_open] into an empty editor gives the same rows, provided no row
    holds a line feed or ends in a carriage return; the dirty counter is 0
    after the load. *)
Theorem save_then_open ec fname :
  wf_doc ec -> Forall file_safe (raw_text ec) ->
  exists ec',
    editor_open editor_init fname (getlines (editor_rows2str ec) []) = Some ec'
    /\ raw_text ec' = raw_text ec /\ num_rows ec' = num_rows ec /\ dirty ec' = 0.
Proof.
  intros [Hidx Hn] Hsafe.
  destruct (editor_open_spec editor_init fname (getlines (editor_rows2str ec) []))
    as (ec' & He & [_ Hn'] & Hd & Hraw & _).
  { split; [intros i r Hr; discriminate|done]. }
  rewrite strip_getlines_rows2str in Hraw by done. simpl in Hraw.
  exists ec'. split; [exact He|]. split; [exact Hraw|]. split; [|exact Hd].
  rewrite Hn, Hn'. f_equal.
  apply (f_equal length) in Hraw. unfold raw_text in Hraw.
  by rewrite !length_fmap in Hraw.
Qed.

Lemma save_then_open_witness :
  exists ec',
    editor_open editor_init (str "a.c") (getlines (editor_rows2str c_doc) []) = Some ec'
    /\ raw_text ec' = raw_text c_doc.
Proof.
  destruct (save_then_open c_doc (str "a.c")) as (ec' & He & Hraw & _).
  - apply wf_doc_check_sound. vm_compute. reflexivity.
  - repeat constructor; vm_compute; intuition discriminate.
  - exists ec'. split; assumption.
Defined.

(** ** Moving left and right *)

Section LeftRight.

Lemma move_cursor_switch_left ec :
  move_cursor_switch ec ARROW_LEFT
  = if negb (cursor_x ec =? 0)
    then Some (set_cursor ec (cursor_x ec - 1) (cursor_y ec))
    else if 0 <? cursor_y ec then
      p ← row_ptr (cursor_y ec - 1);
      r ← row ec !! p;
      Some (set_cursor ec (len r) (cursor_y ec - 1))
    else Some ec.
Proof. reflexivity. Qed.

Lemma move_cursor_switch_right ec :
  move_cursor_switch ec ARROW_RIGHT
  = orow ← cursor_row ec;
    match orow with
    | Some r =>
        if cursor_x ec <? len r
        then Some (set_cursor ec (cursor_x ec + 1) (cursor_y ec))
        else if cursor_x ec =? len r
        then Some (set_cursor ec 0 (cursor_y ec + 1))
        else Some ec
    | None => Some ec
    end.
Proof. reflexivity. Qed.

Lemma move_cursor_snap_id ec :
  wf_doc ec -> cursor_ok ec -> move_cursor_snap ec = Some ec.
Proof.
  intros [_ Hn] (Hy & Hx & Hrow).
  destruct (move_cursor_snap_spec ec Hn Hy) as (x & -> & ->).
  unfold cursor_line_len. destruct (row ec !! Z.to_nat (cursor_y ec)) as [r|].
  - rewrite Z.min_l by lia. by destruct ec.
  - rewrite Z.min_l by lia. by destruct ec.
Qed.

Lemma set_cursor_back ec a b x y :
  x = cursor_x ec -> y = cursor_y ec -> set_cursor (set_cursor ec a b) x y = ec.
Proof. intros -> ->. by destruct ec. Qed.

Lemma move_right_on_row ec r :
  wf_doc ec -> cursor_ok ec -> row ec !! Z.to_nat (cursor_y ec) = Some r ->
  editor_move_cursor ec ARROW_RIGHT
  = Some (if cursor_x ec <? len r
          then set_cursor ec (cursor_x ec + 1) (cursor_y ec)
          else set_cursor ec 0 (cursor_y ec + 1)).
Proof.
  intros Hwf Hcur Hr. pose proof Hwf as [Hidx Hn]. pose proof Hcur as (Hy & Hx & Hrow).
  pose proof (lookup_lt_Some _ _ _ Hr) as Hlt. rewrite Hr in Hrow.
  unfold editor_move_cursor. rewrite move_cursor_switch_right.
  rewrite cursor_row_spec, Hr by done. cbn [mbind option_bind].
  destruct (Z.ltb_spec (cursor_x ec) (len r)).
  - apply move_cursor_snap_id; [done|].
    unfold cursor_ok. simpl. rewrite Hr. lia.
  - destruct (Z.eqb_spec (cursor_x ec) (len r)); [|lia].
    apply move_cursor_snap_id; [done|].
    unfold cursor_ok. simpl. split; [lia|]. split; [lia|].
    unfold len. destruct (row ec !! Z.to_nat (cursor_y ec + 1)); lia.
Qed.

Lemma move_left_in_row ec :
  wf_doc ec -> cursor_ok ec -> 0 < cursor_x ec ->
  editor_move_cursor ec ARROW_LEFT
  = Some (set_cursor ec (cursor_x ec - 1) (cursor_y ec)).
Proof.
  intros Hwf Hcur Hpos. pose proof Hcur as (Hy & Hx & Hrow).
  unfold editor_move_cursor. rewrite move_cursor_switch_left.
  destruct (Z.eqb_spec (cursor_x ec) 0); [lia|]. cbn [negb mbind option_bind].
  apply move_cursor_snap_id; [done|].
  unfold cursor_ok. simpl. destruct (row ec !! Z.to_nat (cursor_y ec)); lia.
Qed.

Lemma move_left_at_column_0 ec prev :
  wf_doc ec -> cursor_ok ec -> cursor_x ec = 0 -> 0 < cursor_y ec ->
  row ec !! Z.to_nat (cursor_y ec - 1) = Some prev ->
  editor_move_cursor ec ARROW_LEFT
  = Some (set_cursor ec (len prev) (cursor_y ec - 1)).
Proof.
  intros Hwf Hcur Hx0 Hy0 Hprev. pose proof Hcur as (Hy & Hx & Hrow).
  unfold editor_move_cursor. rewrite move_cursor_switch_left.
  destruct (Z.eqb_spec (cursor_x ec) 0); [|lia]. cbn [negb].
  destruct (Z.ltb_spec 0 (cursor_y ec)); [|lia].
  rewrite (row_ptr_nonneg (cursor_y ec - 1)) by lia. cbn [mbind option_bind].
  rewrite Hprev. cbn [mbind option_bind].
  apply move_cursor_snap_id; [done|].
  unfold cursor_ok. simpl. rewrite Hprev. unfold len. lia.
Qed.

Lemma arrows_right_at_end ec :
  wf_doc ec -> cursor_ok ec -> cursor_y ec = num_rows ec ->
  editor_move_cursor ec ARROW_RIGHT = Some ec /\ editor_del_char ec = Some ec.
Proof.
  intros Hwf Hcur Hend. pose proof Hwf as [Hidx Hn]. pose proof Hcur as (Hy & _).
  split.
  - unfold editor_move_cursor. rewrite move_cursor_switch_right.
    rewrite cursor_row_spec by done.
    rewrite lookup_ge_None_2 by lia. cbn [mbind option_bind].
    by apply move_cursor_snap_id.
  - unfold editor_del_char. by rewrite Hend, Z.eqb_refl.
Qed.

End LeftRight.

(** X15. The left and right arrows undo each other.  With the cursor on a
    row, moving right and then left returns the cursor to where it was,
    also across the end of the line; anywhere but at the start of the
    document, moving left and then right does.  At the two ends the arrows
    do nothing: right on the line after the last row, left at the start of
    the document. *)
Theorem arrows_left_right_inverse ec :
  wf_doc ec -> cursor_ok ec ->
  (cursor_y ec < num_rows ec ->
   exists ec1, editor_move_cursor ec ARROW_RIGHT = Some ec1
               /\ ec1 <> ec /\ editor_move_cursor ec1 ARROW_LEFT = Some ec)
  /\ (0 < cursor_x ec \/ 0 < cursor_y ec ->
      exists ec1, editor_move_cursor ec ARROW_LEFT = Some ec1
                  /\ ec1 <> ec /\ editor_move_cursor ec1 ARROW_RIGHT = Some ec)
  /\ (cursor_y ec = num_rows ec -> editor_move_cursor ec ARROW_RIGHT = Some ec)
  /\ (cursor_x ec = 0 -> cursor_y ec = 0 -> editor_move_cursor ec ARROW_LEFT = Some ec).
Proof.
  intros Hwf Hcur. pose proof Hwf as [Hidx Hn]. pose proof Hcur as (Hy & Hx & Hrow).
  split; [|split; [|split]].
  - intros Hlt.
    destruct (lookup_lt_is_Some_2 (row ec) (Z.to_nat (cursor_y ec))) as [r Hr]; [lia|].
    rewrite Hr in Hrow. rewrite (move_right_on_row ec r) by done.
    destruct (Z.ltb_spec (cursor_x ec) (len r)).
    + eexists. split; [reflexivity|]. split.
      { intros He. apply (f_equal cursor_x) in He. simpl in He. lia. }
      rewrite move_left_in_row.
      * f_equal. apply set_cursor_back; simpl; lia.
      * done.
      * unfold cursor_ok. simpl. rewrite Hr. lia.
      * simpl. lia.
    + eexists. split; [reflexivity|]. split.
      { intros He. apply (f_equal cursor_y) in He. simpl in He. lia. }
      rewrite (move_left_at_column_0 _ r).
      * f_equal. apply set_cursor_back; simpl; lia.
      * done.
      * unfold cursor_ok. simpl. split; [lia|]. split; [lia|].
        unfold len. destruct (row ec !! Z.to_nat (cursor_y ec + 1)); lia.
      * done.
      * simpl. lia.
      * simpl. by replace (cursor_y ec + 1 - 1) with (cursor_y ec) by lia.
  - intros Hpos.
    destruct (decide (0 < cursor_x ec)) as [Hx0|Hx0].
    + destruct (row ec !! Z.to_nat (cursor_y ec)) as [r|] eqn:Hr; [|lia].
      rewrite move_left_in_row by done.
      eexists. split; [reflexivity|]. split.
      { intros He. apply (f_equal cursor_x) in He. simpl in He. lia. }
      rewrite (move_right_on_row _ r).
      * simpl. destruct (Z.ltb_spec (cursor_x ec - 1) (len r)); [|lia].
        f_equal. apply set_cursor_back; simpl; lia.
      * done.
      * unfold cursor_ok. simpl. rewrite Hr. lia.
      * done.
    + assert (cursor_x ec = 0) as Hx1 by lia.
      destruct (lookup_lt_is_Some_2 (row ec) (Z.to_nat (cursor_y ec - 1)))
        as [prev Hprev]; [lia|].
      rewrite (move_left_at_column_0 ec prev) by (done || lia).
      eexists. split; [reflexivity|]. split.
      { intros He. apply (f_equal cursor_y) in He. simpl in He. lia. }
      rewrite (move_right_on_row _ prev).
      * simpl. destruct (Z.ltb_spec (len prev) (len prev)); [lia|].
        f_equal. apply set_cursor_back; simpl; lia.
      * done.
      * unfold cursor_ok. simpl. rewrite Hprev. unfold len. lia.
      * done.
  - intros Hend. unfold editor_move_cursor. rewrite move_cursor_switch_right.
    rewrite cursor_row_spec by done.
    rewrite lookup_ge_None_2 by lia. cbn [mbind option_bind].
    by apply move_cursor_snap_id.
  - intros Hx0 Hy0. unfold editor_move_cursor. rewrite move_cursor_switch_left.
    rewrite Hx0, Hy0. cbn [Z.eqb negb Z.ltb Z.compare mbind option_bind].
    by apply move_cursor_snap_id.
Qed.

Lemma arrows_left_right_inverse_witness :
  exists ec1,
    editor_move_cursor (set_cursor foo_doc 7 0) ARROW_RIGHT = Some ec1
    /\ ec1 <> set_cursor foo_doc 7 0
    /\ editor_move_cursor ec1 ARROW_LEFT = Some (set_cursor foo_doc 7 0).
Proof.
  apply (arrows_left_right_inverse (set_cursor foo_doc 7 0)).
  - apply wf_doc_check_sound. vm_compute. reflexivity.
  - unfold cursor_ok. simpl. unfold len. simpl. lia.
  - simpl. lia.
Defined.

(** X16. The Delete key ([editor_proc_key] on [DEL_KEY]: one step right,
    then [editor_del_char]).  Inside a row it removes the byte under the
    cursor and leaves the cursor where it was; at the end of a row that has
    a successor it joins the two rows, the cursor staying at the seam; at
    the end of the last row it deletes nothing, but the cursor ends on the
    line after the last row; on that line it does nothing at all.  The
    removal of a byte increments the dirty counter once, with the
    wrap-around of [int]. *)
Theorem delete_key ec :
  wf_doc ec -> cursor_ok ec ->
  exists ec',
    editor_proc_key EvDelete ec = Some ec'
    /\ (forall r, row ec !! Z.to_nat (cursor_y ec) = Some r -> cursor_x ec < len r ->
        raw_text ec'
        = <[Z.to_nat (cursor_y ec) :=
              take (Z.to_nat (cursor_x ec)) (chars r)
              ++ drop (S (Z.to_nat (cursor_x ec))) (chars r)]> (raw_text ec)
        /\ cursor_x ec' = cursor_x ec /\ cursor_y ec' = cursor_y ec
        /\ dirty ec' = int_wrap (dirty ec + 1))
    /\ (forall r next,
          row ec !! Z.to_nat (cursor_y ec) = Some r -> cursor_x ec = len r ->
          row ec !! Z.to_nat (cursor_y ec + 1) = Some next ->
          raw_text ec'
          = take (Z.to_nat (cursor_y ec)) (raw_text ec)
            ++ (chars r ++ chars next)
            :: drop (S (Z.to_nat (cursor_y ec + 1))) (raw_text ec)
          /\ cursor_x ec' = cursor_x ec /\ cursor_y ec' = cursor_y ec
          /\ num_rows ec' = num_rows ec - 1)
    /\ (forall r,
          row ec !! Z.to_nat (cursor_y ec) = Some r -> cursor_x ec = len r ->
          cursor_y ec + 1 = num_rows ec ->
          ec' = set_cursor ec 0 (num_rows ec))
    /\ (cursor_y ec = num_rows ec -> ec' = ec).
Proof.
  intros Hwf Hcur. pose proof Hwf as [Hidx Hn]. pose proof Hcur as (Hy & Hx & Hrow).
  cbn [editor_proc_key].
  destruct (row ec !! Z.to_nat (cursor_y ec)) as [r|] eqn:Hr.
  2:{ apply lookup_ge_None_1 in Hr.
      destruct (arrows_right_at_end ec Hwf Hcur) as [H1 H2]; [lia|].
      rewrite H1. cbn [mbind option_bind]. rewrite H2.
      exists ec. split; [done|].
      split; [intros; discriminate|]. split; [intros; discriminate|].
      split; [intros; discriminate|done]. }
  pose proof (lookup_lt_Some _ _ _ Hr) as Hlt.
  rewrite (move_right_on_row ec r) by done. cbn [mbind option_bind].
  destruct (Z.ltb_spec (cursor_x ec) (len r)) as [Hin|Hend].
  - destruct (editor_del_char_in_row (set_cursor ec (cursor_x ec + 1) (cursor_y ec)) r)
      as (rows' & He & _ & _ & Hc); [done|simpl; lia|done|simpl; lia|].
    rewrite He. eexists. split; [reflexivity|].
    split; [|split; [|split]].
    + intros r0 [= <-] _. unfold raw_text at 1. simpl in *. rewrite Hc.
      replace (Z.to_nat (cursor_x ec + 1 - 1)) with (Z.to_nat (cursor_x ec)) by lia.
      split; [done|]. split; [lia|done].
    + intros r0 next [= <-] Hx'. lia.
    + intros r0 [= <-] Hx'. lia.
    + intros Hy'. lia.
  - assert (cursor_x ec = len r) as Hxl by lia.
    destruct (row ec !! Z.to_nat (cursor_y ec + 1)) as [next|] eqn:Hnext.
    + destruct (editor_del_char_merge (set_cursor ec 0 (cursor_y ec + 1)) r next)
        as (rows' & He & _ & _ & Hc); [done|done|simpl; lia| |done|].
      { simpl. by replace (cursor_y ec + 1 - 1) with (cursor_y ec) by lia. }
      rewrite He. eexists. split; [reflexivity|].
      split; [|split; [|split]].
      * intros r0 [= <-] Hx'. lia.
      * intros r0 next0 [= <-] _ [= <-]. unfold raw_text at 1. simpl in *. rewrite Hc.
        replace (Z.to_nat (cursor_y ec + 1 - 1)) with (Z.to_nat (cursor_y ec)) by lia.
        split; [done|]. split; [lia|]. split; [lia|done].
      * intros r0 _ _ Hy'. apply lookup_lt_Some in Hnext. lia.
      * intros Hy'. lia.
    + apply lookup_ge_None_1 in Hnext.
      unfold editor_del_char. cbn [cursor_y set_cursor num_rows].
      destruct (Z.eqb_spec (cursor_y ec + 1) (num_rows ec)); [|lia].
      eexists. split; [reflexivity|].
      split; [|split; [|split]].
      * intros r0 [= <-] Hx'. lia.
      * intros r0 next0 _ _ [=].
      * intros r0 _ _ Hy'. by rewrite <- Hy'.
      * intros Hy'. lia.
Qed.

Lemma delete_key_witness :
  exists ec',
    editor_proc_key EvDelete (set_cursor foo_doc 7 0) = Some ec'
    /\ raw_text ec' = [str "a foo bbar"; str "baz"] /\ cursor_x ec' = 7.
Proof.
  destruct (delete_key (set_cursor foo_doc 7 0)) as (ec' & He & _ & Hj & _).
  - apply wf_doc_check_sound. vm_compute. reflexivity.
  - unfold cursor_ok. simpl. unfold len. simpl. lia.
  - destruct (Hj (plain_row 0 "a foo b") (plain_row 1 "bar")) as (Hraw & Hx & _);
      [reflexivity|reflexivity|reflexivity|].
    exists ec'. split; [exact He|]. split; [exact Hraw|exact Hx].
Defined.

(** X18. After [editor_scroll] the cursor is inside the window, whatever
    the offsets were before, as long as the text area has at least one row
    and one column: the cursor's row lies in [[row_off, row_off +
    screen_rows)] and its render column, which is [editor_row_cx2rx] of the
    cursor on its row and 0 on the line after the last row, in [[clo_off,
    clo_off + screen_cols)].  Offsets that already show the cursor are left
    as they are, and offsets that were not negative stay so. *)
Theorem editor_scroll_shows_cursor ec vp :
  wf_doc ec -> cursor_ok ec -> 0 < screen_rows vp -> 0 < screen_cols vp ->
  exists vp',
    editor_scroll ec vp = Some vp'
    /\ cursor_visible ec vp'
    /\ render_x vp' = match row ec !! Z.to_nat (cursor_y ec) with
                      | Some r => editor_row_cx2rx r (cursor_x ec)
                      | None => 0
                      end
    /\ screen_rows vp' = screen_rows vp /\ screen_cols vp' = screen_cols vp
    /\ (row_off vp <= cursor_y ec < row_off vp + screen_rows vp ->
        row_off vp' = row_off vp)
    /\ (clo_off vp <= render_x vp' < clo_off vp + screen_cols vp ->
        clo_off vp' = clo_off vp)
    /\ (0 <= row_off vp -> 0 <= row_off vp')
    /\ (0 <= clo_off vp -> 0 <= clo_off vp').
Proof.
  intros [Hidx Hn] (Hy & Hx & Hrow) Hsr Hsc. unfold editor_scroll.
  assert (exists rx,
            (if cursor_y ec <? num_rows ec then
               p ← row_ptr (cursor_y ec);
               r ← row ec !! p;
               Some (editor_row_cx2rx r (cursor_x ec))
             else Some 0) = Some rx
            /\ rx = match row ec !! Z.to_nat (cursor_y ec) with
                    | Some r => editor_row_cx2rx r (cursor_x ec)
                    | None => 0
                    end
            /\ 0 <= rx) as (rx & -> & Hrx & Hrx0).
  { destruct (Z.ltb_spec (cursor_y ec) (num_rows ec)).
    - rewrite (row_ptr_nonneg (cursor_y ec)) by lia. cbn [mbind option_bind].
      destruct (lookup_lt_is_Some_2 (row ec) (Z.to_nat (cursor_y ec))) as [r Hr]; [lia|].
      rewrite Hr in *. cbn [mbind option_bind]. eexists. split; [reflexivity|].
      split; [done|].
      unfold len in Hrow.
      pose proof (cx2rx_mono r 0 (Z.to_nat (cursor_x ec)) ltac:(lia)) as Hm.
      rewrite Z2Nat.id in Hm by lia. change (editor_row_cx2rx r (Z.of_nat 0)) with 0 in Hm.
      lia.
    - rewrite lookup_ge_None_2 by lia. by exists 0. }
  cbn [mbind option_bind]. eexists. split; [reflexivity|].
  unfold cursor_visible.
  cbn [render_x row_off clo_off screen_rows screen_cols].
  rewrite <- Hrx.
  destruct (Z.ltb_spec (cursor_y ec) (row_off vp));
    destruct (Z.ltb_spec rx (clo_off vp));
    repeat match goal with
           | |- context [?a <=? ?b] => destruct (Z.leb_spec a b)
           end;
    repeat split; lia.
Qed.

Lemma editor_scroll_shows_cursor_witness :
  exists vp',
    editor_scroll (set_cursor foo_doc 7 0)
      {| render_x := 0; row_off := 2; clo_off := 0; screen_rows := 2; screen_cols := 5 |}
    = Some vp'
    /\ cursor_visible (set_cursor foo_doc 7 0) vp'.
Proof.
  destruct (editor_scroll_shows_cursor (set_cursor foo_doc 7 0)
              {| render_x := 0; row_off := 2; clo_off := 0;
                 screen_rows := 2; screen_cols := 5 |})
    as (vp' & He & Hv & _).
  - apply wf_doc_check_sound. vm_compute. reflexivity.
  - unfold cursor_ok. simpl. unfold len. simpl. lia.
  - simpl. lia.
  - simpl. lia.
  - exists vp'. split; [exact He|exact Hv].
Defined.

(** ** A search from the first key to the last *)

Lemma cx2rx_nonneg r cx : 0 <= editor_row_cx2rx r cx.
Proof. unfold editor_row_cx2rx. apply fold_rx_advance_ge. Qed.

Lemma editor_scroll_total ec vp :
  0 <= cursor_y ec -> num_rows ec <= Z.of_nat (length (row ec)) ->
  exists vp',
    editor_scroll ec vp = Some vp'
    /\ screen_rows vp' = screen_rows vp /\ screen_cols vp' = screen_cols vp
    /\ (view_ok vp ->
        view_ok vp' /\ row_off vp' <= cursor_y ec < row_off vp' + screen_rows vp').
Proof.
  intros Hy Hn. unfold editor_scroll.
  assert (exists rx,
            (if cursor_y ec <? num_rows ec then
               p ← row_ptr (cursor_y ec);
               r ← row ec !! p;
               Some (editor_row_cx2rx r (cursor_x ec))
             else Some 0) = Some rx /\ 0 <= rx) as (rx & -> & Hrx).
  { destruct (Z.ltb_spec (cursor_y ec) (num_rows ec)).
    - rewrite (row_ptr_nonneg (cursor_y ec)) by lia. cbn [mbind option_bind].
      destruct (lookup_lt_is_Some_2 (row ec) (Z.to_nat (cursor_y ec))) as [r ->]; [lia|].
      cbn [mbind option_bind]. eexists. split; [reflexivity|apply cx2rx_nonneg].
    - by exists 0. }
  cbn [mbind option_bind]. eexists. split; [reflexivity|].
  unfold view_ok. cbn [render_x row_off clo_off screen_rows screen_cols].
  split; [done|]. split; [done|]. intros (Hsr & Hsc & Hro & Hco).
  destruct (Z.ltb_spec (cursor_y ec) (row_off vp));
    destruct (Z.ltb_spec rx (clo_off vp));
    repeat match goal with
           | |- context [?a <=? ?b] => destruct (Z.leb_spec a b)
           end;
    repeat split; lia.
Qed.

Section SearchSession.

Variable ec0 : editor_config.
Hypothesis Hwf0 : wf_doc ec0.
Hypothesis Hok0 : doc_ok ec0.

Lemma row_ok_lookup p r : row ec0 !! p = Some r -> row_ok r.
Proof.
  intros Hr. unfold doc_ok in Hok0. rewrite Forall_forall in Hok0.
  apply Hok0. by eapply list_elem_of_lookup_2.
Qed.

Lemma find_inv_length ec fs :
  find_inv ec0 ec fs ->
  length (row ec) = length (row ec0) /\ num_rows ec = num_rows ec0
  /\ 0 <= cursor_y ec <= num_rows ec0.
Proof.
  intros (Heq & (Hy & _) & _ & Hsaved). cbn in Hy.
  split; [|split; [by rewrite Heq|done]].
  destruct (saved_hl fs).
  - destruct Hsaved as (r & off & n & _ & _ & _ & _ & ->). by rewrite length_insert.
  - by rewrite Hsaved.
Qed.

(** The restore step of the callback gives the rows of [ec0] back. *)
Lemma find_restore_inv ec fs :
  find_inv ec0 ec fs ->
  find_restore ec fs
  = Some (set_row ec (row ec0),
          {| last_match := last_match fs; direction := direction fs;
             saved_hl_line := saved_hl_line fs; saved_hl := None |}).
Proof.
  intros (Heq & Hcur & Hready & Hsaved).
  unfold find_restore. destruct (saved_hl fs) as [sv|] eqn:Hs.
  - destruct Hsaved as (r & off & n & Hline & Hr & -> & Hb & Hrows).
    pose proof (lookup_lt_Some _ _ _ Hr) as Hlt.
    destruct (row_ok_lookup _ _ Hr) as [_ Hl].
    rewrite row_ptr_nonneg by done. cbn [mbind option_bind].
    rewrite Hrows, list_lookup_insert_eq by done. cbn [mbind option_bind].
    do 2 f_equal. rewrite list_insert_insert_eq. unfold set_row. f_equal.
    rewrite <- (list_insert_id (row ec0) _ r Hr) at 2. f_equal.
    unfold rlen, memcpy. cbn [render hl set_hl].
    rewrite Nat2Z.id, take_ge, drop_ge by (rewrite ?length_memset; lia).
    rewrite app_nil_r. by destruct r.
  - rewrite <- Hsaved. rewrite set_row_same. by destruct fs; simpl in *; subst.
Qed.

Lemma find_direction_return key fs :
  key = KEY_ENTER \/ key = KEY_ESC ->
  find_direction key fs
  = ({| last_match := -1; direction := 1;
        saved_hl_line := saved_hl_line fs; saved_hl := saved_hl fs |}, false).
Proof. by intros [-> | ->]. Qed.

Lemma find_callback_step query key ec fs :
  find_inv ec0 ec fs ->
  exists ec' fs',
    editor_find_callback query key ec fs = Some (ec', fs') /\ find_inv ec0 ec' fs'
    /\ (key = KEY_ENTER \/ key = KEY_ESC ->
        row ec' = row ec0 /\ find_idle fs'
        /\ cursor_x ec' = cursor_x ec /\ cursor_y ec' = cursor_y ec).
Proof.
  intros Hinv.
  pose proof (find_restore_inv ec fs Hinv) as Hres.
  destruct Hinv as (Heq & Hcur & Hready & _).
  destruct Hwf0 as [Hidx0 Hn0].
  unfold editor_find_callback.
  rewrite Hres. cbn [mbind option_bind].
  set (ecR := set_row ec (row ec0)).
  set (fsR := {| last_match := last_match fs; direction := direction fs;
                 saved_hl_line := saved_hl_line fs; saved_hl := None |}).
  assert (num_rows ec = num_rows ec0) as Hnum by (rewrite Heq; done).
  assert (ecR = set_cursor (set_row ec0 (row ecR)) (cursor_x ecR) (cursor_y ecR)) as HeqR.
  { unfold ecR. rewrite Heq. done. }
  assert (find_ready ecR fsR) as HreadyR by exact Hready.
  pose proof (find_direction_ready key ecR fsR HreadyR) as Hready2.
  pose proof (find_direction_saved key fsR) as Hsaved2.
  destruct (decide (key = KEY_ENTER \/ key = KEY_ESC)) as [Hret|Hscan].
  { rewrite (find_direction_return key fsR Hret) in *. cbn [fst snd] in *.
    eexists _, _. split; [reflexivity|]. split; [|done].
    split; [exact HeqR|]. split; [exact Hcur|]. split; [exact Hready2|]. done. }
  assert (snd (find_direction key fsR) = true) as Hs.
  { unfold find_direction.
    destruct (Z.eqb_spec key KEY_ENTER); [tauto|].
    destruct (Z.eqb_spec key KEY_ESC); [tauto|]. done. }
  destruct (find_direction key fsR) as [fs2 scan]. cbn [fst snd] in *. subst scan.
  destruct Hready2 as (Hdir2 & Hlast2 & Hfwd2).
  destruct (find_scan_total query ecR fs2 ltac:(simpl; lia) Hdir2
              (Z.to_nat (num_rows ecR)) (last_match fs2))
    as (ec' & fs' & He & _).
  { destruct (decide (num_rows ecR = 0)) as [->|]; [by left|right; lia]. }
  rewrite He. exists ec', fs'. split; [done|]. split; [|tauto].
  apply find_scan_cases in He as [[= -> ->]|(c & r & off & Hc & Hr & Hstr & Hh)].
  { split; [exact HeqR|]. split; [exact Hcur|]. split; [done|].
    by rewrite Hsaved2. }
  unfold find_hit in Hh. injection Hh as -> ->.
  change (row ecR) with (row ec0) in *.
  pose proof (lookup_lt_Some _ _ _ Hr) as Hlt.
  destruct (row_ok_lookup _ _ Hr) as [_ Hl].
  pose proof (strstr_bound _ _ _ Hstr) as Hb.
  split; [|split; [|split]]; cbn [saved_hl saved_hl_line].
  - unfold ecR. rewrite Heq. done.
  - cbn [cursor_x cursor_y set_row set_cursor].
    unfold cursor_ok. cbn [cursor_x cursor_y set_cursor num_rows row].
    rewrite Hr. unfold editor_row_rx2cx, len.
    pose proof (rx2cx_loop_range (chars r) 0 0 (Z.of_nat off)). lia.
  - unfold find_ready. cbn. split; [done|]. split; [lia|lia].
  - exists r, off, (strlen query). split; [done|]. split; [done|].
    split; [unfold rlen; by rewrite Nat2Z.id, take_ge by lia|]. split; [lia|done].
Qed.

(** One round of the prompt during a search: the refresh, then the
    callback. *)
Lemma find_round s :
  find_inv ec0 (doc s) (find s) ->
  exists s1,
    editor_refresh_screen s = Some s1
    /\ forall b c,
         exists s2,
           find_callback b c s1 = Some s2
           /\ find_inv ec0 (doc s2) (find s2)
           /\ quit_times s2 = quit_times s
           /\ (view_ok (view s) -> view_ok (view s2))
           /\ (c = KEY_ENTER \/ c = KEY_ESC ->
               row (doc s2) = row ec0 /\ find_idle (find s2)).
Proof.
  intros Hinv. destruct (find_inv_length _ _ Hinv) as (Hl & Hn & Hy).
  destruct Hwf0 as [_ Hn0].
  destruct (editor_scroll_total (doc s) (view s)) as (vp & Hvp & _ & _ & Hv); [lia|lia|].
  unfold editor_refresh_screen. rewrite Hvp. cbn [mbind option_bind].
  eexists. split; [reflexivity|]. intros b c.
  destruct (find_callback_step b c (doc s) (find s) Hinv) as (ec' & fs' & He & Hinv' & Hret).
  unfold find_callback. cbn [doc find set_view]. rewrite He. cbn [mbind option_bind fst snd].
  eexists. split; [reflexivity|]. cbn. split; [done|]. split; [done|].
  split; [intros Hvo; by apply Hv|]. intros Hc. by destruct (Hret Hc) as (? & ? & _).
Qed.

Lemma editor_prompt_find : forall keys buf s,
  find_inv ec0 (doc s) (find s) -> In KEY_ESC keys ->
  exists q s' keys',
    editor_prompt editor_refresh_screen (Some find_callback) keys buf s
    = Some (q, s', keys')
    /\ find_inv ec0 (doc s') (find s') /\ row (doc s') = row ec0
    /\ find_idle (find s') /\ quit_times s' = quit_times s
    /\ (view_ok (view s) -> view_ok (view s'))
    /\ (~ In KEY_ENTER keys -> q = None).
Proof.
  induction keys as [|c keys IH]; intros buf s Hinv Hesc; [done|].
  cbn [editor_prompt prompt_callback].
  destruct (find_round s Hinv) as (s1 & -> & Hround). cbn [mbind option_bind].
  assert (forall b, c <> KEY_ESC ->
            exists q s' keys',
              (s2 ← find_callback b c s1;
               editor_prompt editor_refresh_screen (Some find_callback) keys b s2)
              = Some (q, s', keys')
              /\ find_inv ec0 (doc s') (find s') /\ row (doc s') = row ec0
              /\ find_idle (find s') /\ quit_times s' = quit_times s
              /\ (view_ok (view s) -> view_ok (view s'))
              /\ (~ In KEY_ENTER (c :: keys) -> q = None)) as Hcont.
  { intros b Hne. destruct (Hround b c) as (s2 & -> & Hinv2 & Hq2 & Hv2 & _).
    cbn [mbind option_bind].
    destruct (IH b s2 Hinv2) as (q & s' & keys' & He & H1 & H2 & H3 & H4 & H5 & Hq).
    { destruct Hesc; [congruence|done]. }
    exists q, s', keys'. split; [exact He|]. split; [done|]. split; [done|].
    split; [done|]. split; [congruence|]. split; [auto|].
    intros Hn. apply Hq. intros Hin. apply Hn. by right. }
  destruct ((c =? DEL_KEY) || (c =? CTRL_KEY 104) || (c =? BACK_SPACE)) eqn:Hdel.
  { apply Hcont. intros ->. vm_compute in Hdel. discriminate. }
  destruct (Z.eqb_spec c KEY_ESC) as [->|Hne].
  { destruct (Hround buf KEY_ESC) as (s2 & -> & Hinv2 & Hq2 & Hv2 & Hret).
    destruct Hret as (Hrow & Hidle); [by right|].
    cbn [mbind option_bind]. exists None, s2, keys. done. }
  destruct (Z.eqb_spec c KEY_ENTER) as [->|Hne2].
  { destruct (negb (length buf =? 0)%nat).
    - destruct (Hround buf KEY_ENTER) as (s2 & -> & Hinv2 & Hq2 & Hv2 & Hret).
      destruct Hret as (Hrow & Hidle); [by left|].
      cbn [mbind option_bind]. exists (Some buf), s2, keys.
      split; [done|]. split; [done|]. split; [done|]. split; [done|].
      split; [done|]. split; [done|].
      intros Hn. exfalso. apply Hn. by left.
    - by apply Hcont. }
  destruct (negb (iscntrl c) && (c <? 128)); by apply Hcont.
Qed.

End SearchSession.

Lemma find_inv_start ec fs :
  wf_doc ec -> cursor_ok ec -> find_idle fs -> find_inv ec ec fs.
Proof.
  intros [_ Hn] Hcur (Hl & Hd & Hs). unfold find_inv. rewrite Hs.
  split; [by destruct ec|]. split; [by destruct ec|]. split; [|done].
  unfold find_ready. lia.
Qed.

Lemma editor_find_spec s keys :
  wf_doc (doc s) -> doc_ok (doc s) -> cursor_ok (doc s) -> find_idle (find s) ->
  In KEY_ESC keys ->
  exists s' keys',
    editor_find keys s = Some (s', keys')
    /\ row (doc s') = row (doc s)
    /\ doc s' = set_cursor (doc s) (cursor_x (doc s')) (cursor_y (doc s'))
    /\ cursor_ok (doc s') /\ find_idle (find s')
    /\ quit_times s' = quit_times s
    /\ (view_ok (view s) -> view_ok (view s'))
    /\ (~ In KEY_ENTER keys ->
        doc s' = doc s /\ row_off (view s') = row_off (view s)
        /\ clo_off (view s') = clo_off (view s)).
Proof.
  intros Hwf Hok Hcur Hidle Hesc.
  pose proof (find_inv_start _ _ Hwf Hcur Hidle) as Hinv.
  destruct (editor_prompt_find (doc s) Hwf Hok keys [] s Hinv Hesc)
    as (q & s1 & keys' & He & (Heq & Hcur1 & _) & Hrow & Hidle1 & Hq1 & Hv & Hq).
  rewrite Hrow in Heq.
  assert (doc s1 = set_cursor (doc s) (cursor_x (doc s1)) (cursor_y (doc s1))) as Heq1
    by (rewrite Heq at 1; by destruct (doc s)).
  unfold editor_find. rewrite He. cbn [mbind option_bind].
  destruct q as [b|].
  - exists s1, keys'. split; [done|]. split; [done|]. split; [done|].
    split; [by rewrite Heq1|]. split; [done|]. split; [done|].
    split; [done|]. intros Hn. by specialize (Hq Hn).
  - assert (set_cursor (doc s1) (cursor_x (doc s)) (cursor_y (doc s)) = doc s) as ->
      by (rewrite Heq1; by destruct (doc s)).
    eexists _, keys'. split; [reflexivity|]. cbn.
    split; [done|]. split; [by destruct (doc s)|].
    split; [done|]. split; [done|]. split; [done|]. split; [|done].
    intros Hvo. destruct (Hv Hvo) as (? & ? & _). by destruct Hvo as (_ & _ & ? & ?).
Qed.

(** X17. A search leaves the document as it found it.  Whatever keys are
    typed into the search prompt, once Escape is among them [editor_find]
    returns, and then the row array is the one the search started with,
    highlight arrays included; only the cursor may have moved, and it is in
    the document.  The static variables of the callback are back in their
    initial state, so the next search starts afresh.  When the search was
    not ended with Enter, the document, the cursor and the scroll offsets
    are exactly as before. *)
Theorem editor_find_leaves_document s keys :
  wf_doc (doc s) -> doc_ok (doc s) -> cursor_ok (doc s) -> find_idle (find s) ->
  In KEY_ESC keys ->
  exists s' keys',
    editor_find keys s = Some (s', keys')
    /\ row (doc s') = row (doc s)
    /\ doc s' = set_cursor (doc s) (cursor_x (doc s')) (cursor_y (doc s'))
    /\ cursor_ok (doc s') /\ find_idle (find s')
    /\ (~ In KEY_ENTER keys ->
        doc s' = doc s /\ row_off (view s') = row_off (view s)
        /\ clo_off (view s') = clo_off (view s)).
Proof.
  intros Hwf Hok Hcur Hidle Hesc.
  destruct (editor_find_spec s keys Hwf Hok Hcur Hidle Hesc)
    as (s' & keys' & He & H1 & H2 & H3 & H4 & _ & _ & H5).
  exists s', keys'. done.
Qed.

Lemma editor_find_leaves_document_witness :
  exists s' keys',
    editor_find [102; 111; 111; ARROW_DOWN; KEY_ESC; 120]
      (set_doc (initial_state 24 80) foo_doc)
      = Some (s', keys')
    /\ row (doc s') = row foo_doc /\ find_idle (find s').
Proof.
  destruct (editor_find_leaves_document (set_doc (initial_state 24 80) foo_doc)
              [102; 111; 111; ARROW_DOWN; KEY_ESC; 120])
    as (s' & keys' & He & Hrow & _ & _ & Hidle & _).
  - apply wf_doc_check_sound. vm_compute. reflexivity.
  - repeat constructor; vm_compute; lia.
  - unfold cursor_ok. simpl. unfold len. simpl. lia.
  - done.
  - simpl. tauto.
  - exists s', keys'. split; [exact He|]. split; [exact Hrow|exact Hidle].
Defined.

(** ** The prompt *)

Section PromptText.

Context {S : Type}.
Variable refresh : S -> option S.
Variable callback : option (list ascii -> Z -> S -> option S).
Hypothesis refresh_total : forall s, is_Some (refresh s).
Hypothesis callback_total : forall buf c s, is_Some (prompt_callback callback buf c s).

Lemma char_of_int_key_of ch : char_of_int (key_of ch) = ch.
Proof.
  unfold char_of_int, key_of.
  pose proof (N_ascii_bounded ch).
  rewrite Z.mod_small by lia. rewrite N2Z.id. apply ascii_N_embedding.
Qed.

Lemma editor_prompt_round buf c s :
  exists s', (s0 ← refresh s; prompt_callback callback buf c s0) = Some s'.
Proof.
  destruct (refresh_total s) as [s0 ->]. cbn [mbind option_bind].
  destruct (callback_total buf c s0) as [s' ->]. by exists s'.
Qed.

Lemma editor_prompt_printable ch keys buf s :
  printable ch ->
  exists s',
    editor_prompt refresh callback (key_of ch :: keys) buf s
    = editor_prompt refresh callback keys (buf ++ [ch]) s'.
Proof.
  unfold printable. intros Hp. cbn [editor_prompt].
  destruct (refresh_total s) as [s0 ->]. cbn [mbind option_bind].
  change (CTRL_KEY 104) with 8. unfold DEL_KEY, BACK_SPACE, KEY_ESC, KEY_ENTER, iscntrl.
  destruct (Z.eqb_spec (key_of ch) 1004); [lia|].
  destruct (Z.eqb_spec (key_of ch) 8); [lia|].
  destruct (Z.eqb_spec (key_of ch) 127); [lia|].
  destruct (Z.eqb_spec (key_of ch) 27); [lia|].
  destruct (Z.eqb_spec (key_of ch) 13); [lia|].
  destruct (Z.leb_spec 0 (key_of ch)); [|lia].
  destruct (Z.ltb_spec (key_of ch) 32); [lia|].
  destruct (Z.ltb_spec (key_of ch) 128); [|lia].
  cbn [orb andb negb]. rewrite char_of_int_key_of.
  destruct (callback_total (buf ++ [ch]) (key_of ch) s0) as [s' ->].
  cbn [mbind option_bind]. by exists s'.
Qed.

Lemma editor_prompt_text text : forall keys buf s,
  Forall printable text ->
  exists s',
    editor_prompt refresh callback ((key_of <$> text) ++ keys) buf s
    = editor_prompt refresh callback keys (buf ++ text) s'.
Proof.
  induction text as [|ch text IH]; intros keys buf s Hp.
  - exists s. by rewrite app_nil_r.
  - apply Forall_cons in Hp as [Hch Hp]. cbn [fmap list_fmap app].
    destruct (editor_prompt_printable ch ((key_of <$> text) ++ keys) buf s Hch)
      as [s1 ->].
    destruct (IH keys (buf ++ [ch]) s1 Hp) as [s2 ->].
    exists s2. by rewrite <- app_assoc.
Qed.

Lemma editor_prompt_backspaces n : forall keys buf s,
  exists s',
    editor_prompt refresh callback (replicate n BACK_SPACE ++ keys) buf s
    = editor_prompt refresh callback keys (take (length buf - n) buf) s'.
Proof.
  induction n as [|n IH]; intros keys buf s.
  - exists s. cbn [replicate app]. by rewrite Nat.sub_0_r, firstn_all.
  - cbn [replicate app editor_prompt].
    destruct (refresh_total s) as [s0 ->]. cbn [mbind option_bind].
    change ((BACK_SPACE =? DEL_KEY) || (BACK_SPACE =? CTRL_KEY 104)
            || (BACK_SPACE =? BACK_SPACE)) with true. cbn match.
    destruct (callback_total (if (length buf =? 0)%nat then buf
                              else take (length buf - 1) buf) BACK_SPACE s0)
      as [s1 ->].
    cbn [mbind option_bind].
    destruct (IH keys (if (length buf =? 0)%nat then buf
                       else take (length buf - 1) buf) s1) as [s2 ->].
    exists s2. destruct (Nat.eqb_spec (length buf) 0) as [H0|H0].
    + by rewrite H0.
    + rewrite length_take, take_take. do 2 f_equal. lia.
Qed.

Lemma editor_prompt_enter keys buf s :
  exists s',
    editor_prompt refresh callback (KEY_ENTER :: keys) buf s
    = match buf with
      | [] => editor_prompt refresh callback keys [] s'
      | _ :: _ => Some (Some buf, s', keys)
      end.
Proof.
  cbn [editor_prompt].
  destruct (refresh_total s) as [s0 ->]. cbn [mbind option_bind].
  change ((KEY_ENTER =? DEL_KEY) || (KEY_ENTER =? CTRL_KEY 104)
          || (KEY_ENTER =? BACK_SPACE)) with false.
  change (KEY_ENTER =? KEY_ESC) with false. change (KEY_ENTER =? KEY_ENTER) with true.
  cbn match.
  destruct (callback_total buf KEY_ENTER s0) as [s1 ->].
  cbn [mbind option_bind]. exists s1. by destruct buf.
Qed.

Lemma editor_prompt_esc keys buf s :
  exists s',
    editor_prompt refresh callback (KEY_ESC :: keys) buf s = Some (None, s', keys).
Proof.
  cbn [editor_prompt].
  destruct (refresh_total s) as [s0 ->]. cbn [mbind option_bind].
  change ((KEY_ESC =? DEL_KEY) || (KEY_ESC =? CTRL_KEY 104)
          || (KEY_ESC =? BACK_SPACE)) with false.
  change (KEY_ESC =? KEY_ESC) with true. cbn match.
  destruct (callback_total buf KEY_ESC s0) as [s1 ->].
  cbn [mbind option_bind]. by exists s1.
Qed.

End PromptText.

(** X19. What is typed into the prompt is what the prompt returns.  Let the
    screen refresh and the callback, if there is one, always return.  For
    a text of printable bytes below 128: followed by Enter, the prompt
    returns the text, provided it is not empty; followed by Escape, it
    returns NULL; and followed by as many backspaces as it has bytes, by an
    Enter (which an empty buffer ignores), by a second text and by Enter,
    it returns the second text.  The keys after the one that ends the
    prompt are not read. *)
Theorem editor_prompt_typed_text {S : Type} (refresh : S -> option S) callback
    (s : S) text rest :
  (forall s, is_Some (refresh s)) ->
  (forall buf c s, is_Some (prompt_callback callback buf c s)) ->
  Forall printable text ->
  (text <> [] ->
   exists s',
     editor_prompt refresh callback ((key_of <$> text) ++ KEY_ENTER :: rest) [] s
     = Some (Some text, s', rest))
  /\ (exists s',
        editor_prompt refresh callback ((key_of <$> text) ++ KEY_ESC :: rest) [] s
        = Some (None, s', rest))
  /\ (forall text2,
        Forall printable text2 -> text2 <> [] ->
        exists s',
          editor_prompt refresh callback
            ((key_of <$> text) ++ replicate (length text) BACK_SPACE
             ++ KEY_ENTER :: (key_of <$> text2) ++ KEY_ENTER :: rest) [] s
          = Some (Some text2, s', rest)).
Proof.
  intros Hr Hc Hp. split; [|split].
  - intros Hne.
    destruct (editor_prompt_text refresh callback Hr Hc text (KEY_ENTER :: rest) [] s Hp)
      as [s1 ->].
    destruct (editor_prompt_enter refresh callback Hr Hc rest ([] ++ text) s1) as [s2 ->].
    exists s2. cbn [app]. by destruct text.
  - destruct (editor_prompt_text refresh callback Hr Hc text (KEY_ESC :: rest) [] s Hp)
      as [s1 ->].
    apply (editor_prompt_esc refresh callback Hr Hc).
  - intros text2 Hp2 Hne2.
    destruct (editor_prompt_text refresh callback Hr Hc text
                (replicate (length text) BACK_SPACE
                 ++ KEY_ENTER :: (key_of <$> text2) ++ KEY_ENTER :: rest) [] s Hp)
      as [s1 ->].
    destruct (editor_prompt_backspaces refresh callback Hr Hc (length text)
                (KEY_ENTER :: (key_of <$> text2) ++ KEY_ENTER :: rest) ([] ++ text) s1)
      as [s2 ->].
    cbn [app]. rewrite Nat.sub_diag, take_0.
    destruct (editor_prompt_enter refresh callback Hr Hc
                ((key_of <$> text2) ++ KEY_ENTER :: rest) [] s2) as [s3 ->].
    destruct (editor_prompt_text refresh callback Hr Hc text2 (KEY_ENTER :: rest) [] s3 Hp2)
      as [s4 ->].
    destruct (editor_prompt_enter refresh callback Hr Hc rest ([] ++ text2) s4) as [s5 ->].
    exists s5. cbn [app]. by destruct text2.
Qed.

Lemma editor_prompt_typed_text_witness :
  exists s',
    editor_prompt (fun s : unit => Some s) None
      ((key_of <$> str "a.c") ++ KEY_ENTER :: [120]) [] tt
    = Some (Some (str "a.c"), s', [120]).
Proof.
  destruct (editor_prompt_typed_text (fun s : unit => Some s) None tt (str "a.c") [120])
    as [Henter _].
  - intros s. by eexists.
  - intros buf c s. by eexists.
  - cbv [str String.list_ascii_of_string].
    repeat (apply Forall_cons; split; [vm_compute; split; [discriminate|reflexivity]|]).
    by apply Forall_nil.
  - apply Henter. discriminate.
Defined.

(** ** Which files get a syntax *)

Section SyntaxSelection.

Lemma cstr_NUL_free s : ~ In NUL (cstr s).
Proof.
  unfold cstr. induction s as [|ch s IH]; cbn [strlen]; [by intros []|].
  destruct (Ascii.eqb_spec ch NUL) as [->|Hne]; [by intros []|].
  cbn [take]. intros [H|H]; [done|by apply IH].
Qed.

Lemma strcmp_eq_iff a b : strcmp_eq a b = true <-> cstr a = cstr b.
Proof.
  unfold strcmp_eq. rewrite andb_true_iff, starts_with_iff, Nat.eqb_eq. split.
  - intros [[post Hp] Hl]. rewrite Hp, length_app in Hl.
    destruct post; [by rewrite app_nil_r in Hp|cbn [length] in Hl; lia].
  - intros ->. split; [exists []; by rewrite app_nil_r|done].
Qed.

Lemma strrchr_text_None s ch : strrchr_text s ch = None -> ~ In ch s.
Proof.
  induction s as [|a s IH]; cbn [strrchr_text]; [by intros _ []|].
  destruct (strrchr_text s ch); [discriminate|].
  destruct (Ascii.eqb_spec a ch); [discriminate|].
  intros _ [H|H]; [done|by apply IH].
Qed.

Lemma strrchr_text_Some s ch t :
  strrchr_text s ch = Some t ->
  exists pre rest, s = pre ++ t /\ t = ch :: rest /\ ~ In ch rest.
Proof.
  revert t. induction s as [|a s IH]; intros t; cbn [strrchr_text]; [discriminate|].
  destruct (strrchr_text s ch) as [t'|] eqn:Hs.
  - intros [= <-]. destruct (IH t' eq_refl) as (pre & rest & -> & -> & Hn).
    by exists (a :: pre), rest.
  - destruct (Ascii.eqb_spec a ch) as [->|]; [|discriminate].
    intros [= <-]. exists [], s. split; [done|]. split; [done|].
    by apply strrchr_text_None.
Qed.

Lemma strrchr_text_last pre ch rest :
  ~ In ch rest -> strrchr_text (pre ++ ch :: rest) ch = Some (ch :: rest).
Proof.
  intros Hn. induction pre as [|a pre IH]; cbn [app strrchr_text].
  - destruct (strrchr_text rest ch) as [t|] eqn:Hs.
    + apply strrchr_text_Some in Hs as (p & r & -> & -> & _).
      exfalso. apply Hn, in_app_iff. right. by left.
    + by rewrite Ascii.eqb_refl.
  - by rewrite IH.
Qed.

(** The suffix that [strrchr(filename, '.')] returns is compared with the
    three extensions of the C entry. *)
Lemma select_syntax_HLDB fname :
  select_syntax HLDB fname (strrchr fname "."%char)
  = match strrchr fname "."%char with
    | Some e =>
        if strcmp_eq e (str ".c") || strcmp_eq e (str ".h") || strcmp_eq e (str ".cpp")
        then Some C_SYNTAX else None
    | None => None
    end.
Proof.
  cbn [select_syntax HLDB filematch C_SYNTAX C_HL_EXT existsb].
  unfold filematch_hit.
  change (Ascii.eqb (char_at (str ".c") 0) ".") with true.
  change (Ascii.eqb (char_at (str ".h") 0) ".") with true.
  change (Ascii.eqb (char_at (str ".cpp") 0) ".") with true.
  cbn [andb negb orb]. destruct (strrchr fname "."%char) as [e|]; [|done].
  rewrite !orb_false_r. by rewrite orb_assoc.
Qed.

Lemma extension_shape ext :
  ext ∈ C_HL_EXT -> exists rest, ext = "."%char :: rest /\ ~ In "."%char rest
                                 /\ ~ In NUL ext.
Proof.
  unfold C_HL_EXT. rewrite !elem_of_cons, elem_of_nil.
  intros [->|[->|[->|[]]]]; eexists; (split; [reflexivity|]);
    split; cbn; intuition discriminate.
Qed.

Lemma select_syntax_suffix fname :
  select_syntax HLDB fname (strrchr fname "."%char)
  = Some C_SYNTAX <-> exists ext, ext ∈ C_HL_EXT /\ ext `suffix_of` cstr fname.
Proof.
  rewrite select_syntax_HLDB. unfold strrchr. split.
  - destruct (strrchr_text (cstr fname) ".") as [e|] eqn:He; [|discriminate].
    apply strrchr_text_Some in He as (pre & rest & Hf & -> & Hn).
    assert (cstr ("."%char :: rest) = "."%char :: rest) as Hc.
    { apply cstr_no_NUL. intros Hin. apply (cstr_NUL_free fname).
      rewrite Hf. apply in_app_iff. by right. }
    destruct (strcmp_eq _ _ || _ || _) eqn:Hcmp; [|discriminate]. intros _.
    rewrite !orb_true_iff, !strcmp_eq_iff, Hc in Hcmp.
    exists ("."%char :: rest). split; [|by exists pre].
    unfold C_HL_EXT. rewrite !elem_of_cons.
    destruct Hcmp as [[->| ->]| ->]; auto.
  - intros (ext & Hin & [stem Hs]).
    destruct (extension_shape ext Hin) as (rest & -> & Hn & Hnul).
    rewrite Hs, strrchr_text_last by done.
    assert (strcmp_eq ("."%char :: rest) (str ".c")
            || strcmp_eq ("."%char :: rest) (str ".h")
            || strcmp_eq ("."%char :: rest) (str ".cpp") = true) as ->; [|done].
    rewrite !orb_true_iff, !strcmp_eq_iff, (cstr_no_NUL _ Hnul).
    unfold C_HL_EXT in Hin. rewrite !elem_of_cons, elem_of_nil in Hin.
    destruct Hin as [->|[->|[->|[]]]]; auto.
Qed.

Lemma editor_select_syntax_highlight_syntax ec :
  wf_doc ec ->
  exists ec',
    editor_select_syntax_highlight ec = Some ec'
    /\ syntax ec' = match filename ec with
                    | Some fname => select_syntax HLDB fname (strrchr fname "."%char)
                    | None => None
                    end.
Proof.
  intros [Hidx Hn]. unfold editor_select_syntax_highlight.
  cbn [filename set_syntax].
  destruct (filename ec) as [fname|]; [|by eexists].
  destruct (select_syntax HLDB fname (strrchr fname "."%char)) as [s|]; [|by eexists].
  set (ec1 := set_syntax (set_syntax ec None) (Some s)).
  destruct (update_syntax_rows_spec (Z.to_nat (num_rows ec1)) 0 ec1)
    as (rows' & He & _); [done|simpl; lia|simpl; lia|].
  eexists. split; [exact He|done].
Qed.

End SyntaxSelection.

(** X20. The C syntax is selected exactly for the file names that end in
    [.c], [.h] or [.cpp]: after [editor_select_syntax_highlight] the editor
    has the C entry of [HLDB] when the name (the C string in [filename]) has
    one of the three as a suffix, and no syntax otherwise, in particular
    when there is no file name.  An extension in the middle of the name,
    as in [a.c.txt], does not count. *)
Theorem syntax_selected_by_extension ec :
  wf_doc ec ->
  exists ec',
    editor_select_syntax_highlight ec = Some ec'
    /\ (syntax ec' = Some C_SYNTAX \/ syntax ec' = None)
    /\ (syntax ec' = Some C_SYNTAX <->
        exists fname ext,
          filename ec = Some fname /\ ext ∈ C_HL_EXT /\ ext `suffix_of` cstr fname).
Proof.
  intros Hwf.
  destruct (editor_select_syntax_highlight_syntax ec Hwf) as (ec' & He & Hs).
  exists ec'. split; [exact He|]. rewrite Hs.
  destruct (filename ec) as [fname|].
  - split.
    + rewrite select_syntax_HLDB. destruct (strrchr fname "."%char); [|by right].
      destruct (_ || _); [by left|by right].
    + rewrite select_syntax_suffix. split.
      * intros (ext & Hin & Hsuf). by exists fname, ext.
      * intros (f & ext & [= <-] & Hin & Hsuf). by exists ext.
  - split; [by right|]. split; [discriminate|]. intros (f & ext & Hf & _). discriminate.
Qed.

Lemma syntax_selected_by_extension_witness :
  exists ec',
    editor_select_syntax_highlight (set_filename (plain_doc []) (Some (str "x.cpp")))
      = Some ec'
    /\ (syntax ec' = Some C_SYNTAX <->
        exists fname ext,
          Some (str "x.cpp") = Some fname /\ ext ∈ C_HL_EXT
          /\ ext `suffix_of` cstr fname).
Proof.
  destruct (syntax_selected_by_extension
              (set_filename (plain_doc []) (Some (str "x.cpp"))))
    as (ec' & He & _ & Hs).
  - apply wf_doc_check_sound. vm_compute. reflexivity.
  - exists ec'. split; [exact He|exact Hs].
Defined.

(** ** What the editing keys do to the text *)

(** X21. Enter splits the row at the cursor.  With the cursor on a row,
    [editor_insert_newline] replaces the row by two: the bytes before the
    cursor and the bytes from the cursor on, so that their concatenation is
    the old row; on the line after the last row it appends an empty row.
    In both cases the cursor goes to column 0 of the next line, the row
    count goes up by one, the dirty counter is incremented once (with the
    wrap-around of [int]: from [INT_MAX] it goes to [INT_MIN]), and the rows
    stay numbered consecutively. *)
Theorem enter_splits_row ec :
  wf_doc ec -> cursor_ok ec ->
  exists ec',
    editor_insert_newline ec = Some ec'
    /\ wf_doc ec' /\ cursor_x ec' = 0 /\ cursor_y ec' = cursor_y ec + 1
    /\ num_rows ec' = num_rows ec + 1 /\ dirty ec' = int_wrap (dirty ec + 1)
    /\ raw_text ec'
       = take (Z.to_nat (cursor_y ec)) (raw_text ec)
         ++ match row ec !! Z.to_nat (cursor_y ec) with
            | Some r => [take (Z.to_nat (cursor_x ec)) (chars r);
                         drop (Z.to_nat (cursor_x ec)) (chars r)]
            | None => [[]]
            end
         ++ drop (S (Z.to_nat (cursor_y ec))) (raw_text ec).
Proof.
  intros Hwf Hcur. pose proof Hwf as [Hidx Hn]. pose proof Hcur as (Hy & Hx & Hrow).
  destruct (row ec !! Z.to_nat (cursor_y ec)) as [r|] eqn:Hr.
  - destruct (editor_insert_newline_text ec r Hwf Hcur Hr) as (rows' & He & Hi & Hl & Hc).
    eexists. split; [exact He|]. split; [split; simpl; [done|lia]|].
    cbn. split; [done|]. split; [done|]. split; [done|]. split; [done|].
    unfold raw_text at 1. cbn. exact Hc.
  - apply lookup_ge_None_1 in Hr.
    destruct (newline_then_backspace_at_end ec Hwf Hcur) as (ec1 & He & _ & Hraw & Hx1 & Hy1 & Hn1);
      [lia|].
    destruct (editor_insert_newline_post ec Hwf Hcur) as (ec2 & He2 & (Hwf2 & _ & Hd) & _).
    rewrite He in He2. injection He2 as <-.
    exists ec1. split; [exact He|]. split; [done|]. split; [done|]. split; [done|].
    split; [done|]. split.
    + revert He. unfold editor_insert_newline. rewrite Hrow, Z.eqb_refl.
      destruct (editor_insert_row_spec ec (cursor_y ec) [] Hwf ltac:(lia))
        as (rows' & -> & _). cbn [mbind option_bind]. by intros [= <-].
    + rewrite Hraw, take_ge, drop_ge by (unfold raw_text; rewrite length_fmap; lia).
      by rewrite app_nil_r.
Qed.

Lemma enter_splits_row_witness :
  exists ec',
    editor_insert_newline (set_cursor foo_doc 2 0) = Some ec'
    /\ raw_text ec' = [str "a "; str "foo b"; str "bar"; str "baz"]
    /\ cursor_x ec' = 0 /\ cursor_y ec' = 1.
Proof.
  destruct (enter_splits_row (set_cursor foo_doc 2 0))
    as (ec' & He & _ & Hx & Hy & _ & _ & Hraw).
  - apply wf_doc_check_sound. vm_compute. reflexivity.
  - unfold cursor_ok. simpl. unfold len. simpl. lia.
  - exists ec'. split; [exact He|]. split; [exact Hraw|]. split; [exact Hx|exact Hy].
Defined.

(** X22. Backspace ([editor_del_char]).  On the line after the last row and
    at the start of the document it changes nothing.  With the cursor
    inside or at the end of a row it removes the byte before the cursor and
    moves the cursor one column left.  In column 0 of a row that has a row
    above it, it appends the row to the one above and removes it, and the
    cursor goes to the seam, in the row above at its old length.  The
    removal of a byte increments the dirty counter once and the join
    increments it twice, each time with the wrap-around of [int]. *)
Theorem backspace_deletes_or_joins ec :
  wf_doc ec -> cursor_ok ec ->
  exists ec',
    editor_del_char ec = Some ec'
    /\ wf_doc ec'
    /\ (cursor_y ec = num_rows ec \/ (cursor_x ec = 0 /\ cursor_y ec = 0) -> ec' = ec)
    /\ (forall r, row ec !! Z.to_nat (cursor_y ec) = Some r -> 0 < cursor_x ec ->
        raw_text ec'
        = <[Z.to_nat (cursor_y ec) :=
              take (Z.to_nat (cursor_x ec - 1)) (chars r)
              ++ drop (Z.to_nat (cursor_x ec)) (chars r)]> (raw_text ec)
        /\ cursor_x ec' = cursor_x ec - 1 /\ cursor_y ec' = cursor_y ec
        /\ num_rows ec' = num_rows ec /\ dirty ec' = int_wrap (dirty ec + 1))
    /\ (forall prev r,
          row ec !! Z.to_nat (cursor_y ec - 1) = Some prev ->
          row ec !! Z.to_nat (cursor_y ec) = Some r ->
          cursor_x ec = 0 -> 0 < cursor_y ec ->
          raw_text ec'
          = take (Z.to_nat (cursor_y ec - 1)) (raw_text ec)
            ++ (chars prev ++ chars r)
            :: drop (S (Z.to_nat (cursor_y ec))) (raw_text ec)
          /\ cursor_x ec' = len prev /\ cursor_y ec' = cursor_y ec - 1
          /\ num_rows ec' = num_rows ec - 1 /\ dirty ec' = int_wrap (dirty ec + 2)).
Proof.
  intros Hwf Hcur. pose proof Hwf as [Hidx Hn]. pose proof Hcur as (Hy & Hx & Hrow).
  destruct (editor_del_char_post ec Hwf Hcur) as (ec' & He & (Hwf' & _) & _).
  exists ec'. split; [exact He|]. split; [exact Hwf'|].
  split; [|split].
  - intros Hcase. revert He. unfold editor_del_char.
    destruct (Z.eqb_spec (cursor_y ec) (num_rows ec)); [by intros [= <-]|].
    destruct Hcase as [?|[-> ->]]; [done|]. by intros [= <-].
  - intros r Hr Hpos. rewrite Hr in Hrow.
    destruct (editor_del_char_in_row ec r Hwf ltac:(lia) Hr ltac:(lia))
      as (rows' & He' & _ & _ & Hc).
    rewrite He in He'. injection He' as ->. unfold raw_text at 1. cbn. rewrite Hc.
    replace (S (Z.to_nat (cursor_x ec - 1))) with (Z.to_nat (cursor_x ec)) by lia.
    done.
  - intros prev r Hprev Hr Hx0 Hy0.
    destruct (editor_del_char_merge ec prev r Hwf Hx0 Hy0 Hprev Hr)
      as (rows' & He' & _ & _ & Hc).
    rewrite He in He'. injection He' as ->. unfold raw_text at 1. cbn. rewrite Hc.
    done.
Qed.

Lemma backspace_deletes_or_joins_witness :
  exists ec',
    editor_del_char (set_cursor foo_doc 0 1) = Some ec'
    /\ raw_text ec' = [str "a foo bbar"; str "baz"]
    /\ cursor_x ec' = 7 /\ cursor_y ec' = 0.
Proof.
  destruct (backspace_deletes_or_joins (set_cursor foo_doc 0 1))
    as (ec' & He & _ & _ & _ & Hj).
  - apply wf_doc_check_sound. vm_compute. reflexivity.
  - unfold cursor_ok. simpl. unfold len. simpl. lia.
  - destruct (Hj (plain_row 0 "a foo b") (plain_row 1 "bar"))
      as (Hraw & Hx & Hy & _); [reflexivity|reflexivity|reflexivity|simpl; lia|].
    exists ec'. split; [exact He|]. split; [exact Hraw|]. split; [exact Hx|exact Hy].
Defined.

Section Typing.

Lemma typing_step ec c r :
  wf_doc ec -> cursor_ok ec -> row ec !! Z.to_nat (cursor_y ec) = Some r ->
  exists ec1 r1,
    editor_insert_char ec c = Some ec1 /\ wf_doc ec1 /\ cursor_ok ec1
    /\ row ec1 !! Z.to_nat (cursor_y ec) = Some r1
    /\ chars r1 = take (Z.to_nat (cursor_x ec)) (chars r)
                  ++ char_of_int c :: drop (Z.to_nat (cursor_x ec)) (chars r)
    /\ raw_text ec1 = <[Z.to_nat (cursor_y ec) := chars r1]> (raw_text ec)
    /\ cursor_x ec1 = cursor_x ec + 1 /\ cursor_y ec1 = cursor_y ec
    /\ dirty ec1 = int_wrap (dirty ec + 1) /\ num_rows ec1 = num_rows ec.
Proof.
  intros Hwf Hcur Hr. pose proof Hwf as [Hidx Hn]. pose proof Hcur as (Hy & Hx & Hrow).
  pose proof (lookup_lt_Some _ _ _ Hr) as Hlt. rewrite Hr in Hrow.
  destruct (editor_insert_char_in_row ec c r Hwf ltac:(lia) Hr)
    as (rows' & He & Hi & Hl & Hc & _).
  destruct (Z.ltb_spec (cursor_x ec) 0); [lia|].
  destruct (Z.ltb_spec (len r) (cursor_x ec)); [lia|]. cbn [orb] in Hc.
  destruct (lookup_chars_fmap rows' _ (Z.to_nat (cursor_y ec))
              (take (Z.to_nat (cursor_x ec)) (chars r)
               ++ char_of_int c :: drop (Z.to_nat (cursor_x ec)) (chars r)) Hc)
    as (r1 & Hr1 & Hc1).
  { apply list_lookup_insert_eq. unfold raw_text. rewrite length_fmap. lia. }
  eexists _, r1. split; [exact He|]. split; [split; simpl; [done|lia]|].
  split; [|split; [exact Hr1|split; [exact Hc1|]]].
  - unfold cursor_ok. cbn. rewrite Hr1. unfold len in *. rewrite Hc1.
    rewrite length_app, length_take. cbn [length]. rewrite length_drop. lia.
  - unfold raw_text at 1. cbn. rewrite Hc, Hc1. done.
Qed.

Lemma typing_in_row cs : forall ec r,
  wf_doc ec -> cursor_ok ec -> row ec !! Z.to_nat (cursor_y ec) = Some r ->
  exists ec',
    run_events (EvChar <$> cs) ec = Some ec'
    /\ raw_text ec'
       = <[Z.to_nat (cursor_y ec) :=
             take (Z.to_nat (cursor_x ec)) (chars r) ++ (char_of_int <$> cs)
             ++ drop (Z.to_nat (cursor_x ec)) (chars r)]> (raw_text ec)
    /\ cursor_x ec' = cursor_x ec + Z.of_nat (length cs)
    /\ cursor_y ec' = cursor_y ec
    /\ (cs <> [] -> dirty ec' = int_wrap (dirty ec + Z.of_nat (length cs)))
    /\ num_rows ec' = num_rows ec.
Proof.
  induction cs as [|c cs IH]; intros ec r Hwf Hcur Hr.
  - exists ec. split; [done|]. cbn [fmap list_fmap app length].
    rewrite take_drop, list_insert_id by (by apply lookup_raw_text).
    repeat split; first [lia|done].
  - destruct (typing_step ec c r Hwf Hcur Hr)
      as (ec1 & r1 & He & Hwf1 & Hcur1 & Hr1 & Hc1 & Hraw1 & Hx1 & Hy1 & Hd1 & Hn1).
    rewrite <- Hy1 in Hr1.
    destruct (IH ec1 r1 Hwf1 Hcur1 Hr1) as (ec' & He' & Hraw' & Hx' & Hy' & Hd' & Hn').
    exists ec'. cbn [fmap list_fmap run_events editor_proc_key].
    rewrite He. cbn [mbind option_bind]. split; [exact He'|].
    cbn [length]. split; [|split; [lia|split; [lia|split; [|lia]]]].
    2: { intros _. destruct cs as [|c' cs'].
         - cbn in He'. injection He' as <-. exact Hd1.
         - rewrite Hd', Hd1, int_wrap_add by done. f_equal. cbn [length]. lia. }
    rewrite Hraw', Hraw1, Hy1, list_insert_insert_eq. f_equal.
    destruct Hcur as (_ & Hx & Hrow). rewrite Hy1 in Hr1. rewrite Hr in Hrow.
    unfold len in Hrow.
    assert (length (take (Z.to_nat (cursor_x ec)) (chars r)) = Z.to_nat (cursor_x ec))
      as Hlk by (rewrite length_take; lia).
    rewrite Hx1, Hc1.
    replace (Z.to_nat (cursor_x ec + 1))
      with (length (take (Z.to_nat (cursor_x ec)) (chars r)) + 1)%nat by lia.
    rewrite take_app_add', drop_app_add' by done.
    cbn [take drop]. rewrite drop_0, <- !app_assoc. done.
Qed.

End Typing.

(** X23. Typing a text inserts it at the cursor.  After the key events of
    the bytes [cs], the cursor has moved [length cs] columns to the right
    on its line; with the cursor on a row, that row holds the typed bytes
    (each key reduced modulo 256) between what was before and what was
    after the cursor and the other rows are as before; on the line after
    the last row the typed bytes become a new last row. *)
Theorem typing_text ec cs :
  wf_doc ec -> cursor_ok ec ->
  exists ec',
    run_events (EvChar <$> cs) ec = Some ec'
    /\ cursor_x ec' = cursor_x ec + Z.of_nat (length cs)
    /\ cursor_y ec' = cursor_y ec
    /\ (forall r, row ec !! Z.to_nat (cursor_y ec) = Some r ->
        raw_text ec'
        = <[Z.to_nat (cursor_y ec) :=
              take (Z.to_nat (cursor_x ec)) (chars r) ++ (char_of_int <$> cs)
              ++ drop (Z.to_nat (cursor_x ec)) (chars r)]> (raw_text ec)
        /\ num_rows ec' = num_rows ec)
    /\ (cursor_y ec = num_rows ec -> cs <> [] ->
        raw_text ec' = raw_text ec ++ [char_of_int <$> cs]
        /\ num_rows ec' = num_rows ec + 1).
Proof.
  intros Hwf Hcur. pose proof Hwf as [Hidx Hn]. pose proof Hcur as (Hy & Hx & Hrow).
  destruct (row ec !! Z.to_nat (cursor_y ec)) as [r|] eqn:Hr.
  - destruct (typing_in_row cs ec r Hwf Hcur Hr) as (ec' & He & Hraw & Hx' & Hy' & _ & Hn').
    pose proof (lookup_lt_Some _ _ _ Hr).
    exists ec'. split; [exact He|]. split; [done|]. split; [done|].
    split; [by intros r0 [= <-]|]. intros Hend. lia.
  - apply lookup_ge_None_1 in Hr.
    destruct cs as [|c cs].
    { exists ec. split; [done|]. cbn [length]. split; [lia|]. split; [done|].
      split; [intros r0 [=]|done]. }
    destruct (editor_insert_char_at_end ec c Hwf ltac:(lia))
      as (rows1 & He1 & Hi1 & Hl1 & Hc1 & _).
    set (ec1 := set_cursor (set_dirty (set_num_rows (set_row ec rows1) (num_rows ec + 1))
                                      (int_wrap (dirty ec + 2)))
                           (cursor_x ec + 1) (cursor_y ec)) in *.
    destruct (lookup_chars_fmap rows1 _ (Z.to_nat (cursor_y ec)) [char_of_int c] Hc1)
      as (r1 & Hr1 & Hcr1).
    { rewrite lookup_app_r by (unfold raw_text; rewrite length_fmap; lia).
      unfold raw_text. rewrite length_fmap.
      by replace (Z.to_nat (cursor_y ec) - length (row ec))%nat with 0%nat by lia. }
    destruct (typing_in_row cs ec1 r1) as (ec' & He & Hraw & Hx' & Hy' & _ & Hn').
    { split; simpl; [done|lia]. }
    { unfold cursor_ok. cbn. rewrite Hr1. unfold len. rewrite Hcr1. cbn [length]. lia. }
    { exact Hr1. }
    exists ec'. cbn [fmap list_fmap run_events editor_proc_key].
    rewrite He1. cbn [mbind option_bind]. split; [exact He|].
    cbn [length]. cbn in Hx', Hy', Hn', Hraw.
    split; [lia|]. split; [done|]. split; [intros r0 [=]|].
    intros _ _. split; [|lia].
    rewrite Hraw. unfold raw_text at 1. cbn. rewrite Hc1, Hcr1, Hrow.
    cbn [Z.to_nat Pos.to_nat Pos.iter_op Nat.add take drop app].
    replace (Z.to_nat (0 + 1)) with 1%nat by lia. cbn [take drop app].
    rewrite app_nil_r.
    rewrite insert_app_r_alt by (unfold raw_text; rewrite length_fmap; lia).
    unfold raw_text. rewrite length_fmap.
    by replace (Z.to_nat (cursor_y ec) - length (row ec))%nat with 0%nat by lia.
Qed.

Lemma typing_text_witness :
  exists ec',
    run_events (EvChar <$> [104; 105]) (set_cursor foo_doc 2 0) = Some ec'
    /\ raw_text ec' = [str "a hifoo b"; str "bar"; str "baz"]
    /\ cursor_x ec' = 4.
Proof.
  destruct (typing_text (set_cursor foo_doc 2 0) [104; 105])
    as (ec' & He & Hx & _ & Hr & _).
  - apply wf_doc_check_sound. vm_compute. reflexivity.
  - unfold cursor_ok. simpl. unfold len. simpl. lia.
  - destruct (Hr (plain_row 0 "a foo b")) as [Hraw _]; [reflexivity|].
    exists ec'. split; [exact He|]. split; [exact Hraw|exact Hx].
Defined.

(** ** The key dispatch and the main loop *)

Section SessionProofs.

Lemma cursor_ok_ext ec ec' :
  raw_text ec' = raw_text ec -> cursor_x ec' = cursor_x ec ->
  cursor_y ec' = cursor_y ec -> num_rows ec' = num_rows ec ->
  cursor_ok ec -> cursor_ok ec'.
Proof.
  intros Hraw Hx Hy Hn (Hy0 & Hx0 & Hrow). unfold cursor_ok.
  rewrite Hx, Hy, Hn. split; [done|]. split; [done|].
  assert (raw_text ec' !! Z.to_nat (cursor_y ec) = raw_text ec !! Z.to_nat (cursor_y ec))
    as Hl by (by rewrite Hraw).
  unfold raw_text in Hl. rewrite !list_lookup_fmap in Hl. unfold len in *.
  destruct (row ec' !! _) as [r'|], (row ec !! _) as [r|]; try discriminate; [|done].
  injection Hl as ->. done.
Qed.

Lemma editor_ok_set_dirty ec d : editor_ok ec -> editor_ok (set_dirty ec d).
Proof. intros (? & ? & ?). done. Qed.

Lemma editor_save_ok io ec :
  editor_ok ec -> exists ec' ok, editor_save io ec = Some (ec', ok) /\ editor_ok ec'.
Proof.
  intros Hok. pose proof Hok as (Hwf & Hdoc & Hcur). unfold editor_save, save_write.
  destruct (filename ec) as [f|].
  - destruct (_ && _); eexists _, _; (split; [reflexivity|]); [|done].
    by apply editor_ok_set_dirty.
  - destruct (prompt_result io) as [f|].
    + destruct (editor_select_syntax_highlight_wf (set_filename ec (Some f)))
        as (ec1 & -> & Hwf1 & Hraw1 & _ & _ & Hdoc1 & Hx1 & Hy1 & Hn1); [done|].
      cbn [mbind option_bind].
      assert (editor_ok ec1) as Hok1.
      { split; [done|]. split; [by apply Hdoc1|].
        by apply (cursor_ok_ext (set_filename ec (Some f))). }
      destruct (_ && _); eexists _, _; (split; [reflexivity|]); [|done].
      by apply editor_ok_set_dirty.
    + eexists _, _. split; [reflexivity|]. done.
Qed.

Lemma refresh_ok s :
  state_ok s ->
  exists s1,
    editor_refresh_screen s = Some s1 /\ state_ok s1
    /\ doc s1 = doc s /\ find s1 = find s /\ quit_times s1 = quit_times s
    /\ screen_rows (view s1) = screen_rows (view s)
    /\ row_off (view s1) <= cursor_y (doc s).
Proof.
  intros (Hok & Hidle & Hv). pose proof Hok as ([_ Hn] & _ & (Hy & _)).
  destruct (editor_scroll_total (doc s) (view s)) as (vp & Hvp & Hsr & _ & Hv'); [lia|lia|].
  destruct (Hv' Hv) as (Hvo & Hro).
  unfold editor_refresh_screen. rewrite Hvp. cbn [mbind option_bind].
  eexists. split; [reflexivity|]. cbn [doc view find quit_times set_view].
  split; [split; [done|split; [done|done]]|].
  split; [done|]. split; [done|]. split; [done|]. split; [done|lia].
Qed.

Lemma editor_prompt_plain : forall keys buf s,
  state_ok s -> In KEY_ESC keys ->
  exists q s' keys',
    editor_prompt editor_refresh_screen None keys buf s = Some (q, s', keys')
    /\ state_ok s' /\ doc s' = doc s /\ quit_times s' = quit_times s.
Proof.
  induction keys as [|c keys IH]; intros buf s Hok Hesc; [done|].
  cbn [editor_prompt prompt_callback].
  destruct (refresh_ok s Hok) as (s1 & -> & Hok1 & Hd1 & _ & Hq1 & _).
  cbn [mbind option_bind].
  assert (forall b, c <> KEY_ESC ->
            exists q s' keys',
              editor_prompt editor_refresh_screen None keys b s1 = Some (q, s', keys')
              /\ state_ok s' /\ doc s' = doc s /\ quit_times s' = quit_times s) as Hcont.
  { intros b Hne. destruct (IH b s1 Hok1) as (q & s' & keys' & He & H1 & H2 & H3).
    { destruct Hesc; [congruence|done]. }
    exists q, s', keys'. split; [done|]. split; [done|]. split; congruence. }
  destruct ((c =? DEL_KEY) || (c =? CTRL_KEY 104) || (c =? BACK_SPACE)) eqn:Hdel.
  { apply Hcont. intros ->. vm_compute in Hdel. discriminate. }
  destruct (Z.eqb_spec c KEY_ESC) as [->|Hne]; [by exists None, s1, keys|].
  destruct (Z.eqb_spec c KEY_ENTER) as [->|Hne2].
  { destruct (negb (length buf =? 0)%nat); [by exists (Some buf), s1, keys|by apply Hcont]. }
  destruct (negb (iscntrl c) && (c <? 128)); by apply Hcont.
Qed.

Lemma session_editor_save_ok io keys s :
  state_ok s -> (filename (doc s) = None -> In KEY_ESC keys) ->
  exists s' keys',
    Session.editor_save io keys s = Some (s', keys') /\ state_ok s'
    /\ quit_times s' = quit_times s.
Proof.
  intros Hok Hesc. unfold Session.editor_save.
  destruct (filename (doc s)) as [f|] eqn:Hf.
  - destruct Hok as (Hdoc & Hidle & Hv).
    destruct (editor_save_ok io (doc s) Hdoc) as (ec' & ok & -> & Hok').
    cbn [mbind option_bind fst]. eexists _, _. split; [reflexivity|]. done.
  - destruct (editor_prompt_plain keys [] s Hok (Hesc eq_refl))
      as (q & s1 & keys' & -> & (Hdoc1 & Hidle1 & Hv1) & Hd1 & Hq1).
    cbn [mbind option_bind].
    destruct (editor_save_ok {| prompt_result := q; open_ok := open_ok io;
                                ftruncate_ok := ftruncate_ok io;
                                write_result := write_result io |} (doc s1) Hdoc1)
      as (ec' & ok & -> & Hok').
    cbn [mbind option_bind fst]. eexists _, _. split; [reflexivity|]. done.
Qed.

(** Where [times] presses of an up or down arrow take the cursor's row. *)
Lemma move_cursor_vertical ec key :
  wf_doc ec -> 0 <= cursor_y ec <= num_rows ec -> 0 <= cursor_x ec ->
  key = ARROW_UP \/ key = ARROW_DOWN ->
  exists x,
    editor_move_cursor ec key
    = Some (set_cursor ec x
              (if key =? ARROW_UP then Z.max 0 (cursor_y ec - 1)
               else Z.min (num_rows ec) (cursor_y ec + 1)))
    /\ cursor_ok (set_cursor ec x
                    (if key =? ARROW_UP then Z.max 0 (cursor_y ec - 1)
                     else Z.min (num_rows ec) (cursor_y ec + 1))).
Proof.
  intros Hwf Hy Hx Hkey. pose proof Hwf as [_ Hn]. unfold editor_move_cursor.
  assert (move_cursor_switch ec key
          = Some (set_cursor ec (cursor_x ec)
                    (if key =? ARROW_UP then Z.max 0 (cursor_y ec - 1)
                     else Z.min (num_rows ec) (cursor_y ec + 1)))) as ->.
  { assert (Some ec = Some (set_cursor ec (cursor_x ec) (cursor_y ec))) as Hid
      by (by destruct ec).
    destruct Hkey as [-> | ->]; unfold move_cursor_switch.
    - change (ARROW_UP =? ARROW_LEFT) with false.
      change (ARROW_UP =? ARROW_RIGHT) with false.
      change (ARROW_UP =? ARROW_UP) with true. cbn match.
      destruct (Z.eqb_spec (cursor_y ec) 0) as [H0|H0]; cbn [negb].
      + rewrite Hid. do 2 f_equal. lia.
      + do 2 f_equal. lia.
    - change (ARROW_DOWN =? ARROW_LEFT) with false.
      change (ARROW_DOWN =? ARROW_RIGHT) with false.
      change (ARROW_DOWN =? ARROW_UP) with false.
      change (ARROW_DOWN =? ARROW_DOWN) with true. cbn match.
      destruct (Z.ltb_spec (cursor_y ec) (num_rows ec)).
      + do 2 f_equal. lia.
      + rewrite Hid. do 2 f_equal. lia. }
  cbn [mbind option_bind].
  set (y := if key =? ARROW_UP then Z.max 0 (cursor_y ec - 1)
            else Z.min (num_rows ec) (cursor_y ec + 1)).
  assert (0 <= y <= num_rows ec) as Hy' by (unfold y; destruct (key =? ARROW_UP); lia).
  destruct (move_cursor_snap_spec (set_cursor ec (cursor_x ec) y)) as (x & -> & Hx');
    [done|done|].
  exists x. split; [done|]. unfold cursor_ok. cbn.
  unfold cursor_line_len in Hx'. cbn in Hx'. split; [done|].
  pose proof (cursor_line_len_nonneg (set_cursor ec (cursor_x ec) y)) as Hll.
  unfold cursor_line_len in Hll. cbn in Hll.
  destruct (row ec !! Z.to_nat y); lia.
Qed.

Lemma move_cursor_times_vertical key : forall n ec,
  wf_doc ec -> 0 <= cursor_y ec <= num_rows ec -> 0 <= cursor_x ec ->
  key = ARROW_UP \/ key = ARROW_DOWN ->
  exists x,
    move_cursor_times (S n) key ec
    = Some (set_cursor ec x
              (if key =? ARROW_UP then Z.max 0 (cursor_y ec - Z.of_nat (S n))
               else Z.min (num_rows ec) (cursor_y ec + Z.of_nat (S n))))
    /\ cursor_ok (set_cursor ec x
                    (if key =? ARROW_UP then Z.max 0 (cursor_y ec - Z.of_nat (S n))
                     else Z.min (num_rows ec) (cursor_y ec + Z.of_nat (S n)))).
Proof.
  induction n as [|n IH]; intros ec Hwf Hy Hx Hkey.
  - destruct (move_cursor_vertical ec key Hwf Hy Hx Hkey) as (x & He & Hc).
    exists x. cbn [move_cursor_times]. rewrite He. cbn [mbind option_bind]. done.
  - destruct (move_cursor_vertical ec key Hwf Hy Hx Hkey) as (x1 & He1 & Hc1).
    remember (S n) as m. cbn [move_cursor_times]. rewrite He1. cbn [mbind option_bind].
    subst m.
    destruct Hc1 as (Hy1 & Hx1 & _). cbn in Hy1, Hx1.
    destruct (IH (set_cursor ec x1
                    (if key =? ARROW_UP then Z.max 0 (cursor_y ec - 1)
                     else Z.min (num_rows ec) (cursor_y ec + 1))))
      as (x & He & Hc); [done|done|done|done|].
    rewrite He. cbn in Hc |- *.
    assert ((if key =? ARROW_UP
             then Z.max 0 ((if key =? ARROW_UP then Z.max 0 (cursor_y ec - 1)
                            else Z.min (num_rows ec) (cursor_y ec + 1))
                           - Z.of_nat (S n))
             else Z.min (num_rows ec)
                    ((if key =? ARROW_UP then Z.max 0 (cursor_y ec - 1)
                      else Z.min (num_rows ec) (cursor_y ec + 1))
                     + Z.of_nat (S n)))
            = (if key =? ARROW_UP then Z.max 0 (cursor_y ec - Z.of_nat (S (S n)))
               else Z.min (num_rows ec) (cursor_y ec + Z.of_nat (S (S n))))) as Heq
      by (destruct (key =? ARROW_UP); lia).
    rewrite Heq in *. exists x. done.
Qed.

End SessionProofs.

(** Tests between two key constants are decided by computation. *)
Ltac decide_keys :=
  repeat match goal with
         | |- context [?a =? ?b] =>
             let v := eval vm_compute in (a =? b) in
             match v with
             | true => change (a =? b) with true
             | false => change (a =? b) with false
             end
         end;
  cbn [orb andb negb].

Section KeyDispatch.

Variable io : save_io.

Lemma state_ok_next s ec' :
  state_ok s -> editor_ok ec' ->
  state_ok (set_quit_times (set_doc s ec') QUIT_TIMES).
Proof. intros (_ & Hidle & Hv) Hok. done. Qed.

Lemma editor_ok_post ec ec' :
  doc_ok ec -> mutation_post ec ec' -> cursor_ok ec' -> editor_ok ec'.
Proof. intros Hdoc (Hwf & Hok & _) Hcur. split; [done|]. split; [by apply Hok|done]. Qed.

Lemma editor_proc_key_spec c keys s :
  state_ok s -> row_off (view s) <= cursor_y (doc s) ->
  (c = CTRL_KEY 115 \/ c = CTRL_KEY 102 -> In KEY_ESC keys) ->
  exists r,
    Session.editor_proc_key io c keys s = Some r
    /\ match r with
       | Session.Exit => c = CTRL_KEY 113 /\ (dirty (doc s) = 0 \/ quit_times s <= 0)
       | Session.Next s' keys' =>
           state_ok s'
           /\ (c = CTRL_KEY 113 ->
               s' = set_quit_times s (quit_times s - 1)
               /\ dirty (doc s) <> 0 /\ 0 < quit_times s)
           /\ (c <> CTRL_KEY 113 -> quit_times s' = QUIT_TIMES)
       end.
Proof.
  intros Hs Hro Hesc. pose proof Hs as (Hok & Hidle & Hv).
  pose proof Hok as (Hwf & Hdoc & Hcur). pose proof Hwf as [Hidx Hn].
  pose proof Hcur as (Hy & Hx & Hrow). destruct Hv as (Hsr & Hsc & Hro0 & Hco0).
  unfold Session.editor_proc_key. cbv zeta.
  assert (forall ec', editor_ok ec' -> c <> CTRL_KEY 113 ->
            exists r,
              Some (Session.Next (set_quit_times (set_doc s ec') QUIT_TIMES) keys) = Some r
              /\ match r with
                 | Session.Exit =>
                     c = CTRL_KEY 113 /\ (dirty (doc s) = 0 \/ quit_times s <= 0)
                 | Session.Next s' keys' =>
                     state_ok s'
                     /\ (c = CTRL_KEY 113 ->
                         s' = set_quit_times s (quit_times s - 1)
                         /\ dirty (doc s) <> 0 /\ 0 < quit_times s)
                     /\ (c <> CTRL_KEY 113 -> quit_times s' = QUIT_TIMES)
                 end) as Hnext.
  { intros ec' Hok' Hne. eexists. split; [reflexivity|].
    split; [by apply state_ok_next|]. split; [done|done]. }
  destruct (Z.eqb_spec c KEY_ENTER) as [->|Hc1].
  { destruct (editor_insert_newline_post (doc s) Hwf Hcur) as (ec' & -> & Hpost & Hcur').
    cbn [mbind option_bind]. apply Hnext; [by eapply editor_ok_post|discriminate]. }
  destruct (Z.eqb_spec c (CTRL_KEY 113)) as [->|Hc2].
  { destruct (Z.eqb_spec (dirty (doc s)) 0) as [Hd|Hd]; cbn [negb andb].
    - eexists. split; [reflexivity|]. split; [done|by left].
    - destruct (Z.ltb_spec 0 (quit_times s)).
      + eexists. split; [reflexivity|]. split; [done|]. split; [done|done].
      + eexists. split; [reflexivity|]. split; [done|right; lia]. }
  destruct (Z.eqb_spec c (CTRL_KEY 115)) as [->|Hc3].
  { destruct (session_editor_save_ok io keys s Hs) as (s' & keys' & -> & Hs' & _).
    { intros _. apply Hesc. by left. }
    cbn [mbind option_bind fst snd]. eexists. split; [reflexivity|].
    destruct Hs' as (? & ? & ?). split; [done|]. split; [done|done]. }
  destruct (Z.eqb_spec c (CTRL_KEY 102)) as [->|Hc4].
  { destruct (editor_find_spec s keys Hwf Hdoc Hcur Hidle)
      as (s' & keys' & -> & Hrow' & Heq' & Hcur' & Hidle' & _ & Hv' & _).
    { apply Hesc. by right. }
    cbn [mbind option_bind fst snd]. eexists. split; [reflexivity|].
    split; [|split; [done|done]].
    split; [|split; [done|by apply Hv']]. cbn.
    split; [rewrite Heq'; done|]. split; [|done].
    unfold doc_ok. by rewrite Hrow'. }
  destruct ((c =? CTRL_KEY 108) || (c =? KEY_ESC)); [by apply Hnext|].
  destruct ((c =? BACK_SPACE) || (c =? CTRL_KEY 104) || (c =? DEL_KEY)).
  { assert (exists ec1,
              (if c =? DEL_KEY then editor_move_cursor (doc s) ARROW_RIGHT
               else Some (doc s)) = Some ec1 /\ editor_ok ec1) as (ec1 & -> & Hok1).
    { destruct (c =? DEL_KEY); [|by exists (doc s)].
      destruct (editor_move_cursor_ok (doc s) ARROW_RIGHT Hwf Hdoc Hcur)
        as (ec1 & He1 & ? & ? & ?). by exists ec1. }
    cbn [mbind option_bind]. destruct Hok1 as (Hwf1 & Hdoc1 & Hcur1).
    destruct (editor_del_char_post ec1 Hwf1 Hcur1) as (ec2 & -> & Hpost & Hcur2).
    cbn [mbind option_bind]. apply Hnext; [by eapply editor_ok_post|done]. }
  destruct ((c =? ARROW_UP) || (c =? ARROW_DOWN) || (c =? ARROW_LEFT)
            || (c =? ARROW_RIGHT)).
  { destruct (editor_move_cursor_ok (doc s) c Hwf Hdoc Hcur) as (ec' & -> & ? & ? & ?).
    cbn [mbind option_bind]. by apply Hnext. }
  destruct (c =? HOME_KEY).
  { destruct (editor_proc_key_ok EvHome (doc s) Hok) as (ec' & [= <-] & Hok').
    by apply Hnext. }
  destruct (c =? END_KEY).
  { destruct (editor_proc_key_ok EvEnd (doc s) Hok) as (ec' & He & Hok').
    cbn [editor_proc_key] in He.
    destruct (cursor_y (doc s) <? num_rows (doc s)); [|by apply Hnext].
    destruct (row_ptr (cursor_y (doc s))) as [p|]; [|discriminate].
    cbn [mbind option_bind] in *.
    destruct (row (doc s) !! p) as [r|]; [|discriminate].
    cbn [mbind option_bind] in *. injection He as <-. by apply Hnext. }
  destruct ((c =? PAGE_UP) || (c =? PAGE_DOWN)).
  { destruct (Z.ltb_spec (screen_rows (view s)) 0); [lia|].
    replace (Z.to_nat (screen_rows (view s)))
      with (S (Z.to_nat (screen_rows (view s)) - 1)) by lia.
    set (ec1 := if c =? PAGE_UP
                then set_cursor (doc s) (cursor_x (doc s)) (row_off (view s))
                else set_cursor (doc s) (cursor_x (doc s))
                       (if num_rows (doc s) <? row_off (view s) + screen_rows (view s) - 1
                        then num_rows (doc s)
                        else row_off (view s) + screen_rows (view s) - 1)).
    assert (wf_doc ec1 /\ doc_ok ec1 /\ 0 <= cursor_y ec1 <= num_rows ec1
            /\ 0 <= cursor_x ec1) as (Hwf1 & Hdoc1 & Hy1 & Hx1).
    { unfold ec1. destruct (c =? PAGE_UP); cbn.
      - split; [done|]. split; [done|]. lia.
      - split; [done|]. split; [done|].
        destruct (Z.ltb_spec (num_rows (doc s))
                    (row_off (view s) + screen_rows (view s) - 1)); lia. }
    destruct (move_cursor_times_vertical (if c =? PAGE_UP then ARROW_UP else ARROW_DOWN)
                (Z.to_nat (screen_rows (view s)) - 1) ec1 Hwf1 Hy1 Hx1)
      as (x & -> & Hcur2).
    { destruct (c =? PAGE_UP); [by left|by right]. }
    cbn [mbind option_bind]. apply Hnext; [|done].
    split; [by destruct Hwf1|]. split; [done|done]. }
  destruct (editor_insert_char_post (doc s) c Hwf Hcur) as (ec' & -> & Hpost & Hcur').
  cbn [mbind option_bind]. apply Hnext; [by eapply editor_ok_post|done].
Qed.

End KeyDispatch.

Section MainLoop.

Variable io : save_io.

Lemma editor_proc_key_quit keys s :
  Session.editor_proc_key io (CTRL_KEY 113) keys s
  = if negb (dirty (doc s) =? 0) && (0 <? quit_times s)
    then Some (Session.Next (set_quit_times s (quit_times s - 1)) keys)
    else Some Session.Exit.
Proof. reflexivity. Qed.

Lemma main_step_quit keys s :
  state_ok s ->
  exists s0,
    editor_refresh_screen s = Some s0 /\ state_ok s0 /\ doc s0 = doc s
    /\ quit_times s0 = quit_times s
    /\ Session.main_step io (CTRL_KEY 113) keys s
       = if negb (dirty (doc s) =? 0) && (0 <? quit_times s)
         then Some (Session.Next (set_quit_times s0 (quit_times s - 1)) keys)
         else Some Session.Exit.
Proof.
  intros Hs. destruct (refresh_ok s Hs) as (s0 & He & Hs0 & Hd & _ & Hq & _).
  exists s0. split; [done|]. split; [done|]. split; [done|]. split; [done|].
  unfold Session.main_step. rewrite He. cbn [mbind option_bind].
  by rewrite editor_proc_key_quit, Hd, Hq.
Qed.

Lemma editor_proc_key_resets c keys s s' keys' :
  c <> CTRL_KEY 113 ->
  Session.editor_proc_key io c keys s = Some (Session.Next s' keys') ->
  quit_times s' = QUIT_TIMES.
Proof.
  intros Hne. unfold Session.editor_proc_key. cbv zeta.
  destruct (c =? KEY_ENTER).
  { destruct (editor_insert_newline (doc s)); [|discriminate]. by intros [= <- <-]. }
  destruct (Z.eqb_spec c (CTRL_KEY 113)); [done|].
  destruct (c =? CTRL_KEY 115).
  { destruct (Session.editor_save io keys s); [|discriminate]. by intros [= <- <-]. }
  destruct (c =? CTRL_KEY 102).
  { destruct (editor_find keys s); [|discriminate]. by intros [= <- <-]. }
  destruct ((c =? CTRL_KEY 108) || (c =? KEY_ESC)); [by intros [= <- <-]|].
  destruct ((c =? BACK_SPACE) || (c =? CTRL_KEY 104) || (c =? DEL_KEY)).
  { destruct (if c =? DEL_KEY then _ else _) as [ec1|]; [|discriminate].
    cbn [mbind option_bind].
    destruct (editor_del_char ec1); [|discriminate]. by intros [= <- <-]. }
  destruct ((c =? ARROW_UP) || (c =? ARROW_DOWN) || (c =? ARROW_LEFT)
            || (c =? ARROW_RIGHT)).
  { destruct (editor_move_cursor (doc s) c); [|discriminate]. by intros [= <- <-]. }
  destruct (c =? HOME_KEY); [by intros [= <- <-]|].
  destruct (c =? END_KEY).
  { destruct (cursor_y (doc s) <? num_rows (doc s)); [|by intros [= <- <-]].
    destruct (row_ptr (cursor_y (doc s))) as [p|]; [|discriminate].
    cbn [mbind option_bind].
    destruct (row (doc s) !! p); [|discriminate]. by intros [= <- <-]. }
  destruct ((c =? PAGE_UP) || (c =? PAGE_DOWN)).
  { destruct (screen_rows (view s) <? 0); [discriminate|].
    destruct (move_cursor_times _ _ _); [|discriminate]. by intros [= <- <-]. }
  destruct (editor_insert_char (doc s) c); [|discriminate]. by intros [= <- <-].
Qed.

End MainLoop.

Lemma initial_state_ok rows cols :
  0 < rows -> 0 < cols -> state_ok (initial_state rows cols).
Proof.
  intros Hr Hc. split; [exact editor_init_ok|]. split; [done|].
  unfold view_ok. cbn. lia.
Qed.

(** X24. The main loop keeps the editor in order.  The state in which
    [main] enters its loop, which is the initial state when no file is
    named on the command line and the initial state with the file loaded by
    [editor_open] when one is, exists and is in order when the text area
    has at least one row and one column; and from a state in order, one round of the loop
    (the screen refresh, then [editor_proc_key] on the key read) either
    exits, which only Ctrl-Q does, and only when the document is unchanged
    or the presses allowed are used up, or returns with a state in order
    again: rows numbered consecutively and as many as [num_rows], one
    highlight class per render byte, the cursor in the document, no search
    under way, and scroll offsets that are not negative.  For Ctrl-S and
    Ctrl-F this needs an Escape among the keys that follow, which ends
    their prompt at the latest. *)
Theorem main_loop_keeps_state_ok :
  (forall rows cols file,
      0 < rows -> 0 < cols ->
      exists s,
        main_start rows cols file = Some s /\ state_ok s
        /\ (file = None -> s = initial_state rows cols))
  /\ forall io c keys s,
       state_ok s ->
       (c = CTRL_KEY 115 \/ c = CTRL_KEY 102 -> In KEY_ESC keys) ->
       exists r,
         Session.main_step io c keys s = Some r
         /\ match r with
            | Session.Exit =>
                c = CTRL_KEY 113 /\ (dirty (doc s) = 0 \/ quit_times s <= 0)
            | Session.Next s' keys' => state_ok s'
            end.
Proof.
  split.
  - intros rows cols file Hr Hc.
    destruct (initial_state_ok rows cols Hr Hc) as (Hdoc & Hfind & Hview).
    destruct file as [[fname lines]|].
    + destruct (editor_open_ok (doc (initial_state rows cols)) fname lines Hdoc)
        as (ec & He & Hok); [done|].
      cbn [main_start]. rewrite He. cbn [mbind option_bind].
      eexists. split; [reflexivity|]. split; [by split|done].
    + eexists. split; [reflexivity|]. split; [by split|done].
  - intros io c keys s Hs Hesc.
    destruct (refresh_ok s Hs) as (s0 & He & Hs0 & Hd & _ & Hq & _ & Hro).
    unfold Session.main_step. rewrite He. cbn [mbind option_bind].
    rewrite <- Hd in Hro.
    destruct (editor_proc_key_spec io c keys s0 Hs0 Hro Hesc) as (r & Hr & Hres).
    exists r. split; [exact Hr|]. destruct r as [|s' keys'].
    + by rewrite <- Hd, <- Hq.
    + by destruct Hres.
Qed.

Lemma main_loop_keeps_state_ok_witness :
  exists s r,
    main_start 24 80 (Some (str "a.c", [str "int x;" ++ ["010"%char]; str "y"]))
    = Some s
    /\ state_ok s
    /\ Session.main_step
         {| prompt_result := None; open_ok := true; ftruncate_ok := true;
            write_result := 0 |}
         97 [] s = Some r
    /\ match r with
       | Session.Exit =>
           97 = CTRL_KEY 113 /\ (dirty (doc s) = 0 \/ quit_times s <= 0)
       | Session.Next s' keys' => state_ok s'
       end.
Proof.
  destruct (proj1 main_loop_keeps_state_ok 24 80
              (Some (str "a.c", [str "int x;" ++ ["010"%char]; str "y"])))
    as (s & Hs & Hok & _); [lia|lia|].
  destruct (proj2 main_loop_keeps_state_ok
              {| prompt_result := None; open_ok := true; ftruncate_ok := true;
                 write_result := 0 |} 97 [] s Hok) as (r & Hr & Hres).
  - intros [H|H]; vm_compute in H; discriminate.
  - exists s, r. split; [exact Hs|]. split; [exact Hok|]. split; [exact Hr|exact Hres].
Defined.

(** X25. Ctrl-Q and unsaved changes.  With a document without changes one
    press of Ctrl-Q exits.  With unsaved changes and the counter at
    [QUIT_TIMES], the first two presses in a row return, leaving the
    document as it is and the counter at 1 and then 0, and the third
    exits.  Any other key that returns puts the counter back to
    [QUIT_TIMES], so the presses have to be consecutive. *)
Theorem quit_needs_three_presses io keys s :
  state_ok s ->
  (dirty (doc s) = 0 ->
   Session.main_step io (CTRL_KEY 113) keys s = Some Session.Exit)
  /\ (dirty (doc s) <> 0 -> quit_times s = QUIT_TIMES ->
      exists s1 s2,
        Session.main_step io (CTRL_KEY 113) keys s = Some (Session.Next s1 keys)
        /\ Session.main_step io (CTRL_KEY 113) keys s1 = Some (Session.Next s2 keys)
        /\ Session.main_step io (CTRL_KEY 113) keys s2 = Some Session.Exit
        /\ doc s1 = doc s /\ quit_times s1 = 1
        /\ doc s2 = doc s /\ quit_times s2 = 0)
  /\ (forall c rest s0 s' keys',
        c <> CTRL_KEY 113 ->
        Session.editor_proc_key io c rest s0 = Some (Session.Next s' keys') ->
        quit_times s' = QUIT_TIMES).
Proof.
  intros Hs. split; [|split].
  - intros Hd. destruct (main_step_quit io keys s Hs) as (s0 & _ & _ & _ & _ & ->).
    by rewrite Hd.
  - intros Hd Hq. apply Z.eqb_neq in Hd.
    destruct (main_step_quit io keys s Hs) as (s0 & _ & Hs0 & Hd0 & Hq0 & He).
    rewrite Hd, Hq in He. change (QUIT_TIMES - 1) with 1 in He.
    change (negb false && (0 <? QUIT_TIMES)) with true in He. cbn match in He.
    assert (state_ok (set_quit_times s0 1)) as Hs1 by (by destruct Hs0 as (? & ? & ?)).
    destruct (main_step_quit io keys (set_quit_times s0 1) Hs1)
      as (s0' & _ & Hs0' & Hd0' & Hq0' & He1).
    cbn [doc quit_times set_quit_times] in He1, Hd0'. rewrite Hd0, Hd in He1.
    change (negb false && (0 <? 1)) with true in He1. change (1 - 1) with 0 in He1.
    cbn match in He1.
    assert (state_ok (set_quit_times s0' 0)) as Hs2 by (by destruct Hs0' as (? & ? & ?)).
    destruct (main_step_quit io keys (set_quit_times s0' 0) Hs2)
      as (s0'' & _ & _ & _ & _ & He2).
    cbn [doc quit_times set_quit_times] in He2.
    change (0 <? 0) with false in He2. rewrite andb_false_r in He2.
    exists (set_quit_times s0 1), (set_quit_times s0' 0).
    split; [done|]. split; [done|]. split; [done|].
    cbn [doc quit_times set_quit_times].
    split; [done|]. split; [done|]. split; [congruence|done].
  - intros c rest s0 s' keys' Hne He. by eapply editor_proc_key_resets.
Qed.

Lemma quit_needs_three_presses_witness :
  Session.main_step
    {| prompt_result := None; open_ok := true; ftruncate_ok := true; write_result := 0 |}
    (CTRL_KEY 113) [] (initial_state 24 80)
  = Some Session.Exit.
Proof.
  apply (quit_needs_three_presses
           {| prompt_result := None; open_ok := true; ftruncate_ok := true;
              write_result := 0 |} [] (initial_state 24 80)).
  - apply initial_state_ok; lia.
  - reflexivity.
Defined.

(** X26. Page Up and Page Down.  With the window's first row [row_off] at
    or above the cursor, as the screen refresh leaves it, Page Up puts the
    cursor one screenful above the first row of the window, and Page Down
    one screenful below its last row: on row [row_off - screen_rows] and on
    row [row_off + 2 * screen_rows - 1], stopped at the start of the
    document and at the line after the last row.  The cursor ends within
    the line it lands on, and the document is not changed. *)
Theorem page_keys io keys s :
  state_ok s -> row_off (view s) <= cursor_y (doc s) ->
  (exists x,
     Session.editor_proc_key io PAGE_UP keys s
     = Some (Session.Next
               (set_quit_times
                  (set_doc s (set_cursor (doc s) x
                                (Z.max 0 (row_off (view s) - screen_rows (view s)))))
                  QUIT_TIMES) keys)
     /\ cursor_ok (set_cursor (doc s) x
                     (Z.max 0 (row_off (view s) - screen_rows (view s)))))
  /\ (exists x,
        Session.editor_proc_key io PAGE_DOWN keys s
        = Some (Session.Next
                  (set_quit_times
                     (set_doc s (set_cursor (doc s) x
                                   (Z.min (num_rows (doc s))
                                      (row_off (view s) + 2 * screen_rows (view s) - 1))))
                     QUIT_TIMES) keys)
        /\ cursor_ok (set_cursor (doc s) x
                        (Z.min (num_rows (doc s))
                           (row_off (view s) + 2 * screen_rows (view s) - 1)))).
Proof.
  intros (Hok & Hidle & Hv) Hro. pose proof Hok as (Hwf & Hdoc & Hcur).
  pose proof Hcur as (Hy & Hx & _). destruct Hv as (Hsr & Hsc & Hro0 & Hco0).
  split.
  - unfold Session.editor_proc_key. cbv zeta. decide_keys.
    destruct (Z.ltb_spec (screen_rows (view s)) 0); [lia|].
    replace (Z.to_nat (screen_rows (view s)))
      with (S (Z.to_nat (screen_rows (view s)) - 1)) by lia.
    destruct (move_cursor_times_vertical ARROW_UP
                (Z.to_nat (screen_rows (view s)) - 1)
                (set_cursor (doc s) (cursor_x (doc s)) (row_off (view s))))
      as (x & -> & Hc); [done|cbn; lia|done|by left|].
    cbn [mbind option_bind]. exists x. revert Hc.
    change (ARROW_UP =? ARROW_UP) with true. cbn match.
    cbn [cursor_y set_cursor num_rows].
    replace (row_off (view s) - Z.of_nat (S (Z.to_nat (screen_rows (view s)) - 1)))
      with (row_off (view s) - screen_rows (view s)) by lia.
    intros Hc. split; [reflexivity|exact Hc].
  - unfold Session.editor_proc_key. cbv zeta. decide_keys.
    destruct (Z.ltb_spec (screen_rows (view s)) 0); [lia|].
    replace (Z.to_nat (screen_rows (view s)))
      with (S (Z.to_nat (screen_rows (view s)) - 1)) by lia.
    set (y0 := if num_rows (doc s) <? row_off (view s) + screen_rows (view s) - 1
               then num_rows (doc s)
               else row_off (view s) + screen_rows (view s) - 1).
    assert (y0 = Z.min (num_rows (doc s))
                   (row_off (view s) + screen_rows (view s) - 1)) as Hy0.
    { unfold y0.
      destruct (Z.ltb_spec (num_rows (doc s))
                  (row_off (view s) + screen_rows (view s) - 1)); lia. }
    destruct (move_cursor_times_vertical ARROW_DOWN
                (Z.to_nat (screen_rows (view s)) - 1)
                (set_cursor (doc s) (cursor_x (doc s)) y0))
      as (x & -> & Hc); [done|cbn; lia|done|by right|].
    cbn [mbind option_bind]. exists x. revert Hc.
    change (ARROW_DOWN =? ARROW_UP) with false. cbn match.
    cbn [cursor_y set_cursor num_rows].
    replace (Z.min (num_rows (doc s))
               (y0 + Z.of_nat (S (Z.to_nat (screen_rows (view s)) - 1))))
      with (Z.min (num_rows (doc s))
              (row_off (view s) + 2 * screen_rows (view s) - 1)) by lia.
    intros Hc. split; [reflexivity|exact Hc].
Qed.

Lemma page_keys_witness :
  exists x,
    Session.editor_proc_key
      {| prompt_result := None; open_ok := true; ftruncate_ok := true;
         write_result := 0 |}
      PAGE_DOWN [] (set_doc (initial_state 1 80) foo_doc)
    = Some (Session.Next
              (set_quit_times
                 (set_doc (set_doc (initial_state 1 80) foo_doc)
                    (set_cursor foo_doc x (Z.min 3 (0 + 2 * 1 - 1))))
                 QUIT_TIMES) []).
Proof.
  destruct (page_keys
              {| prompt_result := None; open_ok := true; ftruncate_ok := true;
                 write_result := 0 |}
              [] (set_doc (initial_state 1 80) foo_doc)) as [_ (x & He & _)].
  - split; [|split; [done|unfold view_ok; cbn; lia]].
    split; [apply wf_doc_check_sound; vm_compute; reflexivity|].
    split; [repeat constructor; vm_compute; lia|].
    unfold cursor_ok. simpl. unfold len. simpl. lia.
  - cbn. lia.
  - exists x. exact He.
Defined.

(** ** Where a match puts the cursor *)

Section SearchHit.

Lemma rx2cx_span r rx :
  0 <= rx ->
  0 <= editor_row_rx2cx r rx <= len r
  /\ editor_row_cx2rx r (editor_row_rx2cx r rx) <= rx
  /\ (editor_row_rx2cx r rx < len r ->
      rx < editor_row_cx2rx r (editor_row_rx2cx r rx + 1)).
Proof.
  intros Hrx. unfold editor_row_rx2cx, len.
  destruct (rx2cx_loop_locates (chars r) 0 0 rx Hrx) as (k & Hk & -> & Hle & Hlt).
  unfold editor_row_cx2rx.
  replace (Z.to_nat (0 + Z.of_nat k)) with k by lia.
  replace (Z.to_nat (0 + Z.of_nat k + 1)) with (S k) by lia.
  split; [lia|]. split; [done|]. intros H. apply Hlt. lia.
Qed.

End SearchHit.

(** X27. What one keystroke of a search does to the editor when no match is
    marked yet.  [editor_find_callback] either leaves the editor as it is
    (and saves no highlight), or it found the query in the render text of a
    row: then the cursor is on that row, on the raw byte whose render span
    holds the first byte of the match, [last_match] is that row, the span
    of the match in the row's highlight array is overwritten with MATCH,
    the array as it was is saved, and no other row is touched. *)
Theorem find_hit_places_cursor query key ec fs :
  wf_doc ec -> doc_ok ec -> find_ready ec fs -> saved_hl fs = None ->
  exists ec' fs',
    editor_find_callback query key ec fs = Some (ec', fs')
    /\ match saved_hl fs' with
       | None => ec' = ec
       | Some sv =>
           exists r off,
             0 <= cursor_y ec' < num_rows ec
             /\ row ec !! Z.to_nat (cursor_y ec') = Some r
             /\ last_match fs' = cursor_y ec'
             /\ strstr (render r) query = Some off
             /\ cursor_x ec' = editor_row_rx2cx r (Z.of_nat off)
             /\ 0 <= cursor_x ec' <= len r
             /\ editor_row_cx2rx r (cursor_x ec') <= Z.of_nat off
             /\ (cursor_x ec' < len r ->
                 Z.of_nat off < editor_row_cx2rx r (cursor_x ec' + 1))
             /\ sv = hl r
             /\ row ec'
                = <[Z.to_nat (cursor_y ec') :=
                      set_hl r (memset (hl r) off HL_MATCH (strlen query))]> (row ec)
       end.
Proof.
  intros Hwf Hok Hready Hs. pose proof Hwf as [Hidx Hn].
  unfold editor_find_callback, find_restore. rewrite Hs. cbn [mbind option_bind].
  pose proof (find_direction_ready key ec fs Hready) as Hready2.
  pose proof (find_direction_saved key fs) as Hsaved2. rewrite Hs in Hsaved2.
  destruct (find_direction key fs) as [fs2 scan]. cbn [fst snd] in *.
  destruct scan; [|exists ec, fs2; by rewrite Hsaved2].
  destruct Hready2 as (Hdir2 & Hlast2 & Hfwd2).
  destruct (find_scan_total query ec fs2 Hn Hdir2
              (Z.to_nat (num_rows ec)) (last_match fs2))
    as (ec' & fs' & He & _).
  { destruct (decide (num_rows ec = 0)) as [->|]; [by left|right; lia]. }
  exists ec', fs'. split; [exact He|].
  apply find_scan_cases in He as [[= -> ->]|(c & r & off & Hc & Hr & Hstr & Hh)].
  { by rewrite Hsaved2. }
  unfold find_hit in Hh. injection Hh as -> ->.
  pose proof (lookup_lt_Some _ _ _ Hr) as Hlt.
  cbn [saved_hl cursor_x cursor_y set_row set_cursor last_match row].
  destruct (rx2cx_span r (Z.of_nat off)) as (Hb & Hle & Hnext); [lia|].
  exists r, off. split; [lia|]. split; [done|]. split; [done|]. split; [done|].
  split; [done|]. split; [done|]. split; [done|]. split; [done|]. split; [|done].
  unfold doc_ok in Hok. rewrite Forall_forall in Hok.
  destruct (Hok r) as [_ Hl]; [by eapply list_elem_of_lookup_2|].
  unfold rlen. by rewrite Nat2Z.id, take_ge by lia.
Qed.

Lemma find_hit_places_cursor_witness :
  exists ec' fs',
    editor_find_callback (str "foo") 111 foo_doc find_init = Some (ec', fs')
    /\ match saved_hl fs' with
       | None => ec' = foo_doc
       | Some sv =>
           exists r off,
             0 <= cursor_y ec' < num_rows foo_doc
             /\ row foo_doc !! Z.to_nat (cursor_y ec') = Some r
             /\ last_match fs' = cursor_y ec'
             /\ strstr (render r) (str "foo") = Some off
             /\ cursor_x ec' = editor_row_rx2cx r (Z.of_nat off)
             /\ 0 <= cursor_x ec' <= len r
             /\ editor_row_cx2rx r (cursor_x ec') <= Z.of_nat off
             /\ (cursor_x ec' < len r ->
                 Z.of_nat off < editor_row_cx2rx r (cursor_x ec' + 1))
             /\ sv = hl r
             /\ row ec'
                = <[Z.to_nat (cursor_y ec') :=
                      set_hl r (memset (hl r) off HL_MATCH (strlen (str "foo")))]>
                    (row foo_doc)
       end.
Proof.
  apply (find_hit_places_cursor (str "foo") 111 foo_doc find_init).
  - apply wf_doc_check_sound. vm_compute. reflexivity.
  - repeat constructor; vm_compute; lia.
  - unfold find_ready. cbn. lia.
  - reflexivity.
Defined.
